(** * The document tree engine of FCollada's LibXML (tree.c)

    A shallow embedding of the tree, namespace, content and buffer
    routines of
    [Programs/ColladaConverter/Collada15/FCollada/LibXML/tree.c],
    together with the properties of the engine that the specification
    states about them.

    Memory is explicit.  Nodes, attributes, documents, DTDs and entity
    declarations share the common header of [xmlNode] and are cells of
    one heap indexed by addresses; namespace declarations ([xmlNs])
    live in a heap of their own.  A NULL pointer is [None].  Reading or
    writing through a pointer that is not allocated is undefined
    behaviour and makes a run [Crash]; recursion and loops that the C
    code does not bound are given fuel and a run that exhausts it ends
    in [Timeout].  [xmlMalloc] always succeeds, so the out-of-memory
    branches of the C code are never taken and are left out. *)

From Stdlib Require Import ZArith List String Ascii Lia DecimalString.
From stdpp Require Import base gmap list strings.

Open Scope Z_scope.

(** ** Characters and strings *)

(** [xmlChar] is an unsigned byte.  A C string is the list of the bytes
    that precede its terminating zero. *)
Definition xmlChar := Z.
Definition xmlStr := list xmlChar.

Definition chr (a : ascii) : xmlChar := Z.of_N (N_of_ascii a).

Fixpoint BAD_CAST (s : string) : xmlStr :=
  match s with
  | EmptyString => []
  | String a r => chr a :: BAD_CAST r
  end.

(** A string stored in a node is a pointer: it has an address, which is
    what [==] compares, and the characters found there. *)
Record xmlCharPtr := mkStr { str_addr : positive; str_chars : xmlStr }.

Definition chars (p : option xmlCharPtr) : option xmlStr := str_chars <$> p.

(** Pointer comparison [a == b] of two (possibly NULL) strings. *)
Definition str_ptr_eqb (a b : option xmlCharPtr) : bool :=
  match a, b with
  | None, None => true
  | Some x, Some y => bool_decide (str_addr x = str_addr y)
  | _, _ => false
  end.

(** The three static names of tree.c. *)
Definition xmlStringText : xmlCharPtr := mkStr 1 (BAD_CAST "text").
Definition xmlStringTextNoenc : xmlCharPtr := mkStr 2 (BAD_CAST "textnoenc").
Definition xmlStringComment : xmlCharPtr := mkStr 3 (BAD_CAST "comment").

(** Modelled from the spec: xmlstring.c is not among the sources.
    [xmlStrEqual] compares two strings character by character; two
    NULL strings are equal and a NULL string differs from any other. *)
Definition xmlStrEqual (a b : option xmlStr) : bool :=
  match a, b with
  | None, None => true
  | Some x, Some y => bool_decide (x = y)
  | _, _ => false
  end.

(** Modelled from the spec: [xmlStrlen] of xmlstring.c, the number of
    characters before the terminating zero (0 for NULL). *)
Definition xmlStrlen (a : option xmlStr) : Z :=
  match a with
  | None => 0
  | Some x => Z.of_nat (length x)
  end.

(** ** Node kinds *)

(** Modelled from the spec: tree.h is not among the sources; these are
    the kinds of [xmlElementType] that tree.c switches on. *)
Inductive xmlElementType :=
| XML_ELEMENT_NODE
| XML_ATTRIBUTE_NODE
| XML_TEXT_NODE
| XML_CDATA_SECTION_NODE
| XML_ENTITY_REF_NODE
| XML_ENTITY_NODE
| XML_PI_NODE
| XML_COMMENT_NODE
| XML_DOCUMENT_NODE
| XML_DOCUMENT_TYPE_NODE
| XML_DOCUMENT_FRAG_NODE
| XML_NOTATION_NODE
| XML_HTML_DOCUMENT_NODE
| XML_DTD_NODE
| XML_ELEMENT_DECL
| XML_ATTRIBUTE_DECL
| XML_ENTITY_DECL
| XML_NAMESPACE_DECL
| XML_XINCLUDE_START
| XML_XINCLUDE_END
| XML_DOCB_DOCUMENT_NODE.

#[global] Instance xmlElementType_eq_dec : EqDecision xmlElementType.
Proof. solve_decision. Defined.

(** Modelled from the spec: entities.h is not among the sources; the
    entity kinds of the data model. *)
Inductive xmlEntityType :=
| XML_INTERNAL_GENERAL_ENTITY
| XML_EXTERNAL_GENERAL_PARSED_ENTITY
| XML_EXTERNAL_GENERAL_UNPARSED_ENTITY
| XML_INTERNAL_PARAMETER_ENTITY
| XML_EXTERNAL_PARAMETER_ENTITY
| XML_INTERNAL_PREDEFINED_ENTITY.

#[global] Instance xmlEntityType_eq_dec : EqDecision xmlEntityType.
Proof. solve_decision. Defined.

(** Error codes handed to [xmlTreeErr] and [xmlTreeErrMemory]. *)
Inductive xmlParserErrors :=
| XML_ERR_NO_MEMORY
| XML_TREE_INVALID_HEX
| XML_TREE_INVALID_DEC
| XML_TREE_UNTERMINATED_ENTITY.

#[global] Instance xmlParserErrors_eq_dec : EqDecision xmlParserErrors.
Proof. solve_decision. Defined.

(** ** Heap cells *)

Definition ptr := positive.

(** One cell type for everything that starts with the common node
    header ([xmlNode], [xmlAttr], [xmlDoc], [xmlDtd], [xmlEntity],
    [xmlAttribute]); a field that a kind does not have stays at the
    zero that [memset] put there. *)
Record xmlNode := mkNode {
  n_type : xmlElementType;
  n_name : option xmlCharPtr;
  n_children : option ptr;
  n_last : option ptr;
  n_parent : option ptr;
  n_next : option ptr;
  n_prev : option ptr;
  n_doc : option ptr;
  n_ns : option ptr;                (* xmlNode, xmlAttr: into the xmlNs heap *)
  n_content : option xmlCharPtr;    (* xmlNode, xmlEntity *)
  n_properties : option ptr;        (* xmlNode *)
  n_nsDef : option ptr;             (* xmlNode: into the xmlNs heap *)
  n_intSubset : option ptr;         (* xmlDoc *)
  n_extSubset : option ptr;         (* xmlDoc *)
  n_oldNs : option ptr;             (* xmlDoc: into the xmlNs heap *)
  n_dict : option ptr;              (* xmlDoc: an opaque xmlDictPtr *)
  n_etype : option xmlEntityType;   (* xmlEntity *)
  n_owner : Z;                      (* xmlEntity *)
  n_defaultValue : option xmlCharPtr (* xmlAttribute *)
}.

(** [memset(cur, 0, sizeof(...)); cur->type = t]. *)
Definition zero_node (t : xmlElementType) : xmlNode :=
  mkNode t None None None None None None None None None None None
         None None None None None 0 None.

Definition set_type v n := mkNode v (n_name n) (n_children n) (n_last n) (n_parent n) (n_next n) (n_prev n) (n_doc n) (n_ns n) (n_content n) (n_properties n) (n_nsDef n) (n_intSubset n) (n_extSubset n) (n_oldNs n) (n_dict n) (n_etype n) (n_owner n) (n_defaultValue n).
Definition set_name v n := mkNode (n_type n) v (n_children n) (n_last n) (n_parent n) (n_next n) (n_prev n) (n_doc n) (n_ns n) (n_content n) (n_properties n) (n_nsDef n) (n_intSubset n) (n_extSubset n) (n_oldNs n) (n_dict n) (n_etype n) (n_owner n) (n_defaultValue n).
Definition set_children v n := mkNode (n_type n) (n_name n) v (n_last n) (n_parent n) (n_next n) (n_prev n) (n_doc n) (n_ns n) (n_content n) (n_properties n) (n_nsDef n) (n_intSubset n) (n_extSubset n) (n_oldNs n) (n_dict n) (n_etype n) (n_owner n) (n_defaultValue n).
Definition set_last v n := mkNode (n_type n) (n_name n) (n_children n) v (n_parent n) (n_next n) (n_prev n) (n_doc n) (n_ns n) (n_content n) (n_properties n) (n_nsDef n) (n_intSubset n) (n_extSubset n) (n_oldNs n) (n_dict n) (n_etype n) (n_owner n) (n_defaultValue n).
Definition set_parent v n := mkNode (n_type n) (n_name n) (n_children n) (n_last n) v (n_next n) (n_prev n) (n_doc n) (n_ns n) (n_content n) (n_properties n) (n_nsDef n) (n_intSubset n) (n_extSubset n) (n_oldNs n) (n_dict n) (n_etype n) (n_owner n) (n_defaultValue n).
Definition set_next v n := mkNode (n_type n) (n_name n) (n_children n) (n_last n) (n_parent n) v (n_prev n) (n_doc n) (n_ns n) (n_content n) (n_properties n) (n_nsDef n) (n_intSubset n) (n_extSubset n) (n_oldNs n) (n_dict n) (n_etype n) (n_owner n) (n_defaultValue n).
Definition set_prev v n := mkNode (n_type n) (n_name n) (n_children n) (n_last n) (n_parent n) (n_next n) v (n_doc n) (n_ns n) (n_content n) (n_properties n) (n_nsDef n) (n_intSubset n) (n_extSubset n) (n_oldNs n) (n_dict n) (n_etype n) (n_owner n) (n_defaultValue n).
Definition set_doc v n := mkNode (n_type n) (n_name n) (n_children n) (n_last n) (n_parent n) (n_next n) (n_prev n) v (n_ns n) (n_content n) (n_properties n) (n_nsDef n) (n_intSubset n) (n_extSubset n) (n_oldNs n) (n_dict n) (n_etype n) (n_owner n) (n_defaultValue n).
Definition set_ns v n := mkNode (n_type n) (n_name n) (n_children n) (n_last n) (n_parent n) (n_next n) (n_prev n) (n_doc n) v (n_content n) (n_properties n) (n_nsDef n) (n_intSubset n) (n_extSubset n) (n_oldNs n) (n_dict n) (n_etype n) (n_owner n) (n_defaultValue n).
Definition set_content v n := mkNode (n_type n) (n_name n) (n_children n) (n_last n) (n_parent n) (n_next n) (n_prev n) (n_doc n) (n_ns n) v (n_properties n) (n_nsDef n) (n_intSubset n) (n_extSubset n) (n_oldNs n) (n_dict n) (n_etype n) (n_owner n) (n_defaultValue n).
Definition set_properties v n := mkNode (n_type n) (n_name n) (n_children n) (n_last n) (n_parent n) (n_next n) (n_prev n) (n_doc n) (n_ns n) (n_content n) v (n_nsDef n) (n_intSubset n) (n_extSubset n) (n_oldNs n) (n_dict n) (n_etype n) (n_owner n) (n_defaultValue n).
Definition set_nsDef v n := mkNode (n_type n) (n_name n) (n_children n) (n_last n) (n_parent n) (n_next n) (n_prev n) (n_doc n) (n_ns n) (n_content n) (n_properties n) v (n_intSubset n) (n_extSubset n) (n_oldNs n) (n_dict n) (n_etype n) (n_owner n) (n_defaultValue n).
Definition set_intSubset v n := mkNode (n_type n) (n_name n) (n_children n) (n_last n) (n_parent n) (n_next n) (n_prev n) (n_doc n) (n_ns n) (n_content n) (n_properties n) (n_nsDef n) v (n_extSubset n) (n_oldNs n) (n_dict n) (n_etype n) (n_owner n) (n_defaultValue n).
Definition set_extSubset v n := mkNode (n_type n) (n_name n) (n_children n) (n_last n) (n_parent n) (n_next n) (n_prev n) (n_doc n) (n_ns n) (n_content n) (n_properties n) (n_nsDef n) (n_intSubset n) v (n_oldNs n) (n_dict n) (n_etype n) (n_owner n) (n_defaultValue n).
Definition set_oldNs v n := mkNode (n_type n) (n_name n) (n_children n) (n_last n) (n_parent n) (n_next n) (n_prev n) (n_doc n) (n_ns n) (n_content n) (n_properties n) (n_nsDef n) (n_intSubset n) (n_extSubset n) v (n_dict n) (n_etype n) (n_owner n) (n_defaultValue n).
Definition set_owner v n := mkNode (n_type n) (n_name n) (n_children n) (n_last n) (n_parent n) (n_next n) (n_prev n) (n_doc n) (n_ns n) (n_content n) (n_properties n) (n_nsDef n) (n_intSubset n) (n_extSubset n) (n_oldNs n) (n_dict n) (n_etype n) v (n_defaultValue n).

(** [xmlNs]; its [type] field is always [XML_LOCAL_NAMESPACE], which
    tree.h defines as [XML_NAMESPACE_DECL]. *)
Record xmlNs := mkNs {
  ns_next : option ptr;
  ns_type : xmlElementType;
  ns_href : option xmlCharPtr;
  ns_prefix : option xmlCharPtr
}.

Definition XML_LOCAL_NAMESPACE := XML_NAMESPACE_DECL.

Definition set_ns_next v n := mkNs v (ns_type n) (ns_href n) (ns_prefix n).
Definition set_ns_type v n := mkNs (ns_next n) v (ns_href n) (ns_prefix n).
Definition set_ns_href v n := mkNs (ns_next n) (ns_type n) v (ns_prefix n).
Definition set_ns_prefix v n := mkNs (ns_next n) (ns_type n) (ns_href n) v.

(** [memset(cur, 0, sizeof(xmlNs))]: kind 0 is no kind of the
    enumeration; the type is assigned right after every such
    [memset], so the cell is born with it. *)
Definition zero_ns : xmlNs := mkNs None XML_LOCAL_NAMESPACE None None.

(** ** Buffers and raw memory *)

(** The growth policies of [xmlBufferAllocationScheme]. *)
Inductive xmlBufferAllocationScheme :=
| XML_BUFFER_ALLOC_DOUBLEIT
| XML_BUFFER_ALLOC_EXACT
| XML_BUFFER_ALLOC_IMMUTABLE.

#[global] Instance xmlBufferAllocationScheme_eq_dec : EqDecision xmlBufferAllocationScheme.
Proof. solve_decision. Defined.

(** A pointer into raw memory: a block and an offset into it. *)
Record bptr := mkPtr { blk : positive; off : Z }.

#[global] Instance bptr_eq_dec : EqDecision bptr.
Proof. solve_decision. Defined.

(** [xmlBuffer]; [use] and [size] are [size_t]. *)
Record xmlBuffer := mkBuffer {
  b_content : option bptr;
  b_use : Z;
  b_size : Z;
  b_alloc : xmlBufferAllocationScheme
}.

Definition set_b_content v b := mkBuffer v (b_use b) (b_size b) (b_alloc b).
Definition set_b_use v b := mkBuffer (b_content b) v (b_size b) (b_alloc b).
Definition set_b_size v b := mkBuffer (b_content b) (b_use b) v (b_alloc b).
Definition set_b_alloc v b := mkBuffer (b_content b) (b_use b) (b_size b) v.

(** ** Machine state *)

(** What [__xmlSimpleError] is told: the code and the extra string. *)
Definition xmlError : Type := xmlParserErrors * option xmlStr.

Record state := mkState {
  nodes : gmap positive xmlNode;    (* node-like cells *)
  nss : gmap positive xmlNs;        (* namespace declarations *)
  bufs : gmap positive xmlBuffer;   (* buffer structs *)
  mem : gmap positive (list xmlChar); (* raw memory: the bytes of each block *)
  scheme : xmlBufferAllocationScheme; (* the global xmlBufferAllocScheme *)
  brk : positive;                   (* next free string address *)
  errs : list xmlError              (* errors reported so far, oldest first *)
}.

Definition set_nodes v s := mkState v (nss s) (bufs s) (mem s) (scheme s) (brk s) (errs s).
Definition set_nss v s := mkState (nodes s) v (bufs s) (mem s) (scheme s) (brk s) (errs s).
Definition set_bufs v s := mkState (nodes s) (nss s) v (mem s) (scheme s) (brk s) (errs s).
Definition set_mem v s := mkState (nodes s) (nss s) (bufs s) v (scheme s) (brk s) (errs s).
Definition set_scheme v s := mkState (nodes s) (nss s) (bufs s) (mem s) v (brk s) (errs s).
Definition set_brk v s := mkState (nodes s) (nss s) (bufs s) (mem s) (scheme s) v (errs s).
Definition set_errs v s := mkState (nodes s) (nss s) (bufs s) (mem s) (scheme s) (brk s) v.

(** ** The monad of tree.c computations *)

Inductive result (A : Type) : Type :=
| Ok (a : A) (s : state)
| Crash      (* undefined behaviour: a NULL or dangling pointer was used *)
| Timeout.   (* the fuel ran out *)
Arguments Ok {A} a s.
Arguments Crash {A}.
Arguments Timeout {A}.

Definition M (A : Type) : Type := state -> result A.

#[global] Instance M_ret : MRet M := fun A a s => Ok a s.
#[global] Instance M_bind : MBind M := fun A B f m s =>
  match m s with
  | Ok a s' => f a s'
  | Crash => Crash
  | Timeout => Timeout
  end.

Definition crash {A} : M A := fun _ => Crash.
Definition timeout {A} : M A := fun _ => Timeout.
Definition skip : M unit := mret tt.

(** [if (c) body] for a statement. *)
Definition when (c : bool) (body : M unit) : M unit := if c then body else skip.

(** Reading the struct at [p]. *)
Definition load (p : ptr) : M xmlNode := fun s =>
  match nodes s !! p with
  | Some n => Ok n s
  | None => Crash
  end.

(** [p->f]. *)
Definition rd {A} (p : ptr) (f : xmlNode -> A) : M A := n ← load p; mret (f n).

(** [p->f = v], with [upd] the setter of field [f] applied to [v]. *)
Definition wr (p : ptr) (upd : xmlNode -> xmlNode) : M unit := fun s =>
  match nodes s !! p with
  | Some n => Ok tt (set_nodes (<[p := upd n]> (nodes s)) s)
  | None => Crash
  end.

(** [xmlMalloc] followed by the initialisation of the struct. *)
Definition alloc (n : xmlNode) : M ptr := fun s =>
  let p := fresh (dom (nodes s)) in
  Ok p (set_nodes (<[p := n]> (nodes s)) s).

(** [xmlFree] of a struct. *)
Definition free (p : ptr) : M unit := fun s =>
  match nodes s !! p with
  | Some _ => Ok tt (set_nodes (delete p (nodes s)) s)
  | None => Crash
  end.

Definition load_ns (p : ptr) : M xmlNs := fun s =>
  match nss s !! p with
  | Some n => Ok n s
  | None => Crash
  end.

Definition rd_ns {A} (p : ptr) (f : xmlNs -> A) : M A := n ← load_ns p; mret (f n).

Definition wr_ns (p : ptr) (upd : xmlNs -> xmlNs) : M unit := fun s =>
  match nss s !! p with
  | Some n => Ok tt (set_nss (<[p := upd n]> (nss s)) s)
  | None => Crash
  end.

Definition alloc_ns (n : xmlNs) : M ptr := fun s =>
  let p := fresh (dom (nss s)) in
  Ok p (set_nss (<[p := n]> (nss s)) s).

Definition free_ns (p : ptr) : M unit := fun s =>
  match nss s !! p with
  | Some _ => Ok tt (set_nss (delete p (nss s)) s)
  | None => Crash
  end.

(** Modelled from the spec: xmlstring.c is not among the sources.
    [xmlStrdup] and its relatives return a string at a new address;
    freeing a string leaves no trace in the model. *)
Definition new_str (x : xmlStr) : M xmlCharPtr := fun s =>
  Ok (mkStr (brk s) x) (set_brk (Pos.succ (brk s)) s).

Definition xmlStrdup (a : option xmlStr) : M (option xmlCharPtr) :=
  match a with
  | None => mret None
  | Some x => p ← new_str x; mret (Some p)
  end.

(** [xmlTreeErr(code, node, extra)]. *)
Definition xmlTreeErr (code : xmlParserErrors) (extra : option xmlStr) : M unit :=
  fun s => Ok tt (set_errs (errs s ++ [(code, extra)]) s).

Definition ptr_eqb (a b : option ptr) : bool := bool_decide (a = b).
Definition is_type (t : xmlElementType) (n : xmlNode) : bool :=
  bool_decide (n_type n = t).

(** ** Unlinking and replacing (tree.c, xmlUnlinkNode, xmlReplaceNode) *)

Definition xmlUnlinkNode (cur : option ptr) : M unit :=
  match cur with
  | None => skip
  | Some cur =>
      ty ← rd cur n_type;
      when (bool_decide (ty = XML_DTD_NODE))
        (doc ← rd cur n_doc;
         match doc with
         | Some doc =>
             i ← rd doc n_intSubset;
             when (ptr_eqb i (Some cur)) (wr doc (set_intSubset None));;
             e ← rd doc n_extSubset;
             when (ptr_eqb e (Some cur)) (wr doc (set_extSubset None))
         | None => skip
         end);;
      parent ← rd cur n_parent;
      match parent with
      | Some parent =>
          ty ← rd cur n_type;
          (if bool_decide (ty = XML_ATTRIBUTE_NODE) then
             props ← rd parent n_properties;
             when (ptr_eqb props (Some cur))
               (nx ← rd cur n_next; wr parent (set_properties nx))
           else
             ch ← rd parent n_children;
             when (ptr_eqb ch (Some cur))
               (nx ← rd cur n_next; wr parent (set_children nx));;
             la ← rd parent n_last;
             when (ptr_eqb la (Some cur))
               (pv ← rd cur n_prev; wr parent (set_last pv)));;
          wr cur (set_parent None)
      | None => skip
      end;;
      nx ← rd cur n_next;
      match nx with
      | Some nx => pv ← rd cur n_prev; wr nx (set_prev pv)
      | None => skip
      end;;
      pv ← rd cur n_prev;
      match pv with
      | Some pv => nx ← rd cur n_next; wr pv (set_next nx)
      | None => skip
      end;;
      wr cur (set_prev None);;
      wr cur (set_next None)
  end.

Definition xmlReplaceNode (old cur : option ptr) : M (option ptr) :=
  if ptr_eqb old cur then mret None else
  match old with
  | None => mret None
  | Some o =>
      oparent ← rd o n_parent;
      match oparent with
      | None => mret None
      | Some _ =>
          match cur with
          | None => xmlUnlinkNode old;; mret old
          | Some c =>
              if ptr_eqb cur old then mret old else
              oty ← rd o n_type;
              cty ← rd c n_type;
              if bool_decide (oty = XML_ATTRIBUTE_NODE) && negb (bool_decide (cty = XML_ATTRIBUTE_NODE))
              then mret old
              else if bool_decide (cty = XML_ATTRIBUTE_NODE) && negb (bool_decide (oty = XML_ATTRIBUTE_NODE))
              then mret old
              else
                xmlUnlinkNode cur;;
                d ← rd o n_doc; wr c (set_doc d);;
                p ← rd o n_parent; wr c (set_parent p);;
                nx ← rd o n_next; wr c (set_next nx);;
                cnx ← rd c n_next;
                match cnx with
                | Some x => wr x (set_prev cur)
                | None => skip
                end;;
                pv ← rd o n_prev; wr c (set_prev pv);;
                cpv ← rd c n_prev;
                match cpv with
                | Some x => wr x (set_next cur)
                | None => skip
                end;;
                cp ← rd c n_parent;
                match cp with
                | Some cp =>
                    cty ← rd c n_type;
                    if bool_decide (cty = XML_ATTRIBUTE_NODE) then
                      props ← rd cp n_properties;
                      when (ptr_eqb props old) (wr cp (set_properties cur))
                    else
                      ch ← rd cp n_children;
                      when (ptr_eqb ch old) (wr cp (set_children cur));;
                      la ← rd cp n_last;
                      when (ptr_eqb la old) (wr cp (set_last cur))
                | None => skip
                end;;
                wr o (set_prev None);;
                wr o (set_next None);;
                wr o (set_parent None);;
                mret old
          end
      end
  end.

(** ** Loops *)

(** A C loop whose body either goes round again with a new loop state
    ([inl]) or leaves the loop with a value ([inr]), through [break],
    the loop test or a [return]. *)
Fixpoint loop {S A : Type} (fuel : nat) (body : S -> M (S + A)) (st : S) : M A :=
  match fuel with
  | O => timeout
  | Datatypes.S n =>
      r ← body st;
      match r with
      | inl st' => loop n body st'
      | inr a => mret a
      end
  end.

Definition continue {S A : Type} (st : S) : M (S + A) := mret (inl st).
Definition break {S A : Type} (a : A) : M (S + A) := mret (inr a).

(** ** Strings built at run time *)

(** Modelled from the spec: [xmlStrndup] of xmlstring.c; the argument is
    the string found at the pointer, of which [len] characters are
    copied. *)
Definition xmlStrndup (a : option xmlStr) (len : Z) : M (option xmlCharPtr) :=
  match a with
  | None => mret None
  | Some x =>
      if bool_decide (len < 0) then mret None
      else p ← new_str (take (Z.to_nat len) x); mret (Some p)
  end.

(** Modelled from the spec: [xmlStrncat] of xmlstring.c, which
    reallocates [cur] and appends [len] characters of [add]. *)
Definition xmlStrncat (cur : option xmlCharPtr) (add : option xmlStr) (len : Z)
  : M (option xmlCharPtr) :=
  match add with
  | None => mret cur
  | Some y =>
      if bool_decide (len = 0) then mret cur
      else if bool_decide (len < 0) then mret None
      else match cur with
           | None => xmlStrndup add len
           | Some x =>
               p ← new_str (str_chars x ++ take (Z.to_nat len) y); mret (Some p)
           end
  end.

(** Modelled from the spec: [xmlStrncatNew] of xmlstring.c, the same
    concatenation into newly allocated memory. *)
Definition xmlStrncatNew (str1 : option xmlCharPtr) (str2 : option xmlStr) (len : Z)
  : M (option xmlCharPtr) :=
  let len := if bool_decide (len < 0) then xmlStrlen str2 else len in
  match str2 with
  | None => xmlStrdup (chars str1)
  | Some y =>
      if bool_decide (len = 0) then xmlStrdup (chars str1)
      else match str1 with
           | None => xmlStrndup str2 len
           | Some x =>
               p ← new_str (str_chars x ++ take (Z.to_nat len) y); mret (Some p)
           end
  end.

(** Modelled from the spec: [xmlStrcat] of xmlstring.c. *)
Definition xmlStrcat (cur : option xmlCharPtr) (add : option xmlStr)
  : M (option xmlCharPtr) :=
  match add with
  | None => mret cur
  | Some y =>
      match cur with
      | None => xmlStrdup add
      | Some _ => xmlStrncat cur add (xmlStrlen add)
      end
  end.

(** [xmlFree] of a string: strings are values here, nothing changes. *)
Definition xmlFree_str (a : option xmlCharPtr) : M unit := skip.

(** ** What tree.c calls in the other files of the library *)

(** The entity tables (entities.c), the validity tables (valid.c), the
    dictionary (dict.c) and the character encoder (parserInternals.c)
    are not among the sources; tree.c is verified against any
    implementation of them. *)
Class Externals := {
  (* entities.c *)
  xmlGetDocEntity : option ptr -> option xmlStr -> M (option ptr);
  xmlEncodeEntitiesReentrant : option ptr -> option xmlStr -> M (option xmlStr);
  (* valid.c *)
  xmlGetDtdAttrDesc : option ptr -> option xmlStr -> option xmlStr -> M (option ptr);
  xmlGetDtdQAttrDesc :
    option ptr -> option xmlStr -> option xmlStr -> option xmlStr -> M (option ptr);
  xmlIsID : option ptr -> option ptr -> option ptr -> M Z;
  xmlRemoveID : option ptr -> option ptr -> M Z;
  (* the tables hanging off a DTD (notations, elements, attributes,
     entities, pentities) and off a document (ids, refs) *)
  xmlFreeDtdTables : ptr -> M unit;
  xmlFreeDocTables : ptr -> M unit;
  (* dict.c *)
  xmlDictOwns : option ptr -> option xmlCharPtr -> Z;
  xmlDictLookup : option ptr -> option xmlStr -> M (option xmlCharPtr);
  xmlDictFree : option ptr -> M unit;
  (* parserInternals.c: the UTF-8 bytes of a code point *)
  xmlCopyCharMultiByte : Z -> xmlStr;
  (* globals.c: the initial size of a buffer *)
  xmlDefaultBufferSize : Z;
  (* whether tree.c is compiled with WIN32 defined *)
  WIN32 : bool
}.

(** [DICT_FREE(str)], with [dict] the dictionary in scope. *)
Definition DICT_FREE `{Externals} (dict : option ptr) (str : option xmlCharPtr) : M unit :=
  when (bool_decide (str <> None) &&
        (bool_decide (dict = None) || bool_decide (xmlDictOwns dict str = 0)))
    (xmlFree_str str).

(** [static int xmlCheckDTD = 1]; nothing in tree.c assigns to it. *)
Definition xmlCheckDTD : bool := true.

(** ** Creating text and reference nodes *)

Definition xmlNewText (content : option xmlStr) : M (option ptr) :=
  cur ← alloc (zero_node XML_TEXT_NODE);
  wr cur (set_name (Some xmlStringText));;
  when (bool_decide (content <> None))
    (c ← xmlStrdup content; wr cur (set_content c));;
  mret (Some cur).

Definition xmlNewDocText (doc : option ptr) (content : option xmlStr) : M (option ptr) :=
  cur ← xmlNewText content;
  match cur with
  | Some c => wr c (set_doc doc)
  | None => skip
  end;;
  mret cur.

Definition xmlNewTextLen (content : option xmlStr) (len : Z) : M (option ptr) :=
  cur ← alloc (zero_node XML_TEXT_NODE);
  wr cur (set_name (Some xmlStringText));;
  when (bool_decide (content <> None))
    (c ← xmlStrndup content len; wr cur (set_content c));;
  mret (Some cur).

Definition xmlNewDocTextLen (doc : option ptr) (content : option xmlStr) (len : Z)
  : M (option ptr) :=
  cur ← xmlNewTextLen content len;
  match cur with
  | Some c => wr c (set_doc doc)
  | None => skip
  end;;
  mret cur.

Definition xmlNewReference `{Externals} (doc : option ptr) (name : option xmlStr)
  : M (option ptr) :=
  match name with
  | None => mret None
  | Some nm =>
      cur ← alloc (zero_node XML_ENTITY_REF_NODE);
      wr cur (set_doc doc);;
      match nm with
      | c0 :: rest =>
          if bool_decide (c0 = chr "&") then
            let len := xmlStrlen (Some rest) in
            (* name[len - 1], which is the '&' itself when len is 0 *)
            if bool_decide (List.last rest c0 = chr ";")
            then n ← xmlStrndup (Some rest) (len - 1); wr cur (set_name n)
            else n ← xmlStrndup (Some rest) len; wr cur (set_name n)
          else n ← xmlStrdup name; wr cur (set_name n)
      | [] => n ← xmlStrdup name; wr cur (set_name n)
      end;;
      cname ← rd cur n_name;
      ent ← xmlGetDocEntity doc (chars cname);
      match ent with
      | Some e =>
          c ← rd e n_content;
          wr cur (set_content c);;
          wr cur (set_children ent);;
          wr cur (set_last ent)
      | None => skip
      end;;
      mret (Some cur)
  end.

(** ** Namespace declarations: freeing *)

Definition xmlFreeNs (cur : option ptr) : M unit :=
  match cur with
  | None => skip
  | Some c =>
      h ← rd_ns c ns_href;
      when (bool_decide (h <> None)) (xmlFree_str h);;
      p ← rd_ns c ns_prefix;
      when (bool_decide (p <> None)) (xmlFree_str p);;
      free_ns c
  end.

Definition xmlFreeNsList (fuel : nat) (cur : option ptr) : M unit :=
  match cur with
  | None => skip
  | Some _ =>
      loop fuel (fun cur =>
        match cur with
        | None => break tt
        | Some c =>
            next ← rd_ns c ns_next;
            xmlFreeNs cur;;
            continue next
        end) cur
  end.

(** ** The routines that call each other in a cycle *)

(** The calls that close a cycle of tree.c's call graph go through this
    record; [tie] below ties the knot, spending one unit of fuel per
    level of such calls. *)
Record calls := mkCalls {
  r_xmlSetTreeDoc : option ptr -> option ptr -> M unit;
  r_xmlFreeNodeList : option ptr -> M unit;
  r_xmlFreeNode : option ptr -> M unit;
  r_xmlNodeAddContentLen : option ptr -> option xmlStr -> Z -> M unit;
  r_xmlStringGetNodeList : option ptr -> option xmlStr -> M (option ptr);
  r_xmlNodeListGetString : option ptr -> option ptr -> Z -> M (option xmlCharPtr)
}.

Definition no_calls : calls :=
  mkCalls (fun _ _ => timeout) (fun _ => timeout) (fun _ => timeout)
          (fun _ _ _ => timeout) (fun _ _ => timeout) (fun _ _ _ => timeout).

Definition is_element_like (ty : xmlElementType) : bool :=
  bool_decide (ty = XML_ELEMENT_NODE) || bool_decide (ty = XML_XINCLUDE_START)
  || bool_decide (ty = XML_XINCLUDE_END).

Definition is_document (ty : xmlElementType) : bool :=
  bool_decide (ty = XML_DOCUMENT_NODE) || bool_decide (ty = XML_DOCB_DOCUMENT_NODE)
  || bool_decide (ty = XML_HTML_DOCUMENT_NODE).

(** [if (x->doc != NULL) dict = x->doc->dict], with [dict] starting NULL. *)
Definition dict_of_doc (doc : option ptr) : M (option ptr) :=
  match doc with
  | Some d => rd d n_dict
  | None => mret None
  end.

(** [*p] for the pointer at offset [i] of the string [v]; the byte at
    the end of the string is its terminating zero. *)
Definition byte_at (v : xmlStr) (i : Z) : xmlChar := nth (Z.to_nat i) v 0.

(** The C string found at offset [i] of [v]. *)
Definition str_from (v : xmlStr) (i : Z) : option xmlStr := Some (drop (Z.to_nat i) v).

(** Arithmetic on [int]: two's complement on 32 bits. *)
Definition wrap_int (z : Z) : Z := (z + 2 ^ 31) mod 2 ^ 32 - 2 ^ 31.

Module Body.
Section WithCalls.
Context `{Externals}.
Variable fuel : nat.
Variable self : calls.

(** *** Retargeting a subtree to a document *)

Definition xmlSetListDoc (list doc : option ptr) : M unit :=
  match list with
  | None => skip
  | Some _ =>
      loop fuel (fun cur =>
        match cur with
        | None => break tt
        | Some c =>
            d ← rd c n_doc;
            when (negb (ptr_eqb d doc)) (r_xmlSetTreeDoc self cur doc);;
            nx ← rd c n_next;
            continue nx
        end) list
  end.

Definition xmlSetTreeDoc (tree doc : option ptr) : M unit :=
  match tree with
  | None => skip
  | Some t =>
      d ← rd t n_doc;
      when (negb (ptr_eqb d doc))
        (ty ← rd t n_type;
         when (bool_decide (ty = XML_ELEMENT_NODE))
           (prop ← rd t n_properties;
            loop fuel (fun prop =>
              match prop with
              | None => break tt
              | Some p =>
                  wr p (set_doc doc);;
                  ch ← rd p n_children;
                  xmlSetListDoc ch doc;;
                  nx ← rd p n_next;
                  continue nx
              end) prop);;
         ch ← rd t n_children;
         when (bool_decide (ch <> None)) (xmlSetListDoc ch doc);;
         wr t (set_doc doc))
  end.

(** *** Freeing *)

Definition xmlFreeProp (cur : option ptr) : M unit :=
  match cur with
  | None => skip
  | Some c =>
      doc ← rd c n_doc;
      dict ← dict_of_doc doc;
      (* Check for ID removal *)
      parent ← rd c n_parent;
      match parent with
      | Some p =>
          pdoc ← rd p n_doc;
          match pdoc with
          | Some pd =>
              i ← rd pd n_intSubset;
              e ← rd pd n_extSubset;
              when (bool_decide (i <> None) || bool_decide (e <> None))
                (isid ← xmlIsID pdoc parent cur;
                 when (bool_decide (isid <> 0)) (xmlRemoveID pdoc cur;; skip))
          | None => skip
          end
      | None => skip
      end;;
      ch ← rd c n_children;
      when (bool_decide (ch <> None)) (r_xmlFreeNodeList self ch);;
      nm ← rd c n_name;
      DICT_FREE dict nm;;
      free c
  end.

Definition xmlFreePropList (cur : option ptr) : M unit :=
  match cur with
  | None => skip
  | Some _ =>
      loop fuel (fun cur =>
        match cur with
        | None => break tt
        | Some c =>
            next ← rd c n_next;
            xmlFreeProp cur;;
            continue next
        end) cur
  end.

(** The identifiers of a DTD and the version, encoding and URL of a
    document are strings that the cells of the model do not carry;
    freeing them changes nothing. *)
Definition xmlFreeDtd (cur : option ptr) : M unit :=
  match cur with
  | None => skip
  | Some c =>
      doc ← rd c n_doc;
      dict ← dict_of_doc doc;
      ch ← rd c n_children;
      when (bool_decide (ch <> None))
        (loop fuel (fun c' =>
           match c' with
           | None => break tt
           | Some x =>
               next ← rd x n_next;
               ty ← rd x n_type;
               when (negb (bool_decide (ty = XML_NOTATION_NODE)) &&
                     negb (bool_decide (ty = XML_ELEMENT_DECL)) &&
                     negb (bool_decide (ty = XML_ATTRIBUTE_DECL)) &&
                     negb (bool_decide (ty = XML_ENTITY_DECL)))
                 (xmlUnlinkNode c';; r_xmlFreeNode self c');;
               continue next
           end) ch);;
      nm ← rd c n_name;
      DICT_FREE dict nm;;
      xmlFreeDtdTables c;;
      free c
  end.

Definition xmlFreeDoc (cur : option ptr) : M unit :=
  match cur with
  | None => skip
  | Some c =>
      dict ← rd c n_dict;
      (* Do this before freeing the children list to avoid ID lookups *)
      xmlFreeDocTables c;;
      extSubset ← rd c n_extSubset;
      intSubset ← rd c n_intSubset;
      let extSubset := if ptr_eqb intSubset extSubset then None else extSubset in
      when (bool_decide (extSubset <> None))
        (e ← rd c n_extSubset;
         xmlUnlinkNode e;;
         wr c (set_extSubset None);;
         xmlFreeDtd extSubset);;
      when (bool_decide (intSubset <> None))
        (i ← rd c n_intSubset;
         xmlUnlinkNode i;;
         wr c (set_intSubset None);;
         xmlFreeDtd intSubset);;
      ch ← rd c n_children;
      when (bool_decide (ch <> None)) (r_xmlFreeNodeList self ch);;
      o ← rd c n_oldNs;
      when (bool_decide (o <> None)) (xmlFreeNsList fuel o);;
      nm ← rd c n_name;
      DICT_FREE dict nm;;
      free c;;
      when (bool_decide (dict <> None)) (xmlDictFree dict)
  end.

(** A node of kind [XML_NAMESPACE_DECL] is an [xmlNs] in disguise: the
    cast [(xmlNsPtr) cur] reads the same address in the heap of
    namespace declarations. *)
Definition xmlFreeNodeList (cur : option ptr) : M unit :=
  match cur with
  | None => skip
  | Some c0 =>
      ty ← rd c0 n_type;
      if bool_decide (ty = XML_NAMESPACE_DECL) then xmlFreeNsList fuel cur
      else if is_document ty then xmlFreeDoc cur
      else
        doc ← rd c0 n_doc;
        dict ← dict_of_doc doc;
        loop fuel (fun cur =>
          match cur with
          | None => break tt
          | Some c =>
              next ← rd c n_next;
              ty ← rd c n_type;
              when (negb (bool_decide (ty = XML_DTD_NODE)))
                (ch ← rd c n_children;
                 ty ← rd c n_type;
                 when (bool_decide (ch <> None) &&
                       negb (bool_decide (ty = XML_ENTITY_REF_NODE)))
                   (r_xmlFreeNodeList self ch);;
                 ty ← rd c n_type;
                 props ← rd c n_properties;
                 when (is_element_like ty && bool_decide (props <> None))
                   (xmlFreePropList props);;
                 ty ← rd c n_type;
                 when (negb (is_element_like ty) &&
                       negb (bool_decide (ty = XML_ENTITY_REF_NODE)))
                   (ct ← rd c n_content; DICT_FREE dict ct);;
                 ty ← rd c n_type;
                 nd ← rd c n_nsDef;
                 when (is_element_like ty && bool_decide (nd <> None))
                   (xmlFreeNsList fuel nd);;
                 nm ← rd c n_name;
                 ty ← rd c n_type;
                 when (bool_decide (nm <> None) &&
                       negb (bool_decide (ty = XML_TEXT_NODE)) &&
                       negb (bool_decide (ty = XML_COMMENT_NODE)))
                   (DICT_FREE dict nm);;
                 free c);;
              continue next
          end) cur
  end.

Definition xmlFreeNode (cur : option ptr) : M unit :=
  match cur with
  | None => skip
  | Some c =>
      ty ← rd c n_type;
      (* use xmlFreeDtd for DTD nodes *)
      if bool_decide (ty = XML_DTD_NODE) then xmlFreeDtd cur
      else if bool_decide (ty = XML_NAMESPACE_DECL) then xmlFreeNs cur
      else if bool_decide (ty = XML_ATTRIBUTE_NODE) then xmlFreeProp cur
      else
        doc ← rd c n_doc;
        dict ← dict_of_doc doc;
        ch ← rd c n_children;
        ty ← rd c n_type;
        when (bool_decide (ch <> None) &&
              negb (bool_decide (ty = XML_ENTITY_REF_NODE)))
          (xmlFreeNodeList ch);;
        ty ← rd c n_type;
        props ← rd c n_properties;
        when (is_element_like ty && bool_decide (props <> None))
          (xmlFreePropList props);;
        ty ← rd c n_type;
        ct ← rd c n_content;
        when (negb (bool_decide (ty = XML_ELEMENT_NODE)) &&
              bool_decide (ct <> None) &&
              negb (bool_decide (ty = XML_ENTITY_REF_NODE)) &&
              negb (bool_decide (ty = XML_XINCLUDE_END)) &&
              negb (bool_decide (ty = XML_XINCLUDE_START)))
          (DICT_FREE dict ct);;
        nm ← rd c n_name;
        ty ← rd c n_type;
        when (bool_decide (nm <> None) &&
              negb (bool_decide (ty = XML_TEXT_NODE)) &&
              negb (bool_decide (ty = XML_COMMENT_NODE)))
          (DICT_FREE dict nm);;
        ty ← rd c n_type;
        nd ← rd c n_nsDef;
        when (is_element_like ty && bool_decide (nd <> None))
          (xmlFreeNsList fuel nd);;
        free c
  end.

(** *** Attribute lookup *)

(** The array that [xmlGetNsList] returns is a list here; NULL is the
    answer when no declaration is found. *)
Definition xmlGetNsList (doc node : option ptr) : M (option (list ptr)) :=
  loop fuel (fun '(node, ret) =>
    match node with
    | None => break ret
    | Some n =>
        ty ← rd n n_type;
        ret ←
          (if bool_decide (ty = XML_ELEMENT_NODE) then
             cur ← rd n n_nsDef;
             loop fuel (fun '(cur, ret) =>
               match cur with
               | None => break ret
               | Some c =>
                   let arr := default [] ret in
                   cp ← rd_ns c ns_prefix;
                   (* for (i = 0; i < nbns; i++) if (same prefix) break; *)
                   found ← loop fuel (fun rest =>
                     match rest with
                     | [] => break false
                     | r :: rest' =>
                         rp ← rd_ns r ns_prefix;
                         if str_ptr_eqb cp rp || xmlStrEqual (chars cp) (chars rp)
                         then break true
                         else continue rest'
                     end) arr;
                   let ret := if found : bool then Some arr else Some (arr ++ [c]) in
                   nx ← rd_ns c ns_next;
                   continue (nx, ret)
               end) (cur, ret)
           else mret ret);
        p ← rd n n_parent;
        continue (p, ret)
    end) (node, None).

Definition xmlHasProp (node : option ptr) (name : option xmlStr) : M (option ptr) :=
  match node, name with
  | Some n, Some _ =>
      (* Check on the properties attached to the node *)
      prop ← rd n n_properties;
      found ← loop fuel (fun prop =>
        match prop with
        | None => break None
        | Some p =>
            pn ← rd p n_name;
            if xmlStrEqual (chars pn) name then break prop
            else nx ← rd p n_next; continue nx
        end) prop;
      match found with
      | Some _ => mret found
      | None =>
          if negb xmlCheckDTD then mret None else
          (* Check if there is a default declaration in the internal
             or external subsets *)
          doc ← rd n n_doc;
          match doc with
          | Some d =>
              i ← rd d n_intSubset;
              match i with
              | Some _ =>
                  nn ← rd n n_name;
                  attrDecl ← xmlGetDtdAttrDesc i (chars nn) name;
                  attrDecl ←
                    (if bool_decide (attrDecl = None) then
                       e ← rd d n_extSubset;
                       if bool_decide (e <> None) then
                         nn ← rd n n_name;
                         xmlGetDtdAttrDesc e (chars nn) name
                       else mret attrDecl
                     else mret attrDecl);
                  match attrDecl with
                  | Some a =>
                      dv ← rd a n_defaultValue;
                      if bool_decide (dv <> None) then mret attrDecl else mret None
                  | None => mret None
                  end
              | None => mret None
              end
          | None => mret None
          end
      end
  | _, _ => mret None
  end.

Definition xmlHasNsProp (node : option ptr) (name nameSpace : option xmlStr)
  : M (option ptr) :=
  match node with
  | None => mret None
  | Some n =>
      prop ← rd n n_properties;
      found ← loop fuel (fun prop =>
        match prop with
        | None => break None
        | Some p =>
            pn ← rd p n_name;
            hit ←
              (if xmlStrEqual (chars pn) name then
                 pns ← rd p n_ns;
                 match pns with
                 | Some q =>
                     h ← rd_ns q ns_href;
                     mret (xmlStrEqual (chars h) nameSpace)
                 | None => mret (bool_decide (nameSpace = None))
                 end
               else mret false);
            if hit : bool then break prop
            else nx ← rd p n_next; continue nx
        end) prop;
      match found with
      | Some _ => mret found
      | None =>
          if negb xmlCheckDTD then mret None else
          doc ← rd n n_doc;
          match doc with
          | Some d =>
              i ← rd d n_intSubset;
              match i with
              | Some _ =>
                  nsList ← xmlGetNsList doc node;
                  match nsList with
                  | None => mret None
                  | Some nsList =>
                      nns ← rd n n_ns;
                      pfx ← match nns with
                            | Some q => rd_ns q ns_prefix
                            | None => mret None
                            end;
                      nn ← rd n n_name;
                      ename ←
                        (if bool_decide (pfx <> None) then
                           e ← xmlStrdup (chars pfx);
                           e ← xmlStrcat e (Some (BAD_CAST ":"));
                           xmlStrcat e (chars nn)
                         else xmlStrdup (chars nn));
                      match ename with
                      | None => mret None
                      | Some _ =>
                          match nameSpace with
                          | None =>
                              a ← xmlGetDtdQAttrDesc i (chars ename) name None;
                              if bool_decide (a = None) then
                                e ← rd d n_extSubset;
                                if bool_decide (e <> None)
                                then xmlGetDtdQAttrDesc e (chars ename) name None
                                else mret a
                              else mret a
                          | Some _ =>
                              loop fuel (fun '(cur, attrDecl) =>
                                match cur with
                                | [] => break attrDecl
                                | c :: rest =>
                                    h ← rd_ns c ns_href;
                                    if xmlStrEqual (chars h) nameSpace then
                                      cpfx ← rd_ns c ns_prefix;
                                      i ← rd d n_intSubset;
                                      a ← xmlGetDtdQAttrDesc i (chars ename) name (chars cpfx);
                                      a ← (if bool_decide (a = None) then
                                             e ← rd d n_extSubset;
                                             if bool_decide (e <> None) then
                                               cpfx ← rd_ns c ns_prefix;
                                               xmlGetDtdQAttrDesc e (chars ename) name (chars cpfx)
                                             else mret a
                                           else mret a);
                                      continue (rest, a)
                                    else continue (rest, attrDecl)
                                end) (nsList, None)
                          end
                      end
                  end
              | None => mret None
              end
          | None => mret None
          end
      end
  end.

(** *** Adding children and merging text *)

Definition xmlNodeAddContent (cur : option ptr) (content : option xmlStr) : M unit :=
  match cur, content with
  | Some _, Some _ =>
      let len := xmlStrlen content in
      r_xmlNodeAddContentLen self cur content len
  | _, _ => skip
  end.

Definition xmlAddChild (parent cur : option ptr) : M (option ptr) :=
  match parent, cur with
  | Some p, Some c =>
      (* If cur is a TEXT node, merge its content with adjacent TEXT
         nodes; cur is then freed. *)
      cty ← rd c n_type;
      merged ←
        (if bool_decide (cty = XML_TEXT_NODE) then
           pty ← rd p n_type;
           pct ← rd p n_content;
           pnm ← rd p n_name;
           cnm ← rd c n_name;
           if bool_decide (pty = XML_TEXT_NODE) && bool_decide (pct <> None) &&
              str_ptr_eqb pnm cnm && negb (ptr_eqb parent cur)
           then
             cct ← rd c n_content;
             xmlNodeAddContent parent (chars cct);;
             xmlFreeNode cur;;
             mret (Some parent)
           else
             pl ← rd p n_last;
             match pl with
             | Some l =>
                 lty ← rd l n_type;
                 lnm ← rd l n_name;
                 cnm ← rd c n_name;
                 if bool_decide (lty = XML_TEXT_NODE) && str_ptr_eqb lnm cnm &&
                    negb (ptr_eqb pl cur)
                 then
                   cct ← rd c n_content;
                   xmlNodeAddContent pl (chars cct);;
                   xmlFreeNode cur;;
                   pl ← rd p n_last;
                   mret (Some pl)
                 else mret None
             | None => mret None
             end
         else mret None);
      match merged with
      | Some r => mret r
      | None =>
          (* add the new element at the end of the children list. *)
          prev ← rd c n_parent;
          wr c (set_parent parent);;
          cdoc ← rd c n_doc;
          pdoc ← rd p n_doc;
          when (negb (ptr_eqb cdoc pdoc)) (xmlSetTreeDoc cur pdoc);;
          (* this check prevents a loop on tree-traversions if a
             developer tries to add a node to its parent multiple times *)
          if ptr_eqb prev parent then mret cur else
          (* Coalescing *)
          pty ← rd p n_type;
          pct ← rd p n_content;
          if bool_decide (pty = XML_TEXT_NODE) && bool_decide (pct <> None) &&
             negb (ptr_eqb parent cur)
          then
            cct ← rd c n_content;
            xmlNodeAddContent parent (chars cct);;
            xmlFreeNode cur;;
            mret parent
          else
            cty ← rd c n_type;
            (if bool_decide (cty = XML_ATTRIBUTE_NODE) then
               props ← rd p n_properties;
               match props with
               | None => wr p (set_properties cur)
               | Some _ =>
                   (* check if an attribute with the same name exists *)
                   cns ← rd c n_ns;
                   cnm ← rd c n_name;
                   lastattr ←
                     match cns with
                     | None => xmlHasProp parent (chars cnm)
                     | Some q =>
                         h ← rd_ns q ns_href;
                         xmlHasNsProp parent (chars cnm) (chars h)
                     end;
                   (* different instance, destroy it (attributes must
                      be unique) *)
                   when (bool_decide (lastattr <> None) && negb (ptr_eqb lastattr cur))
                     (xmlFreeProp lastattr);;
                   (* find the end *)
                   lastattr ← rd p n_properties;
                   lastattr ← loop fuel (fun lastattr =>
                     match lastattr with
                     | None => crash
                     | Some a =>
                         nx ← rd a n_next;
                         if bool_decide (nx <> None) then continue nx
                         else break a
                     end) lastattr;
                   wr lastattr (set_next cur);;
                   wr c (set_prev (Some lastattr))
               end
             else
               ch ← rd p n_children;
               match ch with
               | None =>
                   wr p (set_children cur);;
                   wr p (set_last cur)
               | Some _ =>
                   prev ← rd p n_last;
                   match prev with
                   | Some pv =>
                       wr pv (set_next cur);;
                       wr c (set_prev prev);;
                       wr p (set_last cur)
                   | None => crash
                   end
               end);;
            mret cur
      end
  | _, _ => mret None
  end.

Definition xmlTextMerge (first second : option ptr) : M (option ptr) :=
  match first, second with
  | None, _ => mret second
  | _, None => mret first
  | Some f, Some sd =>
      fty ← rd f n_type;
      if negb (bool_decide (fty = XML_TEXT_NODE)) then mret first else
      sty ← rd sd n_type;
      if negb (bool_decide (sty = XML_TEXT_NODE)) then mret first else
      snm ← rd sd n_name;
      fnm ← rd f n_name;
      if negb (str_ptr_eqb snm fnm) then mret first else
      sct ← rd sd n_content;
      xmlNodeAddContent first (chars sct);;
      xmlUnlinkNode second;;
      xmlFreeNode second;;
      mret first
  end.

Definition xmlNodeAddContentLen (cur : option ptr) (content : option xmlStr) (len : Z)
  : M unit :=
  match cur with
  | None => skip
  | Some c =>
      if bool_decide (len <= 0) then skip else
      ty ← rd c n_type;
      match ty with
      | XML_DOCUMENT_FRAG_NODE | XML_ELEMENT_NODE =>
          last ← rd c n_last;
          newNode ← xmlNewTextLen content len;
          match newNode with
          | Some nn =>
              tmp ← xmlAddChild cur newNode;
              if negb (ptr_eqb tmp newNode) then skip else
              match last with
              | Some l =>
                  lnx ← rd l n_next;
                  when (ptr_eqb lnx newNode) (xmlTextMerge last newNode;; skip)
              | None => skip
              end
          | None => skip
          end
      | XML_ATTRIBUTE_NODE => skip
      | XML_TEXT_NODE | XML_CDATA_SECTION_NODE | XML_ENTITY_REF_NODE
      | XML_ENTITY_NODE | XML_PI_NODE | XML_COMMENT_NODE | XML_NOTATION_NODE =>
          when (bool_decide (content <> None))
            (doc ← rd c n_doc;
             dict ← dict_of_doc doc;
             ct ← rd c n_content;
             if bool_decide (doc <> None) && bool_decide (dict <> None) &&
                bool_decide (xmlDictOwns dict ct <> 0)
             then r ← xmlStrncatNew ct content len; wr c (set_content r)
             else r ← xmlStrncat ct content len; wr c (set_content r))
      | _ => skip
      end
  end.

(** *** Replacing the content of a node *)

(** [UPDATE_LAST_CHILD_AND_PARENT(n)]. *)
Definition UPDATE_LAST_CHILD_AND_PARENT (n : option ptr) : M unit :=
  match n with
  | None => skip
  | Some x =>
      ulccur ← rd x n_children;
      match ulccur with
      | None => wr x (set_last None)
      | Some u =>
          u ← loop fuel (fun u =>
            nx ← rd u n_next;
            match nx with
            | Some u' => wr u (set_parent n);; continue u'
            | None => break u
            end) u;
          wr u (set_parent n);;
          wr x (set_last (Some u))
      end
  end.

Definition xmlNodeSetContent (cur : option ptr) (content : option xmlStr) : M unit :=
  match cur with
  | None => skip
  | Some c =>
      ty ← rd c n_type;
      match ty with
      | XML_DOCUMENT_FRAG_NODE | XML_ELEMENT_NODE | XML_ATTRIBUTE_NODE =>
          ch ← rd c n_children;
          when (bool_decide (ch <> None)) (xmlFreeNodeList ch);;
          doc ← rd c n_doc;
          l ← r_xmlStringGetNodeList self doc content;
          wr c (set_children l);;
          UPDATE_LAST_CHILD_AND_PARENT cur
      | XML_TEXT_NODE | XML_CDATA_SECTION_NODE | XML_ENTITY_REF_NODE
      | XML_ENTITY_NODE | XML_PI_NODE | XML_COMMENT_NODE =>
          ct ← rd c n_content;
          when (bool_decide (ct <> None))
            (doc ← rd c n_doc;
             dict ← dict_of_doc doc;
             when (negb (bool_decide (doc <> None) && bool_decide (dict <> None) &&
                         bool_decide (xmlDictOwns dict ct = 0)))
               (xmlFree_str ct));;
          ch ← rd c n_children;
          when (bool_decide (ch <> None)) (xmlFreeNodeList ch);;
          wr c (set_children None);;
          wr c (set_last None);;
          match content with
          | Some _ => r ← xmlStrdup content; wr c (set_content r)
          | None => wr c (set_content None)
          end
      | _ => skip
      end
  end.

(** *** Adding siblings *)

Definition xmlAddNextSibling (cur elem : option ptr) : M (option ptr) :=
  match cur, elem with
  | Some c, Some e =>
      xmlUnlinkNode elem;;
      ety ← rd e n_type;
      merged ←
        (if bool_decide (ety = XML_TEXT_NODE) then
           cty ← rd c n_type;
           if bool_decide (cty = XML_TEXT_NODE) then
             ect ← rd e n_content;
             xmlNodeAddContent cur (chars ect);;
             xmlFreeNode elem;;
             mret (Some cur)
           else
             cnx ← rd c n_next;
             match cnx with
             | Some nx =>
                 nty ← rd nx n_type;
                 cnm ← rd c n_name;
                 nnm ← rd nx n_name;
                 if bool_decide (nty = XML_TEXT_NODE) && str_ptr_eqb cnm nnm then
                   ect ← rd e n_content;
                   tmp ← xmlStrdup (chars ect);
                   nct ← rd nx n_content;
                   tmp ← xmlStrcat tmp (chars nct);
                   xmlNodeSetContent cnx (chars tmp);;
                   xmlFree_str tmp;;
                   xmlFreeNode elem;;
                   cnx ← rd c n_next;
                   mret (Some cnx)
                 else mret None
             | None => mret None
             end
         else if bool_decide (ety = XML_ATTRIBUTE_NODE) then
           (* check if an attribute with the same name exists *)
           ens ← rd e n_ns;
           cp ← rd c n_parent;
           enm ← rd e n_name;
           attr ←
             match ens with
             | None => xmlHasProp cp (chars enm)
             | Some q =>
                 h ← rd_ns q ns_href;
                 xmlHasNsProp cp (chars enm) (chars h)
             end;
           (* different instance, destroy it (attributes must be unique) *)
           when (bool_decide (attr <> None) && negb (ptr_eqb attr elem))
             (xmlFreeProp attr);;
           mret None
         else mret None);
      match merged with
      | Some r => mret r
      | None =>
          edoc ← rd e n_doc;
          cdoc ← rd c n_doc;
          when (negb (ptr_eqb edoc cdoc)) (xmlSetTreeDoc elem cdoc);;
          cp ← rd c n_parent;
          wr e (set_parent cp);;
          wr e (set_prev cur);;
          cnx ← rd c n_next;
          wr e (set_next cnx);;
          wr c (set_next elem);;
          enx ← rd e n_next;
          match enx with
          | Some x => wr x (set_prev elem)
          | None => skip
          end;;
          ep ← rd e n_parent;
          match ep with
          | Some pp =>
              pl ← rd pp n_last;
              ety ← rd e n_type;
              when (ptr_eqb pl cur && negb (bool_decide (ety = XML_ATTRIBUTE_NODE)))
                (wr pp (set_last elem))
          | None => skip
          end;;
          mret elem
      end
  | _, _ => mret None
  end.

Definition xmlAddPrevSibling (cur elem : option ptr) : M (option ptr) :=
  match cur, elem with
  | Some c, Some e =>
      xmlUnlinkNode elem;;
      ety ← rd e n_type;
      merged ←
        (if bool_decide (ety = XML_TEXT_NODE) then
           cty ← rd c n_type;
           if bool_decide (cty = XML_TEXT_NODE) then
             ect ← rd e n_content;
             tmp ← xmlStrdup (chars ect);
             cct ← rd c n_content;
             tmp ← xmlStrcat tmp (chars cct);
             xmlNodeSetContent cur (chars tmp);;
             xmlFree_str tmp;;
             xmlFreeNode elem;;
             mret (Some cur)
           else
             cpv ← rd c n_prev;
             match cpv with
             | Some pv =>
                 pty ← rd pv n_type;
                 cnm ← rd c n_name;
                 pnm ← rd pv n_name;
                 if bool_decide (pty = XML_TEXT_NODE) && str_ptr_eqb cnm pnm then
                   ect ← rd e n_content;
                   xmlNodeAddContent cpv (chars ect);;
                   xmlFreeNode elem;;
                   cpv ← rd c n_prev;
                   mret (Some cpv)
                 else mret None
             | None => mret None
             end
         else if bool_decide (ety = XML_ATTRIBUTE_NODE) then
           (* check if an attribute with the same name exists *)
           ens ← rd e n_ns;
           cp ← rd c n_parent;
           enm ← rd e n_name;
           attr ←
             match ens with
             | None => xmlHasProp cp (chars enm)
             | Some q =>
                 h ← rd_ns q ns_href;
                 xmlHasNsProp cp (chars enm) (chars h)
             end;
           (* different instance, destroy it (attributes must be unique) *)
           when (bool_decide (attr <> None) && negb (ptr_eqb attr elem))
             (xmlFreeProp attr);;
           mret None
         else mret None);
      match merged with
      | Some r => mret r
      | None =>
          edoc ← rd e n_doc;
          cdoc ← rd c n_doc;
          when (negb (ptr_eqb edoc cdoc)) (xmlSetTreeDoc elem cdoc);;
          cp ← rd c n_parent;
          wr e (set_parent cp);;
          wr e (set_next cur);;
          cpv ← rd c n_prev;
          wr e (set_prev cpv);;
          wr c (set_prev elem);;
          epv ← rd e n_prev;
          match epv with
          | Some x => wr x (set_next elem)
          | None => skip
          end;;
          ep ← rd e n_parent;
          match ep with
          | Some pp =>
              ety ← rd e n_type;
              if bool_decide (ety = XML_ATTRIBUTE_NODE) then
                props ← rd pp n_properties;
                when (ptr_eqb props cur) (wr pp (set_properties elem))
              else
                ch ← rd pp n_children;
                when (ptr_eqb ch cur) (wr pp (set_children elem))
          | None => skip
          end;;
          mret elem
      end
  | _, _ => mret None
  end.

Definition xmlAddSibling (cur elem : option ptr) : M (option ptr) :=
  match cur, elem with
  | Some c0, Some e =>
      (* Constant time is we can rely on the ->parent->last to find
         the last sibling. *)
      cp ← rd c0 n_parent;
      shortcut ←
        match cp with
        | Some p =>
            ch ← rd p n_children;
            if bool_decide (ch <> None) then
              pl ← rd p n_last;
              match pl with
              | Some l =>
                  lnx ← rd l n_next;
                  if bool_decide (lnx = None) then mret (Some l) else mret None
              | None => mret None
              end
            else mret None
        | None => mret None
        end;
      c ←
        match shortcut with
        | Some l => mret l
        | None =>
            loop fuel (fun c =>
              nx ← rd c n_next;
              match nx with
              | Some c' => continue c'
              | None => break c
              end) c0
        end;
      let cur := Some c in
      xmlUnlinkNode elem;;
      cty ← rd c n_type;
      ety ← rd e n_type;
      cnm ← rd c n_name;
      enm ← rd e n_name;
      if bool_decide (cty = XML_TEXT_NODE) && bool_decide (ety = XML_TEXT_NODE) &&
         str_ptr_eqb cnm enm
      then
        ect ← rd e n_content;
        xmlNodeAddContent cur (chars ect);;
        xmlFreeNode elem;;
        mret cur
      else
        edoc ← rd e n_doc;
        cdoc ← rd c n_doc;
        when (negb (ptr_eqb edoc cdoc)) (xmlSetTreeDoc elem cdoc);;
        parent ← rd c n_parent;
        wr e (set_prev cur);;
        wr e (set_next None);;
        wr e (set_parent parent);;
        wr c (set_next elem);;
        match parent with
        | Some p => wr p (set_last elem)
        | None => skip
        end;;
        mret elem
  | _, _ => mret None
  end.

Definition xmlAddChildList (parent cur : option ptr) : M (option ptr) :=
  match parent, cur with
  | Some p, Some c0 =>
      (* add the first element at the end of the children list. *)
      ch ← rd p n_children;
      r ←
        match ch with
        | None => wr p (set_children cur);; mret (inl c0)
        | Some _ =>
            (* If cur and parent->last both are TEXT nodes, then merge them. *)
            cty ← rd c0 n_type;
            same ←
              (if bool_decide (cty = XML_TEXT_NODE) then
                 pl ← rd p n_last;
                 l ← match pl with Some l => mret l | None => crash end;
                 lty ← rd l n_type;
                 if bool_decide (lty = XML_TEXT_NODE) then
                   cnm ← rd c0 n_name;
                   lnm ← rd l n_name;
                   mret (str_ptr_eqb cnm lnm)
                 else mret false
               else mret false);
            r ←
              (if same : bool then
                 pl ← rd p n_last;
                 cct ← rd c0 n_content;
                 xmlNodeAddContent pl (chars cct);;
                 (* if it's the only child, nothing more to be done. *)
                 cnx ← rd c0 n_next;
                 match cnx with
                 | None =>
                     xmlFreeNode cur;;
                     pl ← rd p n_last;
                     mret (inr pl)
                 | Some nx =>
                     xmlFreeNode cur;;
                     mret (inl nx)
                 end
               else mret (inl c0));
            match r with
            | inr x => mret (inr x)
            | inl c =>
                prev ← rd p n_last;
                pv ← match prev with Some pv => mret pv | None => crash end;
                wr pv (set_next (Some c));;
                wr c (set_prev prev);;
                mret (inl c)
            end
        end;
      match r with
      | inr x => mret x
      | inl c =>
          c ← loop fuel (fun c =>
            nx ← rd c n_next;
            match nx with
            | Some c' =>
                wr c (set_parent parent);;
                cdoc ← rd c n_doc;
                pdoc ← rd p n_doc;
                when (negb (ptr_eqb cdoc pdoc)) (xmlSetTreeDoc (Some c) pdoc);;
                nx ← rd c n_next;
                match nx with
                | Some c' => continue c'
                | None => crash
                end
            | None => break c
            end) c;
          wr c (set_parent parent);;
          pdoc ← rd p n_doc;
          (* the parent may not be linked to a doc ! *)
          wr c (set_doc pdoc);;
          wr p (set_last (Some c));;
          mret (Some c)
      end
  | _, _ => mret None
  end.

(** *** Parsing content into text and entity-reference nodes *)

(** The end of [xmlStringLenGetNodeList]'s and [xmlStringGetNodeList]'s
    [if (cur[0] == '&')] block: [if (charval != 0) { ... }], after
    which [q] is [cur] and the loop goes round again. *)
Definition charref_node (doc ret last : option ptr) (cur charval : Z)
  : M ((option ptr * option ptr * Z * Z) +
       ((option ptr * option ptr * Z * Z) + option ptr)) :=
  if bool_decide (charval <> 0) then
    let buf := xmlCopyCharMultiByte charval in
    node ← xmlNewDocText doc (Some buf);
    match node, last with
    | None, _ => continue (ret, last, cur, cur)
    | Some _, None => continue (node, node, cur, cur)
    | Some _, Some _ =>
        last ← xmlAddNextSibling last node;
        continue (ret, last, cur, cur)
    end
  else continue (ret, last, cur, cur).

(** The start of the [if (cur[0] == '&')] block of
    [xmlStringLenGetNodeList] and [xmlStringGetNodeList]: "Save the
    current text", the characters from [q] to [cur]. The result is
    the new [(ret, last)], or [inr] for the [return (ret)] taken when
    the text node cannot be created. *)
Definition save_current_text (doc : option ptr) (v : xmlStr) (ret last : option ptr)
  (q cur : Z) : M ((option ptr * option ptr) + option ptr) :=
  if bool_decide (cur <> q) then
    lty ← match last with
          | Some l => ty ← rd l n_type; mret (bool_decide (ty = XML_TEXT_NODE))
          | None => mret false
          end;
    if lty : bool then
      xmlNodeAddContentLen last (str_from v q) (cur - q);;
      mret (inl (ret, last))
    else
      node ← xmlNewDocTextLen doc (str_from v q) (cur - q);
      match node, last with
      | None, _ => mret (inr ret)
      | Some _, None => mret (inl (node, node))
      | Some nd, Some l =>
          wr l (set_next node);;
          wr nd (set_prev last);;
          mret (inl (ret, node))
      end
  else mret (inl (ret, last)).

(** One round of the [while] loop of [xmlStringLenGetNodeList]: the loop state is
    [(ret, last, q, cur)], the pointers [q] and [cur] being offsets
    into [value]; the round ends the loop ([inl]), returns from the
    function ([inr]) or goes round again. *)
Definition xmlStringLenGetNodeList_body (doc : option ptr) (v : xmlStr) (end_ : Z)
  (st : option ptr * option ptr * Z * Z)
  : M ((option ptr * option ptr * Z * Z) +
       ((option ptr * option ptr * Z * Z) + option ptr)) :=
  let '(ret, last, q, cur) := st in
  if negb (bool_decide (cur < end_) && negb (bool_decide (byte_at v cur = 0))) then break (inl st)
  else if bool_decide (byte_at v cur = chr "&") then
    (* Save the current text. *)
    r ← save_current_text doc v ret last q cur;
    match r with
    | inr x => break (inr x)
    | inl (ret, last) =>
        let q := cur in
        if bool_decide (cur + 2 < end_) && bool_decide (byte_at v (cur + 1) = chr "#") &&
           bool_decide (byte_at v (cur + 2) = chr "x") then
          let cur := cur + 3 in
          let tmp := (if bool_decide (cur < end_) then byte_at v cur else 0) in
          '(cur, tmp, charval) ← loop fuel (fun '(cur, tmp, charval) =>
            if bool_decide (tmp = chr ";") then break (cur, tmp, charval)
            else
              (* Non input consuming loop *)
              let digit :=
                if bool_decide (chr "0" <= tmp) && bool_decide (tmp <= chr "9")
                then Some (tmp - chr "0")
                else if bool_decide (chr "a" <= tmp) && bool_decide (tmp <= chr "f")
                then Some (tmp - chr "a" + 10)
                else if bool_decide (chr "A" <= tmp) && bool_decide (tmp <= chr "F")
                then Some (tmp - chr "A" + 10)
                else None in
              match digit with
              | Some d =>
                  let charval := wrap_int (charval * 16 + d) in
                  let cur := cur + 1 in
                  let tmp := (if bool_decide (cur < end_) then byte_at v cur else 0) in
                  continue (cur, tmp, charval)
              | None =>
                  xmlTreeErr XML_TREE_INVALID_HEX None;;
                  break (cur, tmp, 0)
              end) (cur, tmp, 0);
          let cur := if bool_decide (tmp = chr ";") then cur + 1 else cur in
          let q := cur in
          charref_node doc ret last cur charval
        else if bool_decide (cur + 1 < end_) && bool_decide (byte_at v (cur + 1) = chr "#") then
          let cur := cur + 2 in
          let tmp := (if bool_decide (cur < end_) then byte_at v cur else 0) in
          '(cur, tmp, charval) ← loop fuel (fun '(cur, tmp, charval) =>
            if bool_decide (tmp = chr ";") then break (cur, tmp, charval)
            else
              (* Non input consuming loops *)
              if bool_decide (chr "0" <= tmp) && bool_decide (tmp <= chr "9") then
                let charval := wrap_int (charval * 10 + (tmp - chr "0")) in
                let cur := cur + 1 in
                let tmp := (if bool_decide (cur < end_) then byte_at v cur else 0) in
                continue (cur, tmp, charval)
              else
                xmlTreeErr XML_TREE_INVALID_DEC None;;
                break (cur, tmp, 0)) (cur, tmp, 0);
          let cur := if bool_decide (tmp = chr ";") then cur + 1 else cur in
          let q := cur in
          charref_node doc ret last cur charval
        else
          (* Read the entity string *)
          let cur := cur + 1 in
          let q := cur in
          cur ← loop fuel (fun cur =>
            if bool_decide (cur < end_) && negb (bool_decide (byte_at v cur = 0)) &&
               negb (bool_decide (byte_at v cur = chr ";"))
            then continue (cur + 1) else break cur) cur;
          if bool_decide (cur >= end_) || bool_decide (byte_at v cur = 0) then
            xmlTreeErr XML_TREE_UNTERMINATED_ENTITY (str_from v q);;
            break (inr ret)
          else
            r ←
              (if bool_decide (cur <> q) then
                 (* Predefined entities don't generate nodes *)
                 val ← xmlStrndup (str_from v q) (cur - q);
                 ent ← xmlGetDocEntity doc (chars val);
                 predefined ←
                   match ent with
                   | Some e =>
                       et ← rd e n_etype;
                       mret (bool_decide (et = Some XML_INTERNAL_PREDEFINED_ENTITY))
                   | None => mret false
                   end;
                 r ←
                   (if predefined : bool then
                      ect ← match ent with
                            | Some e => rd e n_content
                            | None => mret None
                            end;
                      match last with
                      | None =>
                          node ← xmlNewDocText doc (chars ect);
                          mret (inl (node, node))
                      | Some l =>
                          lty ← rd l n_type;
                          if negb (bool_decide (lty = XML_TEXT_NODE)) then
                            node ← xmlNewDocText doc (chars ect);
                            last ← xmlAddNextSibling last node;
                            mret (inl (ret, last))
                          else
                            xmlNodeAddContent last (chars ect);;
                            mret (inl (ret, last))
                      end
                    else
                      (* Create a new REFERENCE_REF node *)
                      node ← xmlNewReference doc (chars val);
                      match node with
                      | None => xmlFree_str val;; mret (inr ret)
                      | Some nd =>
                          match ent with
                          | Some e =>
                              ech ← rd e n_children;
                              when (bool_decide (ech = None))
                                (nct ← rd nd n_content;
                                 l ← r_xmlStringGetNodeList self doc (chars nct);
                                 wr e (set_children l);;
                                 wr e (set_owner 1);;
                                 temp ← rd e n_children;
                                 loop fuel (fun temp =>
                                   match temp with
                                   | None => break tt
                                   | Some t =>
                                       wr t (set_parent ent);;
                                       wr e (set_last temp);;
                                       nx ← rd t n_next;
                                       continue nx
                                   end) temp)
                          | None => skip
                          end;;
                          match last with
                          | None => mret (inl (node, node))
                          | Some _ =>
                              last ← xmlAddNextSibling last node;
                              mret (inl (ret, last))
                          end
                      end);
                 match r with
                 | inr x => mret (inr x)
                 | inl r => xmlFree_str val;; mret (inl r)
                 end
               else mret (inl (ret, last)));
            match r with
            | inr x => break (inr x)
            | inl (ret, last) =>
                let cur := cur + 1 in
                continue (ret, last, cur, cur)
            end
    end
  else continue (ret, last, q, cur + 1).

Definition xmlStringLenGetNodeList (doc : option ptr) (value : option xmlStr) (len : Z)
  : M (option ptr) :=
  match value with
  | None => mret None
  | Some v =>
      r ← loop fuel (xmlStringLenGetNodeList_body doc v len) (None, None, 0, 0);
      match r with
      | inr ret => mret ret
      | inl (ret, last, q, cur) =>
          if bool_decide (cur <> q) || bool_decide (ret = None) then
            (* Handle the last piece of text. *)
            lty ← match last with
                  | Some l => ty ← rd l n_type; mret (bool_decide (ty = XML_TEXT_NODE))
                  | None => mret false
                  end;
            if lty : bool then
              xmlNodeAddContentLen last (str_from v q) (cur - q);;
              mret ret
            else
              node ← xmlNewDocTextLen doc (str_from v q) (cur - q);
              match node, last with
              | None, _ => mret ret
              | Some _, None => mret node
              | Some _, Some _ =>
                  xmlAddNextSibling last node;;
                  mret ret
              end
          else mret ret
      end
  end.

(** One round of the [while] loop of [xmlStringGetNodeList]: the loop state is
    [(ret, last, q, cur)], the pointers [q] and [cur] being offsets
    into [value]; the round ends the loop ([inl]), returns from the
    function ([inr]) or goes round again. *)
Definition xmlStringGetNodeList_body (doc : option ptr) (v : xmlStr)
  (st : option ptr * option ptr * Z * Z)
  : M ((option ptr * option ptr * Z * Z) +
       ((option ptr * option ptr * Z * Z) + option ptr)) :=
  let '(ret, last, q, cur) := st in
  if negb (negb (bool_decide (byte_at v cur = 0))) then break (inl st)
  else if bool_decide (byte_at v cur = chr "&") then
    (* Save the current text. *)
    r ← save_current_text doc v ret last q cur;
    match r with
    | inr x => break (inr x)
    | inl (ret, last) =>
        let q := cur in
        if bool_decide (byte_at v (cur + 1) = chr "#") &&
           bool_decide (byte_at v (cur + 2) = chr "x") then
          let cur := cur + 3 in
          let tmp := byte_at v cur in
          '(cur, tmp, charval) ← loop fuel (fun '(cur, tmp, charval) =>
            if bool_decide (tmp = chr ";") then break (cur, tmp, charval)
            else
              (* Non input consuming loop *)
              let digit :=
                if bool_decide (chr "0" <= tmp) && bool_decide (tmp <= chr "9")
                then Some (tmp - chr "0")
                else if bool_decide (chr "a" <= tmp) && bool_decide (tmp <= chr "f")
                then Some (tmp - chr "a" + 10)
                else if bool_decide (chr "A" <= tmp) && bool_decide (tmp <= chr "F")
                then Some (tmp - chr "A" + 10)
                else None in
              match digit with
              | Some d =>
                  let charval := wrap_int (charval * 16 + d) in
                  let cur := cur + 1 in
                  let tmp := byte_at v cur in
                  continue (cur, tmp, charval)
              | None =>
                  xmlTreeErr XML_TREE_INVALID_HEX None;;
                  break (cur, tmp, 0)
              end) (cur, tmp, 0);
          let cur := if bool_decide (tmp = chr ";") then cur + 1 else cur in
          let q := cur in
          charref_node doc ret last cur charval
        else if bool_decide (byte_at v (cur + 1) = chr "#") then
          let cur := cur + 2 in
          let tmp := byte_at v cur in
          '(cur, tmp, charval) ← loop fuel (fun '(cur, tmp, charval) =>
            if bool_decide (tmp = chr ";") then break (cur, tmp, charval)
            else
              (* Non input consuming loops *)
              if bool_decide (chr "0" <= tmp) && bool_decide (tmp <= chr "9") then
                let charval := wrap_int (charval * 10 + (tmp - chr "0")) in
                let cur := cur + 1 in
                let tmp := byte_at v cur in
                continue (cur, tmp, charval)
              else
                xmlTreeErr XML_TREE_INVALID_DEC None;;
                break (cur, tmp, 0)) (cur, tmp, 0);
          let cur := if bool_decide (tmp = chr ";") then cur + 1 else cur in
          let q := cur in
          charref_node doc ret last cur charval
        else
          (* Read the entity string *)
          let cur := cur + 1 in
          let q := cur in
          cur ← loop fuel (fun cur =>
            if negb (bool_decide (byte_at v cur = 0)) &&
               negb (bool_decide (byte_at v cur = chr ";"))
            then continue (cur + 1) else break cur) cur;
          if bool_decide (byte_at v cur = 0) then
            xmlTreeErr XML_TREE_UNTERMINATED_ENTITY (str_from v q);;
            break (inr ret)
          else
            r ←
              (if bool_decide (cur <> q) then
                 (* Predefined entities don't generate nodes *)
                 val ← xmlStrndup (str_from v q) (cur - q);
                 ent ← xmlGetDocEntity doc (chars val);
                 predefined ←
                   match ent with
                   | Some e =>
                       et ← rd e n_etype;
                       mret (bool_decide (et = Some XML_INTERNAL_PREDEFINED_ENTITY))
                   | None => mret false
                   end;
                 r ←
                   (if predefined : bool then
                      ect ← match ent with
                            | Some e => rd e n_content
                            | None => mret None
                            end;
                      match last with
                      | None =>
                          node ← xmlNewDocText doc (chars ect);
                          mret (inl (node, node))
                      | Some l =>
                          lty ← rd l n_type;
                          if negb (bool_decide (lty = XML_TEXT_NODE)) then
                            node ← xmlNewDocText doc (chars ect);
                            last ← xmlAddNextSibling last node;
                            mret (inl (ret, last))
                          else
                            xmlNodeAddContent last (chars ect);;
                            mret (inl (ret, last))
                      end
                    else
                      (* Create a new REFERENCE_REF node *)
                      node ← xmlNewReference doc (chars val);
                      match node with
                      | None => xmlFree_str val;; mret (inr ret)
                      | Some nd =>
                          match ent with
                          | Some e =>
                              ech ← rd e n_children;
                              when (bool_decide (ech = None))
                                (nct ← rd nd n_content;
                                 l ← r_xmlStringGetNodeList self doc (chars nct);
                                 wr e (set_children l);;
                                 wr e (set_owner 1);;
                                 temp ← rd e n_children;
                                 loop fuel (fun temp =>
                                   match temp with
                                   | None => break tt
                                   | Some t =>
                                       wr t (set_parent ent);;
                                       nx ← rd t n_next;
                                       continue nx
                                   end) temp)
                          | None => skip
                          end;;
                          match last with
                          | None => mret (inl (node, node))
                          | Some _ =>
                              last ← xmlAddNextSibling last node;
                              mret (inl (ret, last))
                          end
                      end);
                 match r with
                 | inr x => mret (inr x)
                 | inl r => xmlFree_str val;; mret (inl r)
                 end
               else mret (inl (ret, last)));
            match r with
            | inr x => break (inr x)
            | inl (ret, last) =>
                let cur := cur + 1 in
                continue (ret, last, cur, cur)
            end
    end
  else continue (ret, last, q, cur + 1).

Definition xmlStringGetNodeList (doc : option ptr) (value : option xmlStr)
  : M (option ptr) :=
  match value with
  | None => mret None
  | Some v =>
      r ← loop fuel (xmlStringGetNodeList_body doc v) (None, None, 0, 0);
      match r with
      | inr ret => mret ret
      | inl (ret, last, q, cur) =>
          if bool_decide (cur <> q) || bool_decide (ret = None) then
            (* Handle the last piece of text. *)
            lty ← match last with
                  | Some l => ty ← rd l n_type; mret (bool_decide (ty = XML_TEXT_NODE))
                  | None => mret false
                  end;
            if lty : bool then
              xmlNodeAddContentLen last (str_from v q) (cur - q);;
              mret ret
            else
              node ← xmlNewDocTextLen doc (str_from v q) (cur - q);
              match node, last with
              | None, _ => mret ret
              | Some _, None => mret node
              | Some _, Some _ =>
                  xmlAddNextSibling last node;;
                  mret ret
              end
          else mret ret
      end
  end.

(** *** Materialising the text of a node list *)

Definition xmlNodeListGetString (doc list : option ptr) (inLine : Z)
  : M (option xmlCharPtr) :=
  match list with
  | None => mret None
  | Some _ =>
      loop fuel (fun '(node, ret) =>
        match node with
        | None => break ret
        | Some n =>
            ty ← rd n n_type;
            ret ←
              (if bool_decide (ty = XML_TEXT_NODE) ||
                  bool_decide (ty = XML_CDATA_SECTION_NODE) then
                 if bool_decide (inLine <> 0) then
                   ct ← rd n n_content;
                   xmlStrcat ret (chars ct)
                 else
                   ct ← rd n n_content;
                   buffer ← xmlEncodeEntitiesReentrant doc (chars ct);
                   match buffer with
                   | Some _ => xmlStrcat ret buffer
                   | None => mret ret
                   end
               else if bool_decide (ty = XML_ENTITY_REF_NODE) then
                 if bool_decide (inLine <> 0) then
                   nm ← rd n n_name;
                   ent ← xmlGetDocEntity doc (chars nm);
                   match ent with
                   | Some e =>
                       (* an entity content can be any "well balanced
                          chunk": we recursive call
                          xmlNodeListGetString() *)
                       ech ← rd e n_children;
                       buffer ← r_xmlNodeListGetString self doc ech 1;
                       match buffer with
                       | Some _ => xmlStrcat ret (chars buffer)
                       | None => mret ret
                       end
                   | None =>
                       ct ← rd n n_content;
                       xmlStrcat ret (chars ct)
                   end
                 else
                   ret ← xmlStrncat ret (Some (BAD_CAST "&")) 1;
                   nm ← rd n n_name;
                   ret ← xmlStrcat ret (chars nm);
                   xmlStrncat ret (Some (BAD_CAST ";")) 1
               else mret ret);
            nx ← rd n n_next;
            continue (nx, ret)
        end) (list, None)
  end.
End WithCalls.
End Body.

(** ** Tying the knot *)

Fixpoint tie `{Externals} (fuel : nat) : calls :=
  match fuel with
  | O => no_calls
  | S n =>
      let self := tie n in
      mkCalls (Body.xmlSetTreeDoc n self)
              (Body.xmlFreeNodeList n self)
              (Body.xmlFreeNode n self)
              (Body.xmlNodeAddContentLen n self)
              (Body.xmlStringGetNodeList n self)
              (Body.xmlNodeListGetString n self)
  end.

Section Api.
Context `{Externals}.
Variable fuel : nat.

Definition xmlSetListDoc := Body.xmlSetListDoc fuel (tie fuel).
Definition xmlSetTreeDoc := Body.xmlSetTreeDoc fuel (tie fuel).
Definition xmlFreeProp := Body.xmlFreeProp (tie fuel).
Definition xmlFreePropList := Body.xmlFreePropList fuel (tie fuel).
Definition xmlFreeDtd := Body.xmlFreeDtd fuel (tie fuel).
Definition xmlFreeDoc := Body.xmlFreeDoc fuel (tie fuel).
Definition xmlFreeNodeList := Body.xmlFreeNodeList fuel (tie fuel).
Definition xmlFreeNode := Body.xmlFreeNode fuel (tie fuel).
Definition xmlGetNsList := Body.xmlGetNsList fuel.
Definition xmlHasProp := Body.xmlHasProp fuel.
Definition xmlHasNsProp := Body.xmlHasNsProp fuel.
Definition xmlNodeAddContent := Body.xmlNodeAddContent (tie fuel).
Definition xmlNodeAddContentLen := Body.xmlNodeAddContentLen fuel (tie fuel).
Definition xmlAddChild := Body.xmlAddChild fuel (tie fuel).
Definition xmlTextMerge := Body.xmlTextMerge fuel (tie fuel).
Definition xmlNodeSetContent := Body.xmlNodeSetContent fuel (tie fuel).
Definition xmlAddNextSibling := Body.xmlAddNextSibling fuel (tie fuel).
Definition xmlAddPrevSibling := Body.xmlAddPrevSibling fuel (tie fuel).
Definition xmlAddSibling := Body.xmlAddSibling fuel (tie fuel).
Definition xmlAddChildList := Body.xmlAddChildList fuel (tie fuel).
Definition xmlStringLenGetNodeList := Body.xmlStringLenGetNodeList fuel (tie fuel).
Definition xmlStringGetNodeList := Body.xmlStringGetNodeList fuel (tie fuel).
Definition xmlNodeListGetString := Body.xmlNodeListGetString fuel (tie fuel).
End Api.

(** ** Creating attributes *)

Definition xmlNewDocProp `{Externals} (fuel : nat) (doc : option ptr)
  (name value : option xmlStr) : M (option ptr) :=
  match name with
  | None => mret None
  | Some _ =>
      (* Allocate a new property and fill the fields. *)
      cur ← alloc (zero_node XML_ATTRIBUTE_NODE);
      dict ← dict_of_doc doc;
      (if bool_decide (doc <> None) && bool_decide (dict <> None) then
         n ← xmlDictLookup dict name; wr cur (set_name n)
       else
         n ← xmlStrdup name; wr cur (set_name n));;
      wr cur (set_doc doc);;
      when (bool_decide (value <> None))
        (ch ← xmlStringGetNodeList fuel doc value;
         wr cur (set_children ch);;
         wr cur (set_last None);;
         tmp ← rd cur n_children;
         loop fuel (fun tmp =>
           match tmp with
           | None => break tt
           | Some t =>
               wr t (set_parent (Some cur));;
               nx ← rd t n_next;
               when (bool_decide (nx = None)) (wr cur (set_last tmp));;
               nx ← rd t n_next;
               continue nx
           end) tmp);;
      mret (Some cur)
  end.

(** ** Namespaces (tree.c, xmlNewNs to xmlNewReconciliedNs) *)

(** Modelled from the spec: tree.h is not among the sources; the href
    of the reserved namespace, to which the prefix xml is bound. *)
Definition XML_XML_NAMESPACE : xmlStr :=
  BAD_CAST "http://www.w3.org/XML/1998/namespace".

(** The test that [xmlNewNs] makes on every declaration of the node:
    both prefixes NULL, or equal. *)
Definition same_prefix (a b : option xmlCharPtr) : bool :=
  (bool_decide (a = None) && bool_decide (b = None)) || xmlStrEqual (chars a) (chars b).

Definition xmlNewNs (fuel : nat) (node : option ptr) (href prefix : option xmlStr)
  : M (option ptr) :=
  wrong_kind ←
    match node with
    | Some n => ty ← rd n n_type; mret (negb (bool_decide (ty = XML_ELEMENT_NODE)))
    | None => mret false
    end;
  if wrong_kind : bool then mret None else
  if bool_decide (prefix <> None) && xmlStrEqual prefix (Some (BAD_CAST "xml"))
  then mret None else
  (* Allocate a new Namespace and fill the fields. *)
  cur ← alloc_ns zero_ns;
  wr_ns cur (set_ns_type XML_LOCAL_NAMESPACE);;
  when (bool_decide (href <> None)) (h ← xmlStrdup href; wr_ns cur (set_ns_href h));;
  when (bool_decide (prefix <> None)) (p ← xmlStrdup prefix; wr_ns cur (set_ns_prefix p));;
  (* Add it at the end to preserve parsing order ... and checks for
     existing use of the prefix *)
  match node with
  | Some n =>
      nd ← rd n n_nsDef;
      match nd with
      | None => wr n (set_nsDef (Some cur));; mret (Some cur)
      | Some prev =>
          pp ← rd_ns prev ns_prefix;
          cp ← rd_ns cur ns_prefix;
          if same_prefix pp cp then xmlFreeNs (Some cur);; mret None
          else
            r ← loop fuel (fun prev =>
              nx ← rd_ns prev ns_next;
              match nx with
              | None => break (Some prev)
              | Some prev =>
                  pp ← rd_ns prev ns_prefix;
                  cp ← rd_ns cur ns_prefix;
                  if same_prefix pp cp then xmlFreeNs (Some cur);; break None
                  else continue prev
              end) prev;
            match r with
            | None => mret None
            | Some prev => wr_ns prev (set_ns_next (Some cur));; mret (Some cur)
            end
      end
  | None => mret (Some cur)
  end.

(** The declaration of the reserved prefix that [xmlSearchNs] and
    [xmlSearchNsByHref] make up when they are asked for it. *)
Definition xml_namespace (doc : option ptr) (n0 : ptr) : M (option ptr) :=
  on_node ←
    (if bool_decide (doc = None) then
       ty ← rd n0 n_type; mret (bool_decide (ty = XML_ELEMENT_NODE))
     else mret false);
  if on_node : bool then
    (* The XML-1.0 namespace is normally held on the root element. In
       this case exceptionally create it on the node element. *)
    cur ← alloc_ns zero_ns;
    wr_ns cur (set_ns_type XML_LOCAL_NAMESPACE);;
    h ← xmlStrdup (Some XML_XML_NAMESPACE);
    wr_ns cur (set_ns_href h);;
    p ← xmlStrdup (Some (BAD_CAST "xml"));
    wr_ns cur (set_ns_prefix p);;
    nd ← rd n0 n_nsDef;
    wr_ns cur (set_ns_next nd);;
    wr n0 (set_nsDef (Some cur));;
    mret (Some cur)
  else
    match doc with
    | None => crash
    | Some d =>
        o ← rd d n_oldNs;
        when (bool_decide (o = None))
          ((* Allocate a new Namespace and fill the fields. *)
           cur ← alloc_ns zero_ns;
           wr d (set_oldNs (Some cur));;
           wr_ns cur (set_ns_type XML_LOCAL_NAMESPACE);;
           h ← xmlStrdup (Some XML_XML_NAMESPACE);
           wr_ns cur (set_ns_href h);;
           p ← xmlStrdup (Some (BAD_CAST "xml"));
           wr_ns cur (set_ns_prefix p));;
        rd d n_oldNs
    end.

Definition is_entity_kind (ty : xmlElementType) : bool :=
  bool_decide (ty = XML_ENTITY_REF_NODE) || bool_decide (ty = XML_ENTITY_NODE)
  || bool_decide (ty = XML_ENTITY_DECL).

(** The two tests that [xmlSearchNs] makes on a declaration [cur]. *)
Definition prefix_matches (cur : xmlNs) (nameSpace : option xmlStr) : bool :=
  (bool_decide (ns_prefix cur = None) && bool_decide (nameSpace = None) &&
   bool_decide (ns_href cur <> None))
  || (bool_decide (ns_prefix cur <> None) && bool_decide (nameSpace <> None) &&
      bool_decide (ns_href cur <> None) &&
      xmlStrEqual (chars (ns_prefix cur)) nameSpace).

Definition xmlSearchNs (fuel : nat) (doc node : option ptr) (nameSpace : option xmlStr)
  : M (option ptr) :=
  let orig := node in
  match node with
  | None => mret None
  | Some n0 =>
      if bool_decide (nameSpace <> None) && xmlStrEqual nameSpace (Some (BAD_CAST "xml"))
      then xml_namespace doc n0
      else
        loop fuel (fun node =>
          match node with
          | None => break None
          | Some n =>
              ty ← rd n n_type;
              if is_entity_kind ty then break None else
              found ←
                (if bool_decide (ty = XML_ELEMENT_NODE) then
                   cur ← rd n n_nsDef;
                   found ← loop fuel (fun cur =>
                     match cur with
                     | None => break None
                     | Some c =>
                         cd ← load_ns c;
                         if prefix_matches cd nameSpace then break cur
                         else continue (ns_next cd)
                     end) cur;
                   match found with
                   | Some _ => mret found
                   | None =>
                       if negb (ptr_eqb orig node) then
                         cur ← rd n n_ns;
                         match cur with
                         | Some c =>
                             cd ← load_ns c;
                             if prefix_matches cd nameSpace then mret cur else mret None
                         | None => mret None
                         end
                       else mret None
                   end
                 else mret None);
              match found with
              | Some _ => break found
              | None => p ← rd n n_parent; continue p
              end
          end) node
  end.

Definition xmlNsInScope (fuel : nat) (doc node ancestor : option ptr)
  (prefix : option xmlCharPtr) : M Z :=
  r ← loop fuel (fun node =>
    match node with
    | None => break (inl node)
    | Some n =>
        if ptr_eqb node ancestor then break (inl node) else
        ty ← rd n n_type;
        if is_entity_kind ty then break (inr (-1)) else
        shadowed ←
          (if bool_decide (ty = XML_ELEMENT_NODE) then
             tst ← rd n n_nsDef;
             loop fuel (fun tst =>
               match tst with
               | None => break false
               | Some t =>
                   tp ← rd_ns t ns_prefix;
                   if bool_decide (tp = None) && bool_decide (prefix = None)
                   then break true
                   else if bool_decide (tp <> None) && bool_decide (prefix <> None) &&
                           xmlStrEqual (chars tp) (chars prefix)
                   then break true
                   else nx ← rd_ns t ns_next; continue nx
               end) tst
           else mret false);
        if shadowed : bool then break (inr 0)
        else p ← rd n n_parent; continue p
    end) node;
  match r with
  | inr z => mret z
  | inl node => if negb (ptr_eqb node ancestor) then mret (-1) else mret 1
  end.

(** The test that [xmlSearchNsByHref] makes on a declaration [cur]
    found on [node]. *)
Definition href_matches (fuel : nat) (doc orig node : option ptr) (is_attr : bool)
  (href : option xmlStr) (cur : ptr) : M bool :=
  h ← rd_ns cur ns_href;
  if bool_decide (h <> None) && bool_decide (href <> None) && xmlStrEqual (chars h) href
  then
    p ← rd_ns cur ns_prefix;
    if negb is_attr || bool_decide (p <> None) then
      p ← rd_ns cur ns_prefix;
      sc ← xmlNsInScope fuel doc orig node p;
      mret (bool_decide (sc = 1))
    else mret false
  else mret false.

Definition xmlSearchNsByHref (fuel : nat) (doc node : option ptr) (href : option xmlStr)
  : M (option ptr) :=
  let orig := node in
  match node, href with
  | Some n0, Some _ =>
      if xmlStrEqual href (Some XML_XML_NAMESPACE)
      then
        (* Only the document can hold the XML spec namespace. *)
        xml_namespace doc n0
      else
        ty0 ← rd n0 n_type;
        let is_attr := bool_decide (ty0 = XML_ATTRIBUTE_NODE) in
        loop fuel (fun node =>
          match node with
          | None => break None
          | Some n =>
              ty ← rd n n_type;
              if is_entity_kind ty then break None else
              found ←
                (if bool_decide (ty = XML_ELEMENT_NODE) then
                   cur ← rd n n_nsDef;
                   found ← loop fuel (fun cur =>
                     match cur with
                     | None => break None
                     | Some c =>
                         hit ← href_matches fuel doc orig node is_attr href c;
                         if hit : bool then break cur
                         else nx ← rd_ns c ns_next; continue nx
                     end) cur;
                   match found with
                   | Some _ => mret found
                   | None =>
                       if negb (ptr_eqb orig node) then
                         cur ← rd n n_ns;
                         match cur with
                         | Some c =>
                             hit ← href_matches fuel doc orig node is_attr href c;
                             if hit : bool then mret cur else mret None
                         | None => mret None
                         end
                       else mret None
                   end
                 else mret None);
              match found with
              | Some _ => break found
              | None => p ← rd n n_parent; continue p
              end
          end) node
  | _, _ => mret None
  end.

(** [snprintf(prefix, sizeof(prefix), "%d", n)]. *)
Definition decimal (n : Z) : xmlStr := BAD_CAST (NilZero.string_of_int (Z.to_int n)).

(** [snprintf(prefix, sizeof(prefix), "%.20s", ns->prefix)] and
    ["default"]: the prefix stripped to 20 characters. *)
Definition base_prefix (p : option xmlCharPtr) : xmlStr :=
  match p with
  | None => BAD_CAST "default"
  | Some x => take 20 (str_chars x)
  end.

(** The prefix that [xmlNewReconciliedNs] probes after [i] rounds of
    its loop: the stripped prefix, then the stripped prefix followed by
    the counter. *)
Definition probe (base : xmlStr) (i : Z) : xmlStr :=
  if bool_decide (i = 0) then base else base ++ decimal i.

Definition xmlNewReconciliedNs (fuel : nat) (doc tree ns : option ptr) : M (option ptr) :=
  match tree with
  | None => mret None
  | Some _ =>
      match ns with
      | None => mret None
      | Some n =>
          ty ← rd_ns n ns_type;
          if negb (bool_decide (ty = XML_NAMESPACE_DECL)) then mret None else
          (* Search an existing namespace definition inherited. *)
          h ← rd_ns n ns_href;
          def ← xmlSearchNsByHref fuel doc tree (chars h);
          if bool_decide (def <> None) then mret def else
          (* Find a close prefix which is not already in use. Let's
             strip namespace prefixes longer than 20 chars ! *)
          np ← rd_ns n ns_prefix;
          let prefix := base_prefix np in
          def ← xmlSearchNs fuel doc tree (Some prefix);
          r ← loop fuel (fun '(def, prefix, counter) =>
            if bool_decide (def <> None) then
              if bool_decide (counter > 1000) then break None else
              np ← rd_ns n ns_prefix;
              let prefix := base_prefix np ++ decimal counter in
              let counter := wrap_int (counter + 1) in
              def ← xmlSearchNs fuel doc tree (Some prefix);
              continue (def, prefix, counter)
            else break (Some prefix)) (def, prefix, 1);
          match r with
          | None => mret None
          | Some prefix =>
              (* OK, now we are ready to create a new one. *)
              h ← rd_ns n ns_href;
              xmlNewNs fuel tree (chars h) (Some prefix)
          end
      end
  end.

(** ** Buffers (tree.c, xmlBufferCreate to xmlBufferWriteChar) *)

(** [size_t] is taken to be 64 bits wide, [intptr_t] its signed
    counterpart. *)
Definition size_bits : Z := 64.
Definition wrap_size (z : Z) : Z := z mod 2 ^ size_bits.
Definition wrap_intptr (z : Z) : Z :=
  (z + 2 ^ (size_bits - 1)) mod 2 ^ size_bits - 2 ^ (size_bits - 1).

(** The byte found in memory that has not been written yet. *)
Definition uninit : xmlChar := 205.

(** The block of the string literal [""]. *)
Definition empty_literal : bptr := mkPtr 1 0.

Definition load_buf (p : ptr) : M xmlBuffer := fun s =>
  match bufs s !! p with
  | Some b => Ok b s
  | None => Crash
  end.

Definition rd_buf {A} (p : ptr) (f : xmlBuffer -> A) : M A := b ← load_buf p; mret (f b).

Definition wr_buf (p : ptr) (upd : xmlBuffer -> xmlBuffer) : M unit := fun s =>
  match bufs s !! p with
  | Some b => Ok tt (set_bufs (<[p := upd b]> (bufs s)) s)
  | None => Crash
  end.

Definition alloc_buf (b : xmlBuffer) : M ptr := fun s =>
  let p := fresh (dom (bufs s)) in
  Ok p (set_bufs (<[p := b]> (bufs s)) s).

Definition free_buf (p : ptr) : M unit := fun s =>
  match bufs s !! p with
  | Some _ => Ok tt (set_bufs (delete p (bufs s)) s)
  | None => Crash
  end.

(** [xmlMallocAtomic(n)]: a new block of [n] bytes. *)
Definition xmlMallocAtomic (n : Z) : M (option bptr) := fun s =>
  let b := fresh (dom (mem s)) in
  Ok (Some (mkPtr b 0)) (set_mem (<[b := replicate (Z.to_nat n) uninit]> (mem s)) s).

(** [xmlFree] of a block: the pointer must be the start of a live block. *)
Definition xmlFree_mem (p : bptr) : M unit := fun s =>
  match mem s !! blk p with
  | Some _ =>
      if bool_decide (off p = 0) then Ok tt (set_mem (delete (blk p) (mem s)) s)
      else Crash
  | None => Crash
  end.

(** Reading [n] bytes at [p]; reading outside the block is undefined. *)
Definition mem_load (p : bptr) (n : Z) : M (list xmlChar) := fun s =>
  match mem s !! blk p with
  | Some bs =>
      if bool_decide (0 <= off p) && bool_decide (0 <= n) &&
         bool_decide (off p + n <= Z.of_nat (length bs))
      then Ok (take (Z.to_nat n) (drop (Z.to_nat (off p)) bs)) s
      else Crash
  | None => Crash
  end.

(** Writing the bytes [d] at [p]; writing outside the block is undefined. *)
Definition mem_store (p : bptr) (d : list xmlChar) : M unit := fun s =>
  match mem s !! blk p with
  | Some bs =>
      if bool_decide (0 <= off p) &&
         bool_decide (off p + Z.of_nat (length d) <= Z.of_nat (length bs))
      then
        let o := Z.to_nat (off p) in
        Ok tt (set_mem (<[blk p := take o bs ++ d ++ drop (o + length d) bs]> (mem s)) s)
      else Crash
  | None => Crash
  end.

(** [xmlRealloc(p, n)]: the bytes move to a new block of [n] bytes. *)
Definition xmlRealloc (p : bptr) (n : Z) : M (option bptr) := fun s =>
  match mem s !! blk p with
  | Some bs =>
      if bool_decide (off p = 0) then
        let m := delete (blk p) (mem s) in
        let b := fresh (dom m) in
        let k := Z.to_nat n in
        Ok (Some (mkPtr b 0))
           (set_mem (<[b := take k bs ++ replicate (k - length bs) uninit]> m) s)
      else Crash
  | None => Crash
  end.

(** [p + n] on a possibly NULL pointer; arithmetic on NULL is undefined. *)
Definition ptr_add (p : option bptr) (n : Z) : M bptr :=
  match p with
  | Some q => mret (mkPtr (blk q) (off q + n))
  | None => crash
  end.

(** The [len] bytes that [memmove] reads from the C string [str]: the
    string and its terminating zero are readable, nothing behind them. *)
Definition src_bytes (str : xmlStr) (len : Z) : M (list xmlChar) :=
  if bool_decide (0 <= len) && bool_decide (len <= Z.of_nat (length str) + 1)
  then mret (take (Z.to_nat len) (str ++ [0]))
  else crash.

Section Buffers.
Context `{Externals}.

Definition xmlSetBufferAllocationScheme (sc : xmlBufferAllocationScheme) : M unit :=
  fun s => Ok tt (set_scheme sc s).

Definition xmlGetBufferAllocationScheme : M xmlBufferAllocationScheme :=
  fun s => Ok (scheme s) s.

Definition xmlBufferCreate : M (option ptr) :=
  ret ← alloc_buf (mkBuffer None 0 0 XML_BUFFER_ALLOC_DOUBLEIT);
  wr_buf ret (set_b_use 0);;
  wr_buf ret (set_b_size (wrap_size xmlDefaultBufferSize));;
  sc ← xmlGetBufferAllocationScheme;
  wr_buf ret (set_b_alloc sc);;
  sz ← rd_buf ret b_size;
  c ← xmlMallocAtomic sz;
  wr_buf ret (set_b_content c);;
  p ← ptr_add c 0;
  mem_store p [0];;
  mret (Some ret).

Definition xmlBufferCreateSize (size : Z) : M (option ptr) :=
  ret ← alloc_buf (mkBuffer None 0 0 XML_BUFFER_ALLOC_DOUBLEIT);
  wr_buf ret (set_b_use 0);;
  sc ← xmlGetBufferAllocationScheme;
  wr_buf ret (set_b_alloc sc);;
  (* +1 for ending null *)
  wr_buf ret (set_b_size (if bool_decide (size <> 0) then wrap_size (size + 2) else 0));;
  sz ← rd_buf ret b_size;
  (if bool_decide (sz <> 0) then
     c ← xmlMallocAtomic sz;
     wr_buf ret (set_b_content c);;
     p ← ptr_add c 0;
     mem_store p [0]
   else wr_buf ret (set_b_content None));;
  mret (Some ret).

Definition xmlBufferCreateStatic (m : option bptr) (size : Z) : M (option ptr) :=
  if bool_decide (m = None) || bool_decide (size = 0) then mret None else
  ret ← alloc_buf (mkBuffer None 0 0 XML_BUFFER_ALLOC_DOUBLEIT);
  wr_buf ret (set_b_use size);;
  wr_buf ret (set_b_size size);;
  wr_buf ret (set_b_alloc XML_BUFFER_ALLOC_IMMUTABLE);;
  wr_buf ret (set_b_content m);;
  mret (Some ret).

Definition xmlBufferSetAllocationScheme (buf : option ptr)
  (sc : xmlBufferAllocationScheme) : M unit :=
  match buf with
  | None => skip
  | Some b =>
      a ← rd_buf b b_alloc;
      if bool_decide (a = XML_BUFFER_ALLOC_IMMUTABLE) then skip
      else wr_buf b (set_b_alloc sc)
  end.

Definition xmlBufferFree (buf : option ptr) : M unit :=
  match buf with
  | None => skip
  | Some b =>
      c ← rd_buf b b_content;
      a ← rd_buf b b_alloc;
      match c with
      | Some p => when (negb (bool_decide (a = XML_BUFFER_ALLOC_IMMUTABLE))) (xmlFree_mem p)
      | None => skip
      end;;
      free_buf b
  end.

Definition xmlBufferEmpty (buf : option ptr) : M unit :=
  match buf with
  | None => skip
  | Some b =>
      c ← rd_buf b b_content;
      match c with
      | None => skip
      | Some _ =>
          wr_buf b (set_b_use 0);;
          a ← rd_buf b b_alloc;
          if bool_decide (a = XML_BUFFER_ALLOC_IMMUTABLE) then
            wr_buf b (set_b_content (Some empty_literal))
          else
            c ← rd_buf b b_content;
            sz ← rd_buf b b_size;
            p ← ptr_add c 0;
            mem_store p (replicate (Z.to_nat sz) 0)
      end
  end.

Definition xmlBufferShrink (buf : option ptr) (len : Z) : M Z :=
  match buf with
  | None => mret (-1)
  | Some b =>
      if bool_decide (len = 0) then mret 0 else
      u ← rd_buf b b_use;
      if bool_decide (len > u) then mret (-1) else
      wr_buf b (set_b_use (wrap_size (u - len)));;
      a ← rd_buf b b_alloc;
      (if bool_decide (a = XML_BUFFER_ALLOC_IMMUTABLE) then
         c ← rd_buf b b_content;
         p ← ptr_add c len;
         wr_buf b (set_b_content (Some p))
       else
         c ← rd_buf b b_content;
         u ← rd_buf b b_use;
         src ← ptr_add c len;
         d ← mem_load src u;
         dst ← ptr_add c 0;
         mem_store dst d;;
         c ← rd_buf b b_content;
         u ← rd_buf b b_use;
         p ← ptr_add c u;
         mem_store p [0]);;
      mret (wrap_intptr len)
  end.

Definition xmlBufferGrow (buf : option ptr) (len : Z) : M Z :=
  match buf with
  | None => mret (-1)
  | Some b =>
      a ← rd_buf b b_alloc;
      if bool_decide (a = XML_BUFFER_ALLOC_IMMUTABLE) then mret 0 else
      u ← rd_buf b b_use;
      sz ← rd_buf b b_size;
      if bool_decide (wrap_size (len + u) < sz) then mret 0 else
      (* Windows has a BIG problem on realloc timing, so we try to
         double the buffer size (if that's enough) (bug 146697) *)
      let size :=
        if WIN32 then
          if bool_decide (sz > len) then wrap_intptr (wrap_size (sz * 2))
          else wrap_intptr (wrap_size (u + len + 100))
        else wrap_intptr (wrap_size (u + len + 100)) in
      c ← rd_buf b b_content;
      newbuf ← match c with
               | Some p => xmlRealloc p (wrap_size size)
               | None => xmlMallocAtomic (wrap_size size)
               end;
      wr_buf b (set_b_content newbuf);;
      wr_buf b (set_b_size (wrap_size size));;
      sz ← rd_buf b b_size;
      u ← rd_buf b b_use;
      mret (wrap_intptr (wrap_size (sz - u)))
  end.

Definition xmlBufferContent (buf : option ptr) : M (option bptr) :=
  match buf with
  | None => mret None
  | Some b => rd_buf b b_content
  end.

Definition xmlBufferLength (buf : option ptr) : M Z :=
  match buf with
  | None => mret 0
  | Some b => rd_buf b b_use
  end.

Definition xmlBufferResize (fuel : nat) (buf : option ptr) (size : Z) : M Z :=
  match buf with
  | None => mret 0
  | Some b =>
      a ← rd_buf b b_alloc;
      if bool_decide (a = XML_BUFFER_ALLOC_IMMUTABLE) then mret 0 else
      (* Don't resize if we don't have to *)
      sz ← rd_buf b b_size;
      if bool_decide (size < sz) then mret 1 else
      (* figure out new size *)
      a ← rd_buf b b_alloc;
      newSize ←
        match a with
        | XML_BUFFER_ALLOC_DOUBLEIT =>
            (* take care of empty case *)
            sz ← rd_buf b b_size;
            let newSize := if bool_decide (sz <> 0) then wrap_size (sz * 2)
                           else wrap_size (size + 10) in
            loop fuel (fun newSize =>
              if bool_decide (size > newSize) then continue (wrap_size (newSize * 2))
              else break newSize) newSize
        | XML_BUFFER_ALLOC_EXACT => mret (wrap_size (size + 10))
        | _ => mret (wrap_size (size + 10))
        end;
      c ← rd_buf b b_content;
      sz ← rd_buf b b_size;
      u ← rd_buf b b_use;
      rebuf ←
        match c with
        | None => xmlMallocAtomic newSize
        | Some p =>
            if bool_decide (wrap_size (sz - u) < 100) then xmlRealloc p newSize
            else
              (* if we are reallocating a buffer far from being full,
                 it's better to make a new allocation and copy only
                 the used range and free the old one. *)
              rebuf ← xmlMallocAtomic newSize;
              dst ← ptr_add rebuf 0;
              d ← mem_load p u;
              mem_store dst d;;
              xmlFree_mem p;;
              e ← ptr_add rebuf u;
              mem_store e [0];;
              mret rebuf
        end;
      wr_buf b (set_b_content rebuf);;
      wr_buf b (set_b_size newSize);;
      mret 1
  end.

(** [XML_ERR_NO_MEMORY] is 2 in xmlerror.h; with an [xmlMalloc] that
    never fails [xmlBufferResize] only returns 0 on a buffer that is
    NULL or immutable. *)
Definition XML_ERR_NO_MEMORY_code : Z := 2.

Definition xmlBufferAdd (fuel : nat) (buf : option ptr) (str : option xmlStr) (len : Z)
  : M Z :=
  match str, buf with
  | Some st, Some b =>
      a ← rd_buf b b_alloc;
      if bool_decide (a = XML_BUFFER_ALLOC_IMMUTABLE) then mret (-1) else
      if bool_decide (len < -1) then mret (-1) else
      if bool_decide (len = 0) then mret 0 else
      let len := if bool_decide (len < 0) then xmlStrlen str else len in
      if bool_decide (len <= 0) then mret (-1) else
      u ← rd_buf b b_use;
      let needSize := wrap_size (u + len + 2) in
      sz ← rd_buf b b_size;
      ok ← (if bool_decide (needSize > sz) then xmlBufferResize fuel buf needSize
            else mret 1);
      if bool_decide (ok = 0) then
        xmlTreeErr XML_ERR_NO_MEMORY (Some (BAD_CAST "growing buffer"));;
        mret XML_ERR_NO_MEMORY_code
      else
        c ← rd_buf b b_content;
        u ← rd_buf b b_use;
        dst ← ptr_add c u;
        d ← src_bytes st len;
        mem_store dst d;;
        u ← rd_buf b b_use;
        wr_buf b (set_b_use (wrap_size (u + len)));;
        c ← rd_buf b b_content;
        u ← rd_buf b b_use;
        e ← ptr_add c u;
        mem_store e [0];;
        mret 0
  | _, _ => mret (-1)
  end.

Definition xmlBufferAddHead (fuel : nat) (buf : option ptr) (str : option xmlStr)
  (len : Z) : M Z :=
  match buf with
  | None => mret (-1)
  | Some b =>
      a ← rd_buf b b_alloc;
      if bool_decide (a = XML_BUFFER_ALLOC_IMMUTABLE) then mret (-1) else
      match str with
      | None => mret (-1)
      | Some st =>
          if bool_decide (len < -1) then mret (-1) else
          if bool_decide (len = 0) then mret 0 else
          let len := if bool_decide (len < 0) then xmlStrlen str else len in
          if bool_decide (len <= 0) then mret (-1) else
          u ← rd_buf b b_use;
          let needSize := wrap_size (u + len + 2) in
          sz ← rd_buf b b_size;
          ok ← (if bool_decide (needSize > sz) then xmlBufferResize fuel buf needSize
                else mret 1);
          if bool_decide (ok = 0) then
            xmlTreeErr XML_ERR_NO_MEMORY (Some (BAD_CAST "growing buffer"));;
            mret XML_ERR_NO_MEMORY_code
          else
            c ← rd_buf b b_content;
            u ← rd_buf b b_use;
            dst ← ptr_add c len;
            src ← ptr_add c 0;
            d ← mem_load src u;
            mem_store dst d;;
            c ← rd_buf b b_content;
            dst ← ptr_add c 0;
            d ← src_bytes st len;
            mem_store dst d;;
            u ← rd_buf b b_use;
            wr_buf b (set_b_use (wrap_size (u + len)));;
            c ← rd_buf b b_content;
            u ← rd_buf b b_use;
            e ← ptr_add c u;
            mem_store e [0];;
            mret 0
      end
  end.

Definition xmlBufferCat (fuel : nat) (buf : option ptr) (str : option xmlStr) : M Z :=
  match buf with
  | None => mret (-1)
  | Some b =>
      a ← rd_buf b b_alloc;
      if bool_decide (a = XML_BUFFER_ALLOC_IMMUTABLE) then mret (-1) else
      match str with
      | None => mret (-1)
      | Some _ => xmlBufferAdd fuel buf str (-1)
      end
  end.

(** The [for] loop of [xmlBufferCCat] over the characters of [str];
    [inr] is the early return. *)
Fixpoint xmlBufferCCat_loop (fuel : nat) (buf : option ptr) (b : ptr) (str : xmlStr)
  : M (unit + Z) :=
  match str with
  | [] => mret (inl tt)
  | ch :: rest =>
      u ← rd_buf b b_use;
      sz ← rd_buf b b_size;
      ok ← (if bool_decide (wrap_size (u + 10) >= sz)
            then xmlBufferResize fuel buf (wrap_size (u + 10))
            else mret 1);
      if bool_decide (ok = 0) then
        xmlTreeErr XML_ERR_NO_MEMORY (Some (BAD_CAST "growing buffer"));;
        mret (inr XML_ERR_NO_MEMORY_code)
      else
        c ← rd_buf b b_content;
        u ← rd_buf b b_use;
        wr_buf b (set_b_use (wrap_size (u + 1)));;
        p ← ptr_add c u;
        mem_store p [ch];;
        xmlBufferCCat_loop fuel buf b rest
  end.

Definition xmlBufferCCat (fuel : nat) (buf : option ptr) (str : option xmlStr) : M Z :=
  match buf with
  | None => mret (-1)
  | Some b =>
      a ← rd_buf b b_alloc;
      if bool_decide (a = XML_BUFFER_ALLOC_IMMUTABLE) then mret (-1) else
      match str with
      | None => mret (-1)
      | Some st =>
          r ← xmlBufferCCat_loop fuel buf b st;
          match r with
          | inr e => mret e
          | inl _ =>
              c ← rd_buf b b_content;
              u ← rd_buf b b_use;
              p ← ptr_add c u;
              mem_store p [0];;
              mret 0
          end
      end
  end.

Definition xmlBufferWriteCHAR (fuel : nat) (buf : option ptr) (str : option xmlStr)
  : M unit :=
  match buf with
  | None => skip
  | Some b =>
      a ← rd_buf b b_alloc;
      if bool_decide (a = XML_BUFFER_ALLOC_IMMUTABLE) then skip
      else xmlBufferCat fuel buf str;; skip
  end.

Definition xmlBufferWriteChar (fuel : nat) (buf : option ptr) (str : option xmlStr)
  : M unit :=
  match buf with
  | None => skip
  | Some b =>
      a ← rd_buf b b_alloc;
      if bool_decide (a = XML_BUFFER_ALLOC_IMMUTABLE) then skip
      else xmlBufferCCat fuel buf str;; skip
  end.
End Buffers.

(** The cell that [xmlNewDocText] and [xmlNewDocTextLen] make. *)
Definition text_cell (doc : option ptr) (content : option xmlCharPtr) : xmlNode :=
  set_doc doc (set_content content (set_name (Some xmlStringText) (zero_node XML_TEXT_NODE))).

(** ** Reading the content of a node (tree.c, xmlNodeBufGetContent and
    xmlNodeGetContent) *)

(** The [do ... while (tmp != NULL)] loop of [xmlNodeBufGetContent]
    that climbs from [tmp] to the next node of the walk below [cur]:
    the result is the new [tmp]. *)
Definition next_in_walk (fuel : nat) (cur : option ptr) (tmp : ptr) : M (option ptr) :=
  loop fuel (fun tmp : ptr =>
    p ← rd tmp n_parent;
    match p with
    | None => break None
    | Some pp =>
        if ptr_eqb p cur then break None else
        nx ← rd pp n_next;
        if bool_decide (nx <> None) then break nx
        else continue pp
    end) tmp.

Fixpoint xmlNodeBufGetContent `{Externals} (fuel : nat) (buffer cur : option ptr) : M Z :=
  match fuel with
  | O => timeout
  | Datatypes.S n =>
      match cur, buffer with
      | Some c, Some _ =>
          ty ← rd c n_type;
          match ty with
          | XML_CDATA_SECTION_NODE | XML_TEXT_NODE =>
              ct ← rd c n_content;
              xmlBufferCat fuel buffer (chars ct);;
              mret 0
          | XML_DOCUMENT_FRAG_NODE | XML_ELEMENT_NODE =>
              loop fuel (fun tmp =>
                match tmp with
                | None => break tt
                | Some t =>
                    tty ← rd t n_type;
                    match tty with
                    | XML_CDATA_SECTION_NODE | XML_TEXT_NODE =>
                        ct ← rd t n_content;
                        when (bool_decide (ct <> None))
                          (xmlBufferCat fuel buffer (chars ct);; skip)
                    | XML_ENTITY_REF_NODE =>
                        ch ← rd t n_children;
                        xmlNodeBufGetContent n buffer ch;; skip
                    | _ => skip
                    end;;
                    (* Skip to next node *)
                    ch ← rd t n_children;
                    descend ←
                      match ch with
                      | Some k =>
                          kty ← rd k n_type;
                          mret (negb (bool_decide (kty = XML_ENTITY_DECL)))
                      | None => mret false
                      end;
                    if descend : bool then continue ch else
                    if ptr_eqb tmp cur then break tt else
                    nx ← rd t n_next;
                    if bool_decide (nx <> None) then continue nx else
                    tmp ← next_in_walk fuel cur t;
                    continue tmp
                end) cur;;
              mret 0
          | XML_ATTRIBUTE_NODE =>
              tmp ← rd c n_children;
              loop fuel (fun tmp =>
                match tmp with
                | None => break tt
                | Some t =>
                    tty ← rd t n_type;
                    (if bool_decide (tty = XML_TEXT_NODE) then
                       ct ← rd t n_content;
                       xmlBufferCat fuel buffer (chars ct);; skip
                     else xmlNodeBufGetContent n buffer tmp;; skip);;
                    nx ← rd t n_next;
                    continue nx
                end) tmp;;
              mret 0
          | XML_COMMENT_NODE | XML_PI_NODE =>
              ct ← rd c n_content;
              xmlBufferCat fuel buffer (chars ct);;
              mret 0
          | XML_ENTITY_REF_NODE =>
              (* lookup entity declaration *)
              doc ← rd c n_doc;
              nm ← rd c n_name;
              ent ← xmlGetDocEntity doc (chars nm);
              match ent with
              | None => mret (-1)
              | Some e =>
                  tmp ← rd e n_children;
                  loop fuel (fun tmp =>
                    match tmp with
                    | None => break tt
                    | Some t =>
                        xmlNodeBufGetContent n buffer tmp;;
                        nx ← rd t n_next;
                        continue nx
                    end) tmp;;
                  mret 0
              end
          | XML_ENTITY_NODE | XML_DOCUMENT_TYPE_NODE | XML_NOTATION_NODE | XML_DTD_NODE
          | XML_XINCLUDE_START | XML_XINCLUDE_END => mret 0
          | XML_DOCUMENT_NODE | XML_DOCB_DOCUMENT_NODE | XML_HTML_DOCUMENT_NODE =>
              cur ← rd c n_children;
              loop fuel (fun cur =>
                match cur with
                | None => break tt
                | Some k =>
                    kty ← rd k n_type;
                    when (bool_decide (kty = XML_ELEMENT_NODE) ||
                          bool_decide (kty = XML_TEXT_NODE) ||
                          bool_decide (kty = XML_CDATA_SECTION_NODE))
                      (xmlNodeBufGetContent n buffer cur;; skip);;
                    nx ← rd k n_next;
                    continue nx
                end) cur;;
              mret 0
          | XML_NAMESPACE_DECL =>
              h ← rd_ns c ns_href;
              xmlBufferCat fuel buffer (chars h);;
              mret 0
          | XML_ELEMENT_DECL | XML_ATTRIBUTE_DECL | XML_ENTITY_DECL => mret 0
          end
      | _, _ => mret (-1)
      end
  end.

(** A C string that a function returns: a string of the string store
    or the bytes found at a pointer into a block of memory. *)
Inductive c_string :=
| in_store (p : xmlCharPtr)
| in_memory (p : bptr).

(** [ret = buffer->content; buffer->content = NULL; xmlBufferFree(buffer);
    return (ret)]. *)
Definition detach_content (buffer : option ptr) : M (option c_string) :=
  match buffer with
  | None => crash
  | Some b =>
      ret ← rd_buf b b_content;
      wr_buf b (set_b_content None);;
      xmlBufferFree buffer;;
      mret (in_memory <$> ret)
  end.

Definition xmlNodeGetContent `{Externals} (fuel : nat) (cur : option ptr)
  : M (option c_string) :=
  match cur with
  | None => mret None
  | Some c =>
      ty ← rd c n_type;
      match ty with
      | XML_DOCUMENT_FRAG_NODE | XML_ELEMENT_NODE =>
          buffer ← xmlBufferCreateSize 64;
          match buffer with
          | None => mret None
          | Some _ =>
              xmlNodeBufGetContent fuel buffer cur;;
              detach_content buffer
          end
      | XML_ATTRIBUTE_NODE =>
          p ← rd c n_parent;
          match p with
          | Some pp =>
              d ← rd pp n_doc;
              ch ← rd c n_children;
              r ← xmlNodeListGetString fuel d ch 1;
              mret (in_store <$> r)
          | None =>
              ch ← rd c n_children;
              r ← xmlNodeListGetString fuel None ch 1;
              mret (in_store <$> r)
          end
      | XML_COMMENT_NODE | XML_PI_NODE =>
          ct ← rd c n_content;
          if bool_decide (ct <> None) then
            r ← xmlStrdup (chars ct); mret (in_store <$> r)
          else mret None
      | XML_ENTITY_REF_NODE =>
          (* lookup entity declaration *)
          doc ← rd c n_doc;
          nm ← rd c n_name;
          ent ← xmlGetDocEntity doc (chars nm);
          match ent with
          | None => mret None
          | Some _ =>
              buffer ← xmlBufferCreate;
              match buffer with
              | None => mret None
              | Some _ =>
                  xmlNodeBufGetContent fuel buffer cur;;
                  detach_content buffer
              end
          end
      | XML_ENTITY_NODE | XML_DOCUMENT_TYPE_NODE | XML_NOTATION_NODE | XML_DTD_NODE
      | XML_XINCLUDE_START | XML_XINCLUDE_END => mret None
      | XML_DOCUMENT_NODE | XML_DOCB_DOCUMENT_NODE | XML_HTML_DOCUMENT_NODE =>
          buffer ← xmlBufferCreate;
          match buffer with
          | None => mret None
          | Some _ =>
              xmlNodeBufGetContent fuel buffer cur;;
              detach_content buffer
          end
      | XML_NAMESPACE_DECL =>
          h ← rd_ns c ns_href;
          tmp ← xmlStrdup (chars h);
          mret (in_store <$> tmp)
      | XML_ELEMENT_DECL | XML_ATTRIBUTE_DECL | XML_ENTITY_DECL => mret None
      | XML_CDATA_SECTION_NODE | XML_TEXT_NODE =>
          ct ← rd c n_content;
          if bool_decide (ct <> None) then
            r ← xmlStrdup (chars ct); mret (in_store <$> r)
          else mret None
      end
  end.

(** The characters before the first zero byte of [bs], if there is
    one. *)
Fixpoint until_zero (bs : list xmlChar) : option xmlStr :=
  match bs with
  | [] => None
  | c :: rest =>
      if bool_decide (c = 0) then Some []
      else r ← until_zero rest; Some (c :: r)
  end.

(** The C string found in memory at [p]; reading outside the block or
    past its end is undefined. *)
Definition string_at (s : state) (p : bptr) : option xmlStr :=
  match mem s !! blk p with
  | Some bs =>
      if bool_decide (0 <= off p) then until_zero (drop (Z.to_nat (off p)) bs)
      else None
  | None => None
  end.

(** The characters of a possibly NULL content. *)
Definition content_chars (n : xmlNode) : xmlStr := default [] (chars (n_content n)).

(** The characters of [v] from offset [q] to offset [cur]. *)
Definition pending (v : xmlStr) (q cur : Z) : xmlStr :=
  take (Z.to_nat (cur - q)) (drop (Z.to_nat q) v).

(** ** Reasoning about runs *)

(** [wp m Q s]: from [s] the computation [m] runs to completion,
    without undefined behaviour and within its fuel, and its value and
    final state satisfy [Q]. *)
Definition wp {A : Type} (m : M A) (Q : A -> state -> Prop) (s : state) : Prop :=
  match m s with
  | Ok a s' => Q a s'
  | Crash => False
  | Timeout => False
  end.

(** [rounds body k st s st' s']: from the loop state [st] and the
    state [s], [k] rounds of the loop body, none of which leaves the
    loop, lead to [st'] and [s']. *)
Inductive rounds {S A : Type} (body : S -> M (S + A))
  : nat -> S -> state -> S -> state -> Prop :=
| rounds_O st s : rounds body 0 st s st s
| rounds_S k st s st1 s1 st' s' :
    body st s = Ok (inl st1) s1 ->
    rounds body k st1 s1 st' s' ->
    rounds body (Datatypes.S k) st s st' s'.

(** A computation that leaves the state as it found it. *)
Definition readonly {A : Type} (m : M A) : Prop :=
  forall s a s', m s = Ok a s' -> s' = s.

(** A pointer that is NULL or the address of a live cell. *)
Definition live (s : state) (v : option ptr) : Prop :=
  forall x, v = Some x -> is_Some (nodes s !! x).

(** The invariant under which [xmlUnlinkNode] runs once it has dealt
    with the subsets of the document: the cells that were live in [s0]
    still are, the links of [cur] point to such cells, and the subset
    fields of [doc] hold [X] and [Y]. *)
Definition unlink_inv (s0 : state) (cur doc : ptr) (X Y : option ptr) (s : state) : Prop :=
  (forall p, is_Some (nodes s0 !! p) -> is_Some (nodes s !! p)) /\
  (exists c, nodes s !! cur = Some c /\
             live s0 (n_parent c) /\ live s0 (n_next c) /\ live s0 (n_prev c)) /\
  (exists d, nodes s !! doc = Some d /\ n_intSubset d = X /\ n_extSubset d = Y).

(** A field update that keeps [unlink_inv]. *)
Definition unlink_safe (s0 : state) (u : xmlNode -> xmlNode) : Prop :=
  forall n,
    n_intSubset (u n) = n_intSubset n /\ n_extSubset (u n) = n_extSubset n /\
    (live s0 (n_parent n) -> live s0 (n_parent (u n))) /\
    (live s0 (n_next n) -> live s0 (n_next (u n))) /\
    (live s0 (n_prev n) -> live s0 (n_prev (u n))).

Ltac sim :=
  unfold set_nodes, set_nss, set_bufs, set_mem, set_scheme, set_brk, set_errs in *;
  cbn [nodes nss bufs mem scheme brk errs] in *.

Ltac fld :=
  cbn [n_type n_name n_children n_last n_parent n_next n_prev n_doc n_ns n_content
       n_properties n_nsDef n_intSubset n_extSubset n_oldNs n_dict n_etype n_owner
       n_defaultValue zero_node
       set_type set_name set_children set_last set_parent set_next set_prev set_doc
       set_ns set_content set_properties set_nsDef set_intSubset set_extSubset
       set_oldNs set_owner
       ns_next ns_type ns_href ns_prefix set_ns_next set_ns_type set_ns_href
       set_ns_prefix zero_ns
       b_content b_use b_size b_alloc set_b_content set_b_use set_b_size set_b_alloc
       text_cell str_ptr_eqb str_addr str_chars
       xmlStringText xmlStringTextNoenc xmlStringComment
       chars fmap option_fmap option_map content_chars default from_option]
    in *.

(** ** Scenarios *)

(** [a = xmlNewText(x); xmlAddChild(p, a); b = xmlNewText(y);
    r = xmlAddChild(p, b)]. *)
Definition add_two_texts `{Externals} (fuel : nat) (p : ptr) (x y : xmlStr)
  : M (option ptr * option ptr * option ptr) :=
  a ← xmlNewText (Some x);
  xmlAddChild fuel (Some p) a;;
  b ← xmlNewText (Some y);
  r ← xmlAddChild fuel (Some p) b;
  mret (a, b, r).

(** [a1 = xmlNewDocProp(NULL, name, v1); xmlAddChild(e, a1);
    a2 = xmlNewDocProp(NULL, name, v2); r = xmlAddChild(e, a2)]. *)
Definition add_two_attrs `{Externals} (fuel : nat) (e : ptr) (name v1 v2 : xmlStr)
  : M (option ptr * option ptr * option ptr) :=
  a1 ← xmlNewDocProp fuel None (Some name) (Some v1);
  xmlAddChild fuel (Some e) a1;;
  a2 ← xmlNewDocProp fuel None (Some name) (Some v2);
  r ← xmlAddChild fuel (Some e) a2;
  mret (a1, a2, r).

(** The first half of [add_two_attrs]. *)
Definition add_one_attr `{Externals} (fuel : nat) (e : ptr) (name v1 : xmlStr)
  : M (option ptr) :=
  a1 ← xmlNewDocProp fuel None (Some name) (Some v1);
  xmlAddChild fuel (Some e) a1.

(** Two unlinked text nodes, the second one marked as not to be
    escaped the way its users do it ([text->name = xmlStringTextNoenc]);
    [link] is then applied to them. *)
Definition text_and_noenc (link : option ptr -> option ptr -> M (option ptr))
  (x y : xmlStr) : M (option ptr * option ptr * option ptr) :=
  a ← xmlNewText (Some x);
  b ← xmlNewText (Some y);
  match b with
  | Some c => wr c (set_name (Some xmlStringTextNoenc))
  | None => skip
  end;;
  r ← link a b;
  mret (a, b, r).

(** The string of the round trip and what the two parsers make of it
    in a document [doc], from the state [s]: the result [r] is a new
    cell, a text node of the document that holds ["abc&def"] and has
    no neighbour; no other cell is made or changed, and neither are the
    declarations, the buffers, the memory or the list of errors. *)
Definition abc_amp_def : xmlStr := BAD_CAST "abc&amp;def".

Definition parsed (doc : option ptr) (s : state) (r : option ptr) (s1 : state) : Prop :=
  exists t a,
    r = Some t /\ nodes s !! t = None /\
    nodes s1 = <[t := text_cell doc (Some (mkStr a (BAD_CAST "abc&def")))]> (nodes s) /\
    nss s1 = nss s /\ errs s1 = errs s /\
    bufs s1 = bufs s /\ mem s1 = mem s /\ scheme s1 = scheme s.

(** [xmlNodeSetContent(e, v); r = xmlNodeGetContent(e)]. *)
Definition set_then_get_content `{Externals} (fuel : nat) (e : ptr) (v : xmlStr)
  : M (option c_string) :=
  xmlNodeSetContent fuel (Some e) (Some v);;
  xmlNodeGetContent fuel (Some e).

(** ** Example states *)

(** No node, no declaration, no buffer; the only block of memory is
    the one of the empty string literal. *)
Definition empty_state : state :=
  mkState ∅ ∅ ∅ (<[1%positive := [0]]> ∅) XML_BUFFER_ALLOC_EXACT 4 [].

(** An environment without DTD: no entity is declared, no attribute
    has a default, no identifier is registered, the dictionary owns
    nothing and a code point is encoded as one byte. *)
Definition no_dtd : Externals := {|
  xmlGetDocEntity := fun _ _ => mret None;
  xmlEncodeEntitiesReentrant := fun _ x => mret x;
  xmlGetDtdAttrDesc := fun _ _ _ => mret None;
  xmlGetDtdQAttrDesc := fun _ _ _ _ => mret None;
  xmlIsID := fun _ _ _ => mret 0;
  xmlRemoveID := fun _ _ => mret 0;
  xmlFreeDtdTables := fun _ => skip;
  xmlFreeDocTables := fun _ => skip;
  xmlDictOwns := fun _ _ => 0;
  xmlDictLookup := fun _ x => xmlStrdup x;
  xmlDictFree := fun _ => skip;
  xmlCopyCharMultiByte := fun c => [c];
  xmlDefaultBufferSize := 4096;
  WIN32 := false
|}.

(** An element without children, attributes or document, in cell 1. *)
Definition element_state : state :=
  set_nodes (<[1%positive := zero_node XML_ELEMENT_NODE]> ∅) empty_state.

(** A document (cell 1) whose internal subset is the DTD of cell 2, its
    only child. *)
Definition dtd_doc_cell : xmlNode :=
  set_intSubset (Some 2%positive)
    (set_last (Some 2%positive)
       (set_children (Some 2%positive)
          (set_doc (Some 1%positive) (zero_node XML_DOCUMENT_NODE)))).

Definition dtd_cell : xmlNode :=
  set_parent (Some 1%positive) (set_doc (Some 1%positive) (zero_node XML_DTD_NODE)).

Definition dtd_state : state :=
  set_nodes (<[2%positive := dtd_cell]> (<[1%positive := dtd_doc_cell]> ∅)) empty_state.

(** The tree [<a xmlns:x="u1"><b xmlns:x="u2"><c/></b></a>]: the
    elements [a], [b], [c] in cells 1, 2, 3 and the declarations of [a]
    and [b] in the namespace cells 1 and 2. *)
Definition ns_decl (addr : positive) (href : string) : xmlNs :=
  set_ns_prefix (Some (mkStr addr (BAD_CAST "x")))
    (set_ns_href (Some (mkStr (Pos.succ addr) (BAD_CAST href)))
       (set_ns_type XML_LOCAL_NAMESPACE zero_ns)).

Definition ns_tree_nodes : gmap ptr xmlNode :=
  <[3%positive := set_parent (Some 2%positive) (zero_node XML_ELEMENT_NODE)]>
  (<[2%positive :=
       set_nsDef (Some 2%positive)
         (set_last (Some 3%positive)
            (set_children (Some 3%positive)
               (set_parent (Some 1%positive) (zero_node XML_ELEMENT_NODE))))]>
   (<[1%positive :=
        set_nsDef (Some 1%positive)
          (set_last (Some 2%positive)
             (set_children (Some 2%positive) (zero_node XML_ELEMENT_NODE)))]> ∅)).

Definition ns_tree_state : state :=
  set_brk 8%positive
    (set_nss (<[2%positive := ns_decl 6 "u2"]> (<[1%positive := ns_decl 4 "u1"]> ∅))
       (set_nodes ns_tree_nodes empty_state)).

(** Static memory: next to the empty string literal, block 2 holds the
    three bytes of ["abc"]. *)
Definition static_mem_state : state :=
  set_mem (<[2%positive := [97; 98; 99]]> (mem empty_state)) empty_state.

(** The buffer over block 2, as [xmlBufferCreateStatic] builds it. *)
Definition static_buffer : xmlBuffer :=
  mkBuffer (Some (mkPtr 2 0)) 3 3 XML_BUFFER_ALLOC_IMMUTABLE.

Definition immutable_state : state :=
  set_bufs (<[1%positive := static_buffer]> ∅) static_mem_state.

(** The declaration of a predefined entity, as entities.c holds it. *)
Definition predefined_entity (addr : positive) (name : string) (content : xmlStr)
  : xmlNode :=
  mkNode XML_ENTITY_DECL (Some (mkStr addr (BAD_CAST name))) None None None None None
         None None (Some (mkStr (Pos.succ addr) content)) None None None None None None
         (Some XML_INTERNAL_PREDEFINED_ENTITY) 0 None.

(** An environment without DTD in which [xmlGetDocEntity] finds the
    five predefined entities, declared in the cells 1 to 5 of
    [entities_state]; cell 6 is an element without children. *)
Definition predefined_entities : Externals := {|
  xmlGetDocEntity := fun _ name =>
    mret (if bool_decide (name = Some (BAD_CAST "lt")) then Some 1%positive
          else if bool_decide (name = Some (BAD_CAST "gt")) then Some 2%positive
          else if bool_decide (name = Some (BAD_CAST "amp")) then Some 3%positive
          else if bool_decide (name = Some (BAD_CAST "apos")) then Some 4%positive
          else if bool_decide (name = Some (BAD_CAST "quot")) then Some 5%positive
          else None);
  xmlEncodeEntitiesReentrant := fun _ x => mret x;
  xmlGetDtdAttrDesc := fun _ _ _ => mret None;
  xmlGetDtdQAttrDesc := fun _ _ _ _ => mret None;
  xmlIsID := fun _ _ _ => mret 0;
  xmlRemoveID := fun _ _ => mret 0;
  xmlFreeDtdTables := fun _ => skip;
  xmlFreeDocTables := fun _ => skip;
  xmlDictOwns := fun _ _ => 0;
  xmlDictLookup := fun _ x => xmlStrdup x;
  xmlDictFree := fun _ => skip;
  xmlCopyCharMultiByte := fun c => [c];
  xmlDefaultBufferSize := 4096;
  WIN32 := false
|}.

Definition entities_state : state :=
  set_brk 14%positive
    (set_nodes
       (<[6%positive := zero_node XML_ELEMENT_NODE]>
        (<[5%positive := predefined_entity 12 "quot" [34]]>
        (<[4%positive := predefined_entity 10 "apos" [39]]>
         (<[3%positive := predefined_entity 8 "amp" [38]]>
          (<[2%positive := predefined_entity 6 "gt" [62]]>
           (<[1%positive := predefined_entity 4 "lt" [60]]> ∅))))))
       empty_state).

(** An element (cell 1) whose [nsDef] chain declares, in the namespace
    cells 1 to 1001, the prefixes [p], [p1], ..., [p1000] for the href
    ["u"]; the namespace cell 2000 declares [p] for the href ["v"]. *)
Definition bound_decl (i : nat) : xmlNs :=
  mkNs (if bool_decide (i = 1000%nat) then None else Some (Pos.of_nat (S (S i))))
       XML_LOCAL_NAMESPACE
       (Some (mkStr (Pos.of_nat (2 * i + 10)) (BAD_CAST "u")))
       (Some (mkStr (Pos.of_nat (2 * i + 11)) (probe (BAD_CAST "p") (Z.of_nat i)))).

Definition foreign_decl : xmlNs :=
  mkNs None XML_LOCAL_NAMESPACE (Some (mkStr 4 (BAD_CAST "v")))
       (Some (mkStr 5 (BAD_CAST "p"))).

Definition bound_chain_state : state :=
  set_brk 3000%positive
    (set_nss
       (<[2000%positive := foreign_decl]>
          (list_to_map (map (fun i => (Pos.of_nat (S i), bound_decl i)) (seq 0 1001))))
       (set_nodes
          (<[1%positive := set_nsDef (Some 1%positive) (zero_node XML_ELEMENT_NODE)]> ∅)
          empty_state)).

(** Whether [xmlSearchNs] finds, from the element of
    [bound_chain_state], the prefix probed in round [i], which is not
    the reserved prefix. *)
Definition probe_found (i : Z) : bool :=
  match xmlSearchNs 1002 None (Some 1%positive) (Some (probe (BAD_CAST "p") i))
          bound_chain_state with
  | Ok (Some _) _ => negb (bool_decide (probe (BAD_CAST "p") i = BAD_CAST "xml"))
  | _ => false
  end.

(** Two pointers differ when one is the address of a live cell and the
    other is not, or when the context says so. *)
Ltac neq :=
  solve [ assumption | congruence | intros ->; congruence | intros <-; congruence
        | intros [= ->]; congruence | intros [= <-]; congruence ].

(** Reading a cell of a heap that is written as a sequence of updates. *)
Ltac lookup :=
  sim;
  repeat first
    [ rewrite lookup_insert_eq
    | rewrite lookup_insert_ne by neq
    | rewrite lookup_delete_ne by neq ];
  first [ eassumption | reflexivity ].

(** * Further functions of tree.c *)

(** ** Example states *)

(** An element with the given parent and siblings. *)
Definition family_cell (parent prev next : option ptr) : xmlNode :=
  set_next next (set_prev prev (set_parent parent (zero_node XML_ELEMENT_NODE))).

(** An element (cell 1) with three element children (cells 2, 3, 4),
    and an element that is in no tree (cell 5). *)
Definition family_state : state :=
  set_nodes
    (<[5%positive := zero_node XML_ELEMENT_NODE]>
     (<[4%positive := family_cell (Some 1%positive) (Some 3%positive) None]>
     (<[3%positive := family_cell (Some 1%positive) (Some 2%positive) (Some 4%positive)]>
      (<[2%positive := family_cell (Some 1%positive) None (Some 3%positive)]>
       (<[1%positive := set_last (Some 4%positive)
                          (set_children (Some 2%positive) (zero_node XML_ELEMENT_NODE))]> ∅)))))
    empty_state.

(** Two text nodes in no tree, ["ab"] in cell 1 and ["cd"] in cell 2. *)
Definition two_texts_state : state :=
  set_brk 6%positive
    (set_nodes
       (<[2%positive := text_cell None (Some (mkStr 5 (BAD_CAST "cd")))]>
        (<[1%positive := text_cell None (Some (mkStr 4 (BAD_CAST "ab")))]> ∅))
       empty_state).

(** ** Chains of declarations *)

(** [ns_chain s start l]: from [start], following [next], the heap of
    declarations holds the cells of [l] in that order and then NULL. *)
Fixpoint ns_chain (s : state) (start : option ptr) (l : list (ptr * xmlNs)) : Prop :=
  match l with
  | [] => start = None
  | (p, d) :: rest => start = Some p /\ nss s !! p = Some d /\ ns_chain s (ns_next d) rest
  end.

(** The first declaration of [l] that [xmlSearchNs] accepts for
    [nameSpace]. *)
Definition first_match (nameSpace : option xmlStr) (l : list (ptr * xmlNs))
  : option (ptr * xmlNs) :=
  find (fun pd => prefix_matches (snd pd) nameSpace) l.

(** An element (cell 1) that declares, in this order, the prefix [a]
    for [u1], the default namespace [u2] and the prefix [b] for [u3]
    (declarations 1, 2, 3). *)
Definition decl_cell (next : option ptr) (addr : positive) (prefix : option string)
  (href : string) : xmlNs :=
  mkNs next XML_LOCAL_NAMESPACE (Some (mkStr (Pos.succ addr) (BAD_CAST href)))
    ((fun x => mkStr addr (BAD_CAST x)) <$> prefix).

Definition decls_chain : list (ptr * xmlNs) :=
  [ (1%positive, decl_cell (Some 2%positive) 4 (Some "a"%string) "u1");
    (2%positive, decl_cell (Some 3%positive) 6 None "u2");
    (3%positive, decl_cell None 8 (Some "b"%string) "u3") ].

Definition decls_state : state :=
  set_brk 10%positive
    (set_nss (list_to_map decls_chain)
       (set_nodes (<[1%positive := set_nsDef (Some 1%positive) (zero_node XML_ELEMENT_NODE)]> ∅)
          empty_state)).

(** ** Buffers *)

(** [buffer_holds s b a size cs]: the buffer [b] has the policy [a],
    owns a block of [size] bytes and holds the characters [cs],
    followed by a zero. *)
Definition buffer_holds (s : state) (b : ptr) (a : xmlBufferAllocationScheme)
  (size : Z) (cs : list xmlChar) : Prop :=
  exists (m : positive) (bytes : list xmlChar),
    bufs s !! b = Some (mkBuffer (Some (mkPtr m 0)) (Z.of_nat (length cs)) size a) /\
    mem s !! m = Some bytes /\
    Z.of_nat (length bytes) = size /\
    take (length cs) bytes = cs /\
    bytes !! length cs = Some 0.

(** A buffer (cell 1) of 16 bytes that holds ["abc"]. *)
Definition abc_buffer_state (a : xmlBufferAllocationScheme) : state :=
  set_bufs (<[1%positive := mkBuffer (Some (mkPtr 2 0)) 3 16 a]> ∅)
    (set_mem (<[2%positive := BAD_CAST "abc" ++ [0] ++ replicate 12 uninit]> (mem empty_state))
       empty_state).

(** [only_buffer b s s']: from [s] to [s'] nothing but the buffer [b]
    and the memory changes. *)
Definition only_buffer (b : ptr) (s s' : state) : Prop :=
  nodes s' = nodes s /\ nss s' = nss s /\ errs s' = errs s /\ scheme s' = scheme s /\
  forall b', b' <> b -> bufs s' !! b' = bufs s !! b'.

(** [buffer_chars s b a size cs]: as [buffer_holds], but what follows
    the characters in the block is not known; this is the state of a
    buffer inside the loop of [xmlBufferCCat]. *)
Definition buffer_chars (s : state) (b : ptr) (a : xmlBufferAllocationScheme)
  (size : Z) (cs : list xmlChar) : Prop :=
  exists (m : positive) (bytes : list xmlChar),
    bufs s !! b = Some (mkBuffer (Some (mkPtr m 0)) (Z.of_nat (length cs)) size a) /\
    mem s !! m = Some bytes /\
    Z.of_nat (length bytes) = size /\
    take (length cs) bytes = cs /\
    Z.of_nat (length cs) < size.

(** ** Lists of siblings *)

(** [sibling_chain s start l]: from [start], following [next], the
    heap holds the cells of [l] in that order and then NULL. *)
Fixpoint sibling_chain (s : state) (start : option ptr) (l : list (ptr * xmlNode)) : Prop :=
  match l with
  | [] => start = None
  | (p, n) :: rest => start = Some p /\ nodes s !! p = Some n /\ sibling_chain s (n_next n) rest
  end.

(** An attribute cell of the element in cell 1, with the given name and
    next attribute. *)
Definition attr_cell (addr : positive) (name : string) (next : option ptr) : xmlNode :=
  set_parent (Some 1%positive)
    (set_next next (set_name (Some (mkStr addr (BAD_CAST name)))
                      (zero_node XML_ATTRIBUTE_NODE))).

(** An element (cell 1), in no document, with the attributes [id],
    [class] and [id] again (cells 2, 3, 4). *)
Definition attrs_chain : list (ptr * xmlNode) :=
  [ (2%positive, attr_cell 10 "id" (Some 3%positive));
    (3%positive, attr_cell 11 "class" (Some 4%positive));
    (4%positive, attr_cell 12 "id" None) ].

Definition attrs_state : state :=
  set_brk 13%positive
    (set_nodes (<[1%positive := set_properties (Some 2%positive) (zero_node XML_ELEMENT_NODE)]>
                  (list_to_map attrs_chain)) empty_state).

(** The string that the text and CDATA nodes of a list hold together,
    NULL when none of them has a content. *)
Definition gather (acc : option xmlStr) (n : xmlNode) : option xmlStr :=
  if bool_decide (n_type n = XML_TEXT_NODE) || bool_decide (n_type n = XML_CDATA_SECTION_NODE)
  then match chars (n_content n) with
       | Some y => Some (default [] acc ++ y)
       | None => acc
       end
  else acc.

Definition text_of (l : list (ptr * xmlNode)) : option xmlStr :=
  foldl (fun acc pn => gather acc pn.2) None l.

(** The list of a text node, a comment and a CDATA section (cells 1,
    2, 3) with the contents ["ab"], ["no"] and ["cd"]. *)
Definition mixed_chain : list (ptr * xmlNode) :=
  [ (1%positive, set_next (Some 2%positive) (text_cell None (Some (mkStr 4 (BAD_CAST "ab")))));
    (2%positive, set_next (Some 3%positive)
                   (set_content (Some (mkStr 5 (BAD_CAST "no"))) (zero_node XML_COMMENT_NODE)));
    (3%positive, set_content (Some (mkStr 6 (BAD_CAST "cd")))
                   (zero_node XML_CDATA_SECTION_NODE)) ].

Definition mixed_state : state :=
  set_brk 7%positive (set_nodes (list_to_map mixed_chain) empty_state).

(** A node without children, attributes or declarations, and not a DTD. *)
Definition leaf (n : xmlNode) : Prop :=
  n_type n <> XML_DTD_NODE /\ n_children n = None /\ n_properties n = None /\
  n_nsDef n = None.

(** ** Qualified names (tree.c, xmlBuildQName to xmlSplitQName3) *)

(** What [xmlBuildQName] returns when it is not NULL: its argument
    [ncname], or a pointer to the bytes that it wrote. *)
Inductive qname :=
| the_ncname
| built_at (p : bptr).

Definition xmlBuildQName (ncname prefix : option xmlStr) (memory : option bptr) (len : Z)
  : M (option qname) :=
  match ncname with
  | None => mret None
  | Some n =>
      match prefix with
      | None => mret (Some the_ncname)
      | Some p =>
          let lenn := xmlStrlen ncname in
          let lenp := xmlStrlen prefix in
          ret ← (if bool_decide (memory = None) ||
                    bool_decide (len < wrap_intptr (wrap_size (lenn + lenp + 2)))
                 then xmlMallocAtomic (wrap_size (lenn + lenp + 2))
                 else mret memory);
          dst ← ptr_add ret 0;
          d ← src_bytes p lenp;
          mem_store dst d;;
          dst ← ptr_add ret lenp;
          mem_store dst [chr ":"];;
          dst ← ptr_add ret (wrap_size (lenp + 1));
          d ← src_bytes n lenn;
          mem_store dst d;;
          dst ← ptr_add ret (wrap_size (lenn + lenp + 1));
          mem_store dst [0];;
          mret (built_at <$> ret)
      end
  end.

(** The scan of [xmlSplitQName2] and [xmlSplitQName3] for the end of
    the name or its first colon; [wrap] is the arithmetic of the
    counter, an [int] in the former and an [intptr_t] in the latter. *)
Definition scan_colon (wrap : Z -> Z) (fuel : nat) (name : xmlStr) : M Z :=
  loop fuel (fun len : Z =>
    if negb (bool_decide (byte_at name len = 0)) &&
       negb (bool_decide (byte_at name len = chr ":"))
    then continue (wrap (len + 1)) else break len) 0.

(** [xmlSplitQName2(name, prefix)]: the result is the pair of the
    returned local part and of the string left in [*prefix]; the
    argument [prefix] says whether the pointer is not NULL. *)
Definition xmlSplitQName2 (fuel : nat) (name : option xmlStr) (prefix : bool)
  : M (option xmlCharPtr * option xmlCharPtr) :=
  if negb prefix then mret (None, None) else
  match name with
  | None => mret (None, None)
  | Some v =>
      (* nasty but valid *)
      if bool_decide (byte_at v 0 = chr ":") then mret (None, None) else
      len ← scan_colon wrap_int fuel v;
      if bool_decide (byte_at v len = 0) then mret (None, None) else
      p ← xmlStrndup name len;
      match p with
      | None =>
          xmlTreeErr XML_ERR_NO_MEMORY (Some (BAD_CAST "QName split"));;
          mret (None, None)
      | Some _ =>
          ret ← xmlStrdup (str_from v (len + 1));
          match ret with
          | None =>
              xmlTreeErr XML_ERR_NO_MEMORY (Some (BAD_CAST "QName split"));;
              xmlFree_str p;;
              mret (None, None)
          | Some _ => mret (ret, p)
          end
      end
  end.

(** [xmlSplitQName3(name, len)]: the result is the pair of the offset
    in [name] of the returned pointer and of the value stored in
    [*len]; the argument [len] says whether the pointer is not NULL. *)
Definition xmlSplitQName3 (fuel : nat) (name : option xmlStr) (len : bool)
  : M (option (Z * Z)) :=
  match name with
  | None => mret None
  | Some v =>
      if negb len then mret None else
      (* nasty but valid *)
      if bool_decide (byte_at v 0 = chr ":") then mret None else
      l ← scan_colon wrap_intptr fuel v;
      if bool_decide (byte_at v l = 0) then mret None
      else mret (Some (l + 1, l))
  end.

(** ** The root element of a document (tree.c, xmlDocGetRootElement
    and xmlDocSetRootElement) *)

(** The walk of both functions over the children of the document, up
    to the first element. *)
Definition first_element (fuel : nat) (start : option ptr) : M (option ptr) :=
  loop fuel (fun ret =>
    match ret with
    | None => break None
    | Some r =>
        ty ← rd r n_type;
        if bool_decide (ty = XML_ELEMENT_NODE) then break ret
        else nx ← rd r n_next; continue nx
    end) start.

Definition xmlDocGetRootElement (fuel : nat) (doc : option ptr) : M (option ptr) :=
  match doc with
  | None => mret None
  | Some d =>
      ret ← rd d n_children;
      first_element fuel ret
  end.

Definition xmlDocSetRootElement `{Externals} (fuel : nat) (doc root : option ptr)
  : M (option ptr) :=
  match doc, root with
  | Some d, Some r =>
      xmlUnlinkNode root;;
      xmlSetTreeDoc fuel root doc;;
      wr r (set_parent doc);;
      old ← rd d n_children;
      old ← first_element fuel old;
      match old with
      | None =>
          ch ← rd d n_children;
          match ch with
          | None =>
              wr d (set_children root);;
              wr d (set_last root)
          | Some _ => xmlAddSibling fuel ch root;; skip
          end
      | Some _ => xmlReplaceNode old root;; skip
      end;;
      mret old
  | _, _ => mret None
  end.

(** An empty document (cell 1) and an element in no tree (cell 2). *)
Definition empty_doc_state : state :=
  set_nodes (<[2%positive := zero_node XML_ELEMENT_NODE]>
               (<[1%positive := zero_node XML_DOCUMENT_NODE]> ∅)) empty_state.

(** ** Removing an attribute (tree.c, xmlRemoveProp) *)

Definition xmlRemoveProp `{Externals} (fuel : nat) (cur : option ptr) : M Z :=
  match cur with
  | None => mret (-1)
  | Some c =>
      cp ← rd c n_parent;
      match cp with
      | None => mret (-1)
      | Some p =>
          tmp ← rd p n_properties;
          if ptr_eqb tmp cur then
            nx ← rd c n_next;
            wr p (set_properties nx);;
            xmlFreeProp fuel cur;;
            mret 0
          else
            loop fuel (fun tmp =>
              match tmp with
              | None => break (-1)
              | Some t =>
                  tnx ← rd t n_next;
                  if ptr_eqb tnx cur then
                    cnx ← rd c n_next;
                    wr t (set_next cnx);;
                    tnx ← rd t n_next;
                    match tnx with
                    | Some x => wr x (set_prev tmp)
                    | None => skip
                    end;;
                    xmlFreeProp fuel cur;;
                    break 0
                  else continue tnx
              end) tmp
      end
  end.

(** The first declaration of [l] that has the href [href]. *)
Definition first_href (href : xmlStr) (l : list (ptr * xmlNs)) : option (ptr * xmlNs) :=
  find (fun pd => xmlStrEqual (chars (ns_href pd.2)) (Some href)) l.

(** ** Appending to the content of a text node (tree.c, xmlTextConcat) *)

Definition xmlTextConcat `{Externals} (node : option ptr) (content : option xmlStr)
  (len : Z) : M Z :=
  match node with
  | None => mret (-1)
  | Some n =>
      ty ← rd n n_type;
      if negb (bool_decide (ty = XML_TEXT_NODE)) &&
         negb (bool_decide (ty = XML_CDATA_SECTION_NODE))
      then mret (-1) else
      (* need to check if content is currently in the dictionary *)
      doc ← rd n n_doc;
      dict ← dict_of_doc doc;
      ct ← rd n n_content;
      (if bool_decide (doc <> None) && bool_decide (dict <> None) &&
          bool_decide (xmlDictOwns dict ct <> 0)
       then r ← xmlStrncatNew ct content len; wr n (set_content r)
       else r ← xmlStrncat ct content len; wr n (set_content r));;
      ct ← rd n n_content;
      if bool_decide (ct = None) then mret (-1) else mret 0
  end.

(** The characters that the text and CDATA nodes of a list hold, in
    order. *)
Definition texts (l : list (ptr * xmlNode)) : xmlStr :=
  flat_map (fun pn =>
    if bool_decide (n_type pn.2 = XML_TEXT_NODE) ||
       bool_decide (n_type pn.2 = XML_CDATA_SECTION_NODE)
    then content_chars pn.2 else []) l.

(** The children of the element in cell 1: a text node, a comment and
    a CDATA section (cells 2, 3, 4) with the contents ["ab"], ["no"]
    and ["cd"]. *)
Definition kids_chain : list (ptr * xmlNode) :=
  [ (2%positive, set_parent (Some 1%positive)
                   (set_next (Some 3%positive) (text_cell None (Some (mkStr 5 (BAD_CAST "ab"))))));
    (3%positive, set_parent (Some 1%positive)
                   (set_next (Some 4%positive)
                      (set_content (Some (mkStr 6 (BAD_CAST "no")))
                         (zero_node XML_COMMENT_NODE))));
    (4%positive, set_parent (Some 1%positive)
                   (set_content (Some (mkStr 7 (BAD_CAST "cd")))
                      (zero_node XML_CDATA_SECTION_NODE))) ].

Definition kids_state : state :=
  set_brk 8%positive
    (set_nodes (<[1%positive := set_last (Some 4%positive)
                                  (set_children (Some 2%positive)
                                     (zero_node XML_ELEMENT_NODE))]>
                  (list_to_map kids_chain)) empty_state).

(** ** States for the probing of [xmlNewReconciliedNs] *)

(** A prefix and its numbered variants, taken from the prefix itself:
    [base], then [base] followed by the numbers from [first] on. *)
Definition listed_variant (base : xmlStr) (first i : nat) : xmlStr :=
  if bool_decide (i = 0%nat) then base else base ++ decimal (Z.of_nat (first + i - 1)).

Definition listed_decl (base : xmlStr) (first i : nat) : xmlNs :=
  mkNs (if bool_decide (i = 1000%nat) then None else Some (Pos.of_nat (S (S i))))
       XML_LOCAL_NAMESPACE
       (Some (mkStr (Pos.of_nat (2 * i + 10)) (BAD_CAST "u")))
       (Some (mkStr (Pos.of_nat (2 * i + 11)) (listed_variant base first i))).

(** The declarations of [base] and of its 1000 variants numbered from
    [first] on, for the href ["u"], in the namespace cells 1 to 1001. *)
Definition listed_chain (base : xmlStr) (first : nat) : list (ptr * xmlNs) :=
  map (fun i => (Pos.of_nat (S i), listed_decl base first i)) (seq 0 1001).

(** An element (cell 1) whose [nsDef] chain is [listed_chain base
    first]; the namespace cell 2000 declares [base] for the href
    ["v"]. *)
Definition listed_chain_state (base : xmlStr) (first : nat) : state :=
  set_brk 3000%positive
    (set_nss
       (<[2000%positive := mkNs None XML_LOCAL_NAMESPACE (Some (mkStr 4 (BAD_CAST "v")))
                             (Some (mkStr 5 base))]>
          (list_to_map (listed_chain base first)))
       (set_nodes
          (<[1%positive := set_nsDef (Some 1%positive) (zero_node XML_ELEMENT_NODE)]> ∅)
          empty_state)).

(** The declarations met from [start] along the [next] fields, when
    the chain ends within [fuel] steps. *)
Fixpoint walk_ns (s : state) (fuel : nat) (start : option ptr)
  : option (list (ptr * xmlNs)) :=
  match start, fuel with
  | None, _ => Some []
  | Some _, O => None
  | Some p, Datatypes.S n =>
      match nss s !! p with
      | Some d => cons (p, d) <$> walk_ns s n (ns_next d)
      | None => None
      end
  end.

(** The prefix of the declaration that [xmlNewReconciliedNs] returns
    for the declaration in the namespace cell 2000 of
    [listed_chain_state base first], when it returns one. *)
Definition reconciled_prefix (base : xmlStr) (first : nat) : option xmlStr :=
  match xmlNewReconciliedNs 1100 None (Some 1%positive) (Some 2000%positive)
          (listed_chain_state base first) with
  | Ok (Some d) s' => nss s' !! d ≫= fun n => chars (ns_prefix n)
  | _ => None
  end.

(** A prefix of 26 characters. *)
Definition long_prefix : xmlStr := BAD_CAST "abcdefghijklmnopqrstuvwxyz".

(** ** A DTD between two documents *)

(** Two documents (cells 1 and 2) and a DTD (cell 3) as [xmlNewDtd]
    leaves it for the first one: the DTD is the external subset of the
    document in cell 1, which is its document, and it is linked
    nowhere. *)
Definition two_docs_state : state :=
  set_nodes
    (<[3%positive := set_doc (Some 1%positive) (zero_node XML_DTD_NODE)]>
       (<[2%positive := set_doc (Some 2%positive) (zero_node XML_DOCUMENT_NODE)]>
          (<[1%positive := set_extSubset (Some 3%positive)
                             (set_doc (Some 1%positive) (zero_node XML_DOCUMENT_NODE))]> ∅)))
    empty_state.

(** * Properties *)



(** ** Rules for [wp] *)

Lemma wp_run {A} (m : M A) Q s :
  wp m Q s <-> exists a s', m s = Ok a s' /\ Q a s'.
Proof.
  unfold wp. split.
  - destruct (m s); try done. eauto.
  - intros (a & s' & -> & HQ). done.
Qed.

Lemma wp_mono {A} (m : M A) (Q Q' : A -> state -> Prop) s :
  wp m Q s -> (forall a s', Q a s' -> Q' a s') -> wp m Q' s.
Proof. unfold wp. destruct (m s); auto. Qed.

Lemma wp_ret {A} (a : A) (Q : A -> state -> Prop) s : Q a s -> wp (mret a) Q s.
Proof. done. Qed.

Lemma wp_bind {A B} (m : M A) (k : A -> M B) Q s :
  wp m (fun a s' => wp (k a) Q s') s -> wp (m ≫= k) Q s.
Proof. unfold wp, mbind, M_bind. by destruct (m s). Qed.

Lemma wp_rd {A} p (f : xmlNode -> A) (Q : A -> state -> Prop) s n :
  nodes s !! p = Some n -> Q (f n) s -> wp (rd p f) Q s.
Proof.
  intros Hn HQ. unfold wp, rd, load, mbind, M_bind, mret, M_ret. by rewrite Hn.
Qed.

Lemma wp_wr p u (Q : unit -> state -> Prop) s n :
  nodes s !! p = Some n ->
  Q tt (set_nodes (<[p := u n]> (nodes s)) s) -> wp (wr p u) Q s.
Proof. intros Hn HQ. unfold wp, wr. by rewrite Hn. Qed.

Lemma wp_when (c : bool) body (Q : unit -> state -> Prop) s :
  (c = true -> wp body Q s) -> (c = false -> Q tt s) -> wp (when c body) Q s.
Proof. destruct c; cbn; auto. Qed.


Lemma wp_alloc n (Q : ptr -> state -> Prop) s :
  (forall p, nodes s !! p = None -> Q p (set_nodes (<[p := n]> (nodes s)) s)) ->
  wp (alloc n) Q s.
Proof.
  intros HQ. unfold wp, alloc. apply HQ.
  apply not_elem_of_dom, is_fresh.
Qed.

Lemma wp_free p (Q : unit -> state -> Prop) s n :
  nodes s !! p = Some n -> Q tt (set_nodes (delete p (nodes s)) s) -> wp (free p) Q s.
Proof. intros Hn HQ. unfold wp, free. by rewrite Hn. Qed.

Lemma wp_new_str x (Q : xmlCharPtr -> state -> Prop) s :
  Q (mkStr (brk s) x) (set_brk (Pos.succ (brk s)) s) -> wp (new_str x) Q s.
Proof. done. Qed.

Lemma wp_xmlTreeErr code extra (Q : unit -> state -> Prop) s :
  Q tt (set_errs (errs s ++ [(code, extra)]) s) -> wp (xmlTreeErr code extra) Q s.
Proof. done. Qed.

Lemma wp_loop_S {S A} fuel (body : S -> M (S + A)) st (Q : A -> state -> Prop) s :
  wp (body st) (fun r s' =>
      match r with
      | inl st' => wp (loop fuel body st') Q s'
      | inr a => Q a s'
      end) s ->
  wp (loop (Datatypes.S fuel) body st) Q s.
Proof.
  intros Hb. cbn [loop]. apply wp_bind. eapply wp_mono; [exact Hb|].
  intros [st'|a] s' HQ; [done|by apply wp_ret].
Qed.

Lemma wp_load_ns p (Q : xmlNs -> state -> Prop) s n :
  nss s !! p = Some n -> Q n s -> wp (load_ns p) Q s.
Proof. intros Hn HQ. unfold wp, load_ns. by rewrite Hn. Qed.

Lemma wp_rd_ns {A} p (f : xmlNs -> A) (Q : A -> state -> Prop) s n :
  nss s !! p = Some n -> Q (f n) s -> wp (rd_ns p f) Q s.
Proof.
  intros Hn HQ. unfold rd_ns. apply wp_bind. eapply wp_load_ns; [done|]. by apply wp_ret.
Qed.

Lemma wp_wr_ns p u (Q : unit -> state -> Prop) s n :
  nss s !! p = Some n ->
  Q tt (set_nss (<[p := u n]> (nss s)) s) -> wp (wr_ns p u) Q s.
Proof. intros Hn HQ. unfold wp, wr_ns. by rewrite Hn. Qed.

Lemma wp_DICT_FREE `{Externals} dict str (Q : unit -> state -> Prop) s :
  Q tt s -> wp (DICT_FREE dict str) Q s.
Proof. intros HQ. unfold DICT_FREE. by apply wp_when. Qed.

Lemma wp_when_DICT_FREE `{Externals} c dict str (Q : unit -> state -> Prop) s :
  Q tt s -> wp (when c (DICT_FREE dict str)) Q s.
Proof. intros HQ. apply wp_when; intros _; [by apply wp_DICT_FREE|done]. Qed.

(** ** Symbolic execution *)

(** Settling the tests of a conditional: each [bool_decide] whose
    proposition the context decides is replaced by its value. *)
Ltac decided :=
  solve [ done | neq | congruence | lia | intros ?; congruence
        | intros [= ?]; congruence ].

Ltac cond :=
  unfold ptr_eqb, is_element_like, is_document, is_entity_kind;
  repeat match goal with
    | |- context [bool_decide ?P] =>
        first [ rewrite (bool_decide_true P) by decided
              | rewrite (bool_decide_false P) by decided ]
    end;
  cbn [negb andb orb].

(** A fresh address differs from the addresses of the cells written
    before it was allocated. *)
Ltac fresh_facts H :=
  repeat (apply lookup_insert_None in H; destruct H as [H ?]).

(** The scrutinee of a [match] is replaced by the value that a
    hypothesis gives it. *)
Ltac scrutinee x :=
  match goal with
  | E : x = _ |- _ => rewrite E
  end.

(** One step of the computation at the head of a [wp] goal. *)
Ltac step :=
  lazymatch goal with
  | |- wp (mbind _ _) _ _ => apply wp_bind
  | |- wp (mret _) _ _ => apply wp_ret
  | |- wp skip _ _ => apply wp_ret
  | |- wp (continue _) _ _ => apply wp_ret
  | |- wp (break _) _ _ => apply wp_ret
  | |- wp (rd _ _) _ _ => eapply wp_rd; [lookup|]; fld
  | |- wp (wr _ _) _ _ => eapply wp_wr; [lookup|]; sim; rewrite ?insert_insert_eq
  | |- wp (free _) _ _ => eapply wp_free; [lookup|]; sim
  | |- wp (alloc _) _ _ =>
      let p := fresh "p" in let Hp := fresh "Hp" in
      apply wp_alloc; intros p Hp; sim; fresh_facts Hp
  | |- wp (rd_ns _ _) _ _ => eapply wp_rd_ns; [lookup|]; fld
  | |- wp (load_ns _) _ _ => eapply wp_load_ns; [lookup|]; fld
  | |- wp (wr_ns _ _) _ _ => eapply wp_wr_ns; [lookup|]; sim; rewrite ?insert_insert_eq
  | |- wp (new_str _) _ _ => apply wp_new_str; sim
  | |- wp (xmlTreeErr _ _) _ _ => apply wp_xmlTreeErr; sim
  | |- wp (xmlFree_str _) _ _ => apply wp_ret
  | |- wp (DICT_FREE _ _) _ _ => apply wp_DICT_FREE
  | |- wp (when _ (DICT_FREE _ _)) _ _ => apply wp_when_DICT_FREE
  | |- wp (when true _) _ _ => unfold when at 1
  | |- wp (when false _) _ _ => apply wp_ret
  | |- wp (when _ _) _ _ => progress cond
  | |- wp (if true then _ else _) _ _ => cbv iota
  | |- wp (if false then _ else _) _ _ => cbv iota
  | |- wp (if _ then _ else _) _ _ => progress cond
  | |- wp (loop (S _) _ _) _ _ => apply wp_loop_S
  | |- wp (xmlStrdup (Some _)) _ _ => cbn [xmlStrdup]
  | |- wp (xmlStrdup None) _ _ => cbn [xmlStrdup]
  | |- wp (dict_of_doc (Some _)) _ _ => cbn [dict_of_doc]
  | |- wp (dict_of_doc None) _ _ => cbn [dict_of_doc]
  | |- wp (match ?x with _ => _ end) _ _ =>
      first [ progress cbv beta iota | scrutinee x ]
  | |- match ?r with inl _ => _ | inr _ => _ end =>
      lazymatch r with inl _ => cbv beta iota | inr _ => cbv beta iota end
  end.

Ltac steps := repeat step.

Lemma is_Some_insert_mono (m : gmap positive xmlNode) p n x :
  is_Some (m !! x) -> is_Some (<[p := n]> m !! x).
Proof. rewrite lookup_insert_is_Some'. auto. Qed.

(** A pointer that was NULL or live before cells were written or
    allocated still is. *)
Ltac alive :=
  let x := fresh "x" in let Hx := fresh "Hx" in
  fld; intros x Hx; sim; repeat apply is_Some_insert_mono;
  first [ discriminate Hx
        | injection Hx as <-; eauto
        | match goal with L : live _ _ |- _ => apply (L x Hx) end
        | eauto ].

Lemma wp_eq {A} (m : M A) (Q : A -> state -> Prop) s a s' :
  m s = Ok a s' -> Q a s' -> wp m Q s.
Proof. intros Hm HQ. unfold wp. by rewrite Hm. Qed.

Lemma wp_exact {A} (m : M A) s a s' :
  wp m (fun b t => b = a /\ t = s') s -> m s = Ok a s'.
Proof. unfold wp. destruct (m s); try done. by intros [-> ->]. Qed.


(** ** Text nodes: creation, growth, disposal *)

Section text_nodes.
Context `{Externals}.

Lemma wp_xmlNewDocText doc x (Q : option ptr -> state -> Prop) s :
  (forall t, nodes s !! t = None ->
     Q (Some t)
       (set_brk (Pos.succ (brk s))
          (set_nodes (<[t := text_cell doc (Some (mkStr (brk s) x))]> (nodes s)) s))) ->
  wp (xmlNewDocText doc (Some x)) Q s.
Proof.
  intros HQ. unfold xmlNewDocText, xmlNewText. steps.
  specialize (HQ p Hp). sim. done.
Qed.

Lemma wp_xmlNewText x (Q : option ptr -> state -> Prop) s :
  (forall t, nodes s !! t = None ->
     Q (Some t)
       (set_brk (Pos.succ (brk s))
          (set_nodes (<[t := text_cell None (Some (mkStr (brk s) x))]> (nodes s)) s))) ->
  wp (xmlNewText (Some x)) Q s.
Proof.
  intros HQ. unfold xmlNewText. steps.
  specialize (HQ p Hp). sim. done.
Qed.

Lemma wp_xmlNewDocTextLen doc x len (Q : option ptr -> state -> Prop) s :
  0 <= len ->
  (forall t, nodes s !! t = None ->
     Q (Some t)
       (set_brk (Pos.succ (brk s))
          (set_nodes (<[t := text_cell doc (Some (mkStr (brk s) (take (Z.to_nat len) x)))]>
                        (nodes s)) s))) ->
  wp (xmlNewDocTextLen doc (Some x) len) Q s.
Proof.
  intros Hlen HQ. unfold xmlNewDocTextLen, xmlNewTextLen. steps.
  cbn [xmlStrndup]. steps.
  specialize (HQ p Hp). sim. done.
Qed.

Lemma wp_dict_of_doc doc (Q : option ptr -> state -> Prop) s :
  live s doc -> (forall dict, Q dict s) -> wp (dict_of_doc doc) Q s.
Proof.
  intros Hd HQ. destruct doc as [d|]; [|by apply wp_ret].
  destruct (Hd d eq_refl) as [dn Hdn]. cbn [dict_of_doc]. eapply wp_rd; eauto.
Qed.

(** Setting a field of a cell to the value it has changes nothing. *)
Lemma set_doc_same tn : set_doc (n_doc tn) tn = tn.
Proof. by destruct tn. Qed.

Lemma set_nodes_same s : set_nodes (nodes s) s = s.
Proof. by destruct s. Qed.

Lemma insert_same_state s t tn :
  nodes s !! t = Some tn -> set_nodes (<[t := tn]> (nodes s)) s = s.
Proof. intros Ht. rewrite insert_id by done. apply set_nodes_same. Qed.

(** Appending to the content of a text node. *)
Lemma wp_text_append fuel self cur cn y len (Q : unit -> state -> Prop) s :
  nodes s !! cur = Some cn -> n_type cn = XML_TEXT_NODE -> live s (n_doc cn) ->
  0 < len ->
  Q tt (set_brk (Pos.succ (brk s))
          (set_nodes
             (<[cur := set_content
                         (Some (mkStr (brk s) (content_chars cn ++ take (Z.to_nat len) y)))
                         cn]> (nodes s)) s)) ->
  wp (Body.xmlNodeAddContentLen fuel self (Some cur) (Some y) len) Q s.
Proof.
  intros Hc Hty Hdoc Hlen HQ. unfold Body.xmlNodeAddContentLen.
  steps.
  apply wp_dict_of_doc; [done|]. intros dict.
  steps.
  assert (Hcat : forall m, (m = xmlStrncatNew (n_content cn) (Some y) len \/
                            m = xmlStrncat (n_content cn) (Some y) len) ->
            wp (m ≫= fun r => wr cur (set_content r)) Q s).
  { intros m Hm.
    assert (Hm' : m = (p ← new_str (content_chars cn ++ take (Z.to_nat len) y);
                       mret (Some p))).
    { unfold content_chars. destruct Hm as [-> | ->];
        unfold xmlStrncatNew, xmlStrncat, xmlStrndup;
        rewrite ?(bool_decide_false (len < 0)), ?(bool_decide_false (len = 0)) by lia;
        by destruct (n_content cn). }
    rewrite Hm'. steps. sim. done. }
  destruct (_ && _ && _); apply Hcat; auto.
Qed.

(** [xmlNodeAddContent] on a text node, one level of calls down. *)
Lemma wp_text_add n cur cn y (Q : unit -> state -> Prop) s :
  nodes s !! cur = Some cn -> n_type cn = XML_TEXT_NODE -> live s (n_doc cn) ->
  Q tt (if bool_decide (y = []) then s else
        set_brk (Pos.succ (brk s))
          (set_nodes
             (<[cur := set_content (Some (mkStr (brk s) (content_chars cn ++ y))) cn]>
                (nodes s)) s)) ->
  wp (Body.xmlNodeAddContent (tie (S n)) (Some cur) (Some y)) Q s.
Proof.
  intros Hc Hty Hdoc HQ. unfold Body.xmlNodeAddContent.
  cbn [tie r_xmlNodeAddContentLen xmlStrlen].
  destruct y as [|c y].
  - rewrite bool_decide_true in HQ by done.
    unfold Body.xmlNodeAddContentLen. cbn [length]. by rewrite bool_decide_true by lia.
  - rewrite bool_decide_false in HQ by done.
    eapply wp_text_append; [done..|cbn [length]; lia|].
    by rewrite Nat2Z.id, firstn_all.
Qed.

(** Freeing a text node that has no children. *)
Lemma wp_xmlFreeNode_text fuel self c cn (Q : unit -> state -> Prop) s :
  nodes s !! c = Some cn -> n_type cn = XML_TEXT_NODE -> n_children cn = None ->
  live s (n_doc cn) ->
  Q tt (set_nodes (delete c (nodes s)) s) ->
  wp (Body.xmlFreeNode fuel self (Some c)) Q s.
Proof.
  intros Hc Hty Hch Hdoc HQ. unfold Body.xmlFreeNode.
  steps.
  apply wp_dict_of_doc; [done|]. intros dict.
  steps. sim. done.
Qed.

(** Retargeting a node that is not an element and has no children. *)
Lemma wp_xmlSetTreeDoc_leaf fuel self t tn doc (Q : unit -> state -> Prop) s :
  nodes s !! t = Some tn -> n_type tn <> XML_ELEMENT_NODE -> n_children tn = None ->
  Q tt (set_nodes (<[t := set_doc doc tn]> (nodes s)) s) ->
  wp (Body.xmlSetTreeDoc fuel self (Some t) doc) Q s.
Proof.
  intros Ht Hty Hch HQ. unfold Body.xmlSetTreeDoc.
  step. step. unfold ptr_eqb. case_bool_decide as Hd.
  - apply wp_ret. subst doc. by rewrite set_doc_same, insert_same_state in HQ.
  - cbn [negb]. steps. sim. done.
Qed.

Lemma wp_when_retarget_leaf fuel self t tn cdoc doc (Q : unit -> state -> Prop) s :
  nodes s !! t = Some tn -> n_doc tn = cdoc ->
  n_type tn <> XML_ELEMENT_NODE -> n_children tn = None ->
  Q tt (set_nodes (<[t := set_doc doc tn]> (nodes s)) s) ->
  wp (when (negb (bool_decide (cdoc = doc))) (Body.xmlSetTreeDoc fuel self (Some t) doc)) Q s.
Proof.
  intros Ht Hd Hty Hch HQ. case_bool_decide as E.
  - apply wp_ret. subst. by rewrite set_doc_same, insert_same_state in HQ.
  - by eapply wp_xmlSetTreeDoc_leaf.
Qed.
End text_nodes.

(** ** The rounds of a loop *)

Lemma loop_rounds {S A} (body : S -> M (S + A)) k n st s st' s' :
  rounds body k st s st' s' ->
  loop (k + n) body st s = loop n body st' s'.
Proof.
  induction 1 as [|k st s st1 s1 st' s' Hb _ IH]; [done|].
  cbn [Nat.add loop]. unfold mbind, M_bind at 1. by rewrite Hb.
Qed.

Lemma rounds_snoc {S A} (body : S -> M (S + A)) k st s st1 s1 st2 s2 :
  rounds body k st s st1 s1 -> body st1 s1 = Ok (inl st2) s2 ->
  rounds body (Datatypes.S k) st s st2 s2.
Proof.
  induction 1 as [|k st s sta sa st1 s1 Hb _ IH]; intros Hlast.
  - econstructor; [exact Hlast|constructor].
  - econstructor; [exact Hb|]. by apply IH.
Qed.

Lemma wp_loop_rounds {S A} (body : S -> M (S + A)) k fuel st s st' s'
  (Q : A -> state -> Prop) :
  rounds body k st s st' s' -> (k <= fuel)%nat ->
  wp (loop (fuel - k) body st') Q s' -> wp (loop fuel body st) Q s.
Proof.
  intros Hr Hk HQ.
  assert (loop fuel body st s = loop (fuel - k) body st' s') as E.
  { rewrite <- (loop_rounds body k (fuel - k) st s st' s' Hr). f_equal. lia. }
  unfold wp in *. by rewrite E.
Qed.

Lemma wp_loop_pos {S A} fuel (body : S -> M (S + A)) st (Q : A -> state -> Prop) s :
  (0 < fuel)%nat ->
  wp (body st) (fun r s' =>
      match r with
      | inl st' => wp (loop (fuel - 1) body st') Q s'
      | inr a => Q a s'
      end) s ->
  wp (loop fuel body st) Q s.
Proof.
  intros Hf Hb. destruct fuel as [|fuel]; [lia|].
  apply wp_loop_S. by rewrite Nat.sub_1_r in Hb.
Qed.

Lemma loop_inr {S A} (body : S -> M (S + A)) n st s a s' :
  body st s = Ok (inr a) s' -> loop (Datatypes.S n) body st s = Ok a s'.
Proof. intros Hb. cbn [loop]. unfold mbind, M_bind at 1. by rewrite Hb. Qed.

(** ** Scanning the name of an entity reference *)

(** The scan of [xmlStringLenGetNodeList] from [cur] runs to the first
    offset [stop] that is the end of the range, a zero byte or a
    semicolon. *)
Lemma scan_name_len (v : xmlStr) (end_ : Z) (fuel : nat) (cur stop : Z) (s : state) :
  cur <= stop ->
  (forall i, cur <= i < stop ->
     i < end_ /\ byte_at v i <> 0 /\ byte_at v i <> chr ";") ->
  ~ (stop < end_ /\ byte_at v stop <> 0 /\ byte_at v stop <> chr ";") ->
  (Z.to_nat (stop - cur) < fuel)%nat ->
  loop fuel (fun cur : Z =>
      if bool_decide (cur < end_) && negb (bool_decide (byte_at v cur = 0)) &&
         negb (bool_decide (byte_at v cur = chr ";"))
      then continue (cur + 1) else break cur) cur s
  = Ok stop s.
Proof.
  intros Hle Hin Hstop. remember (Z.to_nat (stop - cur)) as d eqn:Ed.
  revert cur fuel Hle Hin Ed. induction d as [|d IH]; intros cur fuel Hle Hin Ed Hf.
  - assert (cur = stop) as -> by lia.
    destruct fuel as [|fuel]; [lia|]. apply loop_inr.
    destruct (bool_decide (stop < end_)) eqn:E1; [|done].
    destruct (bool_decide (byte_at v stop = 0)) eqn:E2; [done|].
    destruct (bool_decide (byte_at v stop = chr ";")) eqn:E3; [done|].
    apply bool_decide_eq_true in E1. apply bool_decide_eq_false in E2, E3. tauto.
  - destruct fuel as [|fuel]; [lia|].
    destruct (Hin cur) as (H1 & H2 & H3); [lia|].
    cbn [loop]. unfold mbind, M_bind at 1.
    rewrite bool_decide_true by done. rewrite !bool_decide_false by done.
    cbn [andb negb]. unfold continue at 1. cbn [mret M_ret].
    apply IH; [lia| |lia|lia]. intros i Hi. apply Hin. lia.
Qed.

(** ** Saving the text before a reference *)

Section save_text.
Context `{Externals}.
Variables (fuel : nat) (self : calls) (doc : option ptr) (v : xmlStr).


Lemma wp_save_first ret q cur (Q : _ -> state -> Prop) s :
  q < cur ->
  (forall t, nodes s !! t = None ->
     Q (inl (Some t, Some t))
       (set_brk (Pos.succ (brk s))
          (set_nodes (<[t := text_cell doc (Some (mkStr (brk s) (pending v q cur)))]>
                        (nodes s)) s))) ->
  wp (Body.save_current_text fuel self doc v ret None q cur) Q s.
Proof.
  intros Hlt HQ. unfold Body.save_current_text, str_from. steps.
  apply wp_xmlNewDocTextLen; [lia|]. intros t Ht. steps. by apply HQ.
Qed.



End save_text.

(** ** One round of [xmlStringLenGetNodeList] *)

Section rounds_len.
Context `{Externals}.
Variables (fuel : nat) (self : calls) (doc : option ptr) (v : xmlStr) (end_ : Z).


(** A character that is neither the end of the string nor an
    ampersand is stepped over. *)
Lemma body_len_plain ret last q cur s :
  cur < end_ -> byte_at v cur <> 0 -> byte_at v cur <> chr "&" ->
  Body.xmlStringLenGetNodeList_body fuel self doc v end_ (ret, last, q, cur) s
  = Ok (inl (ret, last, q, cur + 1)) s.
Proof.
  intros H1 H2 H3. unfold Body.xmlStringLenGetNodeList_body.
  rewrite (bool_decide_true (cur < end_)) by done.
  by rewrite !bool_decide_false by done.
Qed.

(** At the end of the range or of the string the loop ends. *)
Lemma body_len_end ret last q cur s :
  ~ (cur < end_ /\ byte_at v cur <> 0) ->
  Body.xmlStringLenGetNodeList_body fuel self doc v end_ (ret, last, q, cur) s
  = Ok (inr (inl (ret, last, q, cur))) s.
Proof.
  intros Hn. unfold Body.xmlStringLenGetNodeList_body.
  destruct (bool_decide (cur < end_)) eqn:E1; [|done].
  destruct (bool_decide (byte_at v cur = 0)) eqn:E2; [done|].
  apply bool_decide_eq_true in E1. apply bool_decide_eq_false in E2. tauto.
Qed.


End rounds_len.

(** ** One round of [xmlStringGetNodeList] *)

(** The scan of [xmlStringGetNodeList] from [cur] runs to the first
    offset [stop] that is a zero byte or a semicolon. *)
Lemma scan_name (v : xmlStr) (fuel : nat) (cur stop : Z) (s : state) :
  cur <= stop ->
  (forall i, cur <= i < stop -> byte_at v i <> 0 /\ byte_at v i <> chr ";") ->
  ~ (byte_at v stop <> 0 /\ byte_at v stop <> chr ";") ->
  (Z.to_nat (stop - cur) < fuel)%nat ->
  loop fuel (fun cur : Z =>
      if negb (bool_decide (byte_at v cur = 0)) &&
         negb (bool_decide (byte_at v cur = chr ";"))
      then continue (cur + 1) else break cur) cur s
  = Ok stop s.
Proof.
  intros Hle Hin Hstop. remember (Z.to_nat (stop - cur)) as d eqn:Ed.
  revert cur fuel Hle Hin Ed. induction d as [|d IH]; intros cur fuel Hle Hin Ed Hf.
  - assert (cur = stop) as -> by lia.
    destruct fuel as [|fuel]; [lia|]. apply loop_inr.
    destruct (bool_decide (byte_at v stop = 0)) eqn:E2; [done|].
    destruct (bool_decide (byte_at v stop = chr ";")) eqn:E3; [done|].
    apply bool_decide_eq_false in E2, E3. tauto.
  - destruct fuel as [|fuel]; [lia|].
    destruct (Hin cur) as (H2 & H3); [lia|].
    cbn [loop]. unfold mbind, M_bind at 1.
    rewrite !bool_decide_false by done.
    cbn [andb negb]. unfold continue at 1. cbn [mret M_ret].
    apply IH; [lia| |lia|lia]. intros i Hi. apply Hin. lia.
Qed.

Section rounds_str.
Context `{Externals}.
Variables (fuel : nat) (self : calls) (doc : option ptr) (v : xmlStr).

Lemma body_plain ret last q cur s :
  byte_at v cur <> 0 -> byte_at v cur <> chr "&" ->
  Body.xmlStringGetNodeList_body fuel self doc v (ret, last, q, cur) s
  = Ok (inl (ret, last, q, cur + 1)) s.
Proof.
  intros H2 H3. unfold Body.xmlStringGetNodeList_body.
  by rewrite !bool_decide_false by done.
Qed.

Lemma body_end ret last q cur s :
  byte_at v cur = 0 ->
  Body.xmlStringGetNodeList_body fuel self doc v (ret, last, q, cur) s
  = Ok (inr (inl (ret, last, q, cur))) s.
Proof.
  intros Hz. unfold Body.xmlStringGetNodeList_body.
  by rewrite (bool_decide_true (byte_at v cur = 0)) by done.
Qed.

End rounds_str.

(** ** Rules for buffers and memory *)

Lemma wp_rd_buf {A} p (f : xmlBuffer -> A) (Q : A -> state -> Prop) s b :
  bufs s !! p = Some b -> Q (f b) s -> wp (rd_buf p f) Q s.
Proof.
  intros Hb HQ. unfold wp, rd_buf, load_buf, mbind, M_bind, mret, M_ret. by rewrite Hb.
Qed.

Lemma wp_wr_buf p u (Q : unit -> state -> Prop) s b :
  bufs s !! p = Some b ->
  Q tt (set_bufs (<[p := u b]> (bufs s)) s) -> wp (wr_buf p u) Q s.
Proof. intros Hb HQ. unfold wp, wr_buf. by rewrite Hb. Qed.

Lemma wp_ptr_add p n (Q : bptr -> state -> Prop) s :
  Q (mkPtr (blk p) (off p + n)) s -> wp (ptr_add (Some p) n) Q s.
Proof. done. Qed.

(** One step of a buffer operation. *)
Ltac bstep :=
  lazymatch goal with
  | |- wp (rd_buf _ _) _ _ => eapply wp_rd_buf; [lookup|]; fld
  | |- wp (wr_buf _ _) _ _ => eapply wp_wr_buf; [lookup|]; sim; rewrite ?insert_insert_eq
  | |- wp (ptr_add (Some _) _) _ _ => apply wp_ptr_add
  | |- wp (match ?x with Some _ => _ | None => _ end) _ _ =>
      first [ progress cbv beta iota | scrutinee x ]
  | _ => step
  end.


Lemma wp_alloc_buf b (Q : ptr -> state -> Prop) s :
  (forall p, bufs s !! p = None -> Q p (set_bufs (<[p := b]> (bufs s)) s)) ->
  wp (alloc_buf b) Q s.
Proof.
  intros HQ. unfold wp, alloc_buf. apply HQ. apply not_elem_of_dom, is_fresh.
Qed.

Lemma wp_free_buf p (Q : unit -> state -> Prop) s b :
  bufs s !! p = Some b -> Q tt (set_bufs (delete p (bufs s)) s) -> wp (free_buf p) Q s.
Proof. intros Hb HQ. unfold wp, free_buf. by rewrite Hb. Qed.

Lemma wp_xmlMallocAtomic n (Q : option bptr -> state -> Prop) s :
  (forall b, mem s !! b = None ->
     Q (Some (mkPtr b 0)) (set_mem (<[b := replicate (Z.to_nat n) uninit]> (mem s)) s)) ->
  wp (xmlMallocAtomic n) Q s.
Proof.
  intros HQ. unfold wp, xmlMallocAtomic. apply HQ. apply not_elem_of_dom, is_fresh.
Qed.

Lemma wp_mem_store p d (Q : unit -> state -> Prop) s bs :
  mem s !! blk p = Some bs ->
  0 <= off p -> off p + Z.of_nat (length d) <= Z.of_nat (length bs) ->
  Q tt (set_mem (<[blk p := take (Z.to_nat (off p)) bs ++ d ++
                             drop (Z.to_nat (off p) + length d) bs]> (mem s)) s) ->
  wp (mem_store p d) Q s.
Proof.
  intros Hb H0 H1 HQ. unfold wp, mem_store. rewrite Hb.
  by rewrite !bool_decide_true by done.
Qed.

Lemma wp_src_bytes (str : xmlStr) len (Q : list xmlChar -> state -> Prop) s :
  0 <= len <= Z.of_nat (length str) + 1 ->
  Q (take (Z.to_nat len) (str ++ [0])) s -> wp (src_bytes str len) Q s.
Proof.
  intros Hl HQ. unfold src_bytes.
  rewrite (bool_decide_true (0 <= len)) by lia.
  by rewrite (bool_decide_true (len <= _)) by lia.
Qed.

Lemma wp_xmlGetBufferAllocationScheme (Q : xmlBufferAllocationScheme -> state -> Prop) s :
  Q (scheme s) s -> wp xmlGetBufferAllocationScheme Q s.
Proof. done. Qed.

(** * Further properties *)

(** A run that ends with the value [a] in a state that satisfies [Q]. *)
Lemma wp_result {A} (m : M A) (a : A) (Q : state -> Prop) s :
  wp m (fun r s' => r = a /\ Q s') s -> exists s', m s = Ok a s' /\ Q s'.
Proof.
  intros Hw. apply wp_run in Hw as (r & s' & Hm & -> & HQ). by exists s'.
Qed.

Lemma wp_result_unit (m : M unit) (Q : state -> Prop) s :
  wp m (fun _ s' => Q s') s -> exists s', m s = Ok tt s' /\ Q s'.
Proof.
  intros Hw. apply wp_run in Hw as ([] & s' & Hm & HQ). by exists s'.
Qed.

(** Facts about a closed state. *)
Ltac closed :=
  first [ reflexivity | discriminate | lia
        | intros ? [= <-]; eexists; reflexivity
        | intros ? ?; discriminate
        | intros ?; discriminate
        | by vm_compute ].

(** A test on constants is replaced by its value. *)
Ltac constant_tests :=
  repeat match goal with
    | |- context [bool_decide ?P] =>
        let b := eval vm_compute in (bool_decide P) in
        lazymatch b with
        | true => change (bool_decide P) with true
        | false => change (bool_decide P) with false
        end
    end;
  cbn [negb andb orb].

Lemma wp_mem_load p n (Q : list xmlChar -> state -> Prop) s bs :
  mem s !! blk p = Some bs ->
  0 <= off p -> 0 <= n -> off p + n <= Z.of_nat (length bs) ->
  Q (take (Z.to_nat n) (drop (Z.to_nat (off p)) bs)) s ->
  wp (mem_load p n) Q s.
Proof.
  intros Hb H0 H1 H2 HQ. unfold wp, mem_load. rewrite Hb.
  by rewrite !bool_decide_true by done.
Qed.

Lemma wp_xmlFree_mem p (Q : unit -> state -> Prop) s bs :
  mem s !! blk p = Some bs -> off p = 0 ->
  Q tt (set_mem (delete (blk p) (mem s)) s) -> wp (xmlFree_mem p) Q s.
Proof.
  intros Hb H0 HQ. unfold wp, xmlFree_mem. rewrite Hb.
  by rewrite bool_decide_true by done.
Qed.

(** One step of a run over nodes, declarations, buffers and memory. *)
Ltac xstep :=
  lazymatch goal with
  | |- wp (alloc_buf _) _ _ =>
      let p := fresh "b" in let Hp := fresh "Hb" in
      apply wp_alloc_buf; intros p Hp; sim
  | |- wp (free_buf _) _ _ => eapply wp_free_buf; [lookup|]; sim
  | |- wp (xmlMallocAtomic _) _ _ =>
      let p := fresh "m" in let Hp := fresh "Hm" in
      apply wp_xmlMallocAtomic; intros p Hp; sim
  | |- wp xmlGetBufferAllocationScheme _ _ => apply wp_xmlGetBufferAllocationScheme; sim
  | |- wp (loop (S _) _ _) _ _ => apply wp_loop_S
  | |- wp (loop _ _ _) _ _ => apply wp_loop_pos; [lia|]
  | |- wp (if _ then _ else _) _ _ => first [ bstep | progress constant_tests ]
  | _ => bstep
  end.

Ltac xsteps := repeat xstep.

(** Two cells that differ by fields that are set to the value they
    have. *)
Ltac same_cell :=
  f_equal;
  repeat match goal with n : xmlNode |- _ => destruct n end;
  unfold set_type, set_name, set_children, set_last, set_parent, set_next, set_prev,
    set_doc, set_ns, set_content, set_properties, set_nsDef, set_intSubset,
    set_extSubset, set_oldNs, set_owner in *;
  cbn in *; congruence.

(** The cell found at an address after a sequence of updates. *)
Ltac cells :=
  sim;
  repeat first
    [ rewrite lookup_insert_eq
    | rewrite lookup_insert_ne by (first [ neq | naive_solver ])
    | rewrite lookup_delete_eq
    | rewrite lookup_delete_ne by (first [ neq | naive_solver ]) ];
  first [ done | eassumption | same_cell
        | match goal with E : _ !! _ = Some _ |- _ => rewrite E; same_cell end ].

Lemma wp_alloc_ns n (Q : ptr -> state -> Prop) s :
  (forall p, nss s !! p = None -> Q p (set_nss (<[p := n]> (nss s)) s)) ->
  wp (alloc_ns n) Q s.
Proof.
  intros HQ. unfold wp, alloc_ns. apply HQ. apply not_elem_of_dom, is_fresh.
Qed.

Lemma wp_free_ns p (Q : unit -> state -> Prop) s n :
  nss s !! p = Some n -> Q tt (set_nss (delete p (nss s)) s) -> wp (free_ns p) Q s.
Proof. intros Hn HQ. unfold wp, free_ns. by rewrite Hn. Qed.

(** One step of a run, declarations included. *)
Ltac nstep :=
  lazymatch goal with
  | |- wp (alloc_ns _) _ _ =>
      let p := fresh "q" in let Hp := fresh "Hq" in
      apply wp_alloc_ns; intros p Hp; sim
  | |- wp (free_ns _) _ _ => eapply wp_free_ns; [lookup|]; sim
  | _ => xstep
  end.

Ltac nsteps := repeat nstep.

(** The steps up to the next loop. *)
Ltac upto_loop :=
  repeat lazymatch goal with
    | |- wp (loop _ _ _) _ _ => fail
    | _ => nstep
    end.

(** Arithmetic on the lengths of byte lists. *)
Ltac sizes :=
  unfold xmlStr, xmlChar in *; cbn [off blk length];
  repeat match goal with
    | E : context [length (_ ++ _)] |- _ => rewrite length_app in E
    end;
  repeat first [ rewrite length_app | rewrite length_replicate | rewrite length_take
               | rewrite length_drop ];
  cbn [length] in *; lia.

(** ** Chains of namespace declarations *)

(** The scan of one [nsDef] chain stops at the first declaration that
    matches. *)
Lemma scan_chain (fuel : nat) (nameSpace : option xmlStr) (s : state)
  (start : option ptr) (l : list (ptr * xmlNs)) :
  ns_chain s start l -> (length l < fuel)%nat ->
  loop fuel (fun cur : option ptr =>
      match cur with
      | None => break None
      | Some c =>
          cd ← load_ns c;
          if prefix_matches cd nameSpace then break cur
          else continue (ns_next cd)
      end) start s
  = Ok (fst <$> first_match nameSpace l) s.
Proof.
  revert fuel start. induction l as [|[p d] l IH]; intros fuel start Hl Hf.
  - cbn in Hl. subst start. destruct fuel as [|fuel]; [cbn in Hf; lia|].
    by apply loop_inr.
  - destruct Hl as (-> & Hp & Hl). destruct fuel as [|fuel]; [cbn in Hf; lia|].
    apply wp_exact. apply wp_loop_S. nsteps.
    unfold first_match. cbn [find snd].
    destruct (prefix_matches d nameSpace) eqn:E.
    + nsteps. done.
    + nsteps. eapply wp_eq; [apply IH; [done|cbn in Hf; lia]|]. done.
Qed.

(** ** Parsing and materialising ["abc&amp;def"] *)

(** The bytes of a constant string at constant offsets. *)
Ltac bytes :=
  repeat match goal with
    | |- context [byte_at ?v ?i] =>
        let x := eval vm_compute in (byte_at v i) in
        change (byte_at v i) with x
    | |- context [chr ?c] =>
        let x := eval vm_compute in (chr c) in
        change (chr c) with x
    end.

Section round_trip.
Context `{Externals}.
Variables (doc : option ptr) (e : ptr) (en : xmlNode).
Hypothesis amp_entity :
  forall s, xmlGetDocEntity doc (Some (BAD_CAST "amp")) s = Ok (Some e) s.
Hypothesis amp_predefined : n_etype en = Some XML_INTERNAL_PREDEFINED_ENTITY.
Hypothesis amp_content : chars (n_content en) = Some (BAD_CAST "&").

Lemma wp_parse_len fuel s :
  nodes s !! e = Some en -> live s doc -> (8 <= fuel)%nat ->
  wp (xmlStringLenGetNodeList fuel doc (Some abc_amp_def) 11) (parsed doc s) s.
Proof.
  intros He Hdoc Hfuel.
  do 8 (destruct fuel as [|fuel]; [lia|]).
  unfold xmlStringLenGetNodeList, Body.xmlStringLenGetNodeList.
  set (F := S (S (S (S (S (S (S (S fuel)))))))).
  apply wp_bind.
  do 3 (apply wp_loop_S; eapply wp_eq;
        [apply body_len_plain; [lia|by vm_compute|by vm_compute]|]; cbv beta iota).
  apply wp_loop_S. unfold Body.xmlStringLenGetNodeList_body at 1.
  cbv beta iota. bytes. cond. apply wp_bind.
  apply wp_save_first; [lia|]. intros t Ht.
  assert (t <> e) as Hte by (intros ->; congruence).
  cbv beta iota. cond. apply wp_bind. eapply wp_eq.
  { apply (scan_name_len abc_amp_def 11 F (0 + 1 + 1 + 1 + 1) 7).
    - lia.
    - intros i Hi. assert (i = 4 \/ i = 5 \/ i = 6) as [->|[->| ->]] by lia;
        (split; [lia|split; by vm_compute]).
    - intros (_ & _ & E). by vm_compute in E.
    - subst F. vm_compute. lia. }
  bytes. cond. apply wp_bind. apply wp_bind.
  unfold xmlStrndup, str_from. cond. steps. fld.
  eapply wp_eq; [apply amp_entity|].
  steps. rewrite amp_content. subst F.
  eapply wp_text_add; [lookup|reflexivity|alive|].
  rewrite bool_decide_false by done. fld. sim. rewrite insert_insert_eq.
  steps.
  do 3 (eapply wp_eq; [apply body_len_plain; [lia|by vm_compute|by vm_compute]|];
        cbv beta iota; apply wp_loop_S).
  eapply wp_eq; [apply body_len_end; lia|]. cbv beta iota.
  steps. unfold str_from.
  eapply wp_text_append; [lookup|reflexivity|alive|lia|].
  fld. sim. rewrite insert_insert_eq. steps.
  exists t, (Pos.succ (Pos.succ (Pos.succ (brk s)))). sim.
  split_and!; done.
Qed.

Lemma wp_parse fuel s :
  nodes s !! e = Some en -> live s doc -> (8 <= fuel)%nat ->
  wp (xmlStringGetNodeList fuel doc (Some abc_amp_def)) (parsed doc s) s.
Proof.
  intros He Hdoc Hfuel.
  do 8 (destruct fuel as [|fuel]; [lia|]).
  unfold xmlStringGetNodeList, Body.xmlStringGetNodeList.
  set (F := S (S (S (S (S (S (S (S fuel)))))))).
  apply wp_bind.
  do 3 (apply wp_loop_S; eapply wp_eq;
        [apply body_plain; by vm_compute|]; cbv beta iota).
  apply wp_loop_S. unfold Body.xmlStringGetNodeList_body at 1.
  cbv beta iota. bytes. cond. apply wp_bind.
  apply wp_save_first; [lia|]. intros t Ht.
  assert (t <> e) as Hte by (intros ->; congruence).
  cbv beta iota. cond. apply wp_bind. eapply wp_eq.
  { apply (scan_name abc_amp_def F (0 + 1 + 1 + 1 + 1) 7).
    - lia.
    - intros i Hi. assert (i = 4 \/ i = 5 \/ i = 6) as [->|[->| ->]] by lia;
        (split; by vm_compute).
    - intros (_ & E). by vm_compute in E.
    - subst F. vm_compute. lia. }
  bytes. cond. apply wp_bind. apply wp_bind.
  unfold xmlStrndup, str_from. cond. steps. fld.
  eapply wp_eq; [apply amp_entity|].
  steps. rewrite amp_content. subst F.
  eapply wp_text_add; [lookup|reflexivity|alive|].
  rewrite bool_decide_false by done. fld. sim. rewrite insert_insert_eq.
  steps.
  do 3 (eapply wp_eq; [apply body_plain; by vm_compute|];
        cbv beta iota; apply wp_loop_S).
  eapply wp_eq; [apply body_end; by vm_compute|]. cbv beta iota.
  steps. unfold str_from.
  eapply wp_text_append; [lookup|reflexivity|alive|lia|].
  fld. sim. rewrite insert_insert_eq. steps.
  exists t, (Pos.succ (Pos.succ (Pos.succ (brk s)))). sim.
  split_and!; done.
Qed.

(** The text of a list that is one text node, with substitution. *)
Lemma wp_string_of_text fuel t a x s (Q : option xmlCharPtr -> state -> Prop) :
  nodes s !! t = Some (text_cell doc (Some (mkStr a x))) -> (2 <= fuel)%nat ->
  Q (Some (mkStr (brk s) x)) (set_brk (Pos.succ (brk s)) s) ->
  wp (xmlNodeListGetString fuel doc (Some t) 1) Q s.
Proof.
  intros Ht Hfuel HQ. do 2 (destruct fuel as [|fuel]; [lia|]).
  unfold xmlNodeListGetString, Body.xmlNodeListGetString.
  steps. unfold xmlStrcat. steps. done.
Qed.


(** A test on constants is replaced by its value. *)
Ltac closed_tests :=
  repeat match goal with
    | |- context [bool_decide ?P] =>
        let b := eval vm_compute in (bool_decide P) in
        lazymatch b with
        | true => change (bool_decide P) with true
        | false => change (bool_decide P) with false
        end
    end;
  cbn [negb andb orb].

(** Step of a run that also touches buffers and memory. *)
Ltac mstep :=
  lazymatch goal with
  | |- wp (if _ then _ else _) _ _ => first [ step | progress closed_tests ]
  | |- wp (alloc_buf _) _ _ =>
      let p := fresh "b" in let Hp := fresh "Hb" in
      apply wp_alloc_buf; intros p Hp; sim
  | |- wp (free_buf _) _ _ => eapply wp_free_buf; [lookup|]; sim
  | |- wp (xmlMallocAtomic _) _ _ =>
      let p := fresh "m" in let Hp := fresh "Hm" in
      apply wp_xmlMallocAtomic; intros p Hp; sim
  | |- wp xmlGetBufferAllocationScheme _ _ => apply wp_xmlGetBufferAllocationScheme; sim
  | |- wp (mem_store _ _) _ _ =>
      cbn [blk off]; eapply wp_mem_store;
      [lookup | by vm_compute | by vm_compute |]; cbn [blk off]; sim;
      rewrite ?insert_insert_eq
  | |- wp (src_bytes _ _) _ _ =>
      apply wp_src_bytes; [split; by vm_compute|]
  | |- wp (loop (S _) _ _) _ _ => apply wp_loop_S
  | |- wp (loop _ _ _) _ _ => apply wp_loop_pos; [lia|]
  | _ => bstep
  end.

Lemma wp_set_then_get fuel el eln s :
  nodes s !! e = Some en -> live s doc ->
  nodes s !! el = Some eln -> n_type eln = XML_ELEMENT_NODE ->
  n_children eln = None -> n_doc eln = doc ->
  scheme s <> XML_BUFFER_ALLOC_IMMUTABLE ->
  (9 <= fuel)%nat ->
  wp (set_then_get_content fuel el abc_amp_def)
     (fun r s' => exists p, r = Some (in_memory p) /\
                            string_at s' p = Some (BAD_CAST "abc&def")) s.
Proof.
  intros He Hdoc Hel Hty Hch Hd Hsch Hfuel.
  destruct fuel as [|fuel]; [lia|].
  unfold set_then_get_content, xmlNodeSetContent, Body.xmlNodeSetContent.
  repeat mstep. rewrite Hd.
  change (r_xmlStringGetNodeList (tie (S fuel))) with (xmlStringGetNodeList fuel).
  eapply wp_mono; [apply (wp_parse _ s He Hdoc); lia|].
  intros l [n1 ns1 b1 m1 sc1 k1 er1] (t & a & -> & Ht & Hn & Hns & Her & Hb & Hm & Hsc).
  cbn in Hn, Hns, Her, Hb, Hm, Hsc. subst.
  assert (t <> el) by (intros ->; congruence).
  repeat mstep. unfold Body.UPDATE_LAST_CHILD_AND_PARENT. repeat mstep.
  unfold xmlNodeGetContent. repeat mstep.
  unfold xmlBufferCreateSize. repeat mstep.
  cbn [xmlNodeBufGetContent]. repeat mstep.
  unfold xmlBufferCat. repeat mstep.
  unfold xmlBufferAdd. repeat mstep. cbn [xmlStrlen length]. repeat mstep.
  unfold next_in_walk. repeat mstep.
  unfold detach_content, xmlBufferFree. repeat mstep.
  eexists. split; [reflexivity|].
  unfold string_at. sim. cbn [blk off]. rewrite lookup_insert_eq.
  by vm_compute.
Qed.
End round_trip.

(** C1, as stated, fails on the route through [xmlNodeGetContent]:
    once [xmlSetBufferAllocationScheme] has made the immutable scheme
    the default one, the buffer that [xmlNodeGetContent] creates
    refuses every addition. [xmlNodeSetContent] with ["abc&amp;def"]
    still gives the element one text child that holds ["abc&def"], but
    [xmlNodeGetContent] of the element returns the empty string. *)
Lemma xmlNodeGetContent_immutable_scheme :
  exists p s' t tn,
    (xmlSetBufferAllocationScheme XML_BUFFER_ALLOC_IMMUTABLE;;
     @set_then_get_content predefined_entities 9 6%positive abc_amp_def) entities_state
      = Ok (Some (in_memory p)) s' /\
    string_at s' p = Some [] /\
    (nodes s' !! 6%positive ≫= n_children) = Some t /\
    nodes s' !! t = Some tn /\
    n_type tn = XML_TEXT_NODE /\ n_next tn = None /\
    content_chars tn = BAD_CAST "abc&def".
Proof.
  eexists _, _, 7%positive, _.
  split; [vm_compute; reflexivity|].
  split; [vm_compute; reflexivity|].
  split; [vm_compute; reflexivity|].
  split; [vm_compute; reflexivity|].
  split_and!; reflexivity.
Qed.

(** C1 (amended). In a document for which [xmlGetDocEntity] finds the
    predefined entity [amp], whose content is ["&"], both
    [xmlStringLenGetNodeList]
    (over the 11 characters) and [xmlStringGetNodeList] turn
    ["abc&amp;def"] into a list of one new text node that holds
    ["abc&def"]; no other cell is made, so no entity-reference node, and
    no error is recorded. [xmlNodeListGetString] with [inLine] set then
    returns the string ["abc&def"]. And for an element of the document
    without children, [xmlNodeSetContent] with ["abc&amp;def"] followed
    by [xmlNodeGetContent] returns a pointer to the C string
    ["abc&def"], as long as the default allocation scheme of buffers is
    not the immutable one. *)
Theorem parse_then_string_round_trip `{Externals} (fuel : nat) (doc : option ptr)
  (e : ptr) (en : xmlNode) (s : state) :
  (forall s', xmlGetDocEntity doc (Some (BAD_CAST "amp")) s' = Ok (Some e) s') ->
  nodes s !! e = Some en ->
  n_etype en = Some XML_INTERNAL_PREDEFINED_ENTITY ->
  chars (n_content en) = Some (BAD_CAST "&") ->
  live s doc ->
  (9 <= fuel)%nat ->
  (exists l s1 r s2,
     xmlStringLenGetNodeList fuel doc (Some abc_amp_def) 11 s = Ok l s1 /\
     parsed doc s l s1 /\
     xmlNodeListGetString fuel doc l 1 s1 = Ok (Some r) s2 /\
     str_chars r = BAD_CAST "abc&def") /\
  (exists l s1 r s2,
     xmlStringGetNodeList fuel doc (Some abc_amp_def) s = Ok l s1 /\
     parsed doc s l s1 /\
     xmlNodeListGetString fuel doc l 1 s1 = Ok (Some r) s2 /\
     str_chars r = BAD_CAST "abc&def") /\
  (forall el eln,
     nodes s !! el = Some eln -> n_type eln = XML_ELEMENT_NODE ->
     n_children eln = None -> n_doc eln = doc ->
     scheme s <> XML_BUFFER_ALLOC_IMMUTABLE ->
     exists p s',
       set_then_get_content fuel el abc_amp_def s = Ok (Some (in_memory p)) s' /\
       string_at s' p = Some (BAD_CAST "abc&def")).
Proof.
  intros Hent He Hpre Hct Hdoc Hfuel.
  assert (Hstr : forall l s1, parsed doc s l s1 ->
            exists r s2, xmlNodeListGetString fuel doc l 1 s1 = Ok (Some r) s2 /\
                         str_chars r = BAD_CAST "abc&def").
  { intros l s1 (t & a & -> & Ht & Hn & _).
    assert (wp (xmlNodeListGetString fuel doc (Some t) 1)
              (fun r s2 => exists r', r = Some r' /\ str_chars r' = BAD_CAST "abc&def") s1)
      as Hw.
    { eapply wp_string_of_text; [by rewrite Hn, lookup_insert_eq|lia|]. by eexists. }
    apply wp_run in Hw as (r & s2 & Hrun & r' & -> & Hr). by exists r', s2. }
  split_and!.
  - assert (8 <= fuel)%nat as Hf by lia.
    destruct (proj1 (wp_run _ _ _) (wp_parse_len doc e en Hent Hpre Hct fuel s He Hdoc Hf))
      as (l & s1 & Hrun & Hp).
    destruct (Hstr l s1 Hp) as (r & s2 & Hr & Hc). by exists l, s1, r, s2.
  - assert (8 <= fuel)%nat as Hf by lia.
    destruct (proj1 (wp_run _ _ _) (wp_parse doc e en Hent Hpre Hct fuel s He Hdoc Hf))
      as (l & s1 & Hrun & Hp).
    destruct (Hstr l s1 Hp) as (r & s2 & Hr & Hc). by exists l, s1, r, s2.
  - intros el eln Hel Hty Hch Hd Hsch.
    destruct (proj1 (wp_run _ _ _)
                (wp_set_then_get doc e en Hent Hpre Hct fuel el eln s
                   He Hdoc Hel Hty Hch Hd Hsch Hfuel))
      as (r & s' & Hrun & p & -> & Hp).
    by exists p, s'.
Qed.

Lemma parse_then_string_round_trip_witness :
  (exists l s1 r s2,
     @xmlStringLenGetNodeList predefined_entities 9 None (Some abc_amp_def) 11
       entities_state = Ok l s1 /\
     parsed None entities_state l s1 /\
     @xmlNodeListGetString predefined_entities 9 None l 1 s1 = Ok (Some r) s2 /\
     str_chars r = BAD_CAST "abc&def") /\
  (exists p s',
     @set_then_get_content predefined_entities 9 6%positive abc_amp_def entities_state
       = Ok (Some (in_memory p)) s' /\
     string_at s' p = Some (BAD_CAST "abc&def")).
Proof.
  destruct (@parse_then_string_round_trip predefined_entities 9 None 3%positive
              (predefined_entity 8 "amp" [38]) entities_state) as (Hlen & _ & Hget).
  - intros s'. reflexivity.
  - reflexivity.
  - reflexivity.
  - reflexivity.
  - intros x E. discriminate E.
  - lia.
  - split; [exact Hlen|].
    apply (Hget 6%positive (zero_node XML_ELEMENT_NODE)); try reflexivity.
    intros E. discriminate E.
Defined.

(** ** Text nodes that are and are not to be escaped *)

(** Runs from a closed state, one conjunct after the other. *)
Ltac evaluate :=
  repeat (lazymatch goal with |- _ /\ _ => split end; [vm_compute; reflexivity|]);
  vm_compute; reflexivity.

(** [xmlAddSibling] and [xmlTextMerge] compare the names of the two
    text nodes: handed a text node and a text node named
    [xmlStringTextNoenc], the first links the second node after the
    first one and the second returns the first node; both nodes are
    kept, with their contents. *)
Lemma xmlAddSibling_keeps_text_and_noenc :
  exists s' t u,
    text_and_noenc (@xmlAddSibling no_dtd 10) (BAD_CAST "a") (BAD_CAST "b") empty_state
      = Ok (Some 1%positive, Some 2%positive, Some 2%positive) s' /\
    nodes s' !! 1%positive = Some t /\ nodes s' !! 2%positive = Some u /\
    content_chars t = BAD_CAST "a" /\ content_chars u = BAD_CAST "b" /\
    n_next t = Some 2%positive /\ n_prev u = Some 1%positive.
Proof. eexists _, _, _. evaluate. Qed.

Lemma xmlTextMerge_keeps_text_and_noenc :
  exists s' t u,
    text_and_noenc (@xmlTextMerge no_dtd 10) (BAD_CAST "a") (BAD_CAST "b") empty_state
      = Ok (Some 1%positive, Some 2%positive, Some 1%positive) s' /\
    nodes s' !! 1%positive = Some t /\ nodes s' !! 2%positive = Some u /\
    content_chars t = BAD_CAST "a" /\ content_chars u = BAD_CAST "b".
Proof. eexists _, _, _. evaluate. Qed.

(** C2. The code at the failing input: [xmlAddNextSibling] and
    [xmlAddPrevSibling], handed a text node ["a"] named [xmlStringText]
    and a text node ["b"] named [xmlStringTextNoenc], test the kinds
    only; they concatenate the content of the second node into the
    first one (["ab"], respectively ["ba"]), free the second node and
    return the first. *)
Theorem xmlAddNextSibling_merges_text_and_noenc :
  (exists s' t,
     text_and_noenc (@xmlAddNextSibling no_dtd 10) (BAD_CAST "a") (BAD_CAST "b") empty_state
       = Ok (Some 1%positive, Some 2%positive, Some 1%positive) s' /\
     nodes s' !! 1%positive = Some t /\
     n_type t = XML_TEXT_NODE /\ n_name t = Some xmlStringText /\
     content_chars t = BAD_CAST "ab" /\
     nodes s' !! 2%positive = None) /\
  (exists s' t,
     text_and_noenc (@xmlAddPrevSibling no_dtd 10) (BAD_CAST "a") (BAD_CAST "b") empty_state
       = Ok (Some 1%positive, Some 2%positive, Some 1%positive) s' /\
     nodes s' !! 1%positive = Some t /\
     n_type t = XML_TEXT_NODE /\ n_name t = Some xmlStringText /\
     content_chars t = BAD_CAST "ba" /\
     nodes s' !! 2%positive = None).
Proof. split; eexists _, _; evaluate. Qed.

(** ** Attributes of the same name *)


(** The state in which the second [xmlAddChild] of [add_two_attrs]
    starts: the element of cell 1 holds the attribute of cell 2, the
    new attribute is in cell 4. From there [xmlHasProp] finds the
    attribute of cell 2 and [xmlFreeProp] frees it, which leaves the
    [properties] of the element pointing at the freed cell; the read
    of its [next] is then a read of freed memory. *)
Lemma add_two_attrs_dangling :
  exists s2 s3 e,
    (@add_one_attr no_dtd 10 1%positive (BAD_CAST "id") (BAD_CAST "1");;
     @xmlNewDocProp no_dtd 10 None (Some (BAD_CAST "id")) (Some (BAD_CAST "2")))
      element_state = Ok (Some 4%positive) s2 /\
    @xmlHasProp no_dtd 10 (Some 1%positive) (Some (BAD_CAST "id")) s2
      = Ok (Some 2%positive) s2 /\
    @xmlFreeProp no_dtd 10 (Some 2%positive) s2 = Ok tt s3 /\
    nodes s3 !! 1%positive = Some e /\ n_properties e = Some 2%positive /\
    nodes s3 !! 2%positive = None /\
    rd 2%positive n_next s3 = Crash /\
    @xmlAddChild no_dtd 10 (Some 1%positive) (Some 4%positive) s2 = Crash.
Proof. eexists _, _, _. evaluate. Qed.

(** C3. The code at the failing input: on an element without
    attributes, the first [xmlAddChild] of an attribute [id="1"] links
    it; the second, of an attribute [id="2"], frees the first attribute
    without unlinking it and then walks the attribute chain from the
    freed cell: the run does not end with one attribute [id="2"], it
    reads freed memory. *)
Theorem xmlAddChild_same_name_attribute :
  (exists s1 e,
     @add_one_attr no_dtd 10 1%positive (BAD_CAST "id") (BAD_CAST "1") element_state
       = Ok (Some 2%positive) s1 /\
     nodes s1 !! 1%positive = Some e /\ n_properties e = Some 2%positive) /\
  @add_two_attrs no_dtd 10 1%positive (BAD_CAST "id") (BAD_CAST "1") (BAD_CAST "2")
     element_state = Crash.
Proof.
  split; [eexists _, _; evaluate|].
  vm_compute. reflexivity.
Qed.

(** ** Coalescing of text children *)

Section coalesce.
Context `{Externals}.

Lemma add_two_texts_wp (fuel : nat) (s : state) (p : ptr) (pn : xmlNode) (x y : xmlStr) :
  nodes s !! p = Some pn ->
  n_type pn = XML_ELEMENT_NODE -> n_children pn = None -> n_last pn = None ->
  live s (n_doc pn) ->
  wp (add_two_texts (S fuel) p x y)
     (fun '(a, b, r) s' =>
        exists t tn pn',
          a = Some t /\ r = Some t /\ b <> a /\
          nodes s' !! p = Some pn' /\
          n_children pn' = Some t /\ n_last pn' = Some t /\
          nodes s' !! t = Some tn /\
          n_type tn = XML_TEXT_NODE /\
          chars (n_content tn) = Some (x ++ y) /\
          n_parent tn = Some p /\ n_next tn = None /\ n_prev tn = None /\
          (forall q, b = Some q -> nodes s' !! q = None)) s.
Proof.
  intros Hp Hty Hch Hla Hdoc.
  destruct pn as [pty pnm pch pla ppa pnx ppv pdoc pns pct ppr pnd pis pes pon pdi pet pow pdv].
  fld. subst pty pch pla.
  unfold add_two_texts.
  step. apply wp_xmlNewText. intros t Ht.
  step. unfold xmlAddChild, Body.xmlAddChild. steps.
  eapply wp_when_retarget_leaf; [lookup|reflexivity|done|done|]. sim.
  rewrite ?insert_insert_eq. steps.
  apply wp_xmlNewText. intros t2 Ht2. sim. fresh_facts Ht2.
  steps.
  eapply wp_text_add; [lookup|reflexivity|alive|].
  case_bool_decide as Ey;
    (step; eapply wp_xmlFreeNode_text; [lookup|done|done|alive|]; sim; steps;
     eexists t, _, _; split_and!; sim; fld;
     try solve [ done | congruence | lookup
               | intros q [= <-]; by rewrite lookup_delete_eq ]).
  subst y. by rewrite app_nil_r.
Qed.

(** C4. On an element [p] that has no children, adding the new text
    node for ["a"] and then the new text node for ["b"] with
    [xmlAddChild] leaves [p] with one child: the first text node, which
    is both [p->children] and [p->last], has no sibling, has kind text
    and holds ["ab"]; the second call returns that node and the second
    text node has been freed. *)
Theorem xmlAddChild_coalesces_text (fuel : nat) (s : state) (p : ptr) (pn : xmlNode) :
  nodes s !! p = Some pn ->
  n_type pn = XML_ELEMENT_NODE -> n_children pn = None -> n_last pn = None ->
  live s (n_doc pn) ->
  (0 < fuel)%nat ->
  exists t b tn pn' s',
    add_two_texts fuel p (BAD_CAST "a") (BAD_CAST "b") s = Ok (Some t, b, Some t) s' /\
    nodes s' !! p = Some pn' /\
    n_children pn' = Some t /\ n_last pn' = Some t /\
    nodes s' !! t = Some tn /\
    n_type tn = XML_TEXT_NODE /\
    chars (n_content tn) = Some (BAD_CAST "ab") /\
    n_parent tn = Some p /\ n_next tn = None /\ n_prev tn = None /\
    b <> Some t /\ (forall q, b = Some q -> nodes s' !! q = None).
Proof.
  intros Hp Hty Hch Hla Hdoc Hfuel.
  destruct fuel as [|fuel]; [lia|].
  pose proof (add_two_texts_wp fuel s p pn (BAD_CAST "a") (BAD_CAST "b")
                Hp Hty Hch Hla Hdoc) as Hwp.
  apply wp_run in Hwp as ([[a b] r] & s' & Hrun & t & tn & pn' & -> & -> & Hb & Hrest).
  exists t, b, tn, pn', s'. split; [done|].
  destruct Hrest as (? & ? & ? & ? & ? & ? & ? & ? & ? & ?). split_and!; auto.
Qed.
End coalesce.

Lemma xmlAddChild_coalesces_text_witness :
  n_children (zero_node XML_ELEMENT_NODE) = None /\
  exists t b tn pn' s',
    @add_two_texts no_dtd 1 1%positive (BAD_CAST "a") (BAD_CAST "b") element_state
      = Ok (Some t, b, Some t) s' /\
    nodes s' !! 1%positive = Some pn' /\
    n_children pn' = Some t /\ n_last pn' = Some t /\
    nodes s' !! t = Some tn /\
    n_type tn = XML_TEXT_NODE /\
    chars (n_content tn) = Some (BAD_CAST "ab") /\
    n_parent tn = Some 1%positive /\ n_next tn = None /\ n_prev tn = None /\
    b <> Some t /\ (forall q, b = Some q -> nodes s' !! q = None).
Proof.
  split; [reflexivity|].
  apply (@xmlAddChild_coalesces_text no_dtd 1 element_state 1%positive
           (zero_node XML_ELEMENT_NODE));
    [reflexivity | reflexivity | reflexivity | reflexivity | intros x [=] | lia].
Defined.

(** ** Namespace lookup by prefix *)

Lemma prefix_matches_same (d : xmlNs) (px : xmlStr) :
  chars (ns_prefix d) = Some px -> ns_href d <> None ->
  prefix_matches d (Some px) = true.
Proof.
  intros Hp Hh. unfold prefix_matches, xmlStrEqual. rewrite Hp.
  destruct (ns_prefix d); [|done].
  repeat case_bool_decide; done.
Qed.

(** The search from an element [c] without declarations whose parent
    [b] declares the prefix first in its [nsDef] chain stops at that
    declaration, whatever lies above [b]. *)
Lemma xmlSearchNs_parent (fuel : nat) (s : state) (doc : option ptr) (b c nb : ptr)
  (bn cn : xmlNode) (nbd : xmlNs) (px : xmlStr) :
  nodes s !! c = Some cn -> n_type cn = XML_ELEMENT_NODE -> n_nsDef cn = None ->
  n_parent cn = Some b ->
  nodes s !! b = Some bn -> n_type bn = XML_ELEMENT_NODE -> n_nsDef bn = Some nb ->
  nss s !! nb = Some nbd -> chars (ns_prefix nbd) = Some px -> ns_href nbd <> None ->
  px <> BAD_CAST "xml" ->
  xmlSearchNs (S (S fuel)) doc (Some c) (Some px) s = Ok (Some nb) s.
Proof.
  intros Hc Hcty Hcns Hcp Hb Hbty Hbns Hnb Hpx Hhref Hxml.
  apply wp_exact. unfold xmlSearchNs, xmlStrEqual.
  assert (b <> c) by (intros ->; congruence).
  steps. rewrite prefix_matches_same by done. steps. done.
Qed.

(** C5. In a tree of the shape
    [<a xmlns:x="u1"><b xmlns:x="u2"><c/></b></a>], the search for the
    prefix [x] that starts at [c] returns the declaration of [b], whose
    href is ["u2"], and not the declaration of [a], whose href is
    ["u1"]: the walk towards the root stops at the first element whose
    [nsDef] chain has a match. *)
Theorem xmlSearchNs_shadowing (fuel : nat) (s : state) (doc : option ptr)
  (a b c na nb : ptr) (an bn cn : xmlNode) (nad nbd : xmlNs) :
  nodes s !! a = Some an -> n_type an = XML_ELEMENT_NODE -> n_nsDef an = Some na ->
  nss s !! na = Some nad ->
  chars (ns_prefix nad) = Some (BAD_CAST "x") ->
  chars (ns_href nad) = Some (BAD_CAST "u1") ->
  nodes s !! b = Some bn -> n_type bn = XML_ELEMENT_NODE -> n_nsDef bn = Some nb ->
  n_parent bn = Some a ->
  nss s !! nb = Some nbd ->
  chars (ns_prefix nbd) = Some (BAD_CAST "x") ->
  chars (ns_href nbd) = Some (BAD_CAST "u2") ->
  nodes s !! c = Some cn -> n_type cn = XML_ELEMENT_NODE -> n_nsDef cn = None ->
  n_parent cn = Some b ->
  (2 <= fuel)%nat ->
  exists r d,
    xmlSearchNs fuel doc (Some c) (Some (BAD_CAST "x")) s = Ok (Some r) s /\
    nss s !! r = Some d /\
    chars (ns_href d) = Some (BAD_CAST "u2") /\
    r = nb /\ r <> na.
Proof.
  intros Ha Haty Hans Hna Hnap Hnah Hb Hbty Hbns Hbp Hnb Hnbp Hnbh Hc Hcty Hcns Hcp Hf.
  destruct fuel as [|[|fuel]]; [lia..|].
  exists nb, nbd. split_and!; try done.
  - eapply xmlSearchNs_parent; try done.
    destruct (ns_href nbd); done.
  - intros ->. rewrite Hna in Hnb. injection Hnb as ->.
    rewrite Hnah in Hnbh. discriminate Hnbh.
Qed.

Lemma xmlSearchNs_shadowing_witness :
  exists r d,
    xmlSearchNs 2 None (Some 3%positive) (Some (BAD_CAST "x")) ns_tree_state
      = Ok (Some r) ns_tree_state /\
    nss ns_tree_state !! r = Some d /\
    chars (ns_href d) = Some (BAD_CAST "u2") /\
    r = 2%positive /\ r <> 1%positive.
Proof.
  apply (xmlSearchNs_shadowing 2 ns_tree_state None 1%positive 2%positive 3%positive
           1%positive 2%positive
           (set_nsDef (Some 1%positive)
              (set_last (Some 2%positive)
                 (set_children (Some 2%positive) (zero_node XML_ELEMENT_NODE))))
           (set_nsDef (Some 2%positive)
              (set_last (Some 3%positive)
                 (set_children (Some 3%positive)
                    (set_parent (Some 1%positive) (zero_node XML_ELEMENT_NODE)))))
           (set_parent (Some 2%positive) (zero_node XML_ELEMENT_NODE))
           (ns_decl 4 "u1") (ns_decl 6 "u2")); first [reflexivity | lia].
Defined.

(** ** Searches leave the state alone *)

Lemma readonly_ret {A} (a : A) : readonly (mret a : M A).
Proof. intros s b s' [= _ ->]. done. Qed.

Lemma readonly_bind {A B} (m : M A) (k : A -> M B) :
  readonly m -> (forall a, readonly (k a)) -> readonly (m ≫= k).
Proof.
  intros Hm Hk s b s'. unfold mbind, M_bind.
  destruct (m s) as [a s1| |] eqn:E; try done.
  intros Hb. apply Hm in E as ->. by apply Hk in Hb.
Qed.

Lemma readonly_rd {A} p (f : xmlNode -> A) : readonly (rd p f).
Proof.
  intros s a s'. unfold rd, load, mbind, M_bind, mret, M_ret.
  destruct (nodes s !! p); [|done]. by intros [= _ ->].
Qed.

Lemma readonly_load_ns p : readonly (load_ns p).
Proof.
  intros s a s'. unfold load_ns. destruct (nss s !! p); [|done]. by intros [= _ ->].
Qed.

Lemma readonly_loop {S A} fuel (body : S -> M (S + A)) st :
  (forall st, readonly (body st)) -> readonly (loop fuel body st).
Proof.
  intros Hb. revert st. induction fuel as [|fuel IH]; intros st; [done|].
  cbn [loop]. apply readonly_bind; [done|].
  intros [st'|a]; [apply IH|apply readonly_ret].
Qed.

Ltac ro :=
  repeat first
    [ apply readonly_ret
    | apply readonly_rd
    | apply readonly_load_ns
    | apply readonly_bind; [|intros ?]
    | apply readonly_loop; intros ?
    | match goal with
      | |- readonly (if ?c then _ else _) => destruct c
      | |- readonly (match ?x with _ => _ end) => destruct x
      end ].

Lemma xmlSearchNs_readonly fuel doc node (p : xmlStr) :
  p <> BAD_CAST "xml" -> readonly (xmlSearchNs fuel doc node (Some p)).
Proof.
  intros Hp. unfold xmlSearchNs. destruct node as [n0|]; [|apply readonly_ret].
  unfold xmlStrEqual. rewrite (bool_decide_false (p = _)) by done.
  rewrite andb_false_r. unfold continue, break. ro.
Qed.

(** ** Probing for a free prefix *)

Lemma wrap_int_small z : -2 ^ 31 <= z < 2 ^ 31 -> wrap_int z = z.
Proof. intros Hz. unfold wrap_int. rewrite Z.mod_small by lia. lia. Qed.

Section probing.
Variables (fuel : nat) (doc : option ptr) (tr n : ptr) (nd : xmlNs) (s : state).
Hypothesis ns_live : nss s !! n = Some nd.
Hypothesis all_bound :
  forall i, 0 <= i <= 1000 ->
    exists d, xmlSearchNs fuel doc (Some tr)
                (Some (probe (base_prefix (ns_prefix nd)) i)) s = Ok (Some d) s.

(** From the round in which the counter is [c], with the last probe
    bound, the loop gives up after [1001 - c] more rounds. *)
Lemma probing_gives_up (k f : nat) (c : Z) (d : ptr) (pfx : xmlStr) :
  1 <= c <= 1001 -> k = Z.to_nat (1001 - c) -> (k < f)%nat ->
  loop f (fun '(def, prefix, counter) =>
      if bool_decide (def <> None) then
        if bool_decide (counter > 1000) then break None else
        np ← rd_ns n ns_prefix;
        let prefix := base_prefix np ++ decimal counter in
        let counter := wrap_int (counter + 1) in
        def ← xmlSearchNs fuel doc (Some tr) (Some prefix);
        continue (def, prefix, counter)
      else break (Some prefix)) (Some d, pfx, c) s
  = Ok (@None xmlStr) s.
Proof.
  revert f c d pfx. induction k as [|k IH]; intros f c d pfx Hc Hk Hf.
  - assert (c = 1001) as -> by lia. destruct f as [|f]; [lia|].
    apply loop_inr. by rewrite bool_decide_true by done.
  - destruct f as [|f]; [lia|].
    destruct (all_bound c) as [d' Hd']; [lia|].
    unfold probe in Hd'. rewrite (bool_decide_false (c = 0)) in Hd' by lia.
    apply wp_exact. apply wp_loop_S.
    rewrite (bool_decide_true (Some d <> None)) by done.
    rewrite (bool_decide_false (c > 1000)) by lia.
    steps. eapply wp_eq; [exact Hd'|]. steps.
    rewrite wrap_int_small by lia.
    eapply wp_eq; [apply (IH f (c + 1) d'); lia|]. done.
Qed.

Lemma xmlNewReconciliedNs_bounded :
  ns_type nd = XML_NAMESPACE_DECL ->
  xmlSearchNsByHref fuel doc (Some tr) (chars (ns_href nd)) s = Ok None s ->
  (1001 <= fuel)%nat ->
  xmlNewReconciliedNs fuel doc (Some tr) (Some n) s = Ok None s.
Proof.
  intros Hty Hhref Hfuel. apply wp_exact. unfold xmlNewReconciliedNs.
  steps. eapply wp_eq; [exact Hhref|]. steps.
  destruct (all_bound 0) as [d Hd]; [lia|]. unfold probe in Hd.
  rewrite (bool_decide_true (0 = 0)) in Hd by done.
  eapply wp_eq; [exact Hd|]. apply wp_bind.
  eapply wp_eq; [apply (probing_gives_up 1000 fuel 1 d); lia|]. steps. done.
Qed.

End probing.

(** ** The prefixes that are not probed *)

Lemma walk_ns_chain (s : state) (fuel : nat) (start : option ptr)
  (l : list (ptr * xmlNs)) :
  walk_ns s fuel start = Some l -> ns_chain s start l.
Proof.
  revert start l. induction fuel as [|fuel IH]; intros [p|] l Hw; cbn in Hw.
  - discriminate Hw.
  - by injection Hw as <-.
  - destruct (nss s !! p) as [d|] eqn:Hp; [|discriminate Hw].
    destruct (walk_ns s fuel (ns_next d)) as [rest|] eqn:Hr; [|discriminate Hw].
    injection Hw as <-. split_and!; [done|done|by apply IH].
  - by injection Hw as <-.
Qed.

(** A search from an element finds a declaration when one of the
    element's own chain matches. *)
Lemma xmlSearchNs_some_declaration (fuel : nat) (s : state) (doc : option ptr)
  (n : ptr) (nn : xmlNode) (l : list (ptr * xmlNs)) (px : xmlStr) (pd : ptr * xmlNs) :
  nodes s !! n = Some nn -> n_type nn = XML_ELEMENT_NODE ->
  ns_chain s (n_nsDef nn) l ->
  px <> BAD_CAST "xml" ->
  In pd l -> prefix_matches pd.2 (Some px) = true ->
  (length l < fuel)%nat ->
  exists d, xmlSearchNs fuel doc (Some n) (Some px) s = Ok (Some d) s.
Proof.
  intros Hn Hty Hl Hxml Hin Hm Hfuel.
  destruct (first_match (Some px) l) as [[p d]|] eqn:Hfind.
  - exists p. apply wp_exact. unfold xmlSearchNs, xmlStrEqual.
    rewrite (bool_decide_false (px = _)) by done. rewrite andb_false_r.
    destruct fuel as [|fuel']; [lia|]. set (fuel := S fuel') in *.
    apply wp_loop_S. upto_loop.
    eapply wp_eq; [by apply scan_chain|]. rewrite Hfind.
    cbn [fmap option_fmap option_map fst]. nsteps. done.
  - unfold first_match in Hfind. pose proof (find_none _ _ Hfind pd Hin) as Hno.
    cbv beta in Hno. congruence.
Qed.

Lemma listed_variant_not_xml (base : xmlStr) (first i : nat) :
  head base <> None -> head base <> head (BAD_CAST "xml") ->
  listed_variant base first i <> BAD_CAST "xml".
Proof.
  intros Hne Hx E. apply Hx. rewrite <- E. unfold listed_variant.
  case_bool_decide; [done|]. destruct base; [done|]. done.
Qed.

(** What the test on the result of a reconciliation says. *)
Lemma is_reconciled (r : result (option ptr)) (p : xmlStr) :
  match r with
  | Ok (Some d) s' => nss s' !! d ≫= fun n => chars (ns_prefix n)
  | _ => None
  end = Some p ->
  exists d s', r = Ok (Some d) s' /\
    (nss s' !! d ≫= fun n => chars (ns_prefix n)) = Some p.
Proof. destruct r as [[d|] s'| |]; try done. intros Hp. by exists d, s'. Qed.

(** In [listed_chain_state base first] no declaration of the href
    ["v"] is in scope, [base] and each of its listed variants is found
    by [xmlSearchNs], and [xmlNewReconciliedNs] still returns a
    declaration, with the prefix [p]. *)
Lemma listed_chain_reconciled (base p : xmlStr) (first : nat) :
  head base <> None -> head base <> head (BAD_CAST "xml") ->
  walk_ns (listed_chain_state base first) 1100 (Some 1%positive)
    = Some (listed_chain base first) ->
  xmlSearchNsByHref 1100 None (Some 1%positive) (Some (BAD_CAST "v"))
    (listed_chain_state base first) = Ok None (listed_chain_state base first) ->
  reconciled_prefix base first = Some p ->
  xmlSearchNsByHref 1100 None (Some 1%positive) (Some (BAD_CAST "v"))
    (listed_chain_state base first) = Ok None (listed_chain_state base first) /\
  (forall i, (i <= 1000)%nat ->
     exists d, xmlSearchNs 1100 None (Some 1%positive)
                 (Some (listed_variant base first i)) (listed_chain_state base first)
               = Ok (Some d) (listed_chain_state base first)) /\
  (exists d s', xmlNewReconciliedNs 1100 None (Some 1%positive) (Some 2000%positive)
                  (listed_chain_state base first) = Ok (Some d) s' /\
                (nss s' !! d ≫= fun n => chars (ns_prefix n)) = Some p).
Proof.
  intros Hne Hx Hwalk Hhref Hrec. split_and!.
  - exact Hhref.
  - intros i Hi.
    eapply (xmlSearchNs_some_declaration 1100 _ None 1%positive _ (listed_chain base first)
              _ (Pos.of_nat (S i), listed_decl base first i)).
    + reflexivity.
    + reflexivity.
    + apply walk_ns_chain with (fuel := 1100%nat). exact Hwalk.
    + by apply listed_variant_not_xml.
    + unfold listed_chain. apply in_map_iff. exists i. split; [done|]. apply in_seq. lia.
    + apply prefix_matches_same; done.
    + unfold listed_chain. rewrite length_map, length_seq. lia.
  - apply is_reconciled. exact Hrec.
Qed.

(** C6, as stated, fails. On an element that binds a prefix of 26
    characters and that prefix followed by each of the numbers 1 to
    1000, with no declaration of the href in scope,
    [xmlNewReconciliedNs] returns a new declaration whose prefix is the
    first 20 characters: the probes are made with the prefix cut to 20
    characters, not with the prefix itself. And on an element that
    binds the prefix [p] and its variants [p2], [p3], ..., [p1001], it
    returns a new declaration with the prefix [p1]: the counter of the
    probes starts at 1. *)
Lemma xmlNewReconciliedNs_listed_variants_bound :
  (xmlSearchNsByHref 1100 None (Some 1%positive) (Some (BAD_CAST "v"))
     (listed_chain_state long_prefix 1) = Ok None (listed_chain_state long_prefix 1) /\
   (forall i, (i <= 1000)%nat ->
      exists d,
        xmlSearchNs 1100 None (Some 1%positive) (Some (listed_variant long_prefix 1 i))
          (listed_chain_state long_prefix 1) = Ok (Some d) (listed_chain_state long_prefix 1)) /\
   (exists d s',
      xmlNewReconciliedNs 1100 None (Some 1%positive) (Some 2000%positive)
        (listed_chain_state long_prefix 1) = Ok (Some d) s' /\
      (nss s' !! d ≫= fun n => chars (ns_prefix n))
        = Some (BAD_CAST "abcdefghijklmnopqrst"))) /\
  (xmlSearchNsByHref 1100 None (Some 1%positive) (Some (BAD_CAST "v"))
     (listed_chain_state (BAD_CAST "p") 2) = Ok None (listed_chain_state (BAD_CAST "p") 2) /\
   (forall i, (i <= 1000)%nat ->
      exists d,
        xmlSearchNs 1100 None (Some 1%positive) (Some (listed_variant (BAD_CAST "p") 2 i))
          (listed_chain_state (BAD_CAST "p") 2)
        = Ok (Some d) (listed_chain_state (BAD_CAST "p") 2)) /\
   (exists d s',
      xmlNewReconciliedNs 1100 None (Some 1%positive) (Some 2000%positive)
        (listed_chain_state (BAD_CAST "p") 2) = Ok (Some d) s' /\
      (nss s' !! d ≫= fun n => chars (ns_prefix n)) = Some (BAD_CAST "p1"))).
Proof.
  split; apply listed_chain_reconciled; first [ discriminate | vm_compute; reflexivity ].
Qed.

(** C6 (amended). When [xmlSearchNsByHref] finds no declaration of
    the href in scope and [xmlSearchNs] finds a declaration for the
    prefix cut to 20 characters ([default] for a NULL prefix) and for
    that cut prefix followed by each of the counters 1 to 1000,
    [xmlNewReconciliedNs] returns NULL and changes nothing. It does so
    within 1001 rounds of its loop, one probe each: any fuel from 1001
    on is enough, so the number of probes is bounded by the cap on the
    counter. *)
Theorem xmlNewReconciliedNs_gives_up (fuel : nat) (doc : option ptr) (tr n : ptr)
  (nd : xmlNs) (s : state) :
  nss s !! n = Some nd ->
  ns_type nd = XML_NAMESPACE_DECL ->
  xmlSearchNsByHref fuel doc (Some tr) (chars (ns_href nd)) s = Ok None s ->
  (forall i, 0 <= i <= 1000 ->
     exists d, xmlSearchNs fuel doc (Some tr)
                 (Some (probe (base_prefix (ns_prefix nd)) i)) s = Ok (Some d) s) ->
  (1001 <= fuel)%nat ->
  xmlNewReconciliedNs fuel doc (Some tr) (Some n) s = Ok None s.
Proof. intros. by eapply xmlNewReconciliedNs_bounded. Qed.

(** In [bound_chain_state] every probe finds a declaration. *)
Lemma bound_chain_all_bound (i : Z) :
  0 <= i <= 1000 ->
  exists d, xmlSearchNs 1002 None (Some 1%positive) (Some (probe (BAD_CAST "p") i))
              bound_chain_state = Ok (Some d) bound_chain_state.
Proof.
  intros Hi.
  assert (forallb probe_found (map Z.of_nat (seq 0 1001)) = true) as Hall
    by (vm_compute; reflexivity).
  rewrite forallb_forall in Hall.
  assert (probe_found i = true) as Hf.
  { apply Hall. apply in_map_iff. exists (Z.to_nat i). split; [lia|].
    apply in_seq. lia. }
  unfold probe_found in Hf.
  destruct (xmlSearchNs _ _ _ _ _) as [[d|] s'| |] eqn:E; try done.
  apply negb_true_iff, bool_decide_eq_false in Hf.
  apply xmlSearchNs_readonly in E as ->; [|done]. by exists d.
Qed.

Lemma xmlNewReconciliedNs_gives_up_witness :
  xmlNewReconciliedNs 1002 None (Some 1%positive) (Some 2000%positive) bound_chain_state
  = Ok None bound_chain_state.
Proof.
  apply (xmlNewReconciliedNs_gives_up 1002 None 1%positive 2000%positive foreign_decl
           bound_chain_state).
  - vm_compute. reflexivity.
  - reflexivity.
  - vm_compute. reflexivity.
  - exact bound_chain_all_bound.
  - lia.
Defined.

(** ** Buffers over static memory *)

Section immutable.
Context `{Externals}.
Variables (s : state) (b : ptr) (bf : xmlBuffer).
Hypothesis buf_live : bufs s !! b = Some bf.
Hypothesis buf_immutable : b_alloc bf = XML_BUFFER_ALLOC_IMMUTABLE.

Lemma xmlBufferAdd_immutable fuel str len :
  xmlBufferAdd fuel (Some b) str len s = Ok (-1) s.
Proof.
  apply wp_exact. unfold xmlBufferAdd. destruct str; [|by apply wp_ret].
  repeat bstep. done.
Qed.

Lemma xmlBufferAddHead_immutable fuel str len :
  xmlBufferAddHead fuel (Some b) str len s = Ok (-1) s.
Proof. apply wp_exact. unfold xmlBufferAddHead. repeat bstep. done. Qed.

Lemma xmlBufferCat_immutable fuel str : xmlBufferCat fuel (Some b) str s = Ok (-1) s.
Proof. apply wp_exact. unfold xmlBufferCat. repeat bstep. done. Qed.

Lemma xmlBufferCCat_immutable fuel str : xmlBufferCCat fuel (Some b) str s = Ok (-1) s.
Proof. apply wp_exact. unfold xmlBufferCCat. repeat bstep. done. Qed.

Lemma xmlBufferResize_immutable fuel size :
  xmlBufferResize fuel (Some b) size s = Ok 0 s.
Proof. apply wp_exact. unfold xmlBufferResize. repeat bstep. done. Qed.

Lemma xmlBufferGrow_immutable len : xmlBufferGrow (Some b) len s = Ok 0 s.
Proof. apply wp_exact. unfold xmlBufferGrow. repeat bstep. done. Qed.

Lemma xmlBufferEmpty_immutable :
  b_content bf <> None ->
  xmlBufferEmpty (Some b) s
  = Ok tt (set_bufs (<[b := set_b_content (Some empty_literal) (set_b_use 0 bf)]> (bufs s)) s).
Proof.
  intros Hc. apply wp_exact. unfold xmlBufferEmpty.
  destruct (b_content bf) as [p|] eqn:Ec; [|done].
  repeat bstep. done.
Qed.

Lemma xmlBufferShrink_immutable len p :
  b_content bf = Some p -> 0 < len <= b_use bf -> b_use bf < 2 ^ (size_bits - 1) ->
  xmlBufferShrink (Some b) len s
  = Ok len
      (set_bufs (<[b := set_b_content (Some (mkPtr (blk p) (off p + len)))
                          (set_b_use (b_use bf - len) bf)]> (bufs s)) s).
Proof.
  intros Ec Hlen Huse. apply wp_exact. unfold xmlBufferShrink.
  assert (wrap_size (b_use bf - len) = b_use bf - len) as Ew.
  { unfold wrap_size, size_bits in *. apply Z.mod_small. lia. }
  assert (wrap_intptr len = len) as Ei.
  { unfold wrap_intptr, size_bits in *. rewrite Z.mod_small by lia. lia. }
  repeat bstep. rewrite Ec. repeat bstep. rewrite Ew, Ei. done.
Qed.

End immutable.

(** C7, as stated, fails: on the buffer that [xmlBufferCreateStatic]
    builds over the three bytes of ["abc"], [xmlBufferShrink] by one
    byte succeeds, returns 1 and moves the content pointer and the
    length, and [xmlBufferEmpty] sets the length to 0 and points the
    content at the empty string literal. *)
Lemma immutable_buffer_not_protected :
  xmlBufferCreateStatic (Some (mkPtr 2 0)) 3 static_mem_state
    = Ok (Some 1%positive) immutable_state /\
  (exists s',
     xmlBufferShrink (Some 1%positive) 1 immutable_state = Ok 1 s' /\
     bufs s' !! 1%positive
       = Some (mkBuffer (Some (mkPtr 2 1)) 2 3 XML_BUFFER_ALLOC_IMMUTABLE) /\
     s' <> immutable_state) /\
  (exists s',
     xmlBufferEmpty (Some 1%positive) immutable_state = Ok tt s' /\
     bufs s' !! 1%positive
       = Some (mkBuffer (Some empty_literal) 0 3 XML_BUFFER_ALLOC_IMMUTABLE) /\
     s' <> immutable_state).
Proof.
  split; [reflexivity|]. split.
  - eexists. split; [reflexivity|]. split; [reflexivity|].
    intros E. apply (f_equal (fun t => b_use <$> bufs t !! 1%positive)) in E.
    vm_compute in E. discriminate E.
  - eexists. split; [reflexivity|]. split; [reflexivity|].
    intros E. apply (f_equal (fun t => b_use <$> bufs t !! 1%positive)) in E.
    vm_compute in E. discriminate E.
Qed.

(** C7 (amended). On a buffer whose allocation scheme is immutable,
    [xmlBufferAdd], [xmlBufferAddHead], [xmlBufferCat] and
    [xmlBufferCCat] return -1, [xmlBufferResize] returns 0 and
    [xmlBufferGrow] returns 0, and each of them leaves the whole state,
    buffer and bytes, as it was. [xmlBufferEmpty] and [xmlBufferShrink]
    change the view and nothing else: the first sets the length to 0
    and points the content at the empty string literal, the second,
    for [0 < len <= use], advances the content pointer by [len],
    takes [len] off the length and returns [len]; neither writes a
    byte of the memory under the buffer. *)
Theorem immutable_buffer_operations `{Externals} (fuel : nat) (s : state) (b : ptr)
  (bf : xmlBuffer) :
  bufs s !! b = Some bf ->
  b_alloc bf = XML_BUFFER_ALLOC_IMMUTABLE ->
  (forall str len, xmlBufferAdd fuel (Some b) str len s = Ok (-1) s) /\
  (forall str len, xmlBufferAddHead fuel (Some b) str len s = Ok (-1) s) /\
  (forall str, xmlBufferCat fuel (Some b) str s = Ok (-1) s) /\
  (forall str, xmlBufferCCat fuel (Some b) str s = Ok (-1) s) /\
  (forall size, xmlBufferResize fuel (Some b) size s = Ok 0 s) /\
  (forall len, xmlBufferGrow (Some b) len s = Ok 0 s) /\
  (b_content bf <> None ->
   exists s',
     xmlBufferEmpty (Some b) s = Ok tt s' /\
     bufs s' !! b = Some (set_b_content (Some empty_literal) (set_b_use 0 bf)) /\
     mem s' = mem s) /\
  (forall len p,
     b_content bf = Some p -> 0 < len <= b_use bf -> b_use bf < 2 ^ (size_bits - 1) ->
     exists s',
       xmlBufferShrink (Some b) len s = Ok len s' /\
       bufs s' !! b
         = Some (set_b_content (Some (mkPtr (blk p) (off p + len)))
                   (set_b_use (b_use bf - len) bf)) /\
       mem s' = mem s).
Proof.
  intros Hb Hi. split_and!; intros.
  - by eapply xmlBufferAdd_immutable.
  - by eapply xmlBufferAddHead_immutable.
  - by eapply xmlBufferCat_immutable.
  - by eapply xmlBufferCCat_immutable.
  - by eapply xmlBufferResize_immutable.
  - by eapply xmlBufferGrow_immutable.
  - eexists. split; [by eapply xmlBufferEmpty_immutable|].
    sim. by rewrite lookup_insert_eq.
  - eexists. split; [by eapply xmlBufferShrink_immutable|].
    sim. by rewrite lookup_insert_eq.
Qed.

Lemma immutable_buffer_operations_witness :
  bufs immutable_state !! 1%positive = Some static_buffer /\
  (forall str len, xmlBufferAdd 1 (Some 1%positive) str len immutable_state
                   = Ok (-1) immutable_state) /\
  (forall size, xmlBufferResize 1 (Some 1%positive) size immutable_state
                = Ok 0 immutable_state).
Proof.
  split; [reflexivity|].
  destruct (@immutable_buffer_operations no_dtd 1 immutable_state 1%positive static_buffer)
    as (Ha & _ & _ & _ & Hr & _); [reflexivity|reflexivity|].
  split; [exact Ha|exact Hr].
Defined.

(** ** References without a semicolon *)






(** ** Unlinking a DTD *)

Section unlink.
Variables (s0 : state) (cur doc : ptr).
Hypothesis cur_live : is_Some (nodes s0 !! cur).

Lemma unlink_inv_wr X Y p u s (Q : unit -> state -> Prop) :
  unlink_inv s0 cur doc X Y s -> is_Some (nodes s0 !! p) -> unlink_safe s0 u ->
  (forall s', unlink_inv s0 cur doc X Y s' -> Q tt s') ->
  wp (wr p u) Q s.
Proof.
  intros (Ha & (c & Hc & Hcp & Hcn & Hcv) & (d & Hd & HX & HY)) Hp Hu HQ.
  destruct (Ha p Hp) as [n Hn].
  eapply wp_wr; [done|]. apply HQ. split_and!.
  - intros q Hq. sim. destruct (decide (p = q)) as [->|]; simplify_map_eq; eauto.
  - sim. destruct (decide (p = cur)) as [->|]; simplify_map_eq.
    + eexists; split; [done|]. destruct (Hu c) as (_ & _ & ? & ? & ?). auto.
    + eauto 10.
  - sim. destruct (decide (p = doc)) as [->|]; simplify_map_eq.
    + eexists; split; [done|]. destruct (Hu d) as (? & ? & _). split; congruence.
    + eauto.
Qed.

Lemma unlink_inv_rd_cur {A} X Y (f : xmlNode -> A) s (Q : A -> state -> Prop) :
  unlink_inv s0 cur doc X Y s ->
  (forall c, live s0 (n_parent c) -> live s0 (n_next c) -> live s0 (n_prev c) ->
             Q (f c) s) ->
  wp (rd cur f) Q s.
Proof.
  intros (Ha & (c & Hc & Hcp & Hcn & Hcv) & _) HQ.
  eapply wp_rd; eauto.
Qed.

Lemma unlink_inv_rd {A} X Y p (f : xmlNode -> A) s (Q : A -> state -> Prop) :
  unlink_inv s0 cur doc X Y s -> is_Some (nodes s0 !! p) ->
  (forall v, Q v s) ->
  wp (rd p f) Q s.
Proof.
  intros (Ha & _) Hp HQ. destruct (Ha p Hp) as [n Hn].
  eapply wp_rd; eauto.
Qed.

Lemma unlink_safe_other u :
  (forall n, n_intSubset (u n) = n_intSubset n) ->
  (forall n, n_extSubset (u n) = n_extSubset n) ->
  (forall n, n_parent (u n) = n_parent n) ->
  (forall n, n_next (u n) = n_next n) ->
  (forall n, n_prev (u n) = n_prev n) ->
  unlink_safe s0 u.
Proof. intros H1 H2 H3 H4 H5 n. rewrite H1, H2, H3, H4, H5. auto. Qed.

Lemma unlink_inv_rd_doc X Y s (Q : option ptr * option ptr -> state -> Prop) :
  unlink_inv s0 cur doc X Y s ->
  Q (X, Y) s ->
  wp (rd doc n_intSubset) (fun i s' => wp (rd doc n_extSubset) (fun e s'' => Q (i, e) s'') s') s.
Proof.
  intros (_ & _ & (d & Hd & <- & <-)) HQ.
  eapply wp_rd; [done|]. eapply wp_rd; [done|]. done.
Qed.

Lemma unlink_inv_wr_int X Y s (Q : unit -> state -> Prop) :
  unlink_inv s0 cur doc X Y s ->
  (forall s', unlink_inv s0 cur doc None Y s' -> Q tt s') ->
  wp (wr doc (set_intSubset None)) Q s.
Proof.
  intros (Ha & (c & Hc & Hcp & Hcn & Hcv) & (d & Hd & HX & HY)) HQ.
  eapply wp_wr; [done|]. apply HQ. split_and!.
  - intros q Hq. sim. destruct (decide (doc = q)) as [->|]; simplify_map_eq; eauto.
  - sim. destruct (decide (doc = cur)) as [->|]; simplify_map_eq; eauto 10.
  - sim. simplify_map_eq. eauto.
Qed.

Lemma unlink_inv_wr_ext X Y s (Q : unit -> state -> Prop) :
  unlink_inv s0 cur doc X Y s ->
  (forall s', unlink_inv s0 cur doc X None s' -> Q tt s') ->
  wp (wr doc (set_extSubset None)) Q s.
Proof.
  intros (Ha & (c & Hc & Hcp & Hcn & Hcv) & (d & Hd & HX & HY)) HQ.
  eapply wp_wr; [done|]. apply HQ. split_and!.
  - intros q Hq. sim. destruct (decide (doc = q)) as [->|]; simplify_map_eq; eauto.
  - sim. destruct (decide (doc = cur)) as [->|]; simplify_map_eq; eauto 10.
  - sim. simplify_map_eq. eauto.
Qed.

(** The part of [xmlUnlinkNode] that detaches [cur] from its parent
    and its siblings keeps the invariant. *)
Lemma unlink_links X Y s (Q : unit -> state -> Prop) :
  unlink_inv s0 cur doc X Y s ->
  (forall s', unlink_inv s0 cur doc X Y s' -> Q tt s') ->
  wp (parent ← rd cur n_parent;
      match parent with
      | Some parent =>
          ty ← rd cur n_type;
          (if bool_decide (ty = XML_ATTRIBUTE_NODE) then
             props ← rd parent n_properties;
             when (ptr_eqb props (Some cur))
               (nx ← rd cur n_next; wr parent (set_properties nx))
           else
             ch ← rd parent n_children;
             when (ptr_eqb ch (Some cur))
               (nx ← rd cur n_next; wr parent (set_children nx));;
             la ← rd parent n_last;
             when (ptr_eqb la (Some cur))
               (pv ← rd cur n_prev; wr parent (set_last pv)));;
          wr cur (set_parent None)
      | None => skip
      end;;
      nx ← rd cur n_next;
      match nx with
      | Some nx => pv ← rd cur n_prev; wr nx (set_prev pv)
      | None => skip
      end;;
      pv ← rd cur n_prev;
      match pv with
      | Some pv => nx ← rd cur n_next; wr pv (set_next nx)
      | None => skip
      end;;
      wr cur (set_prev None);;
      wr cur (set_next None)) Q s.
Proof.
  intros HI HQ.
  apply wp_bind. eapply unlink_inv_rd_cur; [done|]. intros c Hp _ _.
  apply wp_bind.
  apply wp_mono with (Q := fun _ s' => unlink_inv s0 cur doc X Y s').
  { destruct (n_parent c) as [parent|] eqn:Epar; [|by apply wp_ret].
    assert (Hpar : is_Some (nodes s0 !! parent)) by (by apply Hp).
    apply wp_bind. eapply unlink_inv_rd_cur; [done|]. intros c1 _ _ _.
    apply wp_bind.
    apply wp_mono with (Q := fun _ s' => unlink_inv s0 cur doc X Y s').
    - destruct (bool_decide (n_type c1 = XML_ATTRIBUTE_NODE)).
      + apply wp_bind. eapply unlink_inv_rd; [done..|]. intros props.
        apply wp_when; [|done]. intros _.
        apply wp_bind. eapply unlink_inv_rd_cur; [done|]. intros c2 _ Hn _.
        eapply unlink_inv_wr; [done..| |auto]. by apply unlink_safe_other.
      + apply wp_bind. eapply unlink_inv_rd; [done..|]. intros ch.
        apply wp_bind.
        apply wp_mono with (Q := fun _ s' => unlink_inv s0 cur doc X Y s').
        * apply wp_when; [|done]. intros _.
          apply wp_bind. eapply unlink_inv_rd_cur; [done|]. intros c2 _ Hn _.
          eapply unlink_inv_wr; [done..| |auto]. by apply unlink_safe_other.
        * intros _ s1 H1.
          apply wp_bind. eapply unlink_inv_rd; [done..|]. intros la.
          apply wp_when; [|done]. intros _.
          apply wp_bind. eapply unlink_inv_rd_cur; [done|]. intros c2 _ _ _.
          eapply unlink_inv_wr; [done..| |auto]. by apply unlink_safe_other.
    - intros _ s1 H1.
      eapply unlink_inv_wr; [done..| |auto].
      intros n. fld. split_and!; auto. intros _ x [=]. }
  intros _ s1 H1.
  apply wp_bind. eapply unlink_inv_rd_cur; [done|]. intros c1 _ Hn _.
  apply wp_bind.
  apply wp_mono with (Q := fun _ s' => unlink_inv s0 cur doc X Y s').
  { destruct (n_next c1) as [nx|] eqn:Enx; [|by apply wp_ret].
    apply wp_bind. eapply unlink_inv_rd_cur; [done|]. intros c2 _ _ Hv.
    eapply unlink_inv_wr; [done | by apply Hn | | auto].
    intros n. fld. split_and!; auto. }
  intros _ s2 H2.
  apply wp_bind. eapply unlink_inv_rd_cur; [done|]. intros c2 _ _ Hv.
  apply wp_bind.
  apply wp_mono with (Q := fun _ s' => unlink_inv s0 cur doc X Y s').
  { destruct (n_prev c2) as [pv|] eqn:Epv; [|by apply wp_ret].
    apply wp_bind. eapply unlink_inv_rd_cur; [done|]. intros c3 _ Hn3 _.
    eapply unlink_inv_wr; [done | by apply Hv | | auto].
    intros n. fld. split_and!; auto. }
  intros _ s3 H3.
  apply wp_bind.
  eapply unlink_inv_wr; [done..| |].
  { intros n. fld. split_and!; auto. intros _ x [=]. }
  intros s4 H4.
  eapply unlink_inv_wr; [done..| |auto].
  intros n. fld. split_and!; auto. intros _ x [=].
Qed.
End unlink.

(** C9, as stated, fails: [xmlUnlinkNode] looks for the subset
    pointers in the document that the [doc] field of the node names,
    and in no other. The DTD of [two_docs_state] is the external subset
    of the document in cell 1; once [xmlSetTreeDoc] has handed it to
    the document in cell 2, [xmlUnlinkNode] leaves the [extSubset]
    field of the document in cell 1 as it is, a pointer to the
    unlinked DTD. *)
Lemma xmlUnlinkNode_other_document :
  (nodes two_docs_state !! 1%positive ≫= n_extSubset) = Some 3%positive /\
  exists s',
    (@xmlSetTreeDoc no_dtd 4 (Some 3%positive) (Some 2%positive);;
     xmlUnlinkNode (Some 3%positive)) two_docs_state = Ok tt s' /\
    (nodes s' !! 1%positive ≫= n_extSubset) = Some 3%positive /\
    nodes s' !! 3%positive = Some (set_doc (Some 2%positive) (zero_node XML_DTD_NODE)).
Proof.
  split; [reflexivity|]. eexists.
  split; [vm_compute; reflexivity|].
  split; vm_compute; reflexivity.
Qed.

(** C9 (amended). Unlinking a DTD node [cur] whose [doc] field names
    the document [doc] clears the subset pointers of [doc] that refer
    to it: after [xmlUnlinkNode] the [intSubset] field of [doc] is NULL
    if it was [cur], and so is its [extSubset] field; a subset field
    that referred to another DTD is left as it was. So neither subset
    field of the node's own document is left pointing at the detached
    DTD. *)
Theorem xmlUnlinkNode_dtd_subsets (s : state) (cur doc : ptr) (c d : xmlNode) :
  nodes s !! cur = Some c -> n_type c = XML_DTD_NODE -> n_doc c = Some doc ->
  nodes s !! doc = Some d ->
  live s (n_parent c) -> live s (n_next c) -> live s (n_prev c) ->
  exists s' d',
    xmlUnlinkNode (Some cur) s = Ok tt s' /\
    nodes s' !! doc = Some d' /\
    n_intSubset d' = (if decide (n_intSubset d = Some cur) then None else n_intSubset d) /\
    n_extSubset d' = (if decide (n_extSubset d = Some cur) then None else n_extSubset d).
Proof.
  intros Hc Hty Hdoc Hd Hp Hn Hv.
  set (X := if decide (n_intSubset d = Some cur) then None else n_intSubset d).
  set (Y := if decide (n_extSubset d = Some cur) then None else n_extSubset d).
  assert (HI : unlink_inv s cur doc (n_intSubset d) (n_extSubset d) s).
  { split_and!; eauto 10. }
  cut (wp (xmlUnlinkNode (Some cur))
          (fun _ s' => unlink_inv s cur doc X Y s') s).
  { rewrite wp_run. intros ([] & s' & Hrun & _ & _ & (d' & ? & ? & ?)). eauto 10. }
  unfold xmlUnlinkNode.
  apply wp_bind. eapply wp_rd; [done|]. rewrite Hty, bool_decide_true by done.
  apply wp_bind.
  apply wp_mono with (Q := fun _ s' => unlink_inv s cur doc X Y s').
  - unfold when. apply wp_bind. eapply wp_rd; [done|]. rewrite Hdoc.
    apply wp_bind. eapply wp_rd; [done|].
    apply wp_bind.
    apply wp_mono with (Q := fun _ s' => unlink_inv s cur doc X (n_extSubset d) s').
    + unfold ptr_eqb, X. case_bool_decide as Hi.
      * rewrite decide_True by done. eapply unlink_inv_wr_int; eauto.
      * rewrite decide_False by done. by apply wp_ret.
    + intros _ s1 H1. apply wp_bind.
      destruct H1 as (Ha & Hcc & (d1 & Hd1 & HX & HY)).
      eapply wp_rd; [done|]. rewrite HY.
      unfold ptr_eqb, Y. case_bool_decide as He.
      * rewrite decide_True by done.
        eapply unlink_inv_wr_ext; [by split_and!; eauto|auto].
      * rewrite decide_False by done. apply wp_ret. split_and!; eauto.
  - intros _ s1 H1. eapply unlink_links; eauto.
Qed.

Lemma xmlUnlinkNode_dtd_subsets_witness :
  n_intSubset dtd_doc_cell = Some 2%positive /\
  exists s' d',
    xmlUnlinkNode (Some 2%positive) dtd_state = Ok tt s' /\
    nodes s' !! 1%positive = Some d' /\
    n_intSubset d' = None /\ n_extSubset d' = None.
Proof.
  split; [reflexivity|].
  apply (xmlUnlinkNode_dtd_subsets dtd_state 2%positive 1%positive dtd_cell dtd_doc_cell);
    try reflexivity; intros x [= <-]; vm_compute; eauto.
Defined.

(** ** Self-replacement *)

(** C10. [xmlReplaceNode(n, n)] returns NULL, for every node [n], and
    changes nothing: the state after the call is the state before it,
    so [n] is still linked where it was. *)
Theorem xmlReplaceNode_self (n : ptr) (s : state) :
  xmlReplaceNode (Some n) (Some n) s = Ok None s.
Proof.
  unfold xmlReplaceNode, ptr_eqb. by rewrite bool_decide_true.
Qed.

(** ** Unlinking a node *)

(** X1. [xmlUnlinkNode] on a node that is neither a DTD nor an
    attribute and has a parent: the node ends without parent and
    without siblings, its previous and next sibling are linked to each
    other, the parent's [children] and [last] step over it, and no
    other cell changes. *)
Theorem xmlUnlinkNode_splices (s : state) (cur p : ptr) (c pn : xmlNode) :
  nodes s !! cur = Some c ->
  n_type c <> XML_DTD_NODE -> n_type c <> XML_ATTRIBUTE_NODE ->
  n_parent c = Some p -> nodes s !! p = Some pn -> p <> cur ->
  live s (n_prev c) -> live s (n_next c) ->
  n_prev c <> Some cur -> n_next c <> Some cur ->
  n_prev c <> Some p -> n_next c <> Some p ->
  (n_prev c = n_next c -> n_prev c = None) ->
  exists s',
    xmlUnlinkNode (Some cur) s = Ok tt s' /\
    nodes s' !! cur = Some (set_next None (set_prev None (set_parent None c))) /\
    nodes s' !! p
      = Some (set_last (if bool_decide (n_last pn = Some cur) then n_prev c
                        else n_last pn)
                (set_children (if bool_decide (n_children pn = Some cur) then n_next c
                               else n_children pn) pn)) /\
    (forall a an, n_prev c = Some a -> nodes s !! a = Some an ->
       nodes s' !! a = Some (set_next (n_next c) an)) /\
    (forall b bn, n_next c = Some b -> nodes s !! b = Some bn ->
       nodes s' !! b = Some (set_prev (n_prev c) bn)) /\
    (forall x, x <> cur -> x <> p -> n_prev c <> Some x -> n_next c <> Some x ->
       nodes s' !! x = nodes s !! x).
Proof.
  intros Hc Hdtd Hattr Hp Hpn Hpc Hlp Hln Hpv1 Hnx1 Hpv2 Hnx2 Hdist.
  apply wp_result_unit. unfold xmlUnlinkNode.
  destruct (n_prev c) as [a|] eqn:Epv; destruct (n_next c) as [b|] eqn:Enx.
  all: try (destruct (Hlp a eq_refl) as [an Han]).
  all: try (destruct (Hln b eq_refl) as [bn Hbn]).
  all: try (assert (a <> b) by (intros ->; specialize (Hdist eq_refl); done)).
  all: try (assert (a <> cur) by congruence).
  all: try (assert (b <> cur) by congruence).
  all: try (assert (a <> p) by congruence).
  all: try (assert (b <> p) by congruence).
  all: steps.
  all: unfold when; repeat case_bool_decide; steps.
  all: rewrite ?Epv, ?Enx; split_and!; intros; simplify_eq.
  all: try lookup.
  all: try (rewrite lookup_insert_eq || rewrite ?lookup_insert_ne by neq).
  all: rewrite Hpn; f_equal; by destruct pn.
Qed.

Lemma xmlUnlinkNode_splices_witness :
  exists s',
    xmlUnlinkNode (Some 3%positive) family_state = Ok tt s' /\
    nodes s' !! 3%positive = Some (zero_node XML_ELEMENT_NODE) /\
    nodes s' !! 2%positive = Some (family_cell (Some 1%positive) None (Some 4%positive)) /\
    nodes s' !! 4%positive = Some (family_cell (Some 1%positive) (Some 2%positive) None).
Proof.
  destruct (xmlUnlinkNode_splices family_state 3%positive 1%positive
              (family_cell (Some 1%positive) (Some 2%positive) (Some 4%positive))
              (set_last (Some 4%positive)
                 (set_children (Some 2%positive) (zero_node XML_ELEMENT_NODE))))
    as (s' & Hrun & Hcur & _ & Hprev & Hnext & _); try closed.
  exists s'. split; [exact Hrun|]. split; [exact Hcur|]. split.
  - apply (Hprev 2%positive (family_cell (Some 1%positive) None (Some 3%positive)));
      reflexivity.
  - apply (Hnext 4%positive (family_cell (Some 1%positive) (Some 3%positive) None));
      reflexivity.
Defined.

(** ** Replacing a node *)

(** X2. [xmlReplaceNode(old, cur)] with [old] in a tree and [cur]
    detached, neither of them an attribute and [cur] not a DTD: [old] is returned
    without parent and siblings, [cur] has the document, the parent and
    the siblings that [old] had, those siblings point at [cur], the
    parent's [children] and [last] point at [cur] where they pointed at
    [old], and no other cell changes. *)
Theorem xmlReplaceNode_in_place (s : state) (old cur p : ptr) (o c pn : xmlNode) :
  nodes s !! old = Some o -> nodes s !! cur = Some c -> nodes s !! p = Some pn ->
  n_parent o = Some p ->
  n_type o <> XML_ATTRIBUTE_NODE -> n_type c <> XML_ATTRIBUTE_NODE ->
  n_type c <> XML_DTD_NODE ->
  n_parent c = None -> n_prev c = None -> n_next c = None ->
  old <> cur -> p <> old -> p <> cur ->
  live s (n_prev o) -> live s (n_next o) ->
  n_prev o <> Some old -> n_next o <> Some old ->
  n_prev o <> Some cur -> n_next o <> Some cur ->
  n_prev o <> Some p -> n_next o <> Some p ->
  (n_prev o = n_next o -> n_prev o = None) ->
  exists s',
    xmlReplaceNode (Some old) (Some cur) s = Ok (Some old) s' /\
    nodes s' !! old = Some (set_parent None (set_next None (set_prev None o))) /\
    nodes s' !! cur
      = Some (set_prev (n_prev o) (set_next (n_next o)
                (set_parent (Some p) (set_doc (n_doc o) c)))) /\
    nodes s' !! p
      = Some (set_last (if bool_decide (n_last pn = Some old) then Some cur
                        else n_last pn)
                (set_children (if bool_decide (n_children pn = Some old) then Some cur
                               else n_children pn) pn)) /\
    (forall a an, n_prev o = Some a -> nodes s !! a = Some an ->
       nodes s' !! a = Some (set_next (Some cur) an)) /\
    (forall b bn, n_next o = Some b -> nodes s !! b = Some bn ->
       nodes s' !! b = Some (set_prev (Some cur) bn)) /\
    (forall x, x <> old -> x <> cur -> x <> p ->
       n_prev o <> Some x -> n_next o <> Some x ->
       nodes s' !! x = nodes s !! x).
Proof.
  intros Ho Hc Hpn Hp Hoty Hcty Hdtd Hcp Hcpv Hcnx Hoc Hpo Hpc Hlp Hln
    Hpv1 Hnx1 Hpv2 Hnx2 Hpv3 Hnx3 Hdist.
  apply wp_result. unfold xmlReplaceNode, xmlUnlinkNode.
  destruct (n_prev o) as [a|] eqn:Epv; destruct (n_next o) as [b|] eqn:Enx.
  all: try (destruct (Hlp a eq_refl) as [an Han]).
  all: try (destruct (Hln b eq_refl) as [bn Hbn]).
  all: try (assert (a <> b) by (intros ->; specialize (Hdist eq_refl); done)).
  all: try (assert (a <> old) by congruence).
  all: try (assert (b <> old) by congruence).
  all: try (assert (a <> cur) by congruence).
  all: try (assert (b <> cur) by congruence).
  all: try (assert (a <> p) by congruence).
  all: try (assert (b <> p) by congruence).
  all: xsteps.
  all: rewrite ?Hcp, ?Hcpv, ?Hcnx; xsteps.
  all: unfold when; repeat case_bool_decide; xsteps.
  all: rewrite ?Epv, ?Enx; split_and!; intros; simplify_eq.
  all: try lookup.
  all: sim; try (rewrite lookup_insert_eq || rewrite ?lookup_insert_ne by neq).
  all: try done.
  all: rewrite ?Hpn; f_equal; destruct pn, c.
  all: unfold set_last, set_children, set_prev, set_next, set_parent, set_doc in *.
  all: cbn in *; congruence.
Qed.

Lemma xmlReplaceNode_in_place_witness :
  exists s',
    xmlReplaceNode (Some 3%positive) (Some 5%positive) family_state
      = Ok (Some 3%positive) s' /\
    nodes s' !! 3%positive = Some (zero_node XML_ELEMENT_NODE) /\
    nodes s' !! 5%positive
      = Some (family_cell (Some 1%positive) (Some 2%positive) (Some 4%positive)).
Proof.
  destruct (xmlReplaceNode_in_place family_state 3%positive 5%positive 1%positive
              (family_cell (Some 1%positive) (Some 2%positive) (Some 4%positive))
              (zero_node XML_ELEMENT_NODE)
              (set_last (Some 4%positive)
                 (set_children (Some 2%positive) (zero_node XML_ELEMENT_NODE))))
    as (s' & Hrun & Hold & Hcur & _); try closed.
  exists s'. split; [exact Hrun|]. split; [exact Hold|exact Hcur].
Defined.

(** ** Adding a child *)

(** X3. [xmlAddChild(parent, cur)] for a node [cur] that is neither a
    text node nor an attribute, has the document of [parent] and is
    not yet a child of it, under a [parent] that is not a text node:
    [cur] is returned with [parent] as its parent, linked behind the
    former last child, and it is the new last child; it is also the
    first child when there was none. [cur] is not unlinked from where
    it was, and its [next] is left as it is. *)
Theorem xmlAddChild_appends `{Externals} (fuel : nat) (s : state) (p cur : ptr)
  (pn c : xmlNode) :
  nodes s !! p = Some pn -> nodes s !! cur = Some c -> p <> cur ->
  n_type c <> XML_TEXT_NODE -> n_type c <> XML_ATTRIBUTE_NODE ->
  n_type pn <> XML_TEXT_NODE ->
  n_parent c <> Some p -> n_doc c = n_doc pn ->
  (n_children pn <> None ->
   exists l ln, n_last pn = Some l /\ nodes s !! l = Some ln /\ l <> cur /\ l <> p) ->
  exists s',
    xmlAddChild fuel (Some p) (Some cur) s = Ok (Some cur) s' /\
    nodes s' !! cur
      = Some (set_prev (if bool_decide (n_children pn = None) then n_prev c
                        else n_last pn) (set_parent (Some p) c)) /\
    nodes s' !! p
      = Some (set_last (Some cur)
                (set_children (if bool_decide (n_children pn = None) then Some cur
                               else n_children pn) pn)) /\
    (forall l ln, n_children pn <> None -> n_last pn = Some l ->
       nodes s !! l = Some ln -> nodes s' !! l = Some (set_next (Some cur) ln)) /\
    (forall x, x <> cur -> x <> p ->
       (n_children pn <> None -> n_last pn <> Some x) ->
       nodes s' !! x = nodes s !! x).
Proof.
  intros Hp Hc Hpc Hcty Hcat Hpty Hcp Hdoc Hlast.
  apply wp_result. unfold xmlAddChild, Body.xmlAddChild.
  destruct (n_children pn) as [ch|] eqn:Ech.
  - destruct Hlast as (l & ln & El & Hl & Hlc & Hlp); [done|].
    xsteps. sim. rewrite ?bool_decide_false by done.
    split_and!; intros; simplify_eq; cells.
  - clear Hlast. xsteps. sim. rewrite ?bool_decide_true by done.
    split_and!; intros; simplify_eq; cells.
Qed.

Lemma xmlAddChild_appends_witness :
  exists s',
    @xmlAddChild no_dtd 1 (Some 1%positive) (Some 5%positive) family_state
      = Ok (Some 5%positive) s' /\
    nodes s' !! 5%positive = Some (family_cell (Some 1%positive) (Some 4%positive) None) /\
    nodes s' !! 4%positive
      = Some (family_cell (Some 1%positive) (Some 3%positive) (Some 5%positive)).
Proof.
  destruct (@xmlAddChild_appends no_dtd 1 family_state 1%positive 5%positive
              (set_last (Some 4%positive)
                 (set_children (Some 2%positive) (zero_node XML_ELEMENT_NODE)))
              (zero_node XML_ELEMENT_NODE))
    as (s' & Hrun & Hcur & _ & Hlast & _); try closed.
  - intros _. exists 4%positive, (family_cell (Some 1%positive) (Some 3%positive) None).
    repeat split; closed.
  - exists s'. split; [exact Hrun|]. split; [exact Hcur|].
    apply (Hlast 4%positive (family_cell (Some 1%positive) (Some 3%positive) None));
      closed.
Defined.

(** ** Merging two text nodes *)

(** X4. [xmlTextMerge(first, second)] returns [first]. When one of the
    two nodes is not a text node, or their names are not the same
    pointer, nothing changes. When both are text nodes of the same
    name and [second] is in no tree, the content of [second] is
    appended to the content of [first] and [second] is freed; no other
    cell changes. *)
Theorem xmlTextMerge_cases `{Externals} (fuel : nat) (s : state) (f sd : ptr)
  (fn sn : xmlNode) :
  nodes s !! f = Some fn -> nodes s !! sd = Some sn -> f <> sd ->
  (n_type fn <> XML_TEXT_NODE \/ n_type sn <> XML_TEXT_NODE \/
   str_ptr_eqb (n_name sn) (n_name fn) = false ->
   xmlTextMerge fuel (Some f) (Some sd) s = Ok (Some f) s) /\
  (n_type fn = XML_TEXT_NODE -> n_type sn = XML_TEXT_NODE ->
   str_ptr_eqb (n_name sn) (n_name fn) = true ->
   n_parent sn = None -> n_prev sn = None -> n_next sn = None ->
   n_children sn = None ->
   live s (n_doc fn) -> live s (n_doc sn) ->
   (0 < fuel)%nat ->
   exists s',
     xmlTextMerge fuel (Some f) (Some sd) s = Ok (Some f) s' /\
     nodes s' !! f
       = Some (if bool_decide (content_chars sn = []) then fn
               else set_content
                      (Some (mkStr (brk s) (content_chars fn ++ content_chars sn))) fn) /\
     nodes s' !! sd = None /\
     (forall x, x <> f -> x <> sd -> nodes s' !! x = nodes s !! x)).
Proof.
  intros Hf Hs Hne. split.
  - intros Hcase. apply wp_exact. unfold xmlTextMerge, Body.xmlTextMerge.
    xsteps.
    destruct (bool_decide (n_type fn = XML_TEXT_NODE)) eqn:E1; xsteps; [|done].
    destruct (bool_decide (n_type sn = XML_TEXT_NODE)) eqn:E2; xsteps; [|done].
    apply bool_decide_eq_true in E1, E2.
    destruct Hcase as [?|[?|E3]]; [done..|]. rewrite E3. xsteps. done.
  - intros Hfty Hsty Hnm Hsp Hspv Hsnx Hsch Hfd Hsd Hfuel.
    destruct fuel as [|fuel]; [lia|].
    apply wp_result. unfold xmlTextMerge, Body.xmlTextMerge.
    xsteps. rewrite Hnm. xsteps.
    assert (Hcc : content_chars sn = default [] (chars (n_content sn))) by done.
    destruct (n_content sn) as [y|] eqn:Ey; fld; rewrite Hcc; clear Hcc.
    + eapply wp_text_add; [lookup|done|done|]. fld.
      destruct (decide (str_chars y = [])) as [Hy|Hy].
      * rewrite !(bool_decide_true (str_chars y = [])) by done.
        unfold xmlUnlinkNode. xsteps.
        eapply wp_xmlFreeNode_text; [lookup|fld; done|fld; done|alive|].
        xsteps. split_and!; intros; cells.
      * rewrite !(bool_decide_false (str_chars y = [])) by done.
        unfold xmlUnlinkNode. xsteps.
        eapply wp_xmlFreeNode_text; [lookup|fld; done|fld; done|alive|].
        xsteps. split_and!; intros; cells.
    + unfold Body.xmlNodeAddContent. xsteps.
      unfold xmlUnlinkNode. xsteps.
      eapply wp_xmlFreeNode_text; [lookup|fld; done|fld; done|alive|].
      xsteps. split_and!; intros; cells.
Qed.

Lemma xmlTextMerge_cases_witness :
  exists s',
    @xmlTextMerge no_dtd 1 (Some 1%positive) (Some 2%positive) two_texts_state
      = Ok (Some 1%positive) s' /\
    nodes s' !! 1%positive = Some (text_cell None (Some (mkStr 6 (BAD_CAST "abcd")))) /\
    nodes s' !! 2%positive = None.
Proof.
  destruct (@xmlTextMerge_cases no_dtd 1 two_texts_state 1%positive 2%positive
              (text_cell None (Some (mkStr 4 (BAD_CAST "ab"))))
              (text_cell None (Some (mkStr 5 (BAD_CAST "cd")))))
    as [_ Hmerge]; try closed.
  destruct Hmerge as (s' & Hrun & Hf & Hs & _); try closed.
  exists s'. split; [exact Hrun|]. split; [exact Hf|exact Hs].
Defined.

(** ** Looking a prefix up in the declarations of an element *)

(** X5. [xmlSearchNs] for a prefix other than [xml], started at an
    element whose own [nsDef] chain has a declaration that matches
    (the same prefix, or no prefix on both sides, and an href that is
    not NULL): the result is the first such declaration of the chain,
    and the heap is not written. *)
Theorem xmlSearchNs_own_declaration (fuel : nat) (s : state) (doc : option ptr)
  (n : ptr) (nn : xmlNode) (l : list (ptr * xmlNs)) (nameSpace : option xmlStr)
  (p : ptr) (d : xmlNs) :
  nodes s !! n = Some nn -> n_type nn = XML_ELEMENT_NODE ->
  ns_chain s (n_nsDef nn) l ->
  nameSpace <> Some (BAD_CAST "xml") ->
  first_match nameSpace l = Some (p, d) ->
  (length l < fuel)%nat ->
  xmlSearchNs fuel doc (Some n) nameSpace s = Ok (Some p) s.
Proof.
  intros Hn Hty Hl Hxml Hfind Hfuel. apply wp_exact. unfold xmlSearchNs.
  assert (bool_decide (nameSpace <> None) && xmlStrEqual nameSpace (Some (BAD_CAST "xml"))
          = false) as ->.
  { destruct nameSpace as [x|]; [|done]. unfold xmlStrEqual.
    rewrite (bool_decide_false (x = _)) by congruence. apply andb_false_r. }
  destruct fuel as [|fuel']; [lia|]. set (fuel := S fuel') in *.
  apply wp_loop_S. upto_loop.
  eapply wp_eq; [by apply scan_chain|]. rewrite Hfind. cbn [fmap option_fmap option_map fst].
  nsteps. done.
Qed.

Lemma xmlSearchNs_own_declaration_witness :
  xmlSearchNs 4 None (Some 1%positive) None decls_state = Ok (Some 2%positive) decls_state.
Proof.
  eapply (xmlSearchNs_own_declaration 4 decls_state None 1%positive _ decls_chain None
            2%positive).
  - reflexivity.
  - reflexivity.
  - vm_compute. repeat split.
  - discriminate.
  - reflexivity.
  - simpl. lia.
Defined.

(** ** Declaring a namespace on an element *)

Lemma same_prefix_chars (a b : option xmlCharPtr) :
  same_prefix a b = xmlStrEqual (chars a) (chars b).
Proof. by destruct a, b. Qed.

(** A chain only depends on the cells it goes through. *)
Lemma ns_chain_ext (s s' : state) (start : option ptr) (l : list (ptr * xmlNs)) :
  (forall p d, (p, d) ∈ l -> nss s' !! p = Some d) ->
  ns_chain s start l -> ns_chain s' start l.
Proof.
  revert start. induction l as [|[p d] l IH]; intros start Hin Hl; [done|].
  destruct Hl as (-> & Hp & Hl). split_and!; [done| |].
  - apply Hin. left.
  - apply IH; [|done]. intros p' d' H'. apply Hin. by right.
Qed.

Lemma ns_chain_cells (s : state) (start : option ptr) (l : list (ptr * xmlNs)) p d :
  ns_chain s start l -> (p, d) ∈ l -> nss s !! p = Some d.
Proof.
  revert start. induction l as [|[p' d'] l IH]; intros start Hl Hin.
  - by apply elem_of_nil in Hin.
  - destruct Hl as (-> & Hp & Hl). apply elem_of_cons in Hin as [[= -> ->]|Hin]; [done|].
    by eapply IH.
Qed.

(** The walk of [xmlNewNs] from a declaration [prev] to the end of its
    chain, the new declaration being in cell [cur]: a declaration of
    the same prefix frees [cur] and gives NULL; otherwise the result
    is the last declaration of the chain. *)
Lemma xmlNewNs_walk (fuel : nat) (cur : ptr) (cd : xmlNs) (s : state)
  (prev : ptr) (pd : xmlNs) (rest : list (ptr * xmlNs)) :
  nss s !! cur = Some cd -> nss s !! prev = Some pd ->
  ns_chain s (ns_next pd) rest -> (length rest < fuel)%nat ->
  wp (loop fuel (fun prev =>
        nx ← rd_ns prev ns_next;
        match nx with
        | None => break (Some prev)
        | Some prev =>
            pp ← rd_ns prev ns_prefix;
            cp ← rd_ns cur ns_prefix;
            if same_prefix pp cp then xmlFreeNs (Some cur);; break None
            else continue prev
        end) prev)
    (fun r s' =>
       if existsb (fun x => xmlStrEqual (chars (ns_prefix x.2)) (chars (ns_prefix cd))) rest
       then r = None /\ s' = set_nss (delete cur (nss s)) s
       else r = Some (default (prev, pd) (last rest)).1 /\ s' = s) s.
Proof.
  intros Hcur. revert fuel prev pd.
  induction rest as [|[p d] rest IH]; intros fuel prev pd Hprev Hl Hf.
  - cbn in Hl. nsteps. done.
  - destruct Hl as (Hnx & Hp & Hl). nsteps.
    cbn [existsb snd]. rewrite same_prefix_chars.
    destruct (xmlStrEqual (chars (ns_prefix d)) (chars (ns_prefix cd))) eqn:E.
    + unfold xmlFreeNs. nsteps. repeat (nstep || (unfold when; cbv beta iota)).
      destruct (bool_decide _); nsteps; destruct (bool_decide _); nsteps; done.
    + nsteps. cbn [orb]. eapply wp_mono; [apply (IH (fuel - 1)%nat p d); [done|done|cbn in Hf; lia]|].
      intros r s'. cbv beta. rewrite last_cons. by destruct (last rest).
Qed.

(** The rule of [xmlNewNs] on an element. *)
Lemma wp_xmlNewNs_element (fuel : nat) (s : state) (n : ptr) (nn : xmlNode)
  (l : list (ptr * xmlNs)) (href prefix : option xmlStr) :
  nodes s !! n = Some nn -> n_type nn = XML_ELEMENT_NODE ->
  ns_chain s (n_nsDef nn) l ->
  prefix <> Some (BAD_CAST "xml") ->
  (length l <= fuel)%nat ->
  wp (xmlNewNs fuel (Some n) href prefix) (fun r s' =>
    if existsb (fun x => xmlStrEqual (chars (ns_prefix x.2)) prefix) l
    then r = None /\ nss s' = nss s /\ nodes s' = nodes s
    else exists cur d, r = Some cur /\ nss s !! cur = None /\
      ns_next d = None /\ ns_type d = XML_LOCAL_NAMESPACE /\
      chars (ns_href d) = href /\ chars (ns_prefix d) = prefix /\
      match last l with
      | None =>
          nss s' = <[cur := d]> (nss s) /\
          nodes s' = <[n := set_nsDef (Some cur) nn]> (nodes s)
      | Some (pl, dl) =>
          nss s' = <[pl := set_ns_next (Some cur) dl]> (<[cur := d]> (nss s)) /\
          nodes s' = nodes s
      end) s.
Proof.
  intros Hn Hty Hl Hxml Hfuel. unfold xmlNewNs.
  assert (bool_decide (prefix <> None) && xmlStrEqual prefix (Some (BAD_CAST "xml"))
          = false) as ->.
  { destruct prefix as [x|]; [|done]. unfold xmlStrEqual.
    rewrite (bool_decide_false (x = _)) by congruence. apply andb_false_r. }
  nsteps. destruct href as [h|], prefix as [x|]; upto_loop.
  all: destruct l as [|[p0 d0] rest];
    [ cbn in Hl; nsteps; cbn [existsb last]; eexists q, _;
      split_and!; [done | done | .. | reflexivity | reflexivity]; reflexivity
    | destruct Hl as (Hnd & Hp0 & Hl); assert (p0 <> q) by congruence ].
  all: upto_loop; rewrite same_prefix_chars; fld; cbn [existsb snd].
  all: destruct (xmlStrEqual (chars (ns_prefix d0)) _) eqn:E0; cbn [orb];
    [ unfold xmlFreeNs; repeat (nstep || (unfold when; cbv beta iota));
      rewrite delete_insert_id by done; done |].
  all: apply wp_bind; eapply wp_mono;
    [ eapply (xmlNewNs_walk fuel q _ _ p0 d0 rest); [lookup|lookup| |cbn in Hfuel; lia];
      eapply ns_chain_ext; [|done]; intros p d Hin; sim;
      rewrite lookup_insert_ne; [by eapply ns_chain_cells|];
      intros ->; apply (ns_chain_cells _ _ _ _ _ Hl) in Hin; congruence |].
  all: intros r s'; cbv beta; fld; destruct (existsb _ rest);
    [ intros [-> ->]; nsteps; sim; by rewrite delete_insert_id |].
  all: intros [-> ->]; rewrite last_cons;
    destruct (last rest) as [[pl dl]|] eqn:El; cbn [default fst];
    [ apply last_Some_elem_of in El; pose proof (ns_chain_cells _ _ _ _ _ Hl El);
      assert (pl <> q) by congruence |].
  all: nsteps; eexists q, _;
    split_and!; [done | done | .. | reflexivity | reflexivity]; reflexivity.
Qed.

(** X6. [xmlNewNs] on an element, for a prefix other than [xml]: when
    a declaration of the element already has the prefix (or, for no
    prefix, is a default namespace), the result is NULL and neither
    the declarations nor the nodes change; otherwise the new
    declaration, with copies of href and prefix, is linked after the
    last declaration of the element, or becomes its [nsDef] when there
    is none. *)
Theorem xmlNewNs_end_of_chain (fuel : nat) (s : state) (n : ptr) (nn : xmlNode)
  (l : list (ptr * xmlNs)) (href prefix : option xmlStr) :
  nodes s !! n = Some nn -> n_type nn = XML_ELEMENT_NODE ->
  ns_chain s (n_nsDef nn) l ->
  prefix <> Some (BAD_CAST "xml") ->
  (length l <= fuel)%nat ->
  exists r s', xmlNewNs fuel (Some n) href prefix s = Ok r s' /\
    if existsb (fun x => xmlStrEqual (chars (ns_prefix x.2)) prefix) l
    then r = None /\ nss s' = nss s /\ nodes s' = nodes s
    else exists cur d, r = Some cur /\ nss s !! cur = None /\
      ns_next d = None /\ ns_type d = XML_LOCAL_NAMESPACE /\
      chars (ns_href d) = href /\ chars (ns_prefix d) = prefix /\
      match last l with
      | None =>
          nss s' = <[cur := d]> (nss s) /\
          nodes s' = <[n := set_nsDef (Some cur) nn]> (nodes s)
      | Some (pl, dl) =>
          nss s' = <[pl := set_ns_next (Some cur) dl]> (<[cur := d]> (nss s)) /\
          nodes s' = nodes s
      end.
Proof. intros. apply wp_run. by apply wp_xmlNewNs_element. Qed.

Lemma xmlNewNs_end_of_chain_witness :
  exists r s',
    xmlNewNs 3 (Some 1%positive) (Some (BAD_CAST "u4")) (Some (BAD_CAST "c")) decls_state
      = Ok r s' /\
    exists cur d, r = Some cur /\ nss decls_state !! cur = None /\
      ns_next d = None /\ ns_type d = XML_LOCAL_NAMESPACE /\
      chars (ns_href d) = Some (BAD_CAST "u4") /\
      chars (ns_prefix d) = Some (BAD_CAST "c") /\
      nss s' = <[3%positive := set_ns_next (Some cur) (decl_cell None 8 (Some "b"%string) "u3")]>
                 (<[cur := d]> (nss decls_state)) /\
      nodes s' = nodes decls_state.
Proof.
  eapply (xmlNewNs_end_of_chain 3 decls_state 1%positive _ decls_chain
            (Some (BAD_CAST "u4")) (Some (BAD_CAST "c"))).
  - reflexivity.
  - reflexivity.
  - vm_compute. repeat split.
  - discriminate.
  - simpl. lia.
Defined.

(** ** A new declaration is found by its prefix *)

Lemma ns_chain_last_next (s : state) (start : option ptr) (l0 : list (ptr * xmlNs)) pl dl :
  ns_chain s start (l0 ++ [(pl, dl)]) -> ns_next dl = None.
Proof.
  revert start. induction l0 as [|[p d] l0 IH]; intros start Hl.
  - by destruct Hl as (_ & _ & Hl).
  - destruct Hl as (_ & _ & Hl). by eapply IH.
Qed.

(** Linking a new cell after the last cell of a chain. *)
Lemma ns_chain_snoc (s s' : state) (start : option ptr) (l0 : list (ptr * xmlNs))
  pl dl q d :
  ns_chain s start (l0 ++ [(pl, dl)]) ->
  nss s !! q = None -> ns_next d = None ->
  nss s' = <[pl := set_ns_next (Some q) dl]> (<[q := d]> (nss s)) ->
  ns_chain s' start (l0 ++ [(pl, set_ns_next (Some q) dl); (q, d)]).
Proof.
  intros Hl Hq Hd Hs'. revert start Hl.
  induction l0 as [|[p d0] l0 IH]; intros start Hl.
  - destruct Hl as (-> & Hpl & Hnx). assert (pl <> q) by congruence.
    cbn. rewrite Hs'. split_and!; [done| |done| |done].
    + by rewrite lookup_insert_eq.
    + rewrite lookup_insert_ne by done. by rewrite lookup_insert_eq.
  - destruct Hl as (-> & Hp & Hl). assert (p <> q) by congruence.
    assert (p <> pl).
    { intros ->. pose proof (ns_chain_last_next _ _ _ _ _ Hl) as Hnone.
      assert (dl = d0) as <-.
      { assert ((pl, dl) ∈ l0 ++ [(pl, dl)]) as Hin by (apply elem_of_app; right; left).
        pose proof (ns_chain_cells _ _ _ _ _ Hl Hin). congruence. }
      rewrite Hnone in Hl. by destruct l0 as [|[]]; destruct Hl. }
    split_and!; [done| |by apply IH].
    rewrite Hs'. by rewrite !lookup_insert_ne.
Qed.

Lemma prefix_matches_equal (d : xmlNs) (nameSpace : option xmlStr) :
  prefix_matches d nameSpace = true -> xmlStrEqual (chars (ns_prefix d)) nameSpace = true.
Proof.
  unfold prefix_matches. destruct (ns_prefix d), nameSpace; cbn;
    repeat case_bool_decide; try done.
Qed.

Lemma first_match_none (nameSpace : option xmlStr) (l : list (ptr * xmlNs)) :
  existsb (fun x => xmlStrEqual (chars (ns_prefix x.2)) nameSpace) l = false ->
  first_match nameSpace l = None.
Proof.
  unfold first_match. induction l as [|[p d] l IH]; [done|]. cbn [existsb find snd].
  intros [H1 H2]%orb_false_elim.
  destruct (prefix_matches d nameSpace) eqn:E; [|by apply IH].
  apply prefix_matches_equal in E. congruence.
Qed.

Lemma first_match_app (nameSpace : option xmlStr) (l l' : list (ptr * xmlNs)) :
  first_match nameSpace (l ++ l')
  = match first_match nameSpace l with
    | Some x => Some x
    | None => first_match nameSpace l'
    end.
Proof.
  unfold first_match. induction l as [|x l IH]; [done|]. cbn [find app].
  by destruct (prefix_matches x.2 nameSpace).
Qed.

Lemma prefix_matches_new (d : xmlNs) (nameSpace : option xmlStr) :
  chars (ns_prefix d) = nameSpace -> ns_href d <> None ->
  prefix_matches d nameSpace = true.
Proof.
  intros <- Hh. unfold prefix_matches. destruct (ns_prefix d); cbn;
    repeat case_bool_decide; try done.
Qed.

(** X7. A declaration that [xmlNewNs] adds to an element, with an
    href that is not NULL and a prefix (or no prefix) that no
    declaration of the element has, is the one that [xmlSearchNs]
    returns afterwards for that prefix from the element. *)
Theorem xmlNewNs_then_xmlSearchNs (fuel : nat) (s : state) (doc : option ptr)
  (n : ptr) (nn : xmlNode) (l : list (ptr * xmlNs)) (href : xmlStr)
  (prefix : option xmlStr) :
  nodes s !! n = Some nn -> n_type nn = XML_ELEMENT_NODE ->
  ns_chain s (n_nsDef nn) l ->
  prefix <> Some (BAD_CAST "xml") ->
  existsb (fun x => xmlStrEqual (chars (ns_prefix x.2)) prefix) l = false ->
  (length l + 1 < fuel)%nat ->
  exists cur s',
    xmlNewNs fuel (Some n) (Some href) prefix s = Ok (Some cur) s' /\
    nss s !! cur = None /\
    xmlSearchNs fuel doc (Some n) prefix s' = Ok (Some cur) s'.
Proof.
  intros Hn Hty Hl Hxml Hnew Hfuel.
  assert (length l <= fuel)%nat as Hle by lia.
  pose proof (wp_xmlNewNs_element fuel s n nn l (Some href) prefix Hn Hty Hl Hxml Hle) as Hw.
  apply wp_run in Hw as (r & s' & Hrun & Hpost).
  rewrite Hnew in Hpost.
  destruct Hpost as (cur & d & -> & Hcur & Hnx & _ & Hh & Hp & Hs').
  exists cur, s'. split_and!; [done|done|].
  assert (ns_href d <> None) as Hhref by (intros E; by rewrite E in Hh).
  assert (exists nn' l', nodes s' !! n = Some nn' /\ n_type nn' = XML_ELEMENT_NODE /\
            ns_chain s' (n_nsDef nn') l' /\ length l' = S (length l) /\
            first_match prefix l' = Some (cur, d)) as (nn' & l' & Hn' & Hty' & Hl' & Hlen & Hf).
  { destruct (last l) as [[pl dl]|] eqn:El.
    - apply last_Some in El as [l0 ->]. destruct Hs' as [Hnss Hnodes].
      exists nn, (l0 ++ [(pl, set_ns_next (Some cur) dl); (cur, d)]).
      split_and!; [by rewrite Hnodes | done | by eapply ns_chain_snoc | |].
      + rewrite !length_app. cbn. lia.
      + apply first_match_none in Hnew. rewrite first_match_app in Hnew.
        rewrite first_match_app.
        destruct (first_match prefix l0); [done|].
        unfold first_match in *. cbn [find snd] in *.
        assert (prefix_matches (set_ns_next (Some cur) dl) prefix = prefix_matches dl prefix)
          as -> by done.
        destruct (prefix_matches dl prefix); [done|].
        by rewrite prefix_matches_new.
    - apply last_None in El as ->. destruct Hs' as [Hnss Hnodes].
      exists (set_nsDef (Some cur) nn), [(cur, d)].
      split_and!; [by rewrite Hnodes, lookup_insert_eq | done | | done |].
      + cbn. rewrite Hnss, lookup_insert_eq. done.
      + unfold first_match. cbn [find snd]. by rewrite prefix_matches_new. }
  apply wp_exact. unfold xmlSearchNs.
  assert (bool_decide (prefix <> None) && xmlStrEqual prefix (Some (BAD_CAST "xml"))
          = false) as ->.
  { destruct prefix as [x|]; [|done]. unfold xmlStrEqual.
    rewrite (bool_decide_false (x = _)) by congruence. apply andb_false_r. }
  destruct fuel as [|fuel']; [lia|]. set (fuel := S fuel') in *.
  apply wp_loop_S. upto_loop.
  eapply wp_eq; [apply scan_chain; [done|lia]|]. rewrite Hf.
  cbn [fmap option_fmap option_map fst]. nsteps. done.
Qed.

Lemma xmlNewNs_then_xmlSearchNs_witness :
  exists cur s',
    xmlNewNs 5 (Some 1%positive) (Some (BAD_CAST "u4")) (Some (BAD_CAST "c")) decls_state
      = Ok (Some cur) s' /\
    nss decls_state !! cur = None /\
    xmlSearchNs 5 None (Some 1%positive) (Some (BAD_CAST "c")) s' = Ok (Some cur) s'.
Proof.
  eapply (xmlNewNs_then_xmlSearchNs 5 decls_state None 1%positive _ decls_chain).
  - reflexivity.
  - reflexivity.
  - vm_compute. repeat split.
  - discriminate.
  - reflexivity.
  - simpl. lia.
Defined.

(** ** Buffers that own their block *)

Lemma wp_xmlRealloc p n (Q : option bptr -> state -> Prop) s bs :
  mem s !! blk p = Some bs -> off p = 0 ->
  (forall b, delete (blk p) (mem s) !! b = None ->
     Q (Some (mkPtr b 0))
       (set_mem (<[b := take (Z.to_nat n) bs ++ replicate (Z.to_nat n - length bs) uninit]>
                   (delete (blk p) (mem s))) s)) ->
  wp (xmlRealloc p n) Q s.
Proof.
  intros Hb H0 HQ. unfold wp, xmlRealloc. rewrite Hb.
  rewrite bool_decide_true by done. apply HQ. apply not_elem_of_dom, is_fresh.
Qed.

(** The doubling loop of [xmlBufferResize] ends, without wrapping
    around, for requests below 2^62. *)
Lemma wp_doubling (fuel : nat) (size n : Z) (s : state) :
  0 < n -> n < 2 ^ 63 -> size < 2 ^ 62 -> size <= n * 2 ^ Z.of_nat fuel ->
  wp (loop (S fuel) (fun newSize =>
        if bool_decide (size > newSize) then continue (wrap_size (newSize * 2))
        else break newSize) n)
     (fun n' s' => s' = s /\ size <= n' /\ n <= n' /\ n' < 2 ^ 63) s.
Proof.
  revert n. induction fuel as [|fuel IH]; intros n Hn Hn63 Hsize Hreach.
  - change (Z.of_nat 0) with 0 in Hreach. rewrite Z.pow_0_r in Hreach.
    apply wp_loop_S. rewrite bool_decide_false by lia. apply wp_ret.
    split; [done|lia].
  - apply wp_loop_S. case_bool_decide as Hgt; apply wp_ret; [|split; [done|lia]].
    assert (wrap_size (n * 2) = n * 2) as ->.
    { unfold wrap_size, size_bits. apply Z.mod_small. lia. }
    eapply wp_mono; [apply IH; try lia|].
    + rewrite Nat2Z.inj_succ, Z.pow_succ_r in Hreach by lia. lia.
    + cbv beta. intros ? ? (-> & ? & ? & ?). split; [done|lia].
Qed.

Lemma only_buffer_refl b s : only_buffer b s s.
Proof. by repeat split. Qed.

Lemma only_buffer_trans b s1 s2 s3 :
  only_buffer b s1 s2 -> only_buffer b s2 s3 -> only_buffer b s1 s3.
Proof.
  intros (? & ? & ? & ? & Hb1) (? & ? & ? & ? & Hb2).
  repeat split; try congruence. intros b' Hb'. rewrite Hb2, Hb1; done.
Qed.

Lemma wrap_size_small z : 0 <= z < 2 ^ 64 -> wrap_size z = z.
Proof. intros. unfold wrap_size, size_bits. by apply Z.mod_small. Qed.

Lemma wrap_intptr_small z : - 2 ^ 63 <= z < 2 ^ 63 -> wrap_intptr z = z.
Proof. intros. unfold wrap_intptr, size_bits. rewrite Z.mod_small by lia. lia. Qed.

(** What [mem_store] leaves in a block. *)
Lemma take_stored (bs d rest : list xmlChar) (o k : nat) :
  k = length d -> (o <= length bs)%nat ->
  take (o + k) (take o bs ++ d ++ rest) = take o bs ++ d.
Proof.
  unfold xmlChar in *. intros -> ?. rewrite app_assoc. apply take_app_length'.
  rewrite length_app, length_take. lia.
Qed.

Lemma take_stored_before (bs rest : list xmlChar) (o k : nat) :
  (k <= o)%nat -> (o <= length bs)%nat ->
  take k (take o bs ++ rest) = take k bs.
Proof.
  unfold xmlChar in *. intros. rewrite take_app_le by (rewrite length_take; lia).
  rewrite take_take. f_equal. lia.
Qed.

Lemma lookup_stored_zero (bs rest : list xmlChar) (o : nat) :
  (o <= length bs)%nat -> (take o bs ++ [0] ++ rest) !! o = Some 0.
Proof.
  unfold xmlChar in *. intros. rewrite lookup_app_r by (rewrite length_take; lia).
  rewrite length_take, Nat.min_l, Nat.sub_diag by lia. reflexivity.
Qed.

Lemma buffer_holds_chars s b a size cs :
  buffer_holds s b a size cs -> buffer_chars s b a size cs.
Proof.
  intros (m & bytes & Hb & Hm & Hlen & Htake & Hz). exists m, bytes.
  split_and!; try done. apply lookup_lt_Some in Hz. unfold xmlChar in *. lia.
Qed.

(** The rule of [xmlBufferResize] on a buffer that owns its block:
    the characters are kept, and so is the zero behind them if there
    is one. *)
Lemma wp_xmlBufferResize_chars (fuel : nat) (s : state) (b : ptr)
  (a : xmlBufferAllocationScheme) (size : Z) (cs : list xmlChar) (req : Z) :
  buffer_chars s b a size cs -> a <> XML_BUFFER_ALLOC_IMMUTABLE ->
  0 <= req < 2 ^ 62 -> size < 2 ^ 63 -> (64 <= fuel)%nat ->
  wp (xmlBufferResize fuel (Some b) req)
     (fun r s' => r = 1 /\ exists size',
        req <= size' /\ size <= size' /\ size' < 2 ^ 63 /\
        (req < size -> size' = size) /\
        (size <= req -> a = XML_BUFFER_ALLOC_EXACT -> size' = req + 10) /\
        buffer_chars s' b a size' cs /\
        (buffer_holds s b a size cs -> buffer_holds s' b a size' cs) /\
        only_buffer b s s') s.
Proof.
  intros (m & bytes & Hb & Hm & Hlen & Htake & Huse) Ha Hreq Hsize Hfuel.
  assert (buffer_holds s b a size cs -> bytes !! length cs = Some 0) as Hzero.
  { intros (m2 & bytes2 & Hb2 & Hm2 & _ & _ & Hz). congruence. }
  unfold xmlBufferResize. xstep. xstep. rewrite (bool_decide_false _ Ha). xstep. xstep.
  case_bool_decide as Hlt.
  { xsteps. split; [done|]. exists size. split_and!; try lia; try done.
    by exists m, bytes. }
  apply wp_bind. xstep. xstep.
  eapply wp_mono with (Q := fun n' s' => s' = s /\ req <= n' /\ size <= n' /\ n' < 2 ^ 63 /\
     (a = XML_BUFFER_ALLOC_EXACT -> n' = req + 10)).
  { destruct a; [|by xsteps; rewrite wrap_size_small by lia; split_and!; try lia..].
    xstep. xstep. rewrite bool_decide_true by lia. rewrite wrap_size_small by lia.
    destruct fuel as [|fuel]; [lia|].
    eapply wp_mono; [apply wp_doubling; try lia|].
    - apply Z.le_trans with (1 * 2 ^ 63); [lia|].
      apply Z.mul_le_mono_nonneg; try lia. apply Z.pow_le_mono_r; lia.
    - cbv beta. intros ? ? (-> & ? & ? & ?). split_and!; try done; lia. }
  cbv beta. intros newSize ? (-> & Hn1 & Hn2 & Hn3 & Hn4).
  do 6 bstep. apply wp_bind. case_bool_decide as Hfull.
  - eapply wp_xmlRealloc; [lookup|done|]. intros m' Hm'. repeat bstep.
    split; [done|]. exists newSize. split_and!; [lia|lia|lia|lia|auto| | |].
    + exists m', (take (Z.to_nat newSize) bytes ++
                  replicate (Z.to_nat newSize - length bytes) uninit).
      sim. fld. unfold xmlChar in *. rewrite !lookup_insert_eq.
      rewrite (take_ge bytes) by lia.
      split_and!; [done|done| | |lia].
      * rewrite length_app, length_replicate. lia.
      * rewrite take_app_le by lia. done.
    + intros Hz%Hzero.
      exists m', (take (Z.to_nat newSize) bytes ++
                  replicate (Z.to_nat newSize - length bytes) uninit).
      sim. fld. unfold xmlChar in *. rewrite !lookup_insert_eq.
      rewrite (take_ge bytes) by lia.
      split_and!; [done|done| | |].
      * rewrite length_app, length_replicate. lia.
      * rewrite take_app_le by lia. done.
      * rewrite lookup_app_l by lia. done.
    + repeat split; sim; try done. intros b' Hb'. by rewrite lookup_insert_ne.
  - apply wp_bind, wp_xmlMallocAtomic. intros m' Hm'. assert (m' <> m) by congruence.
    apply wp_bind, wp_ptr_add. cbn [blk off]. change (0 + 0) with 0. apply wp_bind.
    eapply wp_mem_load; [sim; rewrite lookup_insert_ne by done; exact Hm|done|lia|
                         cbn [off]; unfold xmlChar in *; lia|].
    cbn [off]. change (Z.to_nat 0) with 0%nat. rewrite drop_0, Nat2Z.id, Htake.
    apply wp_bind.
    eapply wp_mem_store; [sim; apply lookup_insert_eq|done|
      cbn [off]; rewrite length_replicate; unfold xmlChar in *; lia|].
    cbn [off blk]. change (Z.to_nat 0) with 0%nat. rewrite take_0. cbn [Nat.add app]. sim.
    rewrite insert_insert_eq. apply wp_bind.
    eapply wp_xmlFree_mem; [sim; rewrite lookup_insert_ne by done; exact Hm|done|].
    sim. rewrite delete_insert_ne by done.
    apply wp_bind, wp_ptr_add. cbn [blk off]. rewrite Z.add_0_l. apply wp_bind.
    eapply wp_mem_store; [sim; apply lookup_insert_eq|cbn [off]; lia|
      cbn [off length]; rewrite length_app, length_drop, length_replicate;
      unfold xmlChar in *; lia|].
    cbn [off blk length]. rewrite Nat2Z.id. sim. rewrite insert_insert_eq.
    repeat bstep.
    split; [done|]. exists newSize. split_and!; [lia|lia|lia|lia|auto| | |].
    + eexists m', _. sim. fld.
      rewrite !lookup_insert_eq. split_and!; [done|done| | |lia].
      * sizes.
      * rewrite take_stored_before by sizes. by rewrite take_app_length.
    + intros _. eexists m', _. sim. fld.
      rewrite !lookup_insert_eq. split_and!; [done|done| | |].
      * sizes.
      * rewrite take_stored_before by sizes. by rewrite take_app_length.
      * apply lookup_stored_zero. sizes.
    + repeat split; sim; try done. intros b' Hb'. by rewrite lookup_insert_ne.
Qed.

Lemma wp_xmlBufferResize (fuel : nat) (s : state) (b : ptr)
  (a : xmlBufferAllocationScheme) (size : Z) (cs : list xmlChar) (req : Z) :
  buffer_holds s b a size cs -> a <> XML_BUFFER_ALLOC_IMMUTABLE ->
  0 <= req < 2 ^ 62 -> size < 2 ^ 63 -> (64 <= fuel)%nat ->
  wp (xmlBufferResize fuel (Some b) req)
     (fun r s' => r = 1 /\ exists size',
        req <= size' /\ size <= size' /\ size' < 2 ^ 63 /\
        (req < size -> size' = size) /\
        (size <= req -> a = XML_BUFFER_ALLOC_EXACT -> size' = req + 10) /\
        buffer_holds s' b a size' cs /\ only_buffer b s s') s.
Proof.
  intros Hb Ha Hreq Hsize Hfuel.
  eapply wp_mono; [apply wp_xmlBufferResize_chars; try done; by apply buffer_holds_chars|].
  cbv beta. intros r s' (-> & size' & ? & ? & ? & ? & ? & ? & Hk & ?).
  split; [done|]. exists size'. split_and!; try done. by apply Hk.
Qed.

(** X8. [xmlBufferResize] on a buffer that owns its block and is not
    immutable, for a request below 2^62: the result is 1, the
    characters and their terminating zero are kept, and the new size
    is at least the request; the buffer is left alone when the request
    is below its size, and under the exact policy the new size is the
    request plus 10. *)
Theorem xmlBufferResize_keeps_content (fuel : nat) (s : state) (b : ptr)
  (a : xmlBufferAllocationScheme) (size : Z) (cs : list xmlChar) (req : Z) :
  buffer_holds s b a size cs -> a <> XML_BUFFER_ALLOC_IMMUTABLE ->
  0 <= req < 2 ^ 62 -> size < 2 ^ 63 -> (64 <= fuel)%nat ->
  exists s' size',
    xmlBufferResize fuel (Some b) req s = Ok 1 s' /\
    buffer_holds s' b a size' cs /\ only_buffer b s s' /\
    req <= size' /\ size <= size' /\
    (req < size -> s' = s) /\
    (size <= req -> a = XML_BUFFER_ALLOC_EXACT -> size' = req + 10).
Proof.
  intros Hb Ha Hreq Hsize Hfuel.
  destruct (decide (req < size)) as [Hlt|Hge].
  - exists s, size. destruct Hb as (m & bytes & Hb & Hm & Hlen & Htake & Hz).
    split_and!; [|by exists m, bytes|apply only_buffer_refl|lia|lia|done|lia].
    apply wp_exact. unfold xmlBufferResize. do 2 bstep.
    rewrite (bool_decide_false _ Ha). do 2 bstep. rewrite bool_decide_true by done.
    by bstep.
  - pose proof (wp_xmlBufferResize fuel s b a size cs req Hb Ha Hreq Hsize Hfuel) as Hw.
    apply wp_run in Hw as (r & s' & Hrun & -> & size' & H1 & H2 & H3 & H4 & H5 & H6 & H7).
    exists s', size'. split_and!; try done.
Qed.

Lemma xmlBufferResize_keeps_content_witness :
  exists s' size',
    xmlBufferResize 64 (Some 1%positive) 20 (abc_buffer_state XML_BUFFER_ALLOC_EXACT)
      = Ok 1 s' /\
    buffer_holds s' 1%positive XML_BUFFER_ALLOC_EXACT size' (BAD_CAST "abc") /\
    only_buffer 1%positive (abc_buffer_state XML_BUFFER_ALLOC_EXACT) s' /\
    20 <= size' /\ 16 <= size' /\
    (20 < 16 -> s' = abc_buffer_state XML_BUFFER_ALLOC_EXACT) /\
    (16 <= 20 -> XML_BUFFER_ALLOC_EXACT = XML_BUFFER_ALLOC_EXACT -> size' = 20 + 10).
Proof.
  apply (xmlBufferResize_keeps_content 64 (abc_buffer_state XML_BUFFER_ALLOC_EXACT)
           1%positive XML_BUFFER_ALLOC_EXACT 16 (BAD_CAST "abc") 20).
  - exists 2%positive, (BAD_CAST "abc" ++ [0] ++ replicate 12 uninit).
    repeat split; reflexivity.
  - discriminate.
  - lia.
  - lia.
  - lia.
Defined.

(** ** Appending to a buffer *)

(** The rule of [xmlBufferAdd] on a buffer that owns its block. *)
Lemma wp_xmlBufferAdd (fuel : nat) (s : state) (b : ptr)
  (a : xmlBufferAllocationScheme) (size : Z) (cs : list xmlChar)
  (str : xmlStr) (len : Z) (n : nat) :
  buffer_holds s b a size cs -> a <> XML_BUFFER_ALLOC_IMMUTABLE ->
  (0 < n <= length str)%nat ->
  len = Z.of_nat n \/ (len = -1 /\ n = length str) ->
  Z.of_nat (length cs) + Z.of_nat n + 2 < 2 ^ 62 -> size < 2 ^ 63 -> (64 <= fuel)%nat ->
  wp (xmlBufferAdd fuel (Some b) (Some str) len) (fun r s' =>
    r = 0 /\ exists size',
      buffer_holds s' b a size' (cs ++ take n str) /\ size <= size' /\ size' < 2 ^ 63 /\
      only_buffer b s s') s.
Proof.
  intros Hb Ha Hn Hlen Hbound Hsize Hfuel.
  set (u := Z.of_nat (length cs)) in *.
  unfold xmlBufferAdd.
  pose proof Hb as (m & bytes & Hcell & Hm & Hbl & Htake & Hz).
  assert ((if bool_decide (len < 0) then xmlStrlen (Some str) else len) = Z.of_nat n) as ->.
  { destruct Hlen as [->|[-> ->]]; [by rewrite bool_decide_false by lia|done]. }
  repeat bstep. fold u. rewrite (wrap_size_small (u + Z.of_nat n + 2)) by lia.
  eapply wp_mono with (Q := fun ok s1 => ok = 1 /\ exists size1,
     u + Z.of_nat n + 2 <= size1 /\ size <= size1 /\ size1 < 2 ^ 63 /\
     buffer_holds s1 b a size1 cs /\ only_buffer b s s1).
  { case_bool_decide as Hneed.
    - eapply wp_mono; [by apply wp_xmlBufferResize; try lia|].
      cbv beta. intros r s1 (-> & size1 & ? & ? & ? & ? & ? & ? & ?).
      split; [done|]. exists size1. split_and!; try done.
    - apply wp_ret. split; [done|]. exists size. split_and!; [lia|lia|lia|done|].
      apply only_buffer_refl. }
  cbv beta. clear m bytes Hcell Hm Hbl Htake Hz.
  intros ? s1 (-> & size1 & Hroom & Hgrow & Hsmall &
               (m & bytes & Hcell & Hm & Hbl & Htake & Hz) & Hframe).
  assert (length (take n str) = n) as Hd by (rewrite length_take; lia).
  assert (Z.of_nat (length bytes) = size1) as Hbl' by done.
  unfold xmlStr, xmlChar in *.
  rewrite (bool_decide_false (1 = 0)) by done. repeat bstep.
  apply wp_src_bytes; [unfold xmlStr, xmlChar in *; lia|]; unfold xmlStr, xmlChar in *.
  rewrite Nat2Z.id, take_app_le by lia.
  repeat bstep.
  eapply wp_mem_store; [lookup|sizes|sizes|]; unfold xmlStr, xmlChar in *.
  cbn [blk off]. rewrite Z.add_0_l, Nat2Z.id, Hd. sim.
  repeat bstep. fold u. rewrite (wrap_size_small (u + Z.of_nat n)) by lia.
  eapply wp_mem_store; [sim; apply lookup_insert_eq|sizes|sizes|];
    unfold xmlStr, xmlChar in *.
  cbn [blk off length]. unfold u. rewrite Z.add_0_l, <- Nat2Z.inj_add, Nat2Z.id. sim.
  rewrite insert_insert_eq. repeat bstep.
  split; [done|]. exists size1. split_and!; [|done|done|].
  - exists m. eexists. sim. fld. rewrite !lookup_insert_eq.
    rewrite length_app, Hd, Nat2Z.inj_add.
    split_and!; [reflexivity|reflexivity| | |].
    + sizes.
    + rewrite take_stored_before by sizes.
      rewrite take_stored by sizes. f_equal. exact Htake.
    + apply lookup_stored_zero. sizes.
  - eapply only_buffer_trans; [exact Hframe|].
    repeat split; sim; try done. intros b' Hb'. by rewrite lookup_insert_ne.
Qed.

(** X9. [xmlBufferAdd] of the first [len] characters of a string
    (the whole string for [len = -1]), at least one character, to a
    buffer that owns its block and is not immutable: the result is 0 and
    the buffer holds the old characters followed by the new ones and a
    zero, whether or not it had to grow; nothing else changes but the
    memory. *)
Theorem xmlBufferAdd_appends (fuel : nat) (s : state) (b : ptr)
  (a : xmlBufferAllocationScheme) (size : Z) (cs : list xmlChar)
  (str : xmlStr) (len : Z) (n : nat) :
  buffer_holds s b a size cs -> a <> XML_BUFFER_ALLOC_IMMUTABLE ->
  (0 < n <= length str)%nat ->
  len = Z.of_nat n \/ (len = -1 /\ n = length str) ->
  Z.of_nat (length cs) + Z.of_nat n + 2 < 2 ^ 62 -> size < 2 ^ 63 -> (64 <= fuel)%nat ->
  exists s' size',
    xmlBufferAdd fuel (Some b) (Some str) len s = Ok 0 s' /\
    buffer_holds s' b a size' (cs ++ take n str) /\ size <= size' /\
    only_buffer b s s'.
Proof.
  intros Hb Ha Hn Hlen Hbound Hsize Hfuel.
  pose proof (wp_xmlBufferAdd fuel s b a size cs str len n Hb Ha Hn Hlen Hbound Hsize Hfuel)
    as Hw.
  apply wp_run in Hw as (r & s' & Hrun & -> & size' & ? & ? & ? & ?).
  by exists s', size'.
Qed.

Lemma xmlBufferAdd_appends_witness :
  exists s' size',
    xmlBufferAdd 64 (Some 1%positive) (Some (BAD_CAST "defghijklmnopq")) (-1)
      (abc_buffer_state XML_BUFFER_ALLOC_DOUBLEIT) = Ok 0 s' /\
    buffer_holds s' 1%positive XML_BUFFER_ALLOC_DOUBLEIT size'
      (BAD_CAST "abc" ++ take 14 (BAD_CAST "defghijklmnopq")) /\
    16 <= size' /\
    only_buffer 1%positive (abc_buffer_state XML_BUFFER_ALLOC_DOUBLEIT) s'.
Proof.
  apply (xmlBufferAdd_appends 64 (abc_buffer_state XML_BUFFER_ALLOC_DOUBLEIT)
           1%positive XML_BUFFER_ALLOC_DOUBLEIT 16 (BAD_CAST "abc")
           (BAD_CAST "defghijklmnopq") (-1) 14).
  - exists 2%positive, (BAD_CAST "abc" ++ [0] ++ replicate 12 uninit).
    repeat split; reflexivity.
  - discriminate.
  - simpl. lia.
  - right. split; reflexivity.
  - simpl. lia.
  - lia.
  - lia.
Defined.

(** ** Appending a C string, character by character *)

(** The loop of [xmlBufferCCat]: the characters are added one by one,
    the buffer growing when fewer than ten bytes are left. *)
Lemma wp_xmlBufferCCat_loop (fuel : nat) (b : ptr) (a : xmlBufferAllocationScheme)
  (str : xmlStr) :
  a <> XML_BUFFER_ALLOC_IMMUTABLE -> (64 <= fuel)%nat ->
  forall (cs : list xmlChar) (size : Z) (s : state),
    buffer_chars s b a size cs ->
    Z.of_nat (length cs) + Z.of_nat (length str) + 10 < 2 ^ 62 -> size < 2 ^ 63 ->
    wp (xmlBufferCCat_loop fuel (Some b) b str)
       (fun r s' => r = inl tt /\ exists size',
          size <= size' /\ size' < 2 ^ 63 /\
          buffer_chars s' b a size' (cs ++ str) /\ only_buffer b s s') s.
Proof.
  intros Ha Hfuel. induction str as [|ch str IH]; intros cs size s Hb Hbound Hsize.
  - cbn [xmlBufferCCat_loop]. apply wp_ret. split; [done|]. exists size.
    rewrite app_nil_r. split_and!; [lia|done|done|apply only_buffer_refl].
  - cbn [xmlBufferCCat_loop]. cbn [length] in Hbound.
    pose proof Hb as (m & bytes & Hcell & Hm & Hbl & Htake & Huse).
    set (u := Z.of_nat (length cs)) in *.
    repeat bstep. rewrite (wrap_size_small (u + 10)) by lia.
    eapply wp_mono with (Q := fun ok s1 => ok = 1 /\ exists size1,
       u + 10 <= size1 /\ size <= size1 /\ size1 < 2 ^ 63 /\
       buffer_chars s1 b a size1 cs /\ only_buffer b s s1).
    { case_bool_decide as Hneed.
      - eapply wp_mono; [by apply wp_xmlBufferResize_chars; try lia|].
        cbv beta. intros r s1 (-> & size1 & ? & ? & ? & ? & ? & ? & ? & ?).
        split; [done|]. exists size1. split_and!; try done.
      - apply wp_ret. split; [done|]. exists size. split_and!; [lia|lia|done|done|].
        apply only_buffer_refl. }
    cbv beta. clear m bytes Hcell Hm Hbl Htake Huse.
    intros ? s1 (-> & size1 & Hroom & Hgrow & Hsize1 &
                 (m & bytes & Hcell & Hm & Hbl & Htake & Huse) & Hframe).
    fold u in Hcell.
    rewrite (bool_decide_false (1 = 0)) by done. repeat bstep.
    rewrite (wrap_size_small (u + 1)) by lia.
    eapply wp_mem_store; [lookup|sizes|sizes|]; unfold xmlStr, xmlChar in *.
    cbn [blk off length]. unfold u. rewrite Z.add_0_l, Nat2Z.id. sim.
    eapply wp_mono; [apply (IH (cs ++ [ch]) size1)|].
    + exists m. eexists. sim. fld. rewrite !lookup_insert_eq.
      rewrite length_app. cbn [length]. rewrite Nat2Z.inj_add.
      split_and!; [reflexivity|reflexivity| | |lia].
      * sizes.
      * rewrite take_stored by sizes. f_equal. exact Htake.
    + rewrite length_app. cbn [length]. lia.
    + done.
    + cbv beta. intros r s' (-> & size' & ? & ? & Hb' & Hf').
      split; [done|]. exists size'. rewrite <- app_assoc in Hb'.
      split_and!; [lia|done|done|].
      eapply only_buffer_trans; [exact Hframe|].
      eapply only_buffer_trans; [|exact Hf'].
      repeat split; sim; try done. intros b' Hb''. by rewrite lookup_insert_ne.
Qed.

(** X10. [xmlBufferCCat] of a C string to a buffer that owns its
    block and is not immutable: the result is 0 and the buffer holds
    the old characters followed by those of the string and a zero;
    nothing else changes but the memory. *)
Theorem xmlBufferCCat_appends (fuel : nat) (s : state) (b : ptr)
  (a : xmlBufferAllocationScheme) (size : Z) (cs : list xmlChar) (str : xmlStr) :
  buffer_holds s b a size cs -> a <> XML_BUFFER_ALLOC_IMMUTABLE ->
  Z.of_nat (length cs) + Z.of_nat (length str) + 10 < 2 ^ 62 -> size < 2 ^ 63 ->
  (64 <= fuel)%nat ->
  exists s' size',
    xmlBufferCCat fuel (Some b) (Some str) s = Ok 0 s' /\
    buffer_holds s' b a size' (cs ++ str) /\ size <= size' /\
    only_buffer b s s'.
Proof.
  intros Hb Ha Hbound Hsize Hfuel.
  cut (exists s', xmlBufferCCat fuel (Some b) (Some str) s = Ok 0 s' /\
          exists size', buffer_holds s' b a size' (cs ++ str) /\ size <= size' /\
            only_buffer b s s').
  { intros (s' & ? & size' & ?). by exists s', size'. }
  apply wp_result. unfold xmlBufferCCat.
  pose proof Hb as (m & bytes & Hcell & Hm & Hbl & Htake & Hz).
  do 2 bstep. rewrite (bool_decide_false _ Ha). repeat bstep.
  eapply wp_mono; [apply (wp_xmlBufferCCat_loop fuel b a str Ha Hfuel cs size s);
                   [by apply buffer_holds_chars|done|done]|].
  cbv beta. clear m bytes Hcell Hm Hbl Htake Hz.
  intros ? s1 (-> & size1 & Hgrow & Hsize1 &
               (m & bytes & Hcell & Hm & Hbl & Htake & Huse) & Hframe).
  repeat bstep.
  eapply wp_mem_store; [lookup|sizes|sizes|]; unfold xmlStr, xmlChar in *.
  cbn [blk off length]. rewrite Z.add_0_l, Nat2Z.id. repeat bstep.
  split; [done|]. exists size1. split_and!; [|done|].
  - exists m. eexists. sim. rewrite lookup_insert_eq.
    split_and!; [done|reflexivity| | |].
    + sizes.
    + rewrite take_stored_before by sizes. exact Htake.
    + apply lookup_stored_zero. sizes.
  - eapply only_buffer_trans; [exact Hframe|]. repeat split; sim; done.
Qed.

Lemma xmlBufferCCat_appends_witness :
  exists s' size',
    xmlBufferCCat 64 (Some 1%positive) (Some (BAD_CAST "defghijklmnopq"))
      (abc_buffer_state XML_BUFFER_ALLOC_EXACT) = Ok 0 s' /\
    buffer_holds s' 1%positive XML_BUFFER_ALLOC_EXACT size'
      (BAD_CAST "abc" ++ BAD_CAST "defghijklmnopq") /\
    16 <= size' /\
    only_buffer 1%positive (abc_buffer_state XML_BUFFER_ALLOC_EXACT) s'.
Proof.
  apply (xmlBufferCCat_appends 64 (abc_buffer_state XML_BUFFER_ALLOC_EXACT)
           1%positive XML_BUFFER_ALLOC_EXACT 16 (BAD_CAST "abc")
           (BAD_CAST "defghijklmnopq")).
  - exists 2%positive, (BAD_CAST "abc" ++ [0] ++ replicate 12 uninit).
    repeat split; reflexivity.
  - discriminate.
  - simpl. lia.
  - lia.
  - lia.
Defined.

(** ** Removing the beginning of a buffer *)

(** X11. [xmlBufferShrink] by [len] characters on a buffer that owns
    its block and is not immutable: for [0 < len <= use] the result
    is [len] and the buffer holds the characters after the first
    [len], moved to the front and followed by a zero; for a [len]
    above [use] the result is -1 and nothing changes. *)
Theorem xmlBufferShrink_drops (s : state) (b : ptr) (a : xmlBufferAllocationScheme)
  (size : Z) (cs : list xmlChar) (len : Z) :
  buffer_holds s b a size cs -> a <> XML_BUFFER_ALLOC_IMMUTABLE ->
  0 < len -> size < 2 ^ 63 ->
  if bool_decide (len <= Z.of_nat (length cs)) then
    exists s',
      xmlBufferShrink (Some b) len s = Ok len s' /\
      buffer_holds s' b a size (drop (Z.to_nat len) cs) /\ only_buffer b s s'
  else xmlBufferShrink (Some b) len s = Ok (-1) s.
Proof.
  intros (m & bytes & Hcell & Hm & Hbl & Htake & Hz) Ha Hlen Hsize.
  assert (Z.of_nat (length cs) < size) as Huse.
  { apply lookup_lt_Some in Hz. unfold xmlChar in *. lia. }
  case_bool_decide as Hle.
  - apply wp_result. unfold xmlBufferShrink.
    rewrite (bool_decide_false (len = 0)) by lia. repeat bstep.
    rewrite (wrap_size_small (_ - len)) by lia.
    eapply wp_mem_load; [lookup|sizes|sizes|sizes|]; unfold xmlStr, xmlChar in *.
    cbn [off blk]. rewrite Z.add_0_l. repeat bstep.
    eapply wp_mem_store; [lookup|sizes|sizes|]; unfold xmlStr, xmlChar in *.
    cbn [off blk]. change (Z.to_nat (0 + 0)) with 0%nat. rewrite take_0. cbn [app Nat.add].
    sim. repeat bstep.
    eapply wp_mem_store; [sim; apply lookup_insert_eq|sizes|sizes|];
      unfold xmlStr, xmlChar in *.
    cbn [off blk length]. rewrite Z.add_0_l. sim. rewrite insert_insert_eq. repeat bstep.
    assert (take (Z.to_nat (Z.of_nat (length cs) - len)) (drop (Z.to_nat len) bytes)
            = drop (Z.to_nat len) cs) as Hd.
    { rewrite take_drop_commute. rewrite <- Htake at 2. do 2 f_equal. lia. }
    assert (length (drop (Z.to_nat len) cs) = Z.to_nat (Z.of_nat (length cs) - len)) as Hdl.
    { rewrite length_drop. lia. }
    rewrite Hd. rewrite wrap_intptr_small by lia.
    split; [done|]. split.
    + exists m. eexists. sim. fld. rewrite !lookup_insert_eq.
      rewrite <- Hdl.
      split_and!; [unfold set_b_use; cbn; do 2 f_equal; sizes|reflexivity| | |].
      * sizes.
      * rewrite take_stored_before by sizes. apply take_app_length.
      * apply lookup_stored_zero. sizes.
    + repeat split; sim; try done. intros b' Hb'. by rewrite lookup_insert_ne.
  - apply wp_exact. unfold xmlBufferShrink.
    rewrite (bool_decide_false (len = 0)) by lia. repeat bstep. done.
Qed.

Lemma xmlBufferShrink_drops_witness :
  exists s',
    xmlBufferShrink (Some 1%positive) 2 (abc_buffer_state XML_BUFFER_ALLOC_EXACT)
      = Ok 2 s' /\
    buffer_holds s' 1%positive XML_BUFFER_ALLOC_EXACT 16 (drop (Z.to_nat 2) (BAD_CAST "abc")) /\
    only_buffer 1%positive (abc_buffer_state XML_BUFFER_ALLOC_EXACT) s'.
Proof.
  apply (xmlBufferShrink_drops (abc_buffer_state XML_BUFFER_ALLOC_EXACT) 1%positive
           XML_BUFFER_ALLOC_EXACT 16 (BAD_CAST "abc") 2).
  - exists 2%positive, (BAD_CAST "abc" ++ [0] ++ replicate 12 uninit).
    repeat split; reflexivity.
  - discriminate.
  - lia.
  - lia.
Defined.

(** ** Adding at the head of a buffer *)

(** X12. [xmlBufferAddHead] of the first [len] characters of a string
    (the whole string for [len = -1]), at least one character, to a
    buffer that owns its block and is not immutable: the result is 0
    and the buffer holds the new characters followed by the old ones
    and a zero, whether or not it had to grow; nothing else changes but
    the memory. *)
Theorem xmlBufferAddHead_prepends (fuel : nat) (s : state) (b : ptr)
  (a : xmlBufferAllocationScheme) (size : Z) (cs : list xmlChar)
  (str : xmlStr) (len : Z) (n : nat) :
  buffer_holds s b a size cs -> a <> XML_BUFFER_ALLOC_IMMUTABLE ->
  (0 < n <= length str)%nat ->
  len = Z.of_nat n \/ (len = -1 /\ n = length str) ->
  Z.of_nat (length cs) + Z.of_nat n + 2 < 2 ^ 62 -> size < 2 ^ 63 -> (64 <= fuel)%nat ->
  exists s' size',
    xmlBufferAddHead fuel (Some b) (Some str) len s = Ok 0 s' /\
    buffer_holds s' b a size' (take n str ++ cs) /\ size <= size' /\
    only_buffer b s s'.
Proof.
  intros Hb Ha Hn Hlen Hbound Hsize Hfuel.
  set (u := Z.of_nat (length cs)) in *.
  cut (exists s', xmlBufferAddHead fuel (Some b) (Some str) len s = Ok 0 s' /\
          exists size', buffer_holds s' b a size' (take n str ++ cs) /\ size <= size' /\
            only_buffer b s s').
  { intros (s' & ? & size' & ?). by exists s', size'. }
  apply wp_result. unfold xmlBufferAddHead.
  pose proof Hb as (m & bytes & Hcell & Hm & Hbl & Htake & Hz).
  assert ((if bool_decide (len < 0) then xmlStrlen (Some str) else len) = Z.of_nat n) as ->.
  { destruct Hlen as [->|[-> ->]]; [by rewrite bool_decide_false by lia|done]. }
  do 2 bstep. rewrite (bool_decide_false _ Ha).
  repeat bstep. fold u. rewrite (wrap_size_small (u + Z.of_nat n + 2)) by lia.
  eapply wp_mono with (Q := fun ok s1 => ok = 1 /\ exists size1,
     u + Z.of_nat n + 2 <= size1 /\ size <= size1 /\
     buffer_holds s1 b a size1 cs /\ only_buffer b s s1).
  { case_bool_decide as Hneed.
    - eapply wp_mono; [by apply wp_xmlBufferResize; try lia|].
      cbv beta. intros r s1 (-> & size1 & ? & ? & ? & ? & ? & ? & ?).
      split; [done|]. exists size1. split_and!; try done.
    - apply wp_ret. split; [done|]. exists size. split_and!; [lia|lia|done|].
      apply only_buffer_refl. }
  cbv beta. clear m bytes Hcell Hm Hbl Htake Hz.
  intros ? s1 (-> & size1 & Hroom & Hgrow & (m & bytes & Hcell & Hm & Hbl & Htake & Hz) & Hframe).
  assert (length (take n str) = n) as Hd by (rewrite length_take; lia).
  unfold xmlStr, xmlChar in *.
  rewrite (bool_decide_false (1 = 0)) by done. repeat bstep.
  eapply wp_mem_load; [lookup|sizes|sizes|sizes|]; unfold xmlStr, xmlChar in *.
  cbn [blk off]. change (Z.to_nat (0 + 0)) with 0%nat. rewrite drop_0.
  unfold u. rewrite Nat2Z.id, Htake. repeat bstep.
  eapply wp_mem_store; [lookup|sizes|sizes|]; unfold xmlStr, xmlChar in *.
  cbn [blk off]. rewrite Z.add_0_l, Nat2Z.id. sim. repeat bstep.
  apply wp_src_bytes; [unfold xmlStr, xmlChar in *; lia|]; unfold xmlStr, xmlChar in *.
  rewrite Nat2Z.id, take_app_le by lia. repeat bstep.
  eapply wp_mem_store; [sim; apply lookup_insert_eq|sizes|sizes|];
    unfold xmlStr, xmlChar in *.
  cbn [blk off]. change (Z.to_nat (0 + 0)) with 0%nat. rewrite take_0. cbn [app Nat.add].
  sim. rewrite insert_insert_eq. repeat bstep.
  rewrite (wrap_size_small (_ + Z.of_nat n)) by lia.
  eapply wp_mem_store; [sim; apply lookup_insert_eq|sizes|sizes|];
    unfold xmlStr, xmlChar in *.
  cbn [blk off length]. rewrite Z.add_0_l, <- Nat2Z.inj_add, Nat2Z.id. sim.
  rewrite insert_insert_eq. repeat bstep.
  split; [done|]. exists size1. split_and!; [|done|].
  - exists m. eexists. sim. fld. rewrite !lookup_insert_eq.
    unfold xmlStr, xmlChar in *. rewrite length_app, Hd.
    assert (drop n (take n bytes ++ cs ++ drop (n + length cs) bytes)
            = cs ++ drop (n + length cs) bytes) as Hdrop.
    { apply drop_app_length'. sizes. }
    rewrite Hdrop, (Nat.add_comm n (length cs)).
    split_and!; [reflexivity|reflexivity| | |].
    + sizes.
    + rewrite take_stored_before by sizes.
      rewrite app_assoc. apply take_app_length'. sizes.
    + apply lookup_stored_zero. sizes.
  - eapply only_buffer_trans; [exact Hframe|].
    repeat split; sim; try done. intros b' Hb'. by rewrite lookup_insert_ne.
Qed.

Lemma xmlBufferAddHead_prepends_witness :
  exists s' size',
    xmlBufferAddHead 64 (Some 1%positive) (Some (BAD_CAST "xyz")) 2
      (abc_buffer_state XML_BUFFER_ALLOC_EXACT) = Ok 0 s' /\
    buffer_holds s' 1%positive XML_BUFFER_ALLOC_EXACT size'
      (take 2 (BAD_CAST "xyz") ++ BAD_CAST "abc") /\
    16 <= size' /\
    only_buffer 1%positive (abc_buffer_state XML_BUFFER_ALLOC_EXACT) s'.
Proof.
  apply (xmlBufferAddHead_prepends 64 (abc_buffer_state XML_BUFFER_ALLOC_EXACT)
           1%positive XML_BUFFER_ALLOC_EXACT 16 (BAD_CAST "abc") (BAD_CAST "xyz") 2 2).
  - exists 2%positive, (BAD_CAST "abc" ++ [0] ++ replicate 12 uninit).
    repeat split; reflexivity.
  - discriminate.
  - simpl. lia.
  - left. reflexivity.
  - simpl. lia.
  - lia.
  - lia.
Defined.

(** ** Creating and freeing a buffer *)

(** The rule of [xmlBufferCreateSize]. *)
Lemma wp_xmlBufferCreateSize (s : state) (size : Z) :
  0 < size -> size + 2 < 2 ^ 64 ->
  wp (xmlBufferCreateSize size) (fun r s1 =>
    exists b, r = Some b /\
      bufs s !! b = None /\ buffer_holds s1 b (scheme s) (size + 2) [] /\
      only_buffer b s s1 /\
      (scheme s <> XML_BUFFER_ALLOC_IMMUTABLE ->
       exists s2, xmlBufferFree (Some b) s1 = Ok tt s2 /\
         bufs s2 = bufs s /\ mem s2 = mem s /\ only_buffer b s s2)) s.
Proof.
  intros Hpos Hmax.
  unfold xmlBufferCreateSize.
  assert (wrap_size (size + 2) = size + 2) as Hw by (apply wrap_size_small; lia).
  rewrite (bool_decide_true (size <> 0)) by lia. rewrite Hw.
  repeat (nstep; rewrite ?Hw).
  eapply wp_mem_store; [sim; apply lookup_insert_eq|sizes|sizes|].
  cbn [blk off length]. change (Z.to_nat (0 + 0)) with 0%nat. rewrite take_0.
  cbn [app Nat.add]. sim. rewrite insert_insert_eq. repeat bstep.
  eexists. split; [reflexivity|]. split; [done|]. split_and!.
  - eexists _, _. sim. fld. rewrite !lookup_insert_eq.
    split_and!; [reflexivity|reflexivity| |done|reflexivity].
    sizes.
  - repeat split; sim; try done. intros b' Hb'. by rewrite lookup_insert_ne.
  - intros Hsch. apply wp_result_unit. unfold xmlBufferFree. repeat bstep.
    eapply wp_xmlFree_mem; [sim; apply lookup_insert_eq|done|].
    cbn [blk]. sim. xstep.
    rewrite !delete_insert_id by done. repeat split; sim; try done.
Qed.

(** X13. [xmlBufferCreateSize] for a size that is not 0 gives a new
    buffer, of the current global policy, that owns a block of
    [size + 2] bytes and holds the empty string; nothing else changes
    but the memory. Unless that policy is the immutable one,
    [xmlBufferFree] of the buffer gives back the buffers and the
    memory as they were before. *)
Theorem xmlBufferCreateSize_then_Free (s : state) (size : Z) :
  0 < size -> size + 2 < 2 ^ 64 ->
  exists b s1,
    xmlBufferCreateSize size s = Ok (Some b) s1 /\
    bufs s !! b = None /\
    buffer_holds s1 b (scheme s) (size + 2) [] /\
    only_buffer b s s1 /\
    (scheme s <> XML_BUFFER_ALLOC_IMMUTABLE ->
     exists s2, xmlBufferFree (Some b) s1 = Ok tt s2 /\
       bufs s2 = bufs s /\ mem s2 = mem s /\ only_buffer b s s2).
Proof.
  intros Hpos Hmax.
  pose proof (wp_xmlBufferCreateSize s size Hpos Hmax) as Hw.
  apply wp_run in Hw as (r & s1 & Hrun & b & -> & ?).
  by exists b, s1.
Qed.

Lemma xmlBufferCreateSize_then_Free_witness :
  exists b s1,
    xmlBufferCreateSize 10 empty_state = Ok (Some b) s1 /\
    bufs empty_state !! b = None /\
    buffer_holds s1 b (scheme empty_state) (10 + 2) [] /\
    only_buffer b empty_state s1 /\
    (scheme empty_state <> XML_BUFFER_ALLOC_IMMUTABLE ->
     exists s2, xmlBufferFree (Some b) s1 = Ok tt s2 /\
       bufs s2 = bufs empty_state /\ mem s2 = mem empty_state /\
       only_buffer b empty_state s2).
Proof. apply (xmlBufferCreateSize_then_Free empty_state 10); lia. Defined.

(** ** Growing and emptying a buffer *)

(** X14. [xmlBufferGrow] by [len] on a buffer that owns its block and
    is not immutable: when [len + use] is below the size the result
    is 0 and nothing changes; otherwise the block is reallocated, the
    characters and their zero are kept, and the result is the free
    space [size' - use], which is above [len]. *)
Theorem xmlBufferGrow_room `{Externals} (s : state) (b : ptr)
  (a : xmlBufferAllocationScheme) (size : Z) (cs : list xmlChar) (len : Z) :
  buffer_holds s b a size cs -> a <> XML_BUFFER_ALLOC_IMMUTABLE ->
  0 <= len < 2 ^ 61 -> size < 2 ^ 61 ->
  if bool_decide (len + Z.of_nat (length cs) < size) then
    xmlBufferGrow (Some b) len s = Ok 0 s
  else
    exists s' size',
      xmlBufferGrow (Some b) len s = Ok (size' - Z.of_nat (length cs)) s' /\
      len < size' - Z.of_nat (length cs) /\
      buffer_holds s' b a size' cs /\ only_buffer b s s'.
Proof.
  intros (m & bytes & Hcell & Hm & Hbl & Htake & Hz) Ha Hlen Hsize.
  assert (Z.of_nat (length cs) < size) as Huse.
  { apply lookup_lt_Some in Hz. unfold xmlChar in *. lia. }
  set (u := Z.of_nat (length cs)) in *.
  assert (0 <= u) as Hu by (unfold u; lia).
  case_bool_decide as Hroom.
  - apply wp_exact. unfold xmlBufferGrow. do 2 bstep.
    rewrite (bool_decide_false _ Ha). repeat bstep. fold u.
    rewrite wrap_size_small by lia. rewrite bool_decide_true by lia. by bstep.
  - set (size' := if WIN32 then if bool_decide (size > len) then size * 2 else u + len + 100
                  else u + len + 100).
    assert (size <= size' /\ u + len < size' /\ size' < 2 ^ 63) as (Hs1 & Hs2 & Hs3).
    { unfold size'. destruct WIN32; [case_bool_decide|].
      - lia.
      - lia.
      - lia. }
    cut (exists s', xmlBufferGrow (Some b) len s = Ok (size' - u) s' /\
           (len < size' - u /\ buffer_holds s' b a size' cs /\ only_buffer b s s')).
    { intros (s' & ? & ?). by exists s', size'. }
    apply wp_result. unfold xmlBufferGrow. do 2 bstep.
    rewrite (bool_decide_false _ Ha). repeat bstep. fold u.
    rewrite (wrap_size_small (len + u)) by lia. rewrite bool_decide_false by lia.
    assert (wrap_size (if WIN32
              then if bool_decide (size > len) then wrap_intptr (wrap_size (size * 2))
                   else wrap_intptr (wrap_size (u + len + 100))
              else wrap_intptr (wrap_size (u + len + 100))) = size') as Hsz.
    { unfold size'. destruct WIN32; [case_bool_decide|];
        repeat first [ rewrite (wrap_size_small (size * 2)) by lia
                     | rewrite (wrap_intptr_small (size * 2)) by lia
                     | rewrite (wrap_size_small (u + len + 100)) by lia
                     | rewrite (wrap_intptr_small (u + len + 100)) by lia ];
        done. }
    rewrite Hsz. repeat bstep.
    eapply wp_xmlRealloc; [lookup|done|]. intros m' Hm'. repeat bstep.
    rewrite wrap_size_small by lia. rewrite wrap_intptr_small by lia.
    split; [done|]. split; [lia|]. split.
    + exists m', (take (Z.to_nat size') bytes ++
                  replicate (Z.to_nat size' - length bytes) uninit).
      sim. fld. unfold xmlChar in *. rewrite !lookup_insert_eq.
      rewrite (take_ge bytes) by lia.
      split_and!; [done|done| | |].
      * rewrite length_app, length_replicate. lia.
      * rewrite take_app_le by lia. done.
      * rewrite lookup_app_l by lia. done.
    + repeat split; sim; try done. intros b' Hb'. by rewrite lookup_insert_ne.
Qed.

Lemma xmlBufferGrow_room_witness :
  exists s' size',
    @xmlBufferGrow no_dtd (Some 1%positive) 20 (abc_buffer_state XML_BUFFER_ALLOC_EXACT)
      = Ok (size' - 3) s' /\
    20 < size' - 3 /\
    buffer_holds s' 1%positive XML_BUFFER_ALLOC_EXACT size' (BAD_CAST "abc") /\
    only_buffer 1%positive (abc_buffer_state XML_BUFFER_ALLOC_EXACT) s'.
Proof.
  apply (@xmlBufferGrow_room no_dtd (abc_buffer_state XML_BUFFER_ALLOC_EXACT) 1%positive
           XML_BUFFER_ALLOC_EXACT 16 (BAD_CAST "abc") 20).
  - exists 2%positive, (BAD_CAST "abc" ++ [0] ++ replicate 12 uninit).
    repeat split; reflexivity.
  - discriminate.
  - lia.
  - lia.
Defined.

(** ** Adding a sibling *)

(** X15. [xmlAddNextSibling(cur, elem)] for a detached node [elem]
    that is neither text, attribute nor DTD and has the document of
    [cur]: [elem] is returned, linked between [cur] and the former
    next sibling of [cur] under the parent of [cur]; the parent's
    [last] becomes [elem] when it was [cur]; no other cell changes. *)
Theorem xmlAddNextSibling_inserts `{Externals} (fuel : nat) (s : state) (cur e : ptr)
  (c en : xmlNode) :
  nodes s !! cur = Some c -> nodes s !! e = Some en -> cur <> e ->
  n_type en <> XML_TEXT_NODE -> n_type en <> XML_ATTRIBUTE_NODE ->
  n_type en <> XML_DTD_NODE ->
  n_parent en = None -> n_prev en = None -> n_next en = None ->
  n_doc en = n_doc c ->
  live s (n_next c) -> n_next c <> Some e -> n_next c <> Some cur ->
  live s (n_parent c) -> n_parent c <> Some e -> n_parent c <> Some cur ->
  (n_parent c = n_next c -> n_parent c = None) ->
  exists s',
    xmlAddNextSibling fuel (Some cur) (Some e) s = Ok (Some e) s' /\
    nodes s' !! e
      = Some (set_next (n_next c) (set_prev (Some cur) (set_parent (n_parent c) en))) /\
    nodes s' !! cur = Some (set_next (Some e) c) /\
    (forall x xn, n_next c = Some x -> nodes s !! x = Some xn ->
       nodes s' !! x = Some (set_prev (Some e) xn)) /\
    (forall p pn, n_parent c = Some p -> nodes s !! p = Some pn ->
       nodes s' !! p
         = Some (if bool_decide (n_last pn = Some cur) then set_last (Some e) pn else pn)) /\
    (forall x, x <> cur -> x <> e -> n_next c <> Some x -> n_parent c <> Some x ->
       nodes s' !! x = nodes s !! x).
Proof.
  intros Hc He Hce Hty1 Hty2 Hty3 Hep Hepv Henx Hdoc Hln Hnx1 Hnx2 Hlp Hp1 Hp2 Hdist.
  apply wp_result. unfold xmlAddNextSibling, Body.xmlAddNextSibling, xmlUnlinkNode.
  destruct (n_next c) as [x|] eqn:Enx; destruct (n_parent c) as [p|] eqn:Epa.
  all: try (destruct (Hln x eq_refl) as [xn Hxn]).
  all: try (destruct (Hlp p eq_refl) as [pn Hpn]).
  all: try (assert (p <> x) by (intros ->; specialize (Hdist eq_refl); done)).
  all: try (assert (x <> cur) by congruence).
  all: try (assert (x <> e) by congruence).
  all: try (assert (p <> cur) by congruence).
  all: try (assert (p <> e) by congruence).
  all: xsteps.
  all: unfold when; repeat case_bool_decide; xsteps.
  all: sim; split_and!; intros; simplify_eq; try cells.
  all: first [ rewrite bool_decide_true by done | rewrite bool_decide_false by done ]; cells.
Qed.

Lemma xmlAddNextSibling_inserts_witness :
  exists s',
    @xmlAddNextSibling no_dtd 1 (Some 4%positive) (Some 5%positive) family_state
      = Ok (Some 5%positive) s' /\
    nodes s' !! 5%positive = Some (family_cell (Some 1%positive) (Some 4%positive) None) /\
    nodes s' !! 4%positive
      = Some (family_cell (Some 1%positive) (Some 3%positive) (Some 5%positive)) /\
    nodes s' !! 1%positive
      = Some (set_last (Some 5%positive)
                (set_children (Some 2%positive) (zero_node XML_ELEMENT_NODE))).
Proof.
  destruct (@xmlAddNextSibling_inserts no_dtd 1 family_state 4%positive 5%positive
              (family_cell (Some 1%positive) (Some 3%positive) None)
              (zero_node XML_ELEMENT_NODE))
    as (s' & Hrun & He & Hcur & _ & Hpar & _); try closed.
  exists s'. split; [exact Hrun|]. split; [exact He|]. split; [exact Hcur|].
  apply (Hpar 1%positive (set_last (Some 4%positive)
                            (set_children (Some 2%positive) (zero_node XML_ELEMENT_NODE))));
    closed.
Defined.

(** X16. [xmlAddPrevSibling(cur, elem)] for a detached node [elem]
    that is neither text, attribute nor DTD and has the document of
    [cur]: [elem] is returned, linked between the former previous
    sibling of [cur] and [cur] under the parent of [cur]; the parent's
    [children] becomes [elem] when it was [cur]; no other cell
    changes. *)
Theorem xmlAddPrevSibling_inserts `{Externals} (fuel : nat) (s : state) (cur e : ptr)
  (c en : xmlNode) :
  nodes s !! cur = Some c -> nodes s !! e = Some en -> cur <> e ->
  n_type en <> XML_TEXT_NODE -> n_type en <> XML_ATTRIBUTE_NODE ->
  n_type en <> XML_DTD_NODE ->
  n_parent en = None -> n_prev en = None -> n_next en = None ->
  n_doc en = n_doc c ->
  live s (n_prev c) -> n_prev c <> Some e -> n_prev c <> Some cur ->
  live s (n_parent c) -> n_parent c <> Some e -> n_parent c <> Some cur ->
  (n_parent c = n_prev c -> n_parent c = None) ->
  exists s',
    xmlAddPrevSibling fuel (Some cur) (Some e) s = Ok (Some e) s' /\
    nodes s' !! e
      = Some (set_prev (n_prev c) (set_next (Some cur) (set_parent (n_parent c) en))) /\
    nodes s' !! cur = Some (set_prev (Some e) c) /\
    (forall x xn, n_prev c = Some x -> nodes s !! x = Some xn ->
       nodes s' !! x = Some (set_next (Some e) xn)) /\
    (forall p pn, n_parent c = Some p -> nodes s !! p = Some pn ->
       nodes s' !! p
         = Some (if bool_decide (n_children pn = Some cur) then set_children (Some e) pn
                 else pn)) /\
    (forall x, x <> cur -> x <> e -> n_prev c <> Some x -> n_parent c <> Some x ->
       nodes s' !! x = nodes s !! x).
Proof.
  intros Hc He Hce Hty1 Hty2 Hty3 Hep Hepv Henx Hdoc Hlv Hpv1 Hpv2 Hlp Hp1 Hp2 Hdist.
  apply wp_result. unfold xmlAddPrevSibling, Body.xmlAddPrevSibling, xmlUnlinkNode.
  destruct (n_prev c) as [x|] eqn:Epv; destruct (n_parent c) as [p|] eqn:Epa.
  all: try (destruct (Hlv x eq_refl) as [xn Hxn]).
  all: try (destruct (Hlp p eq_refl) as [pn Hpn]).
  all: try (assert (p <> x) by (intros ->; specialize (Hdist eq_refl); done)).
  all: try (assert (x <> cur) by congruence).
  all: try (assert (x <> e) by congruence).
  all: try (assert (p <> cur) by congruence).
  all: try (assert (p <> e) by congruence).
  all: xsteps.
  all: unfold when; repeat case_bool_decide; xsteps.
  all: sim; split_and!; intros; simplify_eq; try cells.
  all: first [ rewrite bool_decide_true by done | rewrite bool_decide_false by done ]; cells.
Qed.

Lemma xmlAddPrevSibling_inserts_witness :
  exists s',
    @xmlAddPrevSibling no_dtd 1 (Some 2%positive) (Some 5%positive) family_state
      = Ok (Some 5%positive) s' /\
    nodes s' !! 5%positive = Some (family_cell (Some 1%positive) None (Some 2%positive)) /\
    nodes s' !! 2%positive
      = Some (family_cell (Some 1%positive) (Some 5%positive) (Some 3%positive)) /\
    nodes s' !! 1%positive
      = Some (set_last (Some 4%positive)
                (set_children (Some 5%positive) (zero_node XML_ELEMENT_NODE))).
Proof.
  destruct (@xmlAddPrevSibling_inserts no_dtd 1 family_state 2%positive 5%positive
              (family_cell (Some 1%positive) None (Some 3%positive))
              (zero_node XML_ELEMENT_NODE))
    as (s' & Hrun & He & Hcur & _ & Hpar & _); try closed.
  exists s'. split; [exact Hrun|]. split; [exact He|]. split; [exact Hcur|].
  apply (Hpar 1%positive (set_last (Some 4%positive)
                            (set_children (Some 2%positive) (zero_node XML_ELEMENT_NODE))));
    closed.
Defined.

(** ** Looking up an attribute *)

(** X17. [xmlHasProp] on a node with the list of attributes [l]: when
    an attribute of [l] has the name, the result is the first such
    attribute; when none has and the node is in no document, the
    result is NULL. The state does not change. *)
Theorem xmlHasProp_first `{Externals} (fuel : nat) (s : state) (n : ptr) (nn : xmlNode)
  (l : list (ptr * xmlNode)) (name : xmlStr) :
  nodes s !! n = Some nn -> sibling_chain s (n_properties nn) l ->
  (length l < fuel)%nat ->
  match find (fun pn => xmlStrEqual (chars (n_name pn.2)) (Some name)) l with
  | Some (p, _) => xmlHasProp fuel (Some n) (Some name) s = Ok (Some p) s
  | None => n_doc nn = None -> xmlHasProp fuel (Some n) (Some name) s = Ok None s
  end.
Proof.
  intros Hn Hl Hfuel.
  assert (forall start,
    sibling_chain s start l ->
    loop fuel (fun prop : option ptr =>
        match prop with
        | None => break None
        | Some p =>
            pn ← rd p n_name;
            if xmlStrEqual (chars pn) (Some name) then break prop
            else nx ← rd p n_next; continue nx
        end) start s
    = Ok (fst <$> find (fun pn => xmlStrEqual (chars (n_name pn.2)) (Some name)) l) s)
    as Hscan.
  { clear Hl. revert fuel Hfuel. induction l as [|[p pn] l IH]; intros fuel Hfuel start Hl.
    - cbn in Hl. subst start. destruct fuel as [|fuel]; [cbn in Hfuel; lia|].
      by apply loop_inr.
    - destruct Hl as (-> & Hp & Hl). destruct fuel as [|fuel]; [cbn in Hfuel; lia|].
      apply wp_exact. apply wp_loop_S. nsteps. cbn [find snd].
      destruct (xmlStrEqual (chars (n_name pn)) (Some name)) eqn:E.
      + nsteps. done.
      + nsteps. eapply wp_eq; [apply IH; [cbn in Hfuel; lia|done]|]. done. }
  specialize (Hscan _ Hl).
  destruct (find _ l) as [[p pn]|] eqn:Ef.
  - apply wp_exact. unfold xmlHasProp, Body.xmlHasProp. upto_loop.
    eapply wp_eq; [exact Hscan|]. cbn [fmap option_fmap option_map fst]. nsteps. done.
  - intros Hdoc. apply wp_exact. unfold xmlHasProp, Body.xmlHasProp. upto_loop.
    eapply wp_eq; [exact Hscan|]. cbn [fmap option_fmap option_map fst].
    unfold xmlCheckDTD. nsteps. done.
Qed.

Lemma xmlHasProp_first_witness :
  @xmlHasProp no_dtd 4 (Some 1%positive) (Some (BAD_CAST "id")) attrs_state
  = Ok (Some 2%positive) attrs_state.
Proof.
  apply (@xmlHasProp_first no_dtd 4 attrs_state 1%positive
           (set_properties (Some 2%positive) (zero_node XML_ELEMENT_NODE))
           attrs_chain (BAD_CAST "id")).
  - reflexivity.
  - vm_compute. repeat split.
  - simpl. lia.
Defined.

(** ** The text of a list of nodes *)

Lemma sibling_chain_nodes (s s' : state) (start : option ptr) (l : list (ptr * xmlNode)) :
  nodes s' = nodes s -> sibling_chain s start l -> sibling_chain s' start l.
Proof.
  intros E. revert start. induction l as [|[p n] l IH]; intros start Hl; [done|].
  destruct Hl as (-> & Hp & Hl). split_and!; [done|by rewrite E|by apply IH].
Qed.

Lemma wp_xmlStrcat (cur : option xmlCharPtr) (y : xmlStr) (Q : _ -> state -> Prop) s :
  (forall r s', chars r = Some (default [] (chars cur) ++ y) -> nodes s' = nodes s ->
     nss s' = nss s -> bufs s' = bufs s -> mem s' = mem s -> errs s' = errs s -> Q r s') ->
  wp (xmlStrcat cur (Some y)) Q s.
Proof.
  intros HQ. unfold xmlStrcat. destruct cur as [x|].
  - unfold xmlStrncat, xmlStrlen. case_bool_decide as E0.
    + apply wp_ret. apply HQ; try done. cbn.
      assert (y = []) as -> by (destruct y; [done|cbn in E0; lia]). by rewrite app_nil_r.
    + rewrite bool_decide_false by lia. nsteps. apply HQ; try done. cbn.
      by rewrite Nat2Z.id, firstn_all.
  - cbn [xmlStrdup]. nsteps. by apply HQ.
Qed.

(** The loop of [xmlNodeListGetString] over a list without entity
    references, [inLine] being set. *)
Lemma wp_gather_loop `{Externals} (self : calls) (doc : option ptr) (inLine : Z)
  (l : list (ptr * xmlNode)) :
  Forall (fun pn => n_type pn.2 <> XML_ENTITY_REF_NODE) l -> inLine <> 0 ->
  forall (s : state) (fuel : nat) (start : option ptr) (acc : option xmlCharPtr),
    sibling_chain s start l -> (length l < fuel)%nat ->
    wp (loop fuel (fun '(node, ret) =>
          match node with
          | None => break ret
          | Some n =>
              ty ← rd n n_type;
              ret ←
                (if bool_decide (ty = XML_TEXT_NODE) ||
                    bool_decide (ty = XML_CDATA_SECTION_NODE) then
                   if bool_decide (inLine <> 0) then
                     ct ← rd n n_content;
                     xmlStrcat ret (chars ct)
                   else
                     ct ← rd n n_content;
                     buffer ← xmlEncodeEntitiesReentrant doc (chars ct);
                     match buffer with
                     | Some _ => xmlStrcat ret buffer
                     | None => mret ret
                     end
                 else if bool_decide (ty = XML_ENTITY_REF_NODE) then
                   if bool_decide (inLine <> 0) then
                     nm ← rd n n_name;
                     ent ← xmlGetDocEntity doc (chars nm);
                     match ent with
                     | Some e =>
                         ech ← rd e n_children;
                         buffer ← r_xmlNodeListGetString self doc ech 1;
                         match buffer with
                         | Some _ => xmlStrcat ret (chars buffer)
                         | None => mret ret
                         end
                     | None =>
                         ct ← rd n n_content;
                         xmlStrcat ret (chars ct)
                     end
                   else
                     ret ← xmlStrncat ret (Some (BAD_CAST "&")) 1;
                     nm ← rd n n_name;
                     ret ← xmlStrcat ret (chars nm);
                     xmlStrncat ret (Some (BAD_CAST ";")) 1
                 else mret ret);
              nx ← rd n n_next;
              continue (nx, ret)
          end) (start, acc))
       (fun r s' => chars r = foldl (fun acc pn => gather acc pn.2) (chars acc) l /\
                    nodes s' = nodes s) s.
Proof.
  intros Hkinds Hin. rewrite (bool_decide_true (inLine <> 0)) by done.
  induction l as [|[p n] l IH]; intros s fuel start acc Hl Hfuel.
  - cbn in Hl. subst start. destruct fuel as [|fuel]; [cbn in Hfuel; lia|].
    apply wp_loop_S. nsteps. done.
  - destruct Hl as (-> & Hp & Hl). destruct fuel as [|fuel]; [cbn in Hfuel; lia|].
    apply Forall_cons in Hkinds as [Hk Hkinds]. cbn [snd] in Hk.
    specialize (IH Hkinds).
    apply wp_loop_S. cbv beta iota. nsteps. cbn [foldl snd]. unfold gather at 2.
    destruct (bool_decide (n_type n = XML_TEXT_NODE) ||
              bool_decide (n_type n = XML_CDATA_SECTION_NODE)) eqn:Ety.
    + rewrite ?(bool_decide_true (inLine <> 0)) by done. nsteps.
      destruct (n_content n) as [ct|] eqn:Ect; cbn [chars fmap option_fmap option_map].
      * apply wp_xmlStrcat. intros r s1 Hr Hn1 _ _ _ _.
        assert (nodes s1 !! p = Some n) by (by rewrite Hn1).
        nsteps. rewrite <- Hr.
        eapply wp_mono; [apply (IH s1); [by eapply sibling_chain_nodes|cbn in Hfuel; lia]|].
        cbv beta. intros ? ? [? ?]. split; congruence.
      * unfold xmlStrcat. nsteps.
        eapply wp_mono; [apply (IH s); [done|cbn in Hfuel; lia]|]. done.
    + rewrite ?(bool_decide_false (n_type n = XML_ENTITY_REF_NODE)) by done. nsteps.
      eapply wp_mono; [apply (IH s); [done|cbn in Hfuel; lia]|]. done.
Qed.

(** X18. [xmlNodeListGetString] with [inLine] set, on a list of
    siblings without entity references: the result holds the contents
    of the text and CDATA nodes of the list, in order; nodes of other
    kinds add nothing, their children are not visited; the result is
    NULL when no text or CDATA node has a content. No node changes. *)
Theorem xmlNodeListGetString_inline `{Externals} (fuel : nat) (s : state)
  (doc : option ptr) (first : ptr) (l : list (ptr * xmlNode)) (inLine : Z) :
  sibling_chain s (Some first) l ->
  Forall (fun pn => n_type pn.2 <> XML_ENTITY_REF_NODE) l ->
  inLine <> 0 -> (length l < fuel)%nat ->
  exists r s',
    xmlNodeListGetString fuel doc (Some first) inLine s = Ok r s' /\
    chars r = text_of l /\ nodes s' = nodes s.
Proof.
  intros Hl Hkinds Hin Hfuel. apply wp_run.
  unfold xmlNodeListGetString, Body.xmlNodeListGetString.
  by apply wp_gather_loop.
Qed.

Lemma xmlNodeListGetString_inline_witness :
  exists r s',
    @xmlNodeListGetString no_dtd 4 None (Some 1%positive) 1 mixed_state = Ok r s' /\
    chars r = Some (BAD_CAST "abcd") /\ nodes s' = nodes mixed_state.
Proof.
  apply (@xmlNodeListGetString_inline no_dtd 4 mixed_state None 1%positive mixed_chain 1).
  - vm_compute. repeat split.
  - repeat constructor; discriminate.
  - lia.
  - simpl. lia.
Defined.

(** ** Freeing a list of leaves *)

Lemma sibling_chain_inj (s : state) (start : option ptr) (l1 l2 : list (ptr * xmlNode)) :
  sibling_chain s start l1 -> sibling_chain s start l2 -> l1 = l2.
Proof.
  revert start l2. induction l1 as [|[p n] l1 IH]; intros start [|[p2 n2] l2] H1 H2.
  - done.
  - cbn in H1. destruct H2 as (? & _). congruence.
  - cbn in H2. destruct H1 as (? & _). congruence.
  - destruct H1 as (-> & Hp & H1), H2 as ([= <-] & Hp2 & H2).
    assert (n2 = n) as -> by congruence. f_equal. by eapply IH.
Qed.

Lemma sibling_chain_app (s : state) (start : option ptr) (l1 l2 : list (ptr * xmlNode)) :
  sibling_chain s start (l1 ++ l2) -> exists start', sibling_chain s start' l2.
Proof.
  revert start. induction l1 as [|[p n] l1 IH]; intros start Hl; [by exists start|].
  destruct Hl as (_ & _ & Hl). by eapply IH.
Qed.

(** A list that ends does not come back to its first cell. *)
Lemma sibling_chain_head_fresh (s : state) (start : option ptr) p n
  (rest : list (ptr * xmlNode)) :
  sibling_chain s start ((p, n) :: rest) -> p ∉ rest.*1.
Proof.
  intros (_ & Hp & Hrest) Hin.
  apply list_elem_of_fmap in Hin as ([p' n'] & Ep & Hin). cbn in Ep. subst p'.
  apply list_elem_of_split in Hin as (l1 & l2 & ->).
  destruct (sibling_chain_app _ _ _ _ Hrest) as (start' & _ & Hp' & Hl2).
  assert (n' = n) as -> by congruence.
  pose proof (sibling_chain_inj _ _ _ _ Hl2 Hrest) as E.
  apply (f_equal length) in E. rewrite length_app in E. cbn in E. lia.
Qed.

Lemma sibling_chain_ext (s s' : state) (start : option ptr) (l : list (ptr * xmlNode)) :
  (forall p n, (p, n) ∈ l -> nodes s' !! p = Some n) ->
  sibling_chain s start l -> sibling_chain s' start l.
Proof.
  revert start. induction l as [|[p n] l IH]; intros start Hin Hl; [done|].
  destruct Hl as (-> & Hp & Hl). split_and!; [done| |].
  - apply Hin. left.
  - apply IH; [|done]. intros p' n' Hq. apply Hin. by right.
Qed.

Lemma sibling_chain_cells (s : state) (start : option ptr) (l : list (ptr * xmlNode)) p n :
  sibling_chain s start l -> (p, n) ∈ l -> nodes s !! p = Some n.
Proof.
  revert start. induction l as [|[p' n'] l IH]; intros start Hl Hin.
  - by apply elem_of_nil in Hin.
  - destruct Hl as (-> & Hp & Hl). apply elem_of_cons in Hin as [[= -> ->]|Hin]; [done|].
    by eapply IH.
Qed.

Section free_leaves.
Context `{Externals}.

Lemma wp_free_leaves (fuel0 : nat) (self : calls) (dict : option ptr)
  (l : list (ptr * xmlNode)) :
  Forall (fun pn => leaf pn.2) l ->
  forall (s : state) (fuel : nat) (start : option ptr),
    sibling_chain s start l -> (length l < fuel)%nat ->
    wp (loop fuel (fun cur =>
          match cur with
          | None => break tt
          | Some c =>
              next ← rd c n_next;
              ty ← rd c n_type;
              when (negb (bool_decide (ty = XML_DTD_NODE)))
                (ch ← rd c n_children;
                 ty ← rd c n_type;
                 when (bool_decide (ch <> None) &&
                       negb (bool_decide (ty = XML_ENTITY_REF_NODE)))
                   (r_xmlFreeNodeList self ch);;
                 ty ← rd c n_type;
                 props ← rd c n_properties;
                 when (is_element_like ty && bool_decide (props <> None))
                   (Body.xmlFreePropList fuel0 self props);;
                 ty ← rd c n_type;
                 when (negb (is_element_like ty) &&
                       negb (bool_decide (ty = XML_ENTITY_REF_NODE)))
                   (ct ← rd c n_content; DICT_FREE dict ct);;
                 ty ← rd c n_type;
                 nd ← rd c n_nsDef;
                 when (is_element_like ty && bool_decide (nd <> None))
                   (xmlFreeNsList fuel0 nd);;
                 nm ← rd c n_name;
                 ty ← rd c n_type;
                 when (bool_decide (nm <> None) &&
                       negb (bool_decide (ty = XML_TEXT_NODE)) &&
                       negb (bool_decide (ty = XML_COMMENT_NODE)))
                   (DICT_FREE dict nm);;
                 free c);;
              continue next
          end) start)
       (fun _ s' => s' = set_nodes (foldl (fun m pn => delete pn.1 m) (nodes s) l) s) s.
Proof.
  intros Hleaf. induction l as [|[p n] l IH]; intros s fuel start Hl Hfuel.
  - cbn in Hl. subst start. destruct fuel as [|fuel]; [cbn in Hfuel; lia|].
    apply wp_loop_S. nsteps. by destruct s.
  - pose proof (sibling_chain_head_fresh _ _ _ _ _ Hl) as Hfresh.
    destruct Hl as (-> & Hp & Hl). destruct fuel as [|fuel]; [cbn in Hfuel; lia|].
    apply Forall_cons in Hleaf as [(Hdtd & Hch & Hprops & Hns) Hleaf]. cbn [snd] in *.
    specialize (IH Hleaf).
    apply wp_loop_S.
    repeat first [ progress rewrite ?Hch, ?Hprops, ?Hns, ?andb_false_r
                 | lazymatch goal with
                   | |- wp (loop _ _ _) _ _ => fail
                   | _ => nstep
                   end
                 | apply wp_when; intros _ ].
    all: eapply wp_mono;
      [ apply IH; [|cbn in Hfuel; lia];
        apply (sibling_chain_ext s); [|done]; intros q qn Hq; sim;
        rewrite lookup_delete_ne; [by eapply sibling_chain_cells|];
        intros <-; apply Hfresh; by apply (list_elem_of_fmap_2 fst _ (p, qn)) |].
    all: cbv beta; intros _ s' ->; sim; done.
Qed.

Lemma lookup_deleted (l : list (ptr * xmlNode)) (m : gmap ptr xmlNode) (q : ptr) :
  foldl (fun m pn => delete pn.1 m) m l !! q
  = if bool_decide (q ∈ l.*1) then None else m !! q.
Proof.
  revert m. induction l as [|[p n] l IH]; intros m; cbn [foldl fmap list_fmap fst].
  - rewrite bool_decide_false; [done|]. apply not_elem_of_nil.
  - rewrite IH. destruct (decide (q = p)) as [->|Hne].
    + rewrite (bool_decide_true (p ∈ p :: _)) by left.
      case_bool_decide; [done|]. apply lookup_delete_eq.
    + rewrite lookup_delete_ne by done.
      repeat case_bool_decide; try done.
      * exfalso. match goal with E : ¬ _ |- _ => apply E end. by right.
      * exfalso. match goal with E : _ ∈ _ :: _ |- _ =>
                   apply elem_of_cons in E as [?|?] end; done.
Qed.

(** X19. [xmlFreeNodeList] on a list of siblings that are leaves (no
    children, attributes or declarations; no DTD), the first of them
    neither a namespace declaration nor a document: every cell of the
    list is freed, and no other cell and no declaration changes. *)
Theorem xmlFreeNodeList_leaves (fuel : nat) (s : state) (first : ptr) (n0 : xmlNode)
  (l : list (ptr * xmlNode)) :
  sibling_chain s (Some first) l -> Forall (fun pn => leaf pn.2) l ->
  nodes s !! first = Some n0 ->
  n_type n0 <> XML_NAMESPACE_DECL -> is_document (n_type n0) = false ->
  live s (n_doc n0) -> (length l < fuel)%nat ->
  exists s',
    xmlFreeNodeList fuel (Some first) s = Ok tt s' /\
    (forall q, q ∈ l.*1 -> nodes s' !! q = None) /\
    (forall q, q ∉ l.*1 -> nodes s' !! q = nodes s !! q) /\
    nss s' = nss s.
Proof.
  intros Hl Hleaf Hfirst Hns Hdoc Hlive Hfuel. apply wp_result_unit.
  unfold is_document in Hdoc.
  apply orb_false_elim in Hdoc as [[Hd1 Hd2]%orb_false_elim Hd3].
  apply bool_decide_eq_false in Hd1, Hd2, Hd3.
  unfold xmlFreeNodeList, Body.xmlFreeNodeList. nsteps.
  apply wp_dict_of_doc; [done|]. intros dict.
  eapply wp_mono; [by apply wp_free_leaves|].
  cbv beta. intros _ s' ->. sim. split_and!; [| |done].
  - intros q Hq. by rewrite lookup_deleted, bool_decide_true.
  - intros q Hq. by rewrite lookup_deleted, bool_decide_false.
Qed.
End free_leaves.

Lemma xmlFreeNodeList_leaves_witness :
  exists s',
    @xmlFreeNodeList no_dtd 4 (Some 1%positive) mixed_state = Ok tt s' /\
    (forall q, q ∈ mixed_chain.*1 -> nodes s' !! q = None) /\
    (forall q, q ∉ mixed_chain.*1 -> nodes s' !! q = nodes mixed_state !! q) /\
    nss s' = nss mixed_state.
Proof.
  apply (@xmlFreeNodeList_leaves no_dtd 4 mixed_state 1%positive
           (set_next (Some 2%positive) (text_cell None (Some (mkStr 4 (BAD_CAST "ab")))))
           mixed_chain).
  - vm_compute. repeat split.
  - repeat constructor; discriminate.
  - reflexivity.
  - discriminate.
  - reflexivity.
  - intros x. discriminate.
  - simpl. lia.
Defined.

(** ** Parsing a value without references *)

Section plain_value.
Context `{Externals}.

(** On a value without [&] the loop of [xmlStringGetNodeList] only
    moves its cursor. *)
Lemma plain_rounds (fuel : nat) (self : calls) (doc : option ptr) (v : xmlStr)
  (s : state) (k : nat) :
  Forall (fun c => c <> 0 /\ c <> chr "&") v -> (k <= length v)%nat ->
  rounds (Body.xmlStringGetNodeList_body fuel self doc v) k
    (None, None, 0, 0) s (None, None, 0, Z.of_nat k) s.
Proof.
  intros Hv. induction k as [|k IH]; intros Hk; [constructor|].
  eapply rounds_snoc; [apply IH; lia|].
  destruct (lookup_lt_is_Some_2 v k) as [c Hc]; [unfold xmlStr, xmlChar in *; lia|].
  pose proof (Forall_lookup_1 _ _ _ _ Hv Hc) as [Hc0 Hca].
  assert (byte_at v (Z.of_nat k) = c) as Hb.
  { unfold byte_at. rewrite Nat2Z.id. by apply nth_lookup_Some. }
  rewrite Nat2Z.inj_succ, <- Z.add_1_r.
  apply body_plain; by rewrite Hb.
Qed.

(** The rule of [xmlStringGetNodeList] on such a value. *)
Lemma wp_xmlStringGetNodeList_plain (fuel : nat) (s : state) (doc : option ptr)
  (v : xmlStr) :
  Forall (fun c => c <> 0 /\ c <> chr "&") v -> (length v + 1 < fuel)%nat ->
  wp (xmlStringGetNodeList fuel doc (Some v)) (fun r s' =>
    exists t, r = Some t /\ nodes s !! t = None /\
      s' = set_brk (Pos.succ (brk s))
             (set_nodes (<[t := text_cell doc (Some (mkStr (brk s) v))]> (nodes s)) s)) s.
Proof.
  intros Hv Hfuel.
  unfold xmlStringGetNodeList, Body.xmlStringGetNodeList.
  apply wp_bind.
  eapply wp_loop_rounds; [apply (plain_rounds _ _ _ _ _ (length v)); [done|lia]|lia|].
  apply wp_loop_pos; [lia|].
  eapply wp_eq.
  { apply body_end. unfold byte_at. rewrite Nat2Z.id. apply nth_overflow.
    unfold xmlStr, xmlChar in *. lia. }
  cbv beta iota. nsteps. rewrite orb_true_r. nsteps. unfold str_from.
  apply wp_xmlNewDocTextLen; [lia|]. intros t Ht. nsteps.
  exists t. change (Z.to_nat 0) with 0%nat. rewrite drop_0, Z.sub_0_r, Nat2Z.id.
  rewrite firstn_all. done.
Qed.

(** X20. [xmlStringGetNodeList] on a value without zero byte and
    without [&], the empty value included: the result is one new text
    node of the document that holds the value; no other cell
    changes. *)
Theorem xmlStringGetNodeList_plain (fuel : nat) (s : state) (doc : option ptr)
  (v : xmlStr) :
  Forall (fun c => c <> 0 /\ c <> chr "&") v -> (length v + 1 < fuel)%nat ->
  exists t s',
    xmlStringGetNodeList fuel doc (Some v) s = Ok (Some t) s' /\
    nodes s !! t = None /\
    nodes s' = <[t := text_cell doc (Some (mkStr (brk s) v))]> (nodes s) /\
    nss s' = nss s.
Proof.
  intros Hv Hfuel.
  destruct (proj1 (wp_run _ _ _) (wp_xmlStringGetNodeList_plain fuel s doc v Hv Hfuel))
    as (r & s' & Hrun & t & -> & Ht & ->).
  eexists t, _. split; [exact Hrun|]. by sim.
Qed.

(** X21. Round trip: the list that [xmlStringGetNodeList] builds for
    a value without zero byte and without [&] is turned back into that
    value by [xmlNodeListGetString] with [inLine] set. *)
Theorem xmlStringGetNodeList_then_xmlNodeListGetString (fuel : nat) (s : state)
  (doc : option ptr) (v : xmlStr) :
  Forall (fun c => c <> 0 /\ c <> chr "&") v -> (length v + 1 < fuel)%nat ->
  exists t s1 r s2,
    xmlStringGetNodeList fuel doc (Some v) s = Ok (Some t) s1 /\
    xmlNodeListGetString fuel doc (Some t) 1 s1 = Ok r s2 /\
    chars r = Some v /\ nodes s2 = nodes s1.
Proof.
  intros Hv Hfuel.
  destruct (proj1 (wp_run _ _ _) (wp_xmlStringGetNodeList_plain fuel s doc v Hv Hfuel))
    as (r1 & s1 & Hrun & t & -> & Ht & Hs1).
  assert (wp (xmlNodeListGetString fuel doc (Some t) 1)
            (fun r s2 => chars r = Some v /\ nodes s2 = nodes s1) s1) as Hw.
  { unfold xmlNodeListGetString, Body.xmlNodeListGetString.
    eapply wp_mono.
    - apply (wp_gather_loop (tie fuel) doc 1
               [(t, text_cell doc (Some (mkStr (brk s) v)))]); [|done| |cbn; lia].
      + repeat constructor. discriminate.
      + subst s1. cbn. sim. by rewrite lookup_insert_eq.
    - cbv beta. intros r s2 [Hr Hn]. split; [|done]. rewrite Hr. reflexivity. }
  apply wp_run in Hw as (r & s2 & Hrun2 & Hr & Hn).
  by exists t, s1, r, s2.
Qed.
End plain_value.

Lemma xmlStringGetNodeList_plain_witness :
  exists t s',
    @xmlStringGetNodeList no_dtd 7 None (Some (BAD_CAST "hello")) empty_state
      = Ok (Some t) s' /\
    nodes empty_state !! t = None /\
    nodes s' = <[t := text_cell None (Some (mkStr (brk empty_state) (BAD_CAST "hello")))]>
                 (nodes empty_state) /\
    nss s' = nss empty_state.
Proof.
  apply (@xmlStringGetNodeList_plain no_dtd 7 empty_state None (BAD_CAST "hello")).
  - repeat constructor; discriminate.
  - simpl. lia.
Defined.

Lemma xmlStringGetNodeList_then_xmlNodeListGetString_witness :
  exists t s1 r s2,
    @xmlStringGetNodeList no_dtd 7 None (Some (BAD_CAST "hello")) empty_state
      = Ok (Some t) s1 /\
    @xmlNodeListGetString no_dtd 7 None (Some t) 1 s1 = Ok r s2 /\
    chars r = Some (BAD_CAST "hello") /\ nodes s2 = nodes s1.
Proof.
  apply (@xmlStringGetNodeList_then_xmlNodeListGetString no_dtd 7 empty_state None
           (BAD_CAST "hello")).
  - repeat constructor; discriminate.
  - simpl. lia.
Defined.

(** ** Qualified names *)

(** The scan for the first colon of [p ++ ":" ++ rest] stops behind
    [p], and the scan of a name without colon stops at its end. *)
Lemma wp_scan_colon (wrap : Z -> Z) (fuel : nat) (p tail : xmlStr) (s : state) :
  Forall (fun c => c <> 0 /\ c <> chr ":") p ->
  (forall i, 0 <= i <= Z.of_nat (length p) -> wrap i = i) ->
  (tail = [] \/ exists rest, tail = chr ":" :: rest) ->
  (length p < fuel)%nat ->
  scan_colon wrap fuel (p ++ tail) s = Ok (Z.of_nat (length p)) s.
Proof.
  intros Hp Hwrap Htail Hfuel. unfold scan_colon.
  assert (forall k fuel, (k <= length p)%nat -> (length p - k < fuel)%nat ->
    loop fuel (fun len : Z =>
      if negb (bool_decide (byte_at (p ++ tail) len = 0)) &&
         negb (bool_decide (byte_at (p ++ tail) len = chr ":"))
      then continue (wrap (len + 1)) else break len) (Z.of_nat k) s
    = Ok (Z.of_nat (length p)) s) as Hloop.
  { intros k. remember (length p - k)%nat as d eqn:Ed. revert k Ed.
    induction d as [|d IH]; intros k Ed fuel' Hk Hf.
    - assert (k = length p) as -> by lia.
      destruct fuel' as [|fuel']; [lia|]. apply loop_inr.
      assert (byte_at (p ++ tail) (Z.of_nat (length p)) = 0 \/
              byte_at (p ++ tail) (Z.of_nat (length p)) = chr ":") as Hb.
      { unfold byte_at. rewrite Nat2Z.id.
        destruct Htail as [->|[rest ->]].
        - left. apply nth_overflow. rewrite app_nil_r. unfold xmlStr, xmlChar in *. lia.
        - right. rewrite app_nth2 by (unfold xmlStr, xmlChar in *; lia).
          by rewrite Nat.sub_diag. }
      destruct Hb as [-> | ->]; [done|].
      by rewrite (bool_decide_true (chr ":" = chr ":")), andb_false_r by done.
    - destruct fuel' as [|fuel']; [lia|].
      destruct (lookup_lt_is_Some_2 p k) as [c Hc]; [unfold xmlStr, xmlChar in *; lia|].
      pose proof (Forall_lookup_1 _ _ _ _ Hp Hc) as [Hc0 Hcc].
      assert (byte_at (p ++ tail) (Z.of_nat k) = c) as Hb.
      { unfold byte_at. rewrite Nat2Z.id. apply nth_lookup_Some.
        by rewrite lookup_app_l by (unfold xmlStr, xmlChar in *; lia). }
      cbn [loop]. unfold mbind, M_bind at 1. rewrite Hb.
      rewrite !bool_decide_false by done. cbn [andb negb].
      unfold continue at 1. cbn [mret M_ret].
      rewrite Hwrap by lia.
      replace (Z.of_nat k + 1) with (Z.of_nat (S k)) by lia.
      apply IH; lia. }
  apply (Hloop 0%nat); lia.
Qed.

(** X22. [xmlSplitQName2] cuts a name at its first colon: for
    [p ++ ":" ++ rest] with [p] not empty and free of colons, the
    result is a copy of [rest] and [*prefix] is a copy of [p]; a name
    that starts with a colon and a name without colon give NULL and
    leave [*prefix] NULL. *)
Theorem xmlSplitQName2_cuts (fuel : nat) (s : state) (p rest : xmlStr) :
  Forall (fun c => c <> 0 /\ c <> chr ":") p ->
  (length p < fuel)%nat -> Z.of_nat (length p) < 2 ^ 31 ->
  (p <> [] ->
   exists r q s',
     xmlSplitQName2 fuel (Some (p ++ chr ":" :: rest)) true s = Ok (Some r, Some q) s' /\
     str_chars r = rest /\ str_chars q = p /\ nodes s' = nodes s /\ errs s' = errs s) /\
  xmlSplitQName2 fuel (Some (chr ":" :: rest)) true s = Ok (None, None) s /\
  xmlSplitQName2 fuel (Some p) true s = Ok (None, None) s.
Proof.
  intros Hp Hfuel Hlen.
  assert (forall i, 0 <= i <= Z.of_nat (length p) -> wrap_int i = i) as Hwrap.
  { intros i Hi. unfold wrap_int. rewrite Z.mod_small by lia. lia. }
  split_and!.
  - intros Hne.
    assert (byte_at (p ++ chr ":" :: rest) 0 <> chr ":") as H0.
    { destruct p as [|c p]; [done|]. apply Forall_cons in Hp as [[_ Hc] _]. done. }
    assert (byte_at (p ++ chr ":" :: rest) (Z.of_nat (length p)) = chr ":") as Hc.
    { unfold byte_at. rewrite Nat2Z.id.
      rewrite app_nth2 by (unfold xmlStr, xmlChar in *; lia). by rewrite Nat.sub_diag. }
    cut (exists x s', xmlSplitQName2 fuel (Some (p ++ chr ":" :: rest)) true s = Ok x s' /\
           exists r q, x = (Some r, Some q) /\ str_chars r = rest /\ str_chars q = p /\
             nodes s' = nodes s /\ errs s' = errs s).
    { intros (x & s' & ? & r & q & -> & ?). by exists r, q, s'. }
    apply wp_run. unfold xmlSplitQName2. cbn [negb].
    rewrite (bool_decide_false _ H0). apply wp_bind.
    eapply wp_eq; [apply wp_scan_colon; eauto|].
    rewrite Hc. rewrite (bool_decide_false (chr ":" = 0)) by done.
    unfold xmlStrndup, str_from. rewrite bool_decide_false by lia.
    nsteps. eexists _, _. split; [reflexivity|]. cbn [str_chars].
    rewrite Nat2Z.id, take_app_length.
    replace (Z.to_nat (Z.of_nat (length p) + 1)) with (length p + 1)%nat by lia.
    rewrite <- drop_drop, drop_app_length. done.
  - apply wp_exact. unfold xmlSplitQName2. cbn [negb].
    rewrite bool_decide_true by done. by apply wp_ret.
  - apply wp_exact. unfold xmlSplitQName2. cbn [negb].
    destruct (bool_decide (byte_at p 0 = chr ":")); [by apply wp_ret|].
    apply wp_bind. eapply wp_eq.
    { rewrite <- (app_nil_r p) at 1. apply wp_scan_colon; eauto. }
    rewrite bool_decide_true; [by apply wp_ret|].
    unfold byte_at. rewrite Nat2Z.id. apply nth_overflow. unfold xmlStr, xmlChar in *. lia.
Qed.

Lemma xmlSplitQName2_cuts_witness :
  (BAD_CAST "svg" <> [] ->
   exists r q s',
     xmlSplitQName2 4 (Some (BAD_CAST "svg" ++ chr ":" :: BAD_CAST "rect")) true empty_state
       = Ok (Some r, Some q) s' /\
     str_chars r = BAD_CAST "rect" /\ str_chars q = BAD_CAST "svg" /\
     nodes s' = nodes empty_state /\ errs s' = errs empty_state) /\
  xmlSplitQName2 4 (Some (chr ":" :: BAD_CAST "rect")) true empty_state
    = Ok (None, None) empty_state /\
  xmlSplitQName2 4 (Some (BAD_CAST "svg")) true empty_state = Ok (None, None) empty_state.
Proof.
  apply (xmlSplitQName2_cuts 4 empty_state (BAD_CAST "svg") (BAD_CAST "rect")).
  - repeat constructor; discriminate.
  - simpl. lia.
  - simpl. lia.
Defined.

(** ** Building a qualified name *)

(** The C string read where a block holds [w] and then a zero. *)
Lemma until_zero_prefix (w bs : list xmlChar) :
  Forall (fun c => c <> 0) w -> take (length w) bs = w -> bs !! length w = Some 0 ->
  until_zero bs = Some w.
Proof.
  revert bs. induction w as [|c w IH]; intros bs Hw Htake Hz.
  - destruct bs as [|b bs]; [done|]. cbn in Hz. injection Hz as ->. done.
  - destruct bs as [|b bs]; [done|]. cbn in Htake, Hz. injection Htake as -> Htake.
    apply Forall_cons in Hw as [Hc Hw]. cbn [until_zero].
    rewrite bool_decide_false by done. by rewrite (IH bs).
Qed.

(** The rule of [xmlBuildQName] when it allocates the result. *)
Lemma wp_xmlBuildQName_new (s : state) (n p : xmlStr) (memory : option bptr) (len : Z) :
  Forall (fun c => c <> 0) n -> Forall (fun c => c <> 0) p ->
  memory = None \/ len < Z.of_nat (length n) + Z.of_nat (length p) + 2 ->
  Z.of_nat (length n) + Z.of_nat (length p) + 2 < 2 ^ 63 ->
  wp (xmlBuildQName (Some n) (Some p) memory len) (fun r s' =>
    exists m, r = Some (built_at (mkPtr m 0)) /\ mem s !! m = None /\
      s' = set_mem (<[m := p ++ chr ":" :: n ++ [0]]> (mem s)) s) s.
Proof.
  intros Hn Hp Hmem Hsmall. unfold xmlBuildQName, xmlStrlen.
  unfold xmlStr, xmlChar in *.
  rewrite (wrap_size_small (_ + _ + 2)), (wrap_size_small (Z.of_nat (length p) + 1)),
    (wrap_size_small (_ + _ + 1)), (wrap_intptr_small (_ + _ + 2)) by lia.
  assert (bool_decide (memory = None) ||
          bool_decide (len < Z.of_nat (length n) + Z.of_nat (length p) + 2) = true) as ->.
  { destruct Hmem as [->|Hlt]; [done|]. rewrite (bool_decide_true (len < _)) by done.
    apply orb_true_r. }
  apply wp_bind, wp_xmlMallocAtomic. intros m Hm.
  apply wp_bind, wp_ptr_add. cbn [blk off]. change (0 + 0) with 0.
  apply wp_bind, wp_src_bytes; [unfold xmlStr, xmlChar in *; lia|].
  unfold xmlStr, xmlChar in *. rewrite Nat2Z.id, take_app_length.
  apply wp_bind.
  eapply wp_mem_store; [sim; apply lookup_insert_eq|sizes|sizes|];
    unfold xmlStr, xmlChar in *.
  cbn [blk off]. change (Z.to_nat 0) with 0%nat. rewrite take_0. cbn [app Nat.add]. sim.
  rewrite insert_insert_eq.
  apply wp_bind, wp_ptr_add. cbn [blk off]. rewrite Z.add_0_l. apply wp_bind.
  eapply wp_mem_store; [sim; apply lookup_insert_eq|sizes|sizes|];
    unfold xmlStr, xmlChar in *.
  cbn [blk off length]. rewrite Nat2Z.id, take_app_length. sim.
  rewrite insert_insert_eq.
  apply wp_bind, wp_ptr_add. cbn [blk off]. rewrite Z.add_0_l.
  apply wp_bind, wp_src_bytes; [unfold xmlStr, xmlChar in *; lia|].
  unfold xmlStr, xmlChar in *. rewrite Nat2Z.id, take_app_length.
  apply wp_bind.
  eapply wp_mem_store; [sim; apply lookup_insert_eq|sizes|sizes|];
    unfold xmlStr, xmlChar in *.
  cbn [blk off]. sim. rewrite insert_insert_eq.
  apply wp_bind, wp_ptr_add. cbn [blk off]. rewrite Z.add_0_l. apply wp_bind.
  eapply wp_mem_store; [sim; apply lookup_insert_eq|sizes|sizes|];
    unfold xmlStr, xmlChar in *.
  cbn [blk off length]. sim. rewrite insert_insert_eq. apply wp_ret.
  exists m. split; [done|]. split; [done|]. do 2 f_equal.
  replace (Z.to_nat (Z.of_nat (length p) + 1)) with (length p + 1)%nat by lia.
  replace (Z.to_nat (Z.of_nat (length n) + Z.of_nat (length p) + 1))
    with (length p + 1 + length n)%nat by lia.
  match goal with |- context [drop (length p + 1) ?a] => set (A := a) end.
  assert (length A = Z.to_nat (Z.of_nat (length n) + Z.of_nat (length p) + 2)) as HA.
  { unfold A. sizes. }
  match goal with |- context [take (length p + 1) ?b] => set (B := b) end.
  assert (length B = length A) as HB by (unfold B; sizes).
  assert (take (length p + 1) B = p ++ [chr ":"]) as ->.
  { unfold B. rewrite app_assoc. apply take_app_length'. sizes. }
  match goal with |- context [take (length p + 1 + length n) ?c] => set (C := c) end.
  assert (length C = length A) as HC by (unfold C; sizes).
  assert (take (length p + 1 + length n) C = (p ++ [chr ":"]) ++ n) as ->.
  { unfold C. rewrite app_assoc. apply take_app_length'. sizes. }
  rewrite drop_ge by lia. rewrite <- !app_assoc. done.
Qed.

Lemma string_at_built (s : state) (m : positive) (w : xmlStr) :
  Forall (fun c => c <> 0) w ->
  string_at (set_mem (<[m := w ++ [0]]> (mem s)) s) (mkPtr m 0) = Some w.
Proof.
  intros Hw. unfold string_at. sim. cbn [blk off]. rewrite lookup_insert_eq.
  rewrite bool_decide_true by done. change (Z.to_nat 0) with 0%nat. rewrite drop_0.
  apply until_zero_prefix; [done|by rewrite take_app_length|].
  unfold xmlStr, xmlChar in *. by rewrite lookup_app_r, Nat.sub_diag by lia.
Qed.

(** X23. [xmlBuildQName] with a prefix that is not NULL, when no
    memory is passed or the memory is too short: the result is a new
    block that holds the prefix, a colon, the name and a zero; this
    also holds for the empty prefix. With a NULL prefix the result is
    [ncname] itself and nothing changes. *)
Theorem xmlBuildQName_builds (s : state) (n p : xmlStr) (memory : option bptr) (len : Z) :
  Forall (fun c => c <> 0) n -> Forall (fun c => c <> 0) p ->
  memory = None \/ len < Z.of_nat (length n) + Z.of_nat (length p) + 2 ->
  Z.of_nat (length n) + Z.of_nat (length p) + 2 < 2 ^ 63 ->
  (exists q s',
     xmlBuildQName (Some n) (Some p) memory len s = Ok (Some (built_at q)) s' /\
     mem s !! blk q = None /\
     string_at s' q = Some (p ++ chr ":" :: n) /\
     nodes s' = nodes s /\ bufs s' = bufs s) /\
  xmlBuildQName (Some n) None memory len s = Ok (Some the_ncname) s.
Proof.
  intros Hn Hp Hmem Hsmall. split; [|done].
  pose proof (wp_xmlBuildQName_new s n p memory len Hn Hp Hmem Hsmall) as Hw.
  apply wp_run in Hw as (r & s' & Hrun & m & -> & Hm & ->).
  exists (mkPtr m 0). eexists. split; [exact Hrun|]. split; [done|].
  split; [|done].
  replace (p ++ chr ":" :: n ++ [0]) with ((p ++ chr ":" :: n) ++ [0])
    by (by rewrite <- app_assoc).
  apply string_at_built. apply Forall_app. split; [done|]. by constructor.
Qed.

Lemma xmlBuildQName_builds_witness :
  (exists q s',
     xmlBuildQName (Some (BAD_CAST "rect")) (Some (BAD_CAST "svg")) None 0 empty_state
       = Ok (Some (built_at q)) s' /\
     mem empty_state !! blk q = None /\
     string_at s' q = Some (BAD_CAST "svg" ++ chr ":" :: BAD_CAST "rect") /\
     nodes s' = nodes empty_state /\ bufs s' = bufs empty_state) /\
  xmlBuildQName (Some (BAD_CAST "rect")) None None 0 empty_state
    = Ok (Some the_ncname) empty_state.
Proof.
  apply (xmlBuildQName_builds empty_state (BAD_CAST "rect") (BAD_CAST "svg") None 0).
  - repeat constructor; discriminate.
  - repeat constructor; discriminate.
  - left. reflexivity.
  - simpl. lia.
Defined.

(** X24. Round trip: the name that [xmlBuildQName] builds from a name
    and a prefix without colon is cut by [xmlSplitQName3] behind the
    prefix, [*len] being the length of the prefix and the result the
    name; for the empty prefix the built name starts with a colon and
    [xmlSplitQName3] gives NULL. *)
Theorem xmlBuildQName_then_xmlSplitQName3 (fuel : nat) (s : state) (n p : xmlStr) :
  Forall (fun c => c <> 0) n -> Forall (fun c => c <> 0 /\ c <> chr ":") p ->
  Z.of_nat (length n) + Z.of_nat (length p) + 2 < 2 ^ 63 ->
  (length p < fuel)%nat ->
  exists q s' v,
    xmlBuildQName (Some n) (Some p) None 0 s = Ok (Some (built_at q)) s' /\
    string_at s' q = Some v /\
    xmlSplitQName3 fuel (Some v) true s'
      = Ok (if bool_decide (p = []) then None
            else Some (Z.of_nat (length p) + 1, Z.of_nat (length p))) s' /\
    str_from v (Z.of_nat (length p) + 1) = Some n.
Proof.
  intros Hn Hp Hsmall Hfuel.
  assert (Forall (fun c => c <> 0) p) as Hp0.
  { eapply Forall_impl; [exact Hp|]. by intros c [? _]. }
  pose proof (wp_xmlBuildQName_new s n p None 0 Hn Hp0 (or_introl eq_refl) Hsmall) as Hw.
  apply wp_run in Hw as (r & s' & Hrun & m & -> & Hm & ->).
  exists (mkPtr m 0). eexists. exists (p ++ chr ":" :: n).
  split; [exact Hrun|]. split_and!.
  - replace (p ++ chr ":" :: n ++ [0]) with ((p ++ chr ":" :: n) ++ [0])
      by (by rewrite <- app_assoc).
    apply string_at_built. apply Forall_app. split; [done|]. by constructor.
  - apply wp_exact. unfold xmlSplitQName3. cbn [negb].
    destruct (decide (p = [])) as [Hempty|Hempty].
    + rewrite (bool_decide_true (p = [])) by done. rewrite Hempty. cbn [app].
      rewrite bool_decide_true by done. by apply wp_ret.
    + rewrite (bool_decide_false (p = [])) by done.
      assert (byte_at (p ++ chr ":" :: n) 0 <> chr ":") as H0.
      { destruct p as [|c p]; [done|]. apply Forall_cons in Hp as [[_ Hc] _]. done. }
      rewrite (bool_decide_false _ H0). apply wp_bind.
      eapply wp_eq.
      { apply wp_scan_colon; eauto. intros i Hi. apply wrap_intptr_small. lia. }
      assert (byte_at (p ++ chr ":" :: n) (Z.of_nat (length p)) = chr ":") as ->.
      { unfold byte_at. rewrite Nat2Z.id.
        rewrite app_nth2 by (unfold xmlStr, xmlChar in *; lia). by rewrite Nat.sub_diag. }
      rewrite (bool_decide_false (chr ":" = 0)) by done. by apply wp_ret.
  - unfold str_from. f_equal.
    replace (Z.to_nat (Z.of_nat (length p) + 1)) with (length p + 1)%nat by lia.
    by rewrite <- drop_drop, drop_app_length.
Qed.

Lemma xmlBuildQName_then_xmlSplitQName3_witness :
  exists q s' v,
    xmlBuildQName (Some (BAD_CAST "rect")) (Some (BAD_CAST "svg")) None 0 empty_state
      = Ok (Some (built_at q)) s' /\
    string_at s' q = Some v /\
    xmlSplitQName3 4 (Some v) true s' = Ok (Some (3 + 1, 3)) s' /\
    str_from v (3 + 1) = Some (BAD_CAST "rect").
Proof.
  apply (xmlBuildQName_then_xmlSplitQName3 4 empty_state (BAD_CAST "rect") (BAD_CAST "svg")).
  - repeat constructor; discriminate.
  - repeat constructor; discriminate.
  - simpl. lia.
  - simpl. lia.
Defined.

(** ** The root element of a document *)

(** X25. Round trip: [xmlDocSetRootElement] of a detached element
    without attributes and children, on a document that is empty or
    whose only child is an element of the document: the result is the
    old root (NULL for the empty document), and [xmlDocGetRootElement]
    then returns the new root, whose parent and document are the
    document; the old root is left without parent. *)
Theorem xmlDocSetRootElement_then_Get `{Externals} (fuel : nat) (s : state) (d r : ptr)
  (dn rn : xmlNode) :
  nodes s !! d = Some dn -> nodes s !! r = Some rn -> d <> r ->
  n_type rn = XML_ELEMENT_NODE ->
  n_parent rn = None -> n_prev rn = None -> n_next rn = None ->
  n_properties rn = None -> n_children rn = None ->
  (n_children dn = None \/
   exists o on, n_children dn = Some o /\ n_last dn = Some o /\
     nodes s !! o = Some on /\ o <> d /\ o <> r /\
     n_type on = XML_ELEMENT_NODE /\ n_parent on = Some d /\
     n_prev on = None /\ n_next on = None /\ n_doc on = Some d) ->
  (2 <= fuel)%nat ->
  exists s',
    xmlDocSetRootElement fuel (Some d) (Some r) s = Ok (n_children dn) s' /\
    xmlDocGetRootElement fuel (Some d) s' = Ok (Some r) s' /\
    nodes s' !! r = Some (set_parent (Some d) (set_doc (Some d) rn)) /\
    nodes s' !! d = Some (set_last (Some r) (set_children (Some r) dn)) /\
    (forall o on, n_children dn = Some o -> nodes s !! o = Some on ->
       nodes s' !! o = Some (set_parent None on)).
Proof.
  intros Hd Hr Hdr Hty Hpa Hpv Hnx Hprops Hch Hdoc Hfuel.
  destruct fuel as [|[|fuel]]; [lia|lia|].
  cut (exists s', xmlDocSetRootElement (S (S fuel)) (Some d) (Some r) s
                    = Ok (n_children dn) s' /\
         (xmlDocGetRootElement (S (S fuel)) (Some d) s' = Ok (Some r) s' /\
          nodes s' !! r = Some (set_parent (Some d) (set_doc (Some d) rn)) /\
          nodes s' !! d = Some (set_last (Some r) (set_children (Some r) dn)) /\
          (forall o on, n_children dn = Some o -> nodes s !! o = Some on ->
             nodes s' !! o = Some (set_parent None on)))); [done|].
  apply wp_result.
  unfold xmlDocSetRootElement, first_element, xmlUnlinkNode, xmlSetTreeDoc,
    Body.xmlSetTreeDoc, xmlReplaceNode.
  destruct Hdoc as [Hempty|(o & on & Hc & Hl & Ho & Hod & Hor & Hoty & Hop & Hopv & Honx & Hodoc)].
  - rewrite Hempty. xsteps. unfold when. repeat case_bool_decide; xsteps.
    all: split_and!; [done| |cells|cells|intros; congruence].
    all: apply wp_exact; unfold xmlDocGetRootElement, first_element; repeat bstep; done.
  - rewrite Hc. unfold xmlUnlinkNode. xsteps. unfold when. repeat case_bool_decide; xsteps.
    all: split_and!; [reflexivity| | | |].
    all: lazymatch goal with
         | |- forall _, _ =>
             intros ? ? [= <-] ?; simplify_eq; sim; rewrite lookup_insert_eq;
             f_equal; destruct on; cbn in *; by subst
         | |- xmlDocGetRootElement _ _ _ = _ =>
             apply wp_exact; unfold xmlDocGetRootElement, first_element;
             repeat bstep; split; reflexivity
         | _ => idtac
         end.
    all: sim; rewrite ?Hodoc; repeat first [ rewrite lookup_insert_eq
                                      | rewrite lookup_insert_ne by done ].
    all: f_equal.
    all: first [ by destruct dn | destruct rn; cbn in *; by subst ].
Qed.

Lemma xmlDocSetRootElement_then_Get_witness :
  exists s',
    @xmlDocSetRootElement no_dtd 2 (Some 1%positive) (Some 2%positive) empty_doc_state
      = Ok None s' /\
    xmlDocGetRootElement 2 (Some 1%positive) s' = Ok (Some 2%positive) s' /\
    nodes s' !! 2%positive
      = Some (set_parent (Some 1%positive)
                (set_doc (Some 1%positive) (zero_node XML_ELEMENT_NODE))).
Proof.
  destruct (@xmlDocSetRootElement_then_Get no_dtd 2 empty_doc_state
              1%positive 2%positive (zero_node XML_DOCUMENT_NODE)
              (zero_node XML_ELEMENT_NODE))
    as (s' & Hrun & Hget & Hroot & _); try closed.
  - left. reflexivity.
  - exists s'. split; [exact Hrun|]. split; [exact Hget|exact Hroot].
Defined.

(** ** Removing an attribute *)

Lemma sibling_chain_NoDup (s : state) (start : option ptr) (l : list (ptr * xmlNode)) :
  sibling_chain s start l -> NoDup l.*1.
Proof.
  revert start. induction l as [|[p n] l IH]; intros start Hl; [constructor|].
  cbn [fmap list_fmap fst]. constructor.
  - by eapply sibling_chain_head_fresh.
  - destruct Hl as (_ & _ & Hl). by eapply IH.
Qed.

(** A list is kept, cell contents apart, by what keeps its links. *)
Lemma sibling_chain_links (s s' : state) (start : option ptr) (l : list (ptr * xmlNode)) :
  (forall q, q ∈ l.*1 -> n_next <$> nodes s' !! q = n_next <$> nodes s !! q) ->
  sibling_chain s start l ->
  exists l', sibling_chain s' start l' /\ l'.*1 = l.*1.
Proof.
  revert start. induction l as [|[p n] l IH]; intros start Hq Hl.
  - exists []. done.
  - destruct Hl as (-> & Hp & Hl).
    pose proof (Hq p ltac:(left)) as Ep. rewrite Hp in Ep. cbn in Ep.
    destruct (nodes s' !! p) as [n'|] eqn:Hp'; [|done]. injection Ep as Ep.
    destruct (IH (n_next n)) as (l' & Hl' & El'); [|done|].
    { intros q Hin. apply Hq. by right. }
    exists ((p, n') :: l'). split; [|by cbn; rewrite El'].
    split_and!; [done|done|by rewrite Ep].
Qed.

Section remove_prop.
Context `{Externals}.

(** Freeing an attribute without children, of a node in no document. *)
Lemma wp_xmlFreeProp_leaf (fuel : nat) (c p : ptr) (cn pn : xmlNode)
  (Q : unit -> state -> Prop) (s : state) :
  nodes s !! c = Some cn -> n_parent cn = Some p -> nodes s !! p = Some pn ->
  n_doc cn = None -> n_doc pn = None -> n_children cn = None ->
  Q tt (set_nodes (delete c (nodes s)) s) ->
  wp (xmlFreeProp fuel (Some c)) Q s.
Proof.
  intros Hc Hcp Hp Hcd Hpd Hch HQ. unfold xmlFreeProp, Body.xmlFreeProp.
  nsteps. rewrite Hcd. cbn [dict_of_doc]. nsteps. sim. done.
Qed.

(** The walk of [xmlRemoveProp] along the attributes before [c]. *)
Lemma wp_remove_loop (fuel0 : nat) (c p : ptr) (cn pn : xmlNode)
  (l2 : list (ptr * xmlNode)) :
  n_parent cn = Some p -> n_doc cn = None -> n_doc pn = None -> n_children cn = None ->
  forall (l1 : list (ptr * xmlNode)) (t : ptr) (tn : xmlNode) (s : state) (fuel : nat),
    sibling_chain s (Some t) ((t, tn) :: l1 ++ (c, cn) :: l2) ->
    nodes s !! p = Some pn -> p ∉ ((t, tn) :: l1 ++ (c, cn) :: l2).*1 ->
    (length l1 < fuel)%nat ->
    wp (loop fuel (fun tmp =>
          match tmp with
          | None => break (-1)
          | Some t =>
              tnx ← rd t n_next;
              if ptr_eqb tnx (Some c) then
                cnx ← rd c n_next;
                wr t (set_next cnx);;
                tnx ← rd t n_next;
                match tnx with
                | Some x => wr x (set_prev tmp)
                | None => skip
                end;;
                xmlFreeProp fuel0 (Some c);;
                break 0
              else continue tnx
          end) (Some t))
       (fun r s' => r = 0 /\ nodes s' !! c = None /\
          (exists l', sibling_chain s' (Some t) l' /\ l'.*1 = (t :: l1.*1) ++ l2.*1) /\
          (forall q, q ∉ ((t, tn) :: l1 ++ (c, cn) :: l2).*1 ->
             nodes s' !! q = nodes s !! q)) s.
Proof.
  intros Hcp Hcd Hpd Hch. induction l1 as [|[t2 tn2] l1 IH]; intros t tn s fuel Hl Hp Hpl Hfuel.
  - pose proof (sibling_chain_NoDup _ _ _ Hl) as Hnd.
    cbn [app fmap list_fmap fst] in Hnd, Hpl.
    apply NoDup_cons in Hnd as [Ht Hnd]. apply NoDup_cons in Hnd as [Hc Hnd].
    destruct Hl as (_ & Htn & Hnx & Hcn & Hl2). cbn [app] in *.
    assert (t <> c) as Htc by (intros ->; apply Ht; left).
    assert (p <> t) by (intros ->; apply Hpl; left).
    assert (p <> c) by (intros ->; apply Hpl; right; left).
    destruct fuel as [|fuel]; [lia|]. apply wp_loop_S.
    assert (exists l', sibling_chain s (n_next cn) l' /\ l'.*1 = l2.*1) as _ by eauto.
    destruct l2 as [|[x xn] l2].
    + cbn in Hl2. nsteps.
      eapply wp_xmlFreeProp_leaf; [lookup|done|lookup|done|done|done|]. nsteps.
      sim. split_and!; [done|by rewrite lookup_delete_eq| |].
      * exists [(t, set_next None tn)]. split; [|done]. cbn.
        rewrite lookup_delete_ne, lookup_insert_eq by done. done.
      * intros q Hq. rewrite lookup_delete_ne, lookup_insert_ne; [done| |].
        -- intros ->. apply Hq. left.
        -- intros ->. apply Hq. right. left.
    + destruct Hl2 as (Hcx & Hx & Hl2).
      assert (x <> c) by (intros ->; apply Hc; left).
      assert (x <> t) by (intros ->; apply Ht; right; left).
      assert (p <> x) by (intros ->; apply Hpl; right; right; left).
      apply NoDup_cons in Hnd as [Hxl2 Hnd].
      nsteps.
      eapply wp_xmlFreeProp_leaf; [lookup|done|lookup|done|done|done|]. nsteps.
      sim. split_and!; [done|by rewrite lookup_delete_eq| |].
      * edestruct (sibling_chain_links s
          (set_nodes (delete c (<[x := set_prev (Some t) xn]>
             (<[t := set_next (Some x) tn]> (nodes s)))) s) (n_next xn) l2)
          as (l' & Hl' & El'); [|exact Hl2|].
        { intros q Hq. sim.
          rewrite lookup_delete_ne, !lookup_insert_ne; [done| | |].
          - intros ->. apply Ht. by do 2 right.
          - by intros ->.
          - intros ->. apply Hc. by right. }
        exists ((t, set_next (Some x) tn) :: (x, set_prev (Some t) xn) :: l').
        split; [|by cbn; rewrite El']. sim. cbn.
        rewrite lookup_delete_ne, lookup_insert_ne, lookup_insert_eq by done.
        rewrite lookup_delete_ne, lookup_insert_eq by done. done.
      * intros q Hq. rewrite lookup_delete_ne, !lookup_insert_ne; [done| | |].
        -- intros ->. apply Hq. left.
        -- intros ->. apply Hq. do 2 right. left.
        -- intros ->. apply Hq. right. left.
  - pose proof (sibling_chain_NoDup _ _ _ Hl) as Hnd.
    cbn [app fmap list_fmap fst] in Hnd, Hpl.
    apply NoDup_cons in Hnd as [Ht Hnd].
    pose proof Hl as (_ & Htn & Hl').
    pose proof Hl' as (Hnx & Htn2 & _).
    assert (t2 <> c).
    { intros ->. apply NoDup_cons in Hnd as [Hc _]. apply Hc.
      rewrite fmap_app. apply elem_of_app. right. left. }
    destruct fuel as [|fuel]; [cbn in Hfuel; lia|]. apply wp_loop_S.
    nsteps. rewrite Hnx.
    eapply wp_mono; [apply (IH t2 tn2 s fuel); [by rewrite <- Hnx|done| |cbn in Hfuel; lia]|].
    { intros Hin. apply Hpl. by right. }
    cbv beta. intros r s' (-> & Hc' & (l' & Hl'' & El') & Hframe).
    split_and!; [done|done| |].
    + exists ((t, tn) :: l'). split; [|by cbn; rewrite El'].
      split_and!; [done| |by rewrite Hnx].
      rewrite Hframe; [done|]. exact Ht.
    + intros q Hq. apply Hframe. intros Hin. apply Hq. by right.
Qed.

(** X26. [xmlRemoveProp] of an attribute [c] without children, found
    in the attribute list of its parent, neither being in a document:
    the result is 0, [c] is freed, and the list of the parent is the
    old one without [c]; no cell outside the list and the parent
    changes. When [c] is the first attribute, the attribute behind it
    is not written, so that its [prev] still holds the address of
    [c]. *)
Theorem xmlRemoveProp_unlinks (fuel : nat) (s : state) (c p : ptr) (cn pn : xmlNode)
  (l1 l2 : list (ptr * xmlNode)) :
  nodes s !! p = Some pn -> n_parent cn = Some p ->
  n_doc cn = None -> n_doc pn = None -> n_children cn = None ->
  sibling_chain s (n_properties pn) (l1 ++ (c, cn) :: l2) ->
  p ∉ (l1 ++ (c, cn) :: l2).*1 -> (length l1 < fuel)%nat ->
  exists s',
    xmlRemoveProp fuel (Some c) s = Ok 0 s' /\
    nodes s' !! c = None /\
    (exists pn' l', nodes s' !! p = Some pn' /\
       sibling_chain s' (n_properties pn') l' /\ l'.*1 = l1.*1 ++ l2.*1) /\
    (forall q, q <> p -> q ∉ (l1 ++ (c, cn) :: l2).*1 -> nodes s' !! q = nodes s !! q) /\
    (l1 = [] -> forall x xn, head l2 = Some (x, xn) -> nodes s' !! x = Some xn).
Proof.
  intros Hp Hcp Hcd Hpd Hch Hl Hpl Hfuel. apply wp_result.
  assert (nodes s !! c = Some cn) as Hc.
  { eapply sibling_chain_cells; [exact Hl|]. apply elem_of_app. right. left. }
  assert (p <> c) as Hpc.
  { intros ->. apply Hpl. rewrite fmap_app. apply elem_of_app. right. left. }
  pose proof (sibling_chain_NoDup _ _ _ Hl) as Hnd.
  unfold xmlRemoveProp. destruct l1 as [|[t tn] l1].
  - cbn [app] in *. destruct Hl as (Hprops & _ & Hl2).
    cbn [fmap list_fmap fst] in Hnd. apply NoDup_cons in Hnd as [Hcl2 Hnd].
    nsteps.
    eapply wp_xmlFreeProp_leaf; [lookup|done|lookup|done|done|done|]. nsteps.
    sim. split_and!; [done|by rewrite lookup_delete_eq| | |].
    + edestruct (sibling_chain_links s
        (set_nodes (delete c (<[p := set_properties (n_next cn) pn]> (nodes s))) s)
        (n_next cn) l2) as (l' & Hl' & El'); [|exact Hl2|].
      { intros q Hq. sim. rewrite lookup_delete_ne, lookup_insert_ne; [done| |].
        - intros ->. apply Hpl. by right.
        - by intros ->. }
      exists (set_properties (n_next cn) pn), l'. sim.
      rewrite lookup_delete_ne, lookup_insert_eq by done. done.
    + intros q Hq1 Hq2. rewrite lookup_delete_ne, lookup_insert_ne; [done|done|].
      intros ->. apply Hq2. left.
    + intros _ x xn Hhead. destruct l2 as [|[x' xn'] l2]; [done|].
      injection Hhead as -> ->. destruct Hl2 as (_ & Hx & _).
      rewrite lookup_delete_ne, lookup_insert_ne; [done| |].
      * intros ->. apply Hpl. right. left.
      * intros ->. apply Hcl2. left.
  - cbn [app] in Hl. pose proof Hl as (Hprops & Htn & _).
    assert (t <> c) as Htc.
    { cbn [app fmap list_fmap fst] in Hnd. apply NoDup_cons in Hnd as [Ht _].
      intros ->. apply Ht. rewrite fmap_app. apply elem_of_app. right. left. }
    upto_loop. rewrite ?Hprops.
    eapply wp_mono;
      [apply (wp_remove_loop fuel c p cn pn l2 Hcp Hcd Hpd Hch l1 t tn s fuel);
       [by rewrite <- Hprops|done|done|cbn in Hfuel; lia]|].
    cbv beta. intros r s' (-> & Hc' & (l' & Hl' & El') & Hframe).
    split_and!; [done|done| | |done].
    + exists pn, l'. rewrite Hframe by done. by rewrite Hprops.
    + intros q _ Hq. by apply Hframe.
Qed.
End remove_prop.

Lemma xmlRemoveProp_unlinks_witness :
  exists s',
    @xmlRemoveProp no_dtd 4 (Some 3%positive) attrs_state = Ok 0 s' /\
    nodes s' !! 3%positive = None /\
    (exists pn' l', nodes s' !! 1%positive = Some pn' /\
       sibling_chain s' (n_properties pn') l' /\ l'.*1 = [2%positive; 4%positive]).
Proof.
  destruct (@xmlRemoveProp_unlinks no_dtd 4 attrs_state 3%positive 1%positive
              (attr_cell 11 "class" (Some 4%positive))
              (set_properties (Some 2%positive) (zero_node XML_ELEMENT_NODE))
              [(2%positive, attr_cell 10 "id" (Some 3%positive))]
              [(4%positive, attr_cell 12 "id" None)])
    as (s' & Hrun & Hc & Hlist & _).
  - reflexivity.
  - reflexivity.
  - reflexivity.
  - reflexivity.
  - reflexivity.
  - vm_compute. repeat split.
  - vm_compute. intros Hin. repeat (apply elem_of_cons in Hin as [Hin|Hin]; [discriminate|]).
    by apply elem_of_nil in Hin.
  - simpl. lia.
  - exists s'. split; [exact Hrun|]. split; [exact Hc|exact Hlist].
Defined.

(** ** Looking a namespace up by its href *)

(** On the node where the search starts every declaration is in
    scope. *)
Lemma xmlNsInScope_here (fuel : nat) (doc : option ptr) (n : ptr)
  (prefix : option xmlCharPtr) (s : state) :
  (0 < fuel)%nat -> xmlNsInScope fuel doc (Some n) (Some n) prefix s = Ok 1 s.
Proof.
  intros Hfuel. destruct fuel as [|fuel]; [lia|]. apply wp_exact.
  unfold xmlNsInScope. apply wp_bind, wp_loop_S. nsteps. done.
Qed.

Lemma href_matches_here (fuel : nat) (doc : option ptr) (n : ptr) (href : xmlStr)
  (c : ptr) (cd : xmlNs) (s : state) :
  nss s !! c = Some cd -> (0 < fuel)%nat ->
  href_matches fuel doc (Some n) (Some n) false (Some href) c s
  = Ok (xmlStrEqual (chars (ns_href cd)) (Some href)) s.
Proof.
  intros Hc Hfuel. apply wp_exact. unfold href_matches. cbn [negb orb].
  rewrite (bool_decide_true (Some href <> None)) by done.
  apply wp_bind. eapply wp_rd_ns; [exact Hc|].
  assert (bool_decide (ns_href cd <> None) && true &&
            xmlStrEqual (chars (ns_href cd)) (Some href)
          = xmlStrEqual (chars (ns_href cd)) (Some href)) as ->.
  { by destruct (ns_href cd). }
  destruct (xmlStrEqual (chars (ns_href cd)) (Some href)) eqn:E.
  - nsteps. eapply wp_eq; [apply xmlNsInScope_here; lia|]. nsteps. done.
  - nsteps. done.
Qed.

(** X27. [xmlSearchNsByHref] for an href other than the one of the
    [xml] prefix, started at an element whose own [nsDef] chain has a
    declaration with that href: the result is the first such
    declaration of the chain, and the state is unchanged. *)
Theorem xmlSearchNsByHref_own_declaration (fuel : nat) (s : state) (doc : option ptr)
  (n : ptr) (nn : xmlNode) (l : list (ptr * xmlNs)) (href : xmlStr)
  (p : ptr) (d : xmlNs) :
  nodes s !! n = Some nn -> n_type nn = XML_ELEMENT_NODE ->
  ns_chain s (n_nsDef nn) l ->
  href <> XML_XML_NAMESPACE ->
  first_href href l = Some (p, d) ->
  (length l < fuel)%nat ->
  xmlSearchNsByHref fuel doc (Some n) (Some href) s = Ok (Some p) s.
Proof.
  intros Hn Hty Hl Hxml Hfind Hfuel.
  assert (forall start fuel',
    ns_chain s start l -> (length l < fuel')%nat ->
    loop fuel' (fun cur : option ptr =>
        match cur with
        | None => break None
        | Some c =>
            hit ← href_matches fuel doc (Some n) (Some n) false (Some href) c;
            if hit : bool then break cur
            else nx ← rd_ns c ns_next; continue nx
        end) start s
    = Ok (fst <$> first_href href l) s) as Hscan.
  { assert (0 < fuel)%nat as Hpos by lia.
    clear Hl Hfind Hfuel. induction l as [|[q qd] l IH]; intros start fuel' Hl Hf.
    - cbn in Hl. subst start. destruct fuel' as [|fuel']; [cbn in Hf; lia|].
      by apply loop_inr.
    - destruct Hl as (-> & Hq & Hl). destruct fuel' as [|fuel']; [cbn in Hf; lia|].
      apply wp_exact. apply wp_loop_S. unfold first_href. cbn [find snd].
      apply wp_bind. eapply wp_eq; [by apply href_matches_here|].
      destruct (xmlStrEqual (chars (ns_href qd)) (Some href)) eqn:E.
      + nsteps. done.
      + nsteps. eapply wp_eq; [apply IH; [done|cbn in Hf; lia]|]. done. }
  apply wp_exact. unfold xmlSearchNsByHref.
  assert (xmlStrEqual (Some href) (Some XML_XML_NAMESPACE) = false) as ->.
  { unfold xmlStrEqual. by rewrite bool_decide_false. }
  destruct fuel as [|fuel']; [lia|]. set (fuel := S fuel') in *.
  nstep. nstep. apply wp_loop_S. upto_loop.
  eapply wp_eq; [by apply Hscan|]. rewrite Hfind.
  cbn [fmap option_fmap option_map fst]. nsteps. done.
Qed.

Lemma xmlSearchNsByHref_own_declaration_witness :
  xmlSearchNsByHref 4 None (Some 1%positive) (Some (BAD_CAST "u2")) decls_state
  = Ok (Some 2%positive) decls_state.
Proof.
  eapply (xmlSearchNsByHref_own_declaration 4 decls_state None 1%positive _ decls_chain
            (BAD_CAST "u2") 2%positive).
  - reflexivity.
  - reflexivity.
  - vm_compute. repeat split.
  - discriminate.
  - reflexivity.
  - simpl. lia.
Defined.

(** ** Appending to a text node *)

(** X28. [xmlTextConcat] on a text or CDATA node in no document: for a
    content and a positive [len] the result is 0 and the node holds
    its old characters followed by the first [len] of the content; for
    a NULL content or [len = 0] nothing changes and the result is -1
    when the node has no content, 0 otherwise; for a negative [len]
    the node loses its content and the result is -1. *)
Theorem xmlTextConcat_cases `{Externals} (s : state) (n : ptr) (nn : xmlNode)
  (content : option xmlStr) (len : Z) :
  nodes s !! n = Some nn ->
  n_type nn = XML_TEXT_NODE \/ n_type nn = XML_CDATA_SECTION_NODE ->
  n_doc nn = None ->
  match content with
  | Some y =>
      if bool_decide (0 < len) then
        exists s',
          xmlTextConcat (Some n) content len s = Ok 0 s' /\
          exists ct, nodes s' = <[n := set_content (Some ct) nn]> (nodes s) /\
            str_chars ct = content_chars nn ++ take (Z.to_nat len) y
      else if bool_decide (len = 0) then
        xmlTextConcat (Some n) content len s
        = Ok (if bool_decide (n_content nn = None) then -1 else 0) s
      else
        xmlTextConcat (Some n) content len s
        = Ok (-1) (set_nodes (<[n := set_content None nn]> (nodes s)) s)
  | None =>
      xmlTextConcat (Some n) content len s
      = Ok (if bool_decide (n_content nn = None) then -1 else 0) s
  end.
Proof.
  intros Hn Hty Hdoc.
  assert (negb (bool_decide (n_type nn = XML_TEXT_NODE)) &&
          negb (bool_decide (n_type nn = XML_CDATA_SECTION_NODE)) = false) as Ety.
  { destruct Hty as [-> | ->]; done. }
  assert (set_nodes (<[n := set_content (n_content nn) nn]> (nodes s)) s = s) as Esame.
  { assert (set_content (n_content nn) nn = nn) as -> by (by destruct nn).
    by apply insert_same_state. }
  destruct content as [y|].
  - destruct (decide (0 < len)) as [Hpos|Hnpos];
      [rewrite (bool_decide_true (0 < len)) by done
      |rewrite (bool_decide_false (0 < len)) by done;
       destruct (decide (len = 0)) as [Hzero|Hneg];
       [rewrite (bool_decide_true (len = 0)) by done
       |rewrite (bool_decide_false (len = 0)) by done]].
    + apply wp_result. unfold xmlTextConcat. nstep. nstep. rewrite Ety. nsteps.
      rewrite Hdoc. cbn [dict_of_doc]. nsteps. unfold xmlStrncat.
      rewrite (bool_decide_false (len = 0)), (bool_decide_false (len < 0)) by lia.
      destruct (n_content nn) as [x|] eqn:Ect.
      * nsteps. split; [done|]. eexists. split; [reflexivity|].
        unfold content_chars. by rewrite Ect.
      * unfold xmlStrndup. rewrite bool_decide_false by lia. nsteps.
        split; [done|]. eexists. split; [reflexivity|].
        unfold content_chars. by rewrite Ect.
    + subst len. apply wp_exact. unfold xmlTextConcat. nstep. nstep. rewrite Ety. nsteps.
      rewrite Hdoc. cbn [dict_of_doc]. nsteps. unfold xmlStrncat.
      rewrite bool_decide_true by done. nsteps. sim.
      destruct (n_content nn) eqn:Ect; rewrite Esame; by nsteps.
    + apply wp_exact. unfold xmlTextConcat. nstep. nstep. rewrite Ety. nsteps.
      rewrite Hdoc. cbn [dict_of_doc]. nsteps. unfold xmlStrncat.
      rewrite bool_decide_false by done. rewrite bool_decide_true by lia. nsteps. done.
  - apply wp_exact. unfold xmlTextConcat. nstep. nstep. rewrite Ety. nsteps.
    rewrite Hdoc. cbn [dict_of_doc]. nsteps. unfold xmlStrncat. nsteps. sim.
    destruct (n_content nn) eqn:Ect; rewrite Esame; by nsteps.
Qed.

Lemma xmlTextConcat_cases_witness :
  exists s',
    @xmlTextConcat no_dtd (Some 1%positive) (Some (BAD_CAST "cd")) 1 two_texts_state
      = Ok 0 s' /\
    exists ct,
      nodes s' = <[1%positive := set_content (Some ct)
                                   (text_cell None (Some (mkStr 4 (BAD_CAST "ab"))))]>
                   (nodes two_texts_state) /\
      str_chars ct = content_chars (text_cell None (Some (mkStr 4 (BAD_CAST "ab"))))
                       ++ take (Z.to_nat 1) (BAD_CAST "cd").
Proof.
  apply (@xmlTextConcat_cases no_dtd two_texts_state 1%positive
           (text_cell None (Some (mkStr 4 (BAD_CAST "ab")))) (Some (BAD_CAST "cd")) 1).
  - reflexivity.
  - left. reflexivity.
  - reflexivity.
Defined.

(** ** The content of an element *)

Lemma wp_loop_S_eq {S A} fuel (body body' : S -> M (S + A)) st (Q : A -> state -> Prop) s :
  body = body' ->
  wp (body' st) (fun r s' =>
      match r with
      | inl st' => wp (loop fuel body st') Q s'
      | inr a => Q a s'
      end) s ->
  wp (loop (Datatypes.S fuel) body st) Q s.
Proof. intros <-. apply wp_loop_S. Qed.

(** The rule of [xmlBufferCat] on a buffer that owns its block; the
    empty string is refused, which leaves the buffer as it is. *)
Lemma wp_xmlBufferCat (fuel : nat) (s : state) (b : ptr)
  (a : xmlBufferAllocationScheme) (size : Z) (cs : list xmlChar) (str : xmlStr) :
  buffer_holds s b a size cs -> a <> XML_BUFFER_ALLOC_IMMUTABLE ->
  Z.of_nat (length cs) + Z.of_nat (length str) + 2 < 2 ^ 62 -> size < 2 ^ 63 ->
  (64 <= fuel)%nat ->
  wp (xmlBufferCat fuel (Some b) (Some str)) (fun r s' =>
    r = (if bool_decide (str = []) then -1 else 0) /\ exists size',
      buffer_holds s' b a size' (cs ++ str) /\ size' < 2 ^ 63 /\ only_buffer b s s') s.
Proof.
  intros Hb Ha Hbound Hsize Hfuel.
  pose proof Hb as (m & bytes & Hcell & _).
  unfold xmlBufferCat. repeat bstep.
  destruct str as [|ch str].
  - unfold xmlBufferAdd. repeat bstep.
    split; [done|]. exists size. rewrite app_nil_r.
    split_and!; [done|done|apply only_buffer_refl].
  - eapply wp_mono.
    { apply (wp_xmlBufferAdd fuel s b a size cs (ch :: str) (-1) (length (ch :: str)));
        try done.
      + cbn [length]. lia.
      + by right. }
    cbv beta. intros r s' (-> & size' & Hh & _ & ? & ?).
    rewrite firstn_all in Hh. split; [done|]. by exists size'.
Qed.

(** The walk of [xmlNodeBufGetContent] below an element, along
    children that have no children of their own and are no entity
    references. *)
Lemma wp_walk_children `{Externals} (n fuel : nat) (b c : ptr)
  (a : xmlBufferAllocationScheme) (l : list (ptr * xmlNode)) :
  Forall (fun pn => pn.1 <> c /\ n_type pn.2 <> XML_ENTITY_REF_NODE /\
                    n_children pn.2 = None /\ n_parent pn.2 = Some c) l ->
  a <> XML_BUFFER_ALLOC_IMMUTABLE -> (64 <= fuel)%nat ->
  forall (s : state) (rounds : nat) (start : option ptr) (size : Z) (cs : list xmlChar),
    sibling_chain s start l -> buffer_holds s b a size cs ->
    Z.of_nat (length cs) + Z.of_nat (length (texts l)) + 2 < 2 ^ 62 -> size < 2 ^ 63 ->
    (length l < rounds)%nat ->
    wp (loop rounds (fun tmp =>
          match tmp with
          | None => break tt
          | Some t =>
              tty ← rd t n_type;
              match tty with
              | XML_CDATA_SECTION_NODE | XML_TEXT_NODE =>
                  ct ← rd t n_content;
                  when (bool_decide (ct <> None))
                    (xmlBufferCat fuel (Some b) (chars ct);; skip)
              | XML_ENTITY_REF_NODE =>
                  ch ← rd t n_children;
                  xmlNodeBufGetContent n (Some b) ch;; skip
              | _ => skip
              end;;
              ch ← rd t n_children;
              descend ←
                match ch with
                | Some k =>
                    kty ← rd k n_type;
                    mret (negb (bool_decide (kty = XML_ENTITY_DECL)))
                | None => mret false
                end;
              if descend : bool then continue ch else
              if ptr_eqb tmp (Some c) then break tt else
              nx ← rd t n_next;
              if bool_decide (nx <> None) then continue nx else
              tmp ← next_in_walk fuel (Some c) t;
              continue tmp
          end) start)
       (fun _ s' => exists size',
          buffer_holds s' b a size' (cs ++ texts l) /\ size' < 2 ^ 63 /\
          only_buffer b s s') s.
Proof.
  intros Hkinds Ha Hfuel s rounds start size cs Hl Hb Hbound Hsize Hrounds.
  match goal with |- wp (loop _ ?B _) _ _ => remember B as body eqn:EB end.
  revert s rounds start size cs Hl Hb Hbound Hsize Hrounds.
  induction l as [|[p pn] l IH]; intros s rounds start size cs Hl Hb Hbound Hsize Hrounds.
  - cbn in Hl. subst start. destruct rounds as [|rounds]; [cbn in Hrounds; lia|].
    eapply wp_loop_S_eq; [exact EB|]. apply wp_ret. exists size.
    cbn [texts flat_map]. rewrite app_nil_r. split_and!; [done|done|apply only_buffer_refl].
  - destruct Hl as (-> & Hp & Hl). destruct rounds as [|rounds]; [cbn in Hrounds; lia|].
    apply Forall_cons in Hkinds as [(Hpc & Hk & Hch & Hpar) Hkinds].
    cbn [fst snd] in Hpc, Hk, Hch, Hpar. specialize (IH Hkinds).
    eapply wp_loop_S_eq; [exact EB|].
    cbv beta iota. apply wp_bind. eapply wp_rd; [exact Hp|]. apply wp_bind.
    set (piece := if bool_decide (n_type pn = XML_TEXT_NODE) ||
                     bool_decide (n_type pn = XML_CDATA_SECTION_NODE)
                  then content_chars pn else []).
    assert (texts ((p, pn) :: l) = piece ++ texts l) as Etx by done.
    rewrite Etx in Hbound |- *. rewrite length_app in Hbound.
    apply wp_mono with (Q := fun _ s1 => exists size1,
      buffer_holds s1 b a size1 (cs ++ piece) /\ size1 < 2 ^ 63 /\ only_buffer b s s1).
    { assert (wp skip (fun _ s1 => exists size1,
        buffer_holds s1 b a size1 (cs ++ []) /\ size1 < 2 ^ 63 /\ only_buffer b s s1) s)
        as Hskip.
      { apply wp_ret. exists size. rewrite app_nil_r.
        split_and!; [done|done|apply only_buffer_refl]. }
      assert (n_type pn = XML_TEXT_NODE \/ n_type pn = XML_CDATA_SECTION_NODE ->
        wp (ct ← rd p n_content;
            when (bool_decide (ct <> None))
              (xmlBufferCat fuel (Some b) (chars ct);; skip))
          (fun _ s1 => exists size1,
             buffer_holds s1 b a size1 (cs ++ content_chars pn) /\ size1 < 2 ^ 63 /\
             only_buffer b s s1) s) as Htext.
      { intros Hty. assert (piece = content_chars pn) as Epc.
        { unfold piece. destruct Hty as [-> | ->]; done. }
        rewrite Epc in Hbound.
        apply wp_bind. eapply wp_rd; [exact Hp|]. unfold content_chars in *.
        destruct (n_content pn) as [ct|]; cbn [chars fmap option_fmap option_map default id] in *; unfold id in *.
        - rewrite bool_decide_true by done. unfold when. apply wp_bind.
          eapply wp_mono; [apply (wp_xmlBufferCat fuel s b a size cs (str_chars ct)); try done;
            unfold xmlStr, xmlChar in *; lia|].
          cbv beta. intros r s1 (_ & size1 & ? & ? & ?). apply wp_ret. by exists size1.
        - rewrite bool_decide_false by (intros ?; done). unfold when. exact Hskip. }
      unfold piece. destruct (n_type pn) eqn:Ety; try done; cbn [orb];
        rewrite ?bool_decide_true, ?bool_decide_false by done; cbn [orb];
        first [ exact Hskip | apply Htext; by auto ]. }
    cbv beta. intros _ s1 (size1 & Hb1 & Hs1 & Hf1).
    assert (nodes s1 = nodes s) as En by apply Hf1.
    assert (nodes s1 !! p = Some pn) as Hp1 by (by rewrite En).
    apply wp_bind. eapply wp_rd; [exact Hp1|]. rewrite Hch. cbv beta iota.
    apply wp_bind. apply wp_ret. cbv beta iota.
    assert (ptr_eqb (Some p) (Some c) = false) as ->.
    { unfold ptr_eqb. apply bool_decide_false. congruence. }
    apply wp_bind. eapply wp_rd; [exact Hp1|].
    assert (wp (loop rounds body (n_next pn))
              (fun _ s' => exists size',
                 buffer_holds s' b a size' (cs ++ piece ++ texts l) /\ size' < 2 ^ 63 /\
                 only_buffer b s s') s1) as Hrest.
    { eapply wp_mono.
      { apply (IH s1 rounds (n_next pn) size1 (cs ++ piece)); try done.
        - by eapply sibling_chain_nodes.
        - rewrite length_app. unfold xmlStr, xmlChar in *. lia.
        - cbn in Hrounds. lia. }
      cbv beta. intros _ s2 (size2 & Hb2 & Hs2 & Hf2). exists size2.
      rewrite <- app_assoc in Hb2. split_and!; [done|done|].
      by eapply only_buffer_trans. }
    destruct (n_next pn) as [nx|] eqn:Enx.
    + rewrite bool_decide_true by done. apply wp_ret. exact Hrest.
    + rewrite bool_decide_false by (intros ?; done). apply wp_bind.
      unfold next_in_walk. destruct fuel as [|fuel]; [lia|].
      apply wp_loop_S. apply wp_bind. eapply wp_rd; [exact Hp1|]. rewrite Hpar.
      cbv beta iota.
      assert (ptr_eqb (Some c) (Some c) = true) as ->.
      { unfold ptr_eqb. by apply bool_decide_true. }
      apply wp_ret. apply wp_ret. exact Hrest.
Qed.

(** X29. [xmlNodeGetContent] of an element whose children have no
    children of their own and are neither entity references nor entity
    declarations, when the default allocation scheme of buffers is not
    the immutable one: the result is a block of memory that holds the
    contents of the text and CDATA children, in order, and a zero;
    children of other kinds add nothing, and the result is the empty
    string, not NULL, when the element has no child or none with a
    content. The nodes and the buffers are as before. *)
Theorem xmlNodeGetContent_flat_element `{Externals} (fuel : nat) (s : state) (c : ptr)
  (cn : xmlNode) (l : list (ptr * xmlNode)) :
  nodes s !! c = Some cn -> n_type cn = XML_ELEMENT_NODE ->
  sibling_chain s (n_children cn) l ->
  Forall (fun pn => pn.1 <> c /\ n_type pn.2 <> XML_ENTITY_REF_NODE /\
                    n_type pn.2 <> XML_ENTITY_DECL /\
                    n_children pn.2 = None /\ n_parent pn.2 = Some c) l ->
  Forall (fun ch => ch <> 0) (texts l) ->
  scheme s <> XML_BUFFER_ALLOC_IMMUTABLE ->
  Z.of_nat (length (texts l)) + 2 < 2 ^ 62 ->
  (64 <= fuel)%nat -> (length l + 1 < fuel)%nat ->
  exists q s',
    xmlNodeGetContent fuel (Some c) s = Ok (Some (in_memory q)) s' /\
    string_at s' q = Some (texts l) /\
    nodes s' = nodes s /\ nss s' = nss s /\ bufs s' = bufs s.
Proof.
  intros Hc Hty Hl Hkinds Hzero Hsch Hbound Hfuel Hrounds.
  cut (wp (xmlNodeGetContent fuel (Some c)) (fun r s' =>
         exists q, r = Some (in_memory q) /\ string_at s' q = Some (texts l) /\
           nodes s' = nodes s /\ nss s' = nss s /\ bufs s' = bufs s) s).
  { intros Hw. apply wp_run in Hw as (r & s' & Hrun & q & -> & ?). by exists q, s'. }
  unfold xmlNodeGetContent. apply wp_bind. eapply wp_rd; [exact Hc|]. rewrite Hty.
  cbv beta iota. apply wp_bind.
  eapply wp_mono; [apply (wp_xmlBufferCreateSize s 64); lia|].
  cbv beta. intros r s1 (b & -> & Hnew & Hb1 & Hf1 & _). cbv beta iota.
  assert (nodes s1 = nodes s) as En1 by apply Hf1.
  assert (nodes s1 !! c = Some cn) as Hc1 by (by rewrite En1).
  apply wp_bind.
  apply wp_mono with (Q := fun _ s2 => exists size2,
    buffer_holds s2 b (scheme s) size2 (texts l) /\ only_buffer b s s2).
  { destruct fuel as [|n]; [lia|]. cbn [xmlNodeBufGetContent].
    apply wp_bind. eapply wp_rd; [exact Hc1|]. rewrite Hty. cbv beta iota.
    apply wp_bind.
    apply wp_mono with (Q := fun _ s2 => exists size2,
      buffer_holds s2 b (scheme s) size2 (texts l) /\ only_buffer b s s2);
      [|intros _ s2 Hs2; by apply wp_ret].
    apply wp_loop_S. apply wp_bind. eapply wp_rd; [exact Hc1|]. rewrite Hty.
    cbv beta iota. apply wp_bind. apply wp_ret. apply wp_bind.
    eapply wp_rd; [exact Hc1|]. apply wp_bind.
    destruct l as [|[k kn] l].
    - cbn in Hl. rewrite Hl. apply wp_ret. cbv beta iota.
      assert (ptr_eqb (Some c) (Some c) = true) as ->.
      { unfold ptr_eqb. by apply bool_decide_true. }
      apply wp_ret. by exists (64 + 2).
    - pose proof Hl as (Ek & Hk & _). rewrite Ek. cbv beta iota.
      pose proof Hkinds as Hfirst. apply Forall_cons in Hfirst as [(_ & _ & Hdecl & _) _].
      cbn [snd] in Hdecl.
      apply wp_bind. eapply wp_rd; [by rewrite En1|].
      rewrite bool_decide_false by done. apply wp_ret. cbn [negb]. apply wp_ret.
      eapply wp_mono.
      { apply (wp_walk_children n (Datatypes.S n) b c (scheme s) ((k, kn) :: l))
          with (size := 64 + 2) (cs := []); try done.
        - eapply Forall_impl; [exact Hkinds|]. cbv beta. intros ? (? & ? & ? & ? & ?). done.
        - rewrite <- Ek. by eapply sibling_chain_nodes.
        - cbn [length] in *. lia. }
      cbv beta. intros _ s2 (size2 & Hb2 & _ & Hf2). exists size2.
      split; [done|]. by eapply only_buffer_trans. }
  cbv beta. intros _ s2 (size2 & (m & bytes & Hcell & Hm & Hlen & Htake & Hz) & Hf2).
  unfold detach_content, xmlBufferFree. repeat bstep.
  eapply wp_free_buf; [sim; apply lookup_insert_eq|]. sim. apply wp_ret.
  exists (mkPtr m 0). split; [done|]. destruct Hf2 as (? & ? & ? & ? & Hothers).
  split_and!; sim; try done.
  - unfold string_at. sim. cbn [blk off]. rewrite Hm.
    rewrite bool_decide_true by done. change (Z.to_nat 0) with 0%nat. rewrite drop_0.
    by apply until_zero_prefix.
  - apply map_eq. intros b'. destruct (decide (b' = b)) as [->|Hne].
    + by rewrite lookup_delete_eq.
    + rewrite lookup_delete_ne, lookup_insert_ne by done. by apply Hothers.
Qed.

Lemma xmlNodeGetContent_flat_element_witness :
  exists q s',
    @xmlNodeGetContent no_dtd 64 (Some 1%positive) kids_state
      = Ok (Some (in_memory q)) s' /\
    string_at s' q = Some (BAD_CAST "abcd") /\
    nodes s' = nodes kids_state /\ nss s' = nss kids_state /\ bufs s' = bufs kids_state.
Proof.
  apply (@xmlNodeGetContent_flat_element no_dtd 64 kids_state 1%positive
           (set_last (Some 4%positive)
              (set_children (Some 2%positive) (zero_node XML_ELEMENT_NODE)))
           kids_chain).
  - reflexivity.
  - reflexivity.
  - repeat split; reflexivity.
  - repeat constructor; discriminate.
  - repeat constructor; discriminate.
  - discriminate.
  - vm_compute. reflexivity.
  - lia.
  - simpl. lia.
Defined.

(** ** Appending a string to a buffer *)

(** X30. [xmlBufferCat] on a buffer that owns its block and is not
    immutable: a string that is not empty is appended, with its zero,
    and the result is 0; the empty string and a NULL string are
    refused with -1, and nothing changes. *)
Theorem xmlBufferCat_cases (fuel : nat) (s : state) (b : ptr)
  (a : xmlBufferAllocationScheme) (size : Z) (cs : list xmlChar) (str : option xmlStr) :
  buffer_holds s b a size cs -> a <> XML_BUFFER_ALLOC_IMMUTABLE ->
  Z.of_nat (length cs) + xmlStrlen str + 2 < 2 ^ 62 -> size < 2 ^ 63 ->
  (64 <= fuel)%nat ->
  if bool_decide (xmlStrlen str = 0) then
    xmlBufferCat fuel (Some b) str s = Ok (-1) s
  else
    exists s' size',
      xmlBufferCat fuel (Some b) str s = Ok 0 s' /\
      buffer_holds s' b a size' (cs ++ default [] str) /\ size <= size' /\
      only_buffer b s s'.
Proof.
  intros Hb Ha Hbound Hsize Hfuel.
  pose proof Hb as (m & bytes & Hcell & _).
  destruct str as [[|ch y]|]; cbn [xmlStrlen length default] in *.
  - rewrite bool_decide_true by done. apply wp_exact.
    unfold xmlBufferCat, xmlBufferAdd. repeat bstep. done.
  - rewrite bool_decide_false by lia.
    cut (wp (xmlBufferCat fuel (Some b) (Some (ch :: y))) (fun r s' =>
           r = 0 /\ exists size', buffer_holds s' b a size' (cs ++ ch :: y) /\
             size <= size' /\ only_buffer b s s') s).
    { intros Hw. apply wp_run in Hw as (r & s' & Hrun & -> & size' & ?).
      by exists s', size'. }
    unfold xmlBufferCat. repeat bstep.
    eapply wp_mono.
    { apply (wp_xmlBufferAdd fuel s b a size cs (ch :: y) (-1) (length (ch :: y)));
        try done; [cbn [length]; lia|by right]. }
    cbv beta. intros r s' (-> & size' & Hh & ? & _ & ?).
    rewrite firstn_all in Hh. split; [done|]. by exists size'.
  - rewrite bool_decide_true by done. apply wp_exact.
    unfold xmlBufferCat. repeat bstep. done.
Qed.

Lemma xmlBufferCat_cases_witness :
  xmlBufferCat 64 (Some 1%positive) (Some []) (abc_buffer_state XML_BUFFER_ALLOC_DOUBLEIT)
    = Ok (-1) (abc_buffer_state XML_BUFFER_ALLOC_DOUBLEIT) /\
  exists s' size',
    xmlBufferCat 64 (Some 1%positive) (Some (BAD_CAST "de"))
      (abc_buffer_state XML_BUFFER_ALLOC_DOUBLEIT) = Ok 0 s' /\
    buffer_holds s' 1%positive XML_BUFFER_ALLOC_DOUBLEIT size' (BAD_CAST "abcde") /\
    16 <= size' /\
    only_buffer 1%positive (abc_buffer_state XML_BUFFER_ALLOC_DOUBLEIT) s'.
Proof.
  assert (buffer_holds (abc_buffer_state XML_BUFFER_ALLOC_DOUBLEIT) 1%positive
            XML_BUFFER_ALLOC_DOUBLEIT 16 (BAD_CAST "abc")) as Hb.
  { exists 2%positive, (BAD_CAST "abc" ++ [0] ++ replicate 12 uninit).
    repeat split; reflexivity. }
  split.
  - apply (xmlBufferCat_cases 64 (abc_buffer_state XML_BUFFER_ALLOC_DOUBLEIT) 1%positive
             XML_BUFFER_ALLOC_DOUBLEIT 16 (BAD_CAST "abc") (Some []) Hb);
      [discriminate|simpl; lia|lia|lia].
  - apply (xmlBufferCat_cases 64 (abc_buffer_state XML_BUFFER_ALLOC_DOUBLEIT) 1%positive
             XML_BUFFER_ALLOC_DOUBLEIT 16 (BAD_CAST "abc") (Some (BAD_CAST "de")) Hb);
      [discriminate|simpl; lia|lia|lia].
Defined.

